(** * py-log-analyzer: format inference, timestamp recognition and parsing

    A shallow embedding of the inference engine
    ([log_explorer/inference]) and of the parsing engine
    ([log_explorer/parser]), followed by the properties established about
    them.

    Conventions of the embedding.
    - A Python [str] is a [string]; its methods are in [PyStr].
    - A Python [float] is an exact rational ([Q]): comparisons, sums,
      products and quotients are those of the rationals, rounding is left
      out.
    - A [dict] is an association list in insertion order ([Dict]), since
      the code iterates over [keys()], [values()] and [items()].
    - Code that can raise returns a [result]; code that mutates an object
      while it can raise threads the object ([Parser.PM]).
    - What the repository takes from outside (the [json], [csv] and
      [datetime] modules, the clock, and the timestamp pattern table of
      [timestamp_patterns.py]) is gathered in the class [PyEnv]. *)

From Stdlib Require Import String Ascii List ZArith QArith Qabs Qminmax Lia Bool Arith PeanoNat.
From Stdlib Require Import Permutation Sorted.
Import ListNotations.
Local Close Scope Q_scope.
Local Open Scope string_scope.
Local Open Scope list_scope.
Local Open Scope nat_scope.

Set Implicit Arguments.

(* ================================================================== *)
(** ** Python values shared by all modules *)

(** Exception classes raised or caught in the code.  [JSONDecodeError] is
    a subclass of [ValueError]; all of them are subclasses of
    [Exception]. *)
Inductive exn_class :=
| ValueError | JSONDecodeError | TypeError | AttributeError | KeyError
| IndexError | StopIteration | RecursionError | CsvError | OSError
| OverflowError.

Record exn := Exn { exn_cls : exn_class; exn_msg : string }.

Definition exn_class_eqb (a b : exn_class) : bool :=
  match a, b with
  | ValueError, ValueError | JSONDecodeError, JSONDecodeError
  | TypeError, TypeError | AttributeError, AttributeError
  | KeyError, KeyError | IndexError, IndexError
  | StopIteration, StopIteration | RecursionError, RecursionError
  | CsvError, CsvError | OSError, OSError
  | OverflowError, OverflowError => true
  | _, _ => false
  end.

(** [isinstance(e, cls)] for the classes above. *)
Definition isinstance (e : exn) (cls : exn_class) : bool :=
  exn_class_eqb (exn_cls e) cls
  || (exn_class_eqb (exn_cls e) JSONDecodeError && exn_class_eqb cls ValueError).

Inductive result (A : Type) : Type :=
| Ok (a : A)
| Raise (e : exn).
Arguments Ok {A} a.
Arguments Raise {A} e.

Definition rbind {A B} (c : result A) (f : A -> result B) : result B :=
  match c with
  | Ok a => f a
  | Raise e => Raise e
  end.

Declare Scope result_scope.
Delimit Scope result_scope with result.
Notation "x <- c ;; k" := (rbind c (fun x => k))
  (at level 61, c at next level, right associativity) : result_scope.

(** Code that mutates an object of type [S] and can raise: the object as
    it stands at the end, and the value or the exception.  What was
    written before an exception stays written. *)
Definition stateful (S A : Type) : Type := S -> S * result A.

Definition sret {S A} (a : A) : stateful S A := fun s => (s, Ok a).

Definition sbind {S A B} (c : stateful S A) (f : A -> stateful S B)
  : stateful S B :=
  fun s =>
    match c s with
    | (s', Ok a) => f a s'
    | (s', Raise e) => (s', Raise e)
    end.

Definition sraise {S A} (e : exn) : stateful S A := fun s => (s, Raise e).
Definition sget {S} : stateful S S := fun s => (s, Ok s).
Definition sput {S} (s : S) : stateful S unit := fun _ => (s, Ok tt).
Definition smodify {S} (f : S -> S) : stateful S unit := fun s => (f s, Ok tt).

(** A call that can raise but does not touch the object. *)
Definition slift {S A} (r : result A) : stateful S A := fun s => (s, r).

(** [try: body / except Exception: handler] *)
Definition stry {S A} (body : stateful S A) (handler : exn -> stateful S A)
  : stateful S A :=
  fun s =>
    match body s with
    | (s', Ok a) => (s', Ok a)
    | (s', Raise e) => handler e s'
    end.

(** [for x in xs: body(x)] *)
Fixpoint sfor {S X} (xs : list X) (body : X -> stateful S unit)
  : stateful S unit :=
  match xs with
  | [] => sret tt
  | x :: xs' => sbind (body x) (fun _ => sfor xs' body)
  end.

(** [for x in xs: body(x)] where the body answers [true] to [break]. *)
Fixpoint sfor_break {S X} (xs : list X) (body : X -> stateful S bool)
  : stateful S unit :=
  match xs with
  | [] => sret tt
  | x :: xs' =>
      sbind (body x) (fun stop => if stop then sret tt else sfor_break xs' body)
  end.

Declare Scope stateful_scope.
Delimit Scope stateful_scope with stateful.
Notation "x <~ c ;; k" := (sbind c (fun x => k))
  (at level 61, c at next level, right associativity) : stateful_scope.
Notation "c ;;; k" := (sbind c (fun _ => k))
  (at level 61, right associativity) : stateful_scope.

(** Python floats. *)
Definition float := Q.
Bind Scope Q_scope with float.

Definition fmin (a b : float) : float := if Qle_bool a b then a else b.
Definition fmax (a b : float) : float := if Qle_bool b a then a else b.
Definition fdiv_nat (a b : nat) : float :=
  (inject_Z (Z.of_nat a) / inject_Z (Z.of_nat b))%Q.
Definition Qlt_bool (a b : Q) : bool := negb (Qle_bool b a).

(* ================================================================== *)
(** ** [str] methods *)

Module PyStr.

(** [c.isspace()] for a character below 256: TAB, LF, VT, FF, CR, FS,
    GS, RS, US and SPACE, and beyond the ASCII range the next-line
    control (133) and the no-break space (160). *)
Definition is_space (c : ascii) : bool :=
  let n := nat_of_ascii c in
  ((9 <=? n) && (n <=? 13)) || ((28 <=? n) && (n <=? 32))
  || (n =? 133) || (n =? 160).

Definition is_digit (c : ascii) : bool :=
  let n := nat_of_ascii c in (48 <=? n) && (n <=? 57).

Definition is_upper (c : ascii) : bool :=
  let n := nat_of_ascii c in (65 <=? n) && (n <=? 90).

Definition is_lower (c : ascii) : bool :=
  let n := nat_of_ascii c in (97 <=? n) && (n <=? 122).

Definition is_alpha (c : ascii) : bool := is_upper c || is_lower c.

(** The class [\w]. *)
Definition is_word (c : ascii) : bool :=
  is_alpha c || is_digit c || Ascii.eqb c "_".

Definition upper_char (c : ascii) : ascii :=
  if is_lower c then ascii_of_nat (nat_of_ascii c - 32) else c.
Definition lower_char (c : ascii) : ascii :=
  if is_upper c then ascii_of_nat (nat_of_ascii c + 32) else c.

Fixpoint map_chars (f : ascii -> ascii) (s : string) : string :=
  match s with
  | EmptyString => EmptyString
  | String c s' => String (f c) (map_chars f s')
  end.

Definition upper : string -> string := map_chars upper_char.
Definition lower : string -> string := map_chars lower_char.

(** [bool(s)]: a string is truthy when it is not empty. *)
Definition truthy (s : string) : bool :=
  match s with EmptyString => false | _ => true end.

Fixpoint lstrip_by (p : ascii -> bool) (s : string) : string :=
  match s with
  | EmptyString => EmptyString
  | String c s' => if p c then lstrip_by p s' else s
  end.

Fixpoint rstrip_by (p : ascii -> bool) (s : string) : string :=
  match s with
  | EmptyString => EmptyString
  | String c s' =>
      match rstrip_by p s' with
      | EmptyString => if p c then EmptyString else String c EmptyString
      | t => String c t
      end
  end.

Definition strip_by (p : ascii -> bool) (s : string) : string :=
  rstrip_by p (lstrip_by p s).

(** [s.strip()] *)
Definition strip : string -> string := strip_by is_space.

Fixpoint mem_char (c : ascii) (chars : string) : bool :=
  match chars with
  | EmptyString => false
  | String d r => Ascii.eqb c d || mem_char c r
  end.

(** [s.strip(chars)] *)
Definition strip_chars (chars : string) : string -> string :=
  strip_by (fun c => mem_char c chars).

(** [s.rstrip(chars)] *)
Definition rstrip_chars (chars : string) : string -> string :=
  rstrip_by (fun c => mem_char c chars).

(** [s.startswith(p)] *)
Fixpoint startswith (s p : string) : bool :=
  match p, s with
  | EmptyString, _ => true
  | String a p', String b s' => Ascii.eqb a b && startswith s' p'
  | String _ _, EmptyString => false
  end.

Fixpoint drop (n : nat) (s : string) : string :=
  match n, s with
  | S n', String _ s' => drop n' s'
  | _, _ => s
  end.

Fixpoint take (n : nat) (s : string) : string :=
  match n, s with
  | S n', String c s' => String c (take n' s')
  | _, _ => EmptyString
  end.

Fixpoint rev_acc (s acc : string) : string :=
  match s with
  | EmptyString => acc
  | String c s' => rev_acc s' (String c acc)
  end.
Definition rev (s : string) : string := rev_acc s EmptyString.

(** [s.endswith(p)] *)
Definition endswith (s p : string) : bool := startswith (rev s) (rev p).

(** [sub in s] *)
Fixpoint contains (s sub : string) : bool :=
  startswith s sub ||
  match s with
  | EmptyString => false
  | String _ s' => contains s' sub
  end.

(** [s.split(sep)] and [s.split(sep, maxsplit)] for a non-empty [sep].
    [skip] counts the characters of a separator still to be passed,
    [cur] is the piece being read, in reverse; [budget] is the number
    of splits left ([None]: no limit). *)
Fixpoint split_go (sep : string) (budget : option nat) (skip : nat)
         (cur : string) (s : string) : list string :=
  match s with
  | EmptyString => [rev cur]
  | String c s' =>
      match skip with
      | S k => split_go sep budget k cur s'
      | O =>
          let may := match budget with Some O => false | _ => true end in
          if may && startswith s sep then
            rev cur ::
                split_go sep (option_map pred budget)
                (String.length sep - 1) EmptyString s'
          else split_go sep budget O (String c cur) s'
      end
  end.

Definition split (s sep : string) : list string :=
  split_go sep None 0 EmptyString s.

Definition split_max (s sep : string) (maxsplit : nat) : list string :=
  split_go sep (Some maxsplit) 0 EmptyString s.

(** [s.split()]: the maximal runs of characters that are not
    whitespace. *)
Fixpoint split_ws_go (cur : string) (s : string) : list string :=
  match s with
  | EmptyString =>
      match cur with EmptyString => [] | _ => [rev cur] end
  | String c s' =>
      if is_space c then
        match cur with
        | EmptyString => split_ws_go EmptyString s'
        | _ => rev cur :: split_ws_go EmptyString s'
        end
      else split_ws_go (String c cur) s'
  end.
Definition split_ws (s : string) : list string := split_ws_go EmptyString s.

(** [sep.join(parts)] *)
Definition join (sep : string) (parts : list string) : string :=
  String.concat sep parts.

(** [s.count(sub)] for a non-empty [sub]: occurrences that do not
    overlap, from the left. *)
Definition count (s sub : string) : nat := List.length (split s sub) - 1.

(** [s.replace(old, new)] for a non-empty [old]. *)
Definition replace (s old new : string) : string := join new (split s old).

(** [s.ljust(width, fill)] *)
Fixpoint repeat_char (c : ascii) (n : nat) : string :=
  match n with O => EmptyString | S n' => String c (repeat_char c n') end.
Definition ljust (s : string) (width : nat) (fill : ascii) : string :=
  s ++ repeat_char fill (width - String.length s).

Definition mem (s : string) (l : list string) : bool :=
  existsb (String.eqb s) l.

(** [str(n)] for a natural number. *)
Definition digit_char (n : nat) : ascii := ascii_of_nat (48 + n).

Fixpoint of_nat_go (fuel n : nat) (acc : string) : string :=
  match fuel with
  | O => acc
  | S fuel' =>
      let acc' := String (digit_char (n mod 10)) acc in
      if n / 10 =? 0 then acc' else of_nat_go fuel' (n / 10) acc'
  end.
Definition of_nat (n : nat) : string := of_nat_go (S n) n EmptyString.

Definition of_Z (z : Z) : string :=
  match z with
  | Zneg _ => "-" ++ of_nat (Z.abs_nat z)
  | _ => of_nat (Z.abs_nat z)
  end.

(** [int(s)]: surrounding whitespace, an optional sign, decimal digits
    with single underscores between them; [None] stands for
    [ValueError]. *)
Fixpoint digits_go (s : string) (acc : Z) (prev_digit : bool) : option Z :=
  match s with
  | EmptyString => if prev_digit then Some acc else None
  | String c s' =>
      if is_digit c then
        digits_go s' (10 * acc + Z.of_nat (nat_of_ascii c - 48))%Z true
      else if Ascii.eqb c "_" && prev_digit then
        match s' with
        | String d _ => if is_digit d then digits_go s' acc false else None
        | EmptyString => None
        end
      else None
  end.

Definition to_int (s : string) : option Z :=
  match strip s with
  | String "-" s' => option_map Z.opp (digits_go s' 0%Z false)
  | String "+" s' => digits_go s' 0%Z false
  | s' => digits_go s' 0%Z false
  end.

End PyStr.

(* ================================================================== *)
(** ** Dictionaries in insertion order *)

Module Dict.
Section Dict.
Variable V : Type.

Definition t := list (string * V).

Fixpoint get (d : t) (k : string) : option V :=
  match d with
  | [] => None
  | (k', v) :: d' => if String.eqb k k' then Some v else get d' k
  end.

(** [k in d] *)
Definition mem (d : t) (k : string) : bool :=
  match get d k with Some _ => true | None => false end.

(** [d[k] = v]: an existing key keeps its place. *)
Fixpoint set (d : t) (k : string) (v : V) : t :=
  match d with
  | [] => [(k, v)]
  | (k', v') :: d' =>
      if String.eqb k k' then (k, v) :: d' else (k', v') :: set d' k v
  end.

Definition keys (d : t) : list string := map fst d.
Definition values (d : t) : list V := map snd d.

(** [d.update(other)] *)
Definition update (d other : t) : t :=
  fold_left (fun acc kv => set acc (fst kv) (snd kv)) other d.
End Dict.
Arguments get {V} d k.
Arguments mem {V} d k.
Arguments set {V} d k v.
Arguments keys {V} d.
Arguments values {V} d.
Arguments update {V} d other.
End Dict.

(* ================================================================== *)
(** ** Regular expressions of the [re] module

    The patterns of [line_patterns.py] use character classes, sequence,
    alternation, greedy and lazy repetition, capturing groups and the
    anchors [^] and [$].  [rmatch] is a backtracking matcher in
    continuation-passing style with the priorities of [re]: the left
    alternative first, a greedy repetition tries one more iteration
    before it stops, a lazy one the other way round. *)

Module Re.

Inductive catom :=
| ALit (c : ascii)
| ARange (lo hi : ascii)
| ADigit            (* \d *)
| ASpace            (* \s *)
| ANotSpace         (* \S *)
| AWord.            (* \w *)

Inductive cset :=
| CAny                       (* .  : anything but a newline *)
| CAtom (a : catom)
| CSet (items : list catom)  (* [...]  *)
| CNeg (items : list catom). (* [^...] *)

Inductive regex :=
| REps
| RChar (c : cset)
| RCat (r1 r2 : regex)
| RAlt (r1 r2 : regex)
| RRep (lo : nat) (hi : option nat) (greedy : bool) (r : regex)
| RGroup (i : nat) (r : regex)
| RBol                       (* ^ *)
| REol.                      (* $ *)

Definition atom_ok (a : catom) (c : ascii) : bool :=
  match a with
  | ALit d => Ascii.eqb c d
  | ARange lo hi =>
      (nat_of_ascii lo <=? nat_of_ascii c) && (nat_of_ascii c <=? nat_of_ascii hi)
  | ADigit => PyStr.is_digit c
  | ASpace => PyStr.is_space c
  | ANotSpace => negb (PyStr.is_space c)
  | AWord => PyStr.is_word c
  end.

Definition cset_ok (cs : cset) (c : ascii) : bool :=
  match cs with
  | CAny => negb (Ascii.eqb c "010")
  | CAtom a => atom_ok a c
  | CSet items => existsb (fun a => atom_ok a c) items
  | CNeg items => negb (existsb (fun a => atom_ok a c) items)
  end.

(** State of a match attempt: what is left of the subject, the offset
    reached, and the groups closed so far (latest first). *)
Record mstate := MState {
  rest : string;
  pos : nat;
  caps : list (nat * string)
}.

Fixpoint rmatch (r : regex) (st : mstate)
         (k : mstate -> option mstate) {struct r} : option mstate :=
  match r with
  | REps => k st
  | RChar cs =>
      match rest st with
      | String c s' =>
          if cset_ok cs c then k (MState s' (S (pos st)) (caps st)) else None
      | EmptyString => None
      end
  | RCat r1 r2 => rmatch r1 st (fun st' => rmatch r2 st' k)
  | RAlt r1 r2 =>
      match rmatch r1 st k with
      | Some m => Some m
      | None => rmatch r2 st k
      end
  | RGroup i r' =>
      rmatch r' st
        (fun st' =>
           k (MState (rest st') (pos st')
                ((i, PyStr.take (pos st' - pos st) (rest st)) :: caps st')))
  | RBol => if pos st =? 0 then k st else None
  | REol =>
      match rest st with
      | EmptyString => k st
      | String c EmptyString => if Ascii.eqb c "010" then k st else None
      | _ => None
      end
  | RRep lo hi greedy r' =>
      (fix loop (fuel lo : nat) (hi : option nat) (st : mstate) {struct fuel}
         : option mstate :=
         match fuel with
         | O => None
         | S fuel' =>
             let more :=
               match hi with
               | Some O => None
               | _ =>
                   rmatch r' st
                     (fun st' =>
                        if (0 <? lo) || (pos st <? pos st') then
                          loop fuel' (pred lo) (option_map pred hi) st'
                        else None)
               end in
             if 0 <? lo then more
             else if greedy then
               match more with
               | Some m => Some m
               | None => k st
               end
             else
               match k st with
               | Some m => Some m
               | None => more
               end
         end) (lo + String.length (rest st) + 1) lo hi st
  end.

(** Number of capturing groups. *)
Fixpoint ngroups (r : regex) : nat :=
  match r with
  | RCat r1 r2 | RAlt r1 r2 => Nat.max (ngroups r1) (ngroups r2)
  | RRep _ _ _ r' => ngroups r'
  | RGroup i r' => Nat.max i (ngroups r')
  | _ => 0
  end.

(** A compiled pattern: the expression and the names of its named
    groups. *)
Record pattern := Pattern {
  re : regex;
  group_names : list (string * nat)
}.

(** A match object. *)
Record match_obj := Match {
  m_start : nat;
  m_end : nat;
  m_group0 : string;
  m_groups : list (option string)   (* what [groups()] returns *)
}.

Fixpoint cap_get (cs : list (nat * string)) (i : nat) : option string :=
  match cs with
  | [] => None
  | (j, s) :: cs' => if i =? j then Some s else cap_get cs' i
  end.

(** One attempt at offset [p], [s] being the subject from [p] on. *)
Definition match_at (r : regex) (s : string) (p : nat) : option match_obj :=
  match rmatch r (MState s p []) (fun st => Some st) with
  | Some st =>
      Some (Match p (pos st) (PyStr.take (pos st - p) s)
              (map (fun i => cap_get (caps st) i) (seq 1 (ngroups r))))
  | None => None
  end.

(** [pattern.match(s)] *)
Definition match_ (p : pattern) (s : string) : option match_obj :=
  match_at (re p) s 0.

(** [match.group(i)] for [i >= 1] *)
Definition group (m : match_obj) (i : nat) : option string :=
  nth (i - 1) (m_groups m) None.

(** [match.group(name)] *)
Definition group_named (p : pattern) (m : match_obj) (name : string)
  : option string :=
  match Dict.get (group_names p) name with
  | Some i => group m i
  | None => None
  end.

(** [re.finditer]: scan from the left; after a match the scan resumes
    at its end (one further when the match is empty). *)
Fixpoint finditer_go (fuel : nat) (r : regex) (s : string) (p : nat)
  : list match_obj :=
  match fuel with
  | O => []
  | S fuel' =>
      match match_at r s p with
      | Some m =>
          let step := Nat.max 1 (m_end m - p) in
          m :: (if String.length s <? step then []
                else finditer_go fuel' r (PyStr.drop step s) (p + step))
      | None =>
          match s with
          | EmptyString => []
          | String _ s' => finditer_go fuel' r s' (S p)
          end
      end
  end.

Definition finditer (p : pattern) (s : string) : list match_obj :=
  finditer_go (S (String.length s)) (re p) s 0.

(** [pattern.search(s)] *)
Definition search (p : pattern) (s : string) : option match_obj :=
  hd_error (finditer p s).

(** [pattern.findall(s)] for a pattern with two groups: the pairs of
    group texts, an absent group giving the empty string. *)
Definition findall2 (p : pattern) (s : string) : list (string * string) :=
  map (fun m =>
         (match group m 1 with Some g => g | None => "" end,
          match group m 2 with Some g => g | None => "" end))
      (finditer p s).

(** [re.sub(p, EMPTY, s)]: the subject without the matches of [p]. *)
Fixpoint cut_spans (spans : list (nat * nat)) (s : string) (p : nat) : string :=
  match s with
  | EmptyString => EmptyString
  | String c s' =>
      if existsb (fun se => (fst se <=? p) && (p <? snd se)) spans
      then cut_spans spans s' (S p)
      else String c (cut_spans spans s' (S p))
  end.

Definition sub_remove (p : pattern) (s : string) : string :=
  cut_spans (map (fun m => (m_start m, m_end m)) (finditer p s)) s 0.

(** Writing patterns. *)
Definition cat (l : list regex) : regex := fold_right RCat REps l.

Fixpoint lit (s : string) : regex :=
  match s with
  | EmptyString => REps
  | String c s' => RCat (RChar (CAtom (ALit c))) (lit s')
  end.

Definition d : regex := RChar (CAtom ADigit).
Definition ws : regex := RChar (CAtom ASpace).
Definition nws : regex := RChar (CAtom ANotSpace).
Definition w : regex := RChar (CAtom AWord).
Definition any : regex := RChar CAny.
Definition set (l : list catom) : regex := RChar (CSet l).
Definition nset (l : list catom) : regex := RChar (CNeg l).
Definition plus (r : regex) : regex := RRep 1 None true r.
Definition star (r : regex) : regex := RRep 0 None true r.
Definition star_lazy (r : regex) : regex := RRep 0 None false r.
Definition opt (r : regex) : regex := RRep 0 (Some 1) true r.
Definition times (n : nat) (r : regex) : regex := RRep n (Some n) true r.
Definition between (lo hi : nat) (r : regex) : regex :=
  RRep lo (Some hi) true r.
Definition unnamed (r : regex) : pattern := Pattern r [].

End Re.

(* ================================================================== *)
(** ** [inference/log_core.py] *)

Module LogCore.

Inductive LogFormat :=
| JSON | SYSLOG | APACHE_COMMON | APACHE_COMBINED | APACHE_EXTENDED
| NGINX_ACCESS | NGINX_ERROR | CSV | KEY_VALUE | SYSTEMD_JOURNAL
| CUSTOM_DELIMITED | BASIC_LOG | PYTHON_LOG | LTSV | UNKNOWN.

Definition LogFormat_value (f : LogFormat) : string :=
  match f with
  | JSON => "json" | SYSLOG => "syslog"
  | APACHE_COMMON => "apache_common"
  | APACHE_COMBINED => "apache_combined"
  | APACHE_EXTENDED => "apache_extended"
  | NGINX_ACCESS => "nginx_access" | NGINX_ERROR => "nginx_error"
  | CSV => "csv" | KEY_VALUE => "key_value"
  | SYSTEMD_JOURNAL => "systemd_journal"
  | CUSTOM_DELIMITED => "custom_delimited"
  | BASIC_LOG => "basic_log" | PYTHON_LOG => "python_log"
  | LTSV => "ltsv" | UNKNOWN => "unknown"
  end.

Definition LogFormat_eqb (a b : LogFormat) : bool :=
  String.eqb (LogFormat_value a) (LogFormat_value b).

(** The members of the enumeration, in the order of their definition
    ([for fmt in LogFormat]). *)
Definition LogFormat_members : list LogFormat :=
  [JSON; SYSLOG; APACHE_COMMON; APACHE_COMBINED; APACHE_EXTENDED;
   NGINX_ACCESS; NGINX_ERROR; CSV; KEY_VALUE; SYSTEMD_JOURNAL;
   CUSTOM_DELIMITED; BASIC_LOG; PYTHON_LOG; LTSV; UNKNOWN].

Module FieldInfo.
Record t := mk {
  name : string;
  data_type : string;
  is_timestamp : bool;
  timestamp_format : option string;
  sample_values : list string;
  frequency : nat;
  confidence : float
}.

(** [FieldInfo(name=..., data_type=..., is_timestamp=...)] *)
Definition new (n dt : string) (is_ts : bool) : t :=
  mk n dt is_ts None [] 0 0%Q.

Definition add_sample_value (f : t) (value : string) : t :=
  if (List.length (sample_values f) <? 10)
     && negb (PyStr.mem value (sample_values f))
  then mk (name f) (data_type f) (is_timestamp f) (timestamp_format f)
          (sample_values f ++ [value]) (frequency f) (confidence f)
  else f.

Definition update_frequency (f : t) : t :=
  mk (name f) (data_type f) (is_timestamp f) (timestamp_format f)
     (sample_values f) (frequency f + 1) (confidence f).

Definition set_confidence (f : t) (c : float) : t :=
  mk (name f) (data_type f) (is_timestamp f) (timestamp_format f)
     (sample_values f) (frequency f) c.

Definition set_timestamp_format (f : t) (fmt : option string) : t :=
  mk (name f) (data_type f) (is_timestamp f) fmt
     (sample_values f) (frequency f) (confidence f).

Definition set_is_timestamp (f : t) (b : bool) : t :=
  mk (name f) (data_type f) b (timestamp_format f)
     (sample_values f) (frequency f) (confidence f).
End FieldInfo.

(** Values stored in [metadata]. *)
Inductive meta_value :=
| MStr (s : string)
| MInt (n : nat)
| MFloat (q : float)
| MBool (b : bool)
| MList (l : list string).

Definition Schema := Dict.t FieldInfo.t.

Module FormatDetectionResult.
Record t := mk {
  format_type : LogFormat;
  confidence : float;
  schema : Schema;
  sample_lines : list string;
  metadata : Dict.t meta_value
}.

(** [FormatDetectionResult(fmt, conf, {})] *)
Definition empty (fmt : LogFormat) : t := mk fmt 0%Q [] [] [].

Definition set_schema (r : t) (s : Schema) : t :=
  mk (format_type r) (confidence r) s (sample_lines r) (metadata r).

Definition set_metadata (r : t) (m : Dict.t meta_value) : t :=
  mk (format_type r) (confidence r) (schema r) (sample_lines r) m.

(** [FormatDetectionResult.add_sample_line], with [max_samples = 5]. *)
Definition add_sample_line (r : t) (line : string) : t :=
  if List.length (sample_lines r) <? 5
  then mk (format_type r) (confidence r) (schema r) (sample_lines r ++ [line])
          (metadata r)
  else r.

(** [FormatDetectionResult.update_field_schema]: the result after the
    call and the [FieldInfo] it returns. *)
Definition update_field_schema (r : t) (field_name value data_type : string)
           (is_timestamp : bool) : t * FieldInfo.t :=
  let field_info :=
    match Dict.get (schema r) field_name with
    | Some field_info => field_info
    | None => FieldInfo.new field_name data_type is_timestamp
    end in
  let field_info :=
    FieldInfo.add_sample_value (FieldInfo.update_frequency field_info) value in
  (set_schema r (Dict.set (schema r) field_name field_info), field_info).
End FormatDetectionResult.

End LogCore.

(* ================================================================== *)
(** ** [inference/line_patterns.py] *)

Module LinePatterns.
Import Re.

Record LogPattern := mkLogPattern {
  pattern : Re.pattern;
  field_names : list string;
  name : string
}.

Definition g := RGroup.

(** [\d{4}-\d{2}-\d{2}] *)
Definition ymd_dash : regex :=
  cat [times 4 d; lit "-"; times 2 d; lit "-"; times 2 d].
(** [\d{4}/\d{2}/\d{2}] *)
Definition ymd_slash : regex :=
  cat [times 4 d; lit "/"; times 2 d; lit "/"; times 2 d].
(** [\d{2}:\d{2}:\d{2}] *)
Definition hms : regex :=
  cat [times 2 d; lit ":"; times 2 d; lit ":"; times 2 d].
(** The double quote, as a character and as a one-character string. *)
Definition dqc : ascii := "034"%char.
Definition dq : string := String dqc EmptyString.
(** One or more characters other than a closing bracket; one or more
    other than a colon; any number other than a double quote. *)
Definition not_rbracket : regex := plus (nset [ALit "]"]).
Definition not_colon : regex := plus (nset [ALit ":"]).
Definition not_dquote : regex := star (nset [ALit dqc]).
(** [\d+|-] *)
Definition num_or_dash : regex := RAlt (plus d) (lit "-").
(** [[A-Za-z]{3}] *)
Definition alpha3 : regex := times 3 (set [ARange "A" "Z"; ARange "a" "z"]).

Definition PythonLogDetector : list LogPattern :=
  [ mkLogPattern
      (unnamed (cat [RBol;
         g 1 (cat [ymd_dash; plus ws; hms; lit ","; times 3 d]); plus ws;
         lit "["; g 2 not_rbracket; lit "]"; plus ws;
         g 3 (plus (nset [ASpace])); plus ws; lit "-"; plus ws;
         g 4 (star any)]))
      ["timestamp"; "level"; "logger"; "message"] "bracketed_format";
    mkLogPattern
      (unnamed (cat [RBol;
         g 1 (cat [ymd_dash; plus ws; hms; lit ","; times 3 d]); plus ws;
         g 2 (plus (set [ARange "A" "Z"])); plus ws;
         g 3 (plus (nset [ASpace])); plus ws;
         g 4 (star any)]))
      ["timestamp"; "level"; "logger"; "message"] "simple_format";
    mkLogPattern
      (unnamed (cat [RBol;
         g 1 (cat [ymd_dash; lit " "; hms; set [ALit ","; ALit "."]; times 3 d]);
         star ws; lit "-"; star ws;
         g 2 (plus (nset [ALit "-"])); star ws; lit "-"; star ws;
         g 3 (plus w); star ws; lit "-"; star ws;
         g 4 (star any); REol]))
      ["timestamp"; "logger"; "level"; "message"] "default_format";
    mkLogPattern
      (unnamed (cat [RBol; lit "["; g 1 not_rbracket; lit "]"; plus ws;
         g 2 (plus w); plus ws; lit "in"; plus ws;
         g 3 not_colon; lit ":"; star ws;
         g 4 (star any); REol]))
      ["timestamp"; "level"; "logger"; "message"] "bracket_in_format";
    mkLogPattern
      (unnamed (cat [RBol;
         g 1 (cat [not_colon; hms; star (nset [ALit ":"])]); plus ws;
         g 2 (plus w); plus ws;
         g 3 not_colon; lit ":"; star ws;
         g 4 (star any); REol]))
      ["timestamp"; "level"; "logger"; "message"] "timestamped_simple_format";
    mkLogPattern
      (unnamed (cat [RBol; g 1 (plus w); lit ":"; g 2 not_colon; lit ":";
         g 3 (star any); REol]))
      ["level"; "logger"; "message"] "simple_no_timestamp" ].

(** [\d{4}-\d{2}-\d{2}\s+\d{2}:\d{2}:\d{2}(?:\.\d+)?] *)
Definition basic_ts : regex :=
  cat [ymd_dash; plus ws; hms; opt (cat [lit "."; plus d])].

Definition BasicLogDetector : list LogPattern :=
  [ mkLogPattern
      (unnamed (cat [RBol; g 1 basic_ts; plus ws;
         lit "["; g 2 not_rbracket; lit "]"; plus ws;
         g 3 (plus (nset [ASpace])); plus ws; lit "-"; plus ws;
         g 4 (star any)]))
      ["timestamp"; "level"; "module"; "message"] "bracketed_format";
    mkLogPattern
      (unnamed (cat [RBol; g 1 basic_ts; plus ws;
         g 2 (plus (set [ARange "A" "Z"])); plus ws;
         g 3 (plus (nset [ASpace])); lit ":"; plus ws;
         g 4 (star any)]))
      ["timestamp"; "level"; "module"; "message"] "colon_format";
    mkLogPattern
      (unnamed (cat [RBol;
         g 1 (cat [not_colon; hms; star (nset [ALit ":"])]); plus ws;
         g 2 (plus w); plus ws;
         g 3 (star any)]))
      ["timestamp"; "level"; "message"] "timestamp_level_pattern";
    mkLogPattern
      (unnamed (cat [RBol;
         g 1 (cat [not_colon; hms; star (nset [ALit ":"])]); plus ws;
         g 2 (star any)]))
      ["timestamp"; "message"] "timestamp_message_pattern";
    mkLogPattern
      (unnamed (cat [RBol; g 1 (plus w); lit ":"; star ws; g 2 (star any)]))
      ["level"; "message"] "level_message_pattern" ].

(** [[^\s,;]+] *)
Definition kv_bare : regex := plus (nset [ASpace; ALit ","; ALit ";"]).

Definition KeyValueDetector : list LogPattern :=
  [ mkLogPattern
      (unnamed (cat [g 1 (plus w); lit "="; g 2 kv_bare]))
      [] "key=value";
    mkLogPattern
      (unnamed (cat [g 1 (plus w); lit ":"; star ws; g 2 kv_bare]))
      [] "key: value";
    mkLogPattern
      (unnamed (cat [g 1 (plus w); star ws; lit "="; star ws;
         lit dq; g 2 not_dquote; lit dq]))
      [] ("key=" ++ dq ++ "value" ++ dq);
    mkLogPattern
      (unnamed (cat [g 1 (plus w); lit "="; lit "'";
         g 2 (star (nset [ALit "'"])); lit "'"]))
      [] "key='value'";
    mkLogPattern
      (unnamed (cat [g 1 (plus w); star ws; lit ":"; star ws;
         lit dq; g 2 not_dquote; lit dq]))
      [] ("key: " ++ dq ++ "value" ++ dq) ].

Definition SyslogDetector : list LogPattern :=
  [ mkLogPattern
      (Pattern
         (cat [RBol; lit "<"; g 1 (plus d); lit ">";
            g 2 (cat [alpha3; plus ws; between 1 2 d; plus ws; hms]); plus ws;
            g 3 (plus nws); plus ws;
            g 4 not_colon; lit ":"; star ws;
            g 5 (star any); REol])
         [("priority", 1); ("timestamp", 2); ("hostname", 3); ("tag", 4);
          ("message", 5)])
      ["priority"; "timestamp"; "hostname"; "tag"; "message"] "RFC3164";
    mkLogPattern
      (Pattern
         (cat [RBol; lit "<"; g 1 (plus d); lit ">";
            g 2 (plus d); plus ws;
            g 3 (plus nws); plus ws;
            g 4 (plus nws); plus ws;
            g 5 (plus nws); plus ws;
            g 6 (plus nws); plus ws;
            g 7 (plus nws); plus ws;
            opt (cat [g 8 (plus nws); plus ws]);
            g 9 (star any); REol])
         [("priority", 1); ("version", 2); ("timestamp", 3);
          ("hostname", 4); ("app_name", 5); ("procid", 6); ("msgid", 7);
          ("structured_data", 8); ("message", 9)])
      ["priority"; "version"; "timestamp"; "hostname"; "app_name"; "procid";
       "msgid"; "structured_data"; "message"] "RFC5424" ].

(** [^(\S+)\s+(\S+)\s+(\S+)\s+\[([^\]]+)\]\s+QUOTE([^QUOTE]*?)QUOTE\s+(\d+)\s+(\d+|-)],
    where QUOTE stands for the double quote: the head shared by the
    Apache and Nginx access patterns, groups 1 to 7. *)
Definition access_head : regex :=
  cat [RBol; g 1 (plus nws); plus ws; g 2 (plus nws); plus ws;
       g 3 (plus nws); plus ws;
       lit "["; g 4 not_rbracket; lit "]"; plus ws;
       lit dq; g 5 (star_lazy (nset [ALit dqc])); lit dq; plus ws;
       g 6 (plus d); plus ws; g 7 num_or_dash].

(** The referer and user agent that follow in the combined format,
    groups 8 and 9. *)
Definition combined_tail : regex :=
  cat [plus ws; lit dq; g 8 not_dquote; lit dq; plus ws;
       lit dq; g 9 not_dquote; lit dq].

Definition ApacheDetector : list LogPattern :=
  [ mkLogPattern (unnamed access_head)
      ["remote_host"; "remote_logname"; "remote_user"; "timestamp";
       "request"; "status"; "bytes_sent"] "common";
    mkLogPattern (unnamed (cat [access_head; combined_tail]))
      ["remote_host"; "remote_logname"; "remote_user"; "timestamp";
       "request"; "status"; "bytes_sent"; "referer"; "user_agent"]
      "combined" ].

Definition ApacheDetector_EXTENDED : list LogPattern :=
  [ mkLogPattern
      (unnamed (cat [RBol; g 1 (plus nws); plus ws; g 2 (plus nws); plus ws;
         g 3 (plus nws); plus ws; g 4 (plus nws); plus ws;
         lit "["; g 5 not_rbracket; lit "]"; plus ws;
         lit dq; g 6 (star_lazy (nset [ALit dqc])); lit dq; plus ws;
         g 7 (plus d); plus ws; g 8 num_or_dash]))
      ["remote_host"; "remote_logname"; "remote_user"; "virtual_host";
       "timestamp"; "request"; "status"; "bytes_sent"] "with_virtual_host";
    mkLogPattern
      (unnamed (cat [access_head; plus ws; g 8 num_or_dash]))
      ["remote_host"; "remote_logname"; "remote_user"; "timestamp";
       "request"; "status"; "bytes_sent"; "response_time"]
      "with_response_time";
    mkLogPattern
      (unnamed (cat [RBol; lit "[";
         g 1 (cat [alpha3; plus ws; alpha3; plus ws; times 2 d; plus ws; hms;
                   plus ws; times 4 d]);
         lit "]"; plus ws; lit "["; g 2 not_rbracket; lit "]"; plus ws;
         g 3 (star any); REol]))
      ["timestamp"; "level"; "message"] "mod_jk" ].

(** [^(\d{4}/\d{2}/\d{2}\s+\d{2}:\d{2}:\d{2})\s+\[([^\]]+)\]\s+]: the
    head of the Nginx error patterns, groups 1 and 2. *)
Definition nginx_error_head : regex :=
  cat [RBol; g 1 (cat [ymd_slash; plus ws; hms]); plus ws;
       lit "["; g 2 not_rbracket; lit "]"; plus ws].

Definition NginxDetector : list LogPattern :=
  [ mkLogPattern (unnamed (cat [access_head; combined_tail]))
      ["remote_addr"; "remote_logname"; "remote_user"; "time_local";
       "request"; "status"; "bytes_sent"; "http_referer"; "http_user_agent"]
      "access";
    mkLogPattern
      (unnamed (cat [nginx_error_head; g 3 (plus d); lit "#"; g 4 (plus d);
         lit ":"; plus ws; g 5 (star any)]))
      ["timestamp"; "level"; "pid"; "tid"; "message"] "error" ].

(** [^(\S+)\s+-\s+-\s+\[([^\]]+)\]\s+QUOTE([^QUOTE]*?)QUOTE\s+(\d+)\s+(\d+|-)] *)
Definition ip_dash_dash : regex :=
  cat [RBol; g 1 (plus nws); plus ws; lit "-"; plus ws; lit "-"; plus ws;
       lit "["; g 2 not_rbracket; lit "]"; plus ws;
       lit dq; g 3 (star_lazy (nset [ALit dqc])); lit dq; plus ws;
       g 4 (plus d); plus ws; g 5 num_or_dash].

Definition NginxDetector_ACCESS_ALT : list LogPattern :=
  [ mkLogPattern
      (unnamed (cat [access_head; combined_tail; plus ws;
         g 10 (plus (set [ARange "0" "9"; ALit "."]))]))
      ["remote_addr"; "remote_logname"; "remote_user"; "time_local";
       "request"; "status"; "bytes_sent"; "http_referer"; "http_user_agent";
       "request_time"] "with_request_time";
    mkLogPattern (unnamed ip_dash_dash)
      ["remote_addr"; "time_local"; "request"; "status"; "bytes_sent"]
      "simplified_format" ].

Definition NginxDetector_ERROR_ALT : list LogPattern :=
  [ mkLogPattern
      (unnamed (cat [nginx_error_head; g 3 (plus d); lit "#"; g 4 (plus d);
         lit ":"; plus ws; lit "*"; g 5 (plus d); plus ws; g 6 (star any)]))
      ["timestamp"; "level"; "pid"; "tid"; "connection"; "message"]
      "with_connection";
    mkLogPattern
      (unnamed (cat [nginx_error_head; g 3 (star any)]))
      ["timestamp"; "level"; "message"] "simplified_error_format" ].

Definition GenericWebLogDetector : list LogPattern :=
  [ mkLogPattern (unnamed ip_dash_dash)
      ["remote_addr"; "timestamp"; "request"; "status"; "bytes_sent"]
      "ip_dash_dash_timestamp_request";
    mkLogPattern
      (unnamed (cat [RBol; g 1 (plus nws); plus ws;
         lit "["; g 2 not_rbracket; lit "]"; plus ws;
         lit dq; g 3 (star_lazy (nset [ALit dqc])); lit dq; plus ws;
         g 4 (plus d); plus ws; g 5 num_or_dash]))
      ["remote_addr"; "timestamp"; "request"; "status"; "bytes_sent"]
      "ip_timestamp_request";
    mkLogPattern
      (unnamed (cat [RBol; lit "["; g 1 not_rbracket; lit "]"; plus ws;
         g 2 (plus nws); plus ws;
         lit dq; g 3 (star_lazy (nset [ALit dqc])); lit dq; plus ws;
         g 4 (plus d); plus ws; g 5 num_or_dash]))
      ["timestamp"; "remote_addr"; "request"; "status"; "bytes_sent"]
      "timestamp_ip_request" ].

(** The table [patterns], a dict keyed by detector name. *)
Definition patterns : Dict.t (list LogPattern) :=
  [ ("PythonLogDetector", PythonLogDetector);
    ("BasicLogDetector", BasicLogDetector);
    ("KeyValueDetector", KeyValueDetector);
    ("SyslogDetector", SyslogDetector);
    ("ApacheDetector", ApacheDetector);
    ("ApacheDetector_EXTENDED", ApacheDetector_EXTENDED);
    ("NginxDetector", NginxDetector);
    ("NginxDetector_ACCESS_ALT", NginxDetector_ACCESS_ALT);
    ("NginxDetector_ERROR_ALT", NginxDetector_ERROR_ALT);
    ("GenericWebLogDetector", GenericWebLogDetector) ].

(** [patterns[key]]; every key the code uses is in the table. *)
Definition patterns_at (tbl : Dict.t (list LogPattern)) (key : string)
  : list LogPattern :=
  match Dict.get tbl key with
  | Some l => l
  | None => []
  end.

End LinePatterns.

(* ================================================================== *)
(** ** What the code takes from outside the repository *)

(** A [datetime]: microseconds since the epoch, read in UTC for an aware
    value and on the wall clock for a naive one. *)
Module Datetime.

Record t := mk { micros : Z; aware : bool }.

(** [dt.replace(tzinfo=timezone.utc)] *)
Definition replace_utc (dt : t) : t := mk (micros dt) true.

(** [a < b]: comparing a naive value with an aware one raises
    [TypeError]. *)
Definition lt (a b : t) : result bool :=
  if Bool.eqb (aware a) (aware b) then Ok (micros a <? micros b)%Z
  else Raise (Exn TypeError "can't compare offset-naive and offset-aware datetimes").

End Datetime.

(** An entry of [TIMESTAMP_PATTERNS]: the keys [pattern], [format],
    [base_confidence] and [name] are read with [info[key]], the other
    three with [info.get(key, default)]. *)
Module PatternInfo.

Record t := mk {
  name : string;
  pattern : Re.pattern;
  format : string;
  base_confidence : float;
  specificity : option string;
  has_timezone : option bool;
  has_microseconds : option bool
}.

End PatternInfo.

(** What [json.loads] returns, as far as the code looks at it: for a
    JSON object its items with [str(key)] and [str(value)] taken, for a
    string its text, for an array the texts of its string elements, and
    anything else (numbers, booleans, null). *)
Inductive json_value :=
| JDict (items : list (string * string))
| JString (s : string)
| JList (strings : list string)
| JAtom.

(** A [csv] dialect; [csv.excel] has the comma, the double quote and no
    skipping of initial spaces. *)
Module CsvDialect.

Record t := mk {
  delimiter : string;
  quotechar : string;
  skipinitialspace : bool
}.

Definition excel : t := mk "," (String "034"%char EmptyString) false.

Definition with_delimiter (d : t) (delim : string) : t :=
  mk delim (quotechar d) (skipinitialspace d).

End CsvDialect.

(** The environment: the timestamp table of [timestamp_patterns.py]
    (not part of the sources at hand), and the behaviour of the Python
    library functions the code calls.
    - [strptime s fmt] is [datetime.strptime(s, fmt)], [None] standing
      for its [ValueError];
    - [now aware] is [datetime.now(timezone.utc)] when [aware] and
      [datetime.now()] otherwise; [current_year] is
      [datetime.now().year];
    - [fromtimestamp x] is [datetime.fromtimestamp(x)], a naive local
      time, for a finite [x];
    - [json_loads] is [json.loads];
    - [csv_sniff text delimiters] is
      [csv.Sniffer().sniff(text, delimiters=delimiters)],
      [csv_has_header] is [csv.Sniffer().has_header];
    - [csv_reader dialect text] is
      [list(csv.reader(StringIO(text), dialect))]. *)
Class PyEnv := {
  TIMESTAMP_PATTERNS : list PatternInfo.t;
  strptime : string -> string -> option Datetime.t;
  now : bool -> Datetime.t;
  current_year : nat;
  fromtimestamp : Q -> result Datetime.t;
  json_loads : string -> result json_value;
  csv_sniff : string -> string -> result CsvDialect.t;
  csv_has_header : string -> result bool;
  csv_reader : CsvDialect.t -> string -> result (list (list string))
}.

(* ================================================================== *)
(** ** [inference/timestamp_detector.py] *)

Module TimestampDetector.
Section WithEnv.
Context {E : PyEnv}.

(** [datetime.fromtimestamp(x, tz=timezone.utc)] for [x] given in
    microseconds. *)
Definition fromtimestamp_utc (us : Z) : Datetime.t := Datetime.mk us true.

(** [(a - b).days]: a [timedelta] keeps its days as the floor of the
    difference. *)
Definition timedelta_days (a b : Datetime.t) : Z :=
  ((Datetime.micros a - Datetime.micros b) / 86400000000)%Z.

Definition _parse_unix_timestamp (timestamp_str format_str : string)
  : option (Datetime.t * float) :=
  match PyStr.to_int timestamp_str with
  | None => None
  | Some timestamp_int =>
      let parsed :=
        if String.eqb format_str "unix_timestamp" then
          if (timestamp_int <? 0)%Z || (4000000000 <? timestamp_int)%Z then None
          else Some (fromtimestamp_utc (timestamp_int * 1000000), (85 # 100)%Q)
        else if String.eqb format_str "unix_timestamp_ms" then
          if (timestamp_int <? 0)%Z || (4000000000000 <? timestamp_int)%Z then None
          else Some (fromtimestamp_utc (timestamp_int * 1000), (80 # 100)%Q)
        else if String.eqb format_str "unix_timestamp_us" then
          if (timestamp_int <? 0)%Z || (4000000000000000 <? timestamp_int)%Z then None
          else Some (fromtimestamp_utc timestamp_int, (75 # 100)%Q)
        else None in
      match parsed with
      | None => None
      | Some (dt, base_confidence) =>
          let years_diff :=
            Qabs (inject_Z (timedelta_days dt (now true)) / (36525 # 100))%Q in
          if Qlt_bool 50%Q years_diff then Some (dt, (base_confidence * (7 # 10))%Q)
          else if Qlt_bool 10%Q years_diff then Some (dt, (base_confidence * (9 # 10))%Q)
          else Some (dt, base_confidence)
      end
  end.

(** [[+-]\d{2}:?\d{2}$] *)
Definition tz_pattern : Re.pattern :=
  Re.unnamed (Re.cat [Re.set [Re.ALit "+"; Re.ALit "-"]; Re.times 2 Re.d;
                      Re.opt (Re.lit ":"); Re.times 2 Re.d; Re.REol]).

Definition _parse_with_timezone (timestamp_str format_str : string)
           (pattern_info : PatternInfo.t) : option (Datetime.t * float) :=
  let base_confidence := PatternInfo.base_confidence pattern_info in
  match strptime timestamp_str format_str with
  | Some dt => Some (dt, base_confidence)
  | None =>
      let retry :=
        if PyStr.contains timestamp_str "+0000"
           || PyStr.contains timestamp_str "-0000"
        then strptime timestamp_str format_str
        else None in
      match retry with
      | Some dt => Some (dt, (base_confidence * (95 # 100))%Q)
      | None =>
          let timestamp_no_tz :=
            PyStr.strip (Re.sub_remove tz_pattern timestamp_str) in
          let format_no_tz :=
            PyStr.replace (PyStr.replace format_str " %z" "") "%z" "" in
          match strptime timestamp_no_tz format_no_tz with
          | Some dt => Some (dt, (base_confidence * (7 # 10))%Q)
          | None => None
          end
      end
  end.

Definition _parse_python_logging_format (timestamp_str format_str : string)
           (pattern_info : PatternInfo.t) : option (Datetime.t * float) :=
  let base_confidence := PatternInfo.base_confidence pattern_info in
  let timestamp_with_dot := PyStr.replace timestamp_str "," "." in
  let parts := PyStr.split timestamp_with_dot "." in
  let timestamp_with_dot :=
    match parts with
    | [p0; p1] =>
        let microseconds := PyStr.take 6 (PyStr.ljust p1 6 "0") in
        (p0 ++ "." ++ microseconds)%string
    | _ => timestamp_with_dot
    end in
  let format_with_dot := PyStr.replace format_str ",%f" ".%f" in
  match strptime timestamp_with_dot format_with_dot with
  | Some dt => Some (dt, base_confidence)
  | None =>
      let base_timestamp := hd "" (PyStr.split timestamp_str ",") in
      let base_format := hd "" (PyStr.split format_str ",%f") in
      match strptime base_timestamp base_format with
      | Some dt => Some (dt, (base_confidence * (9 # 10))%Q)
      | None => None
      end
  end.

(** The scan [for i, char in enumerate(remainder)] for the first sign. *)
Fixpoint split_at_sign (s acc : string) : option (string * string) :=
  match s with
  | EmptyString => None
  | String c s' =>
      if Ascii.eqb c "+" || Ascii.eqb c "-" then Some (PyStr.rev acc, s)
      else split_at_sign s' (String c acc)
  end.

Definition _parse_iso_with_microseconds (timestamp_str format_str : string)
           (pattern_info : PatternInfo.t) : option (Datetime.t * float) :=
  let base_confidence := PatternInfo.base_confidence pattern_info in
  if negb (PyStr.contains timestamp_str ".") then
    match strptime timestamp_str (PyStr.replace format_str ".%f" "") with
    | Some dt => Some (dt, (base_confidence * (95 # 100))%Q)
    | None => None
    end
  else
    match PyStr.split_max timestamp_str "." 1 with
    | [base_part; remainder] =>
        let '(micro_part, tz_part) :=
          if PyStr.endswith remainder "Z" then
            (PyStr.take (String.length remainder - 1) remainder, "Z")
          else
            match split_at_sign remainder "" with
            | Some (m, tz) => (m, tz)
            | None => (remainder, "")
            end in
        let micro_part := PyStr.take 6 (PyStr.ljust micro_part 6 "0") in
        let reconstructed := (base_part ++ "." ++ micro_part ++ tz_part)%string in
        let first :=
          if String.eqb tz_part "Z" then
            option_map Datetime.replace_utc
              (strptime (PyStr.take (String.length reconstructed - 1) reconstructed)
                        (PyStr.replace format_str "Z" ""))
          else strptime reconstructed format_str in
        match first with
        | Some dt => Some (dt, base_confidence)
        | None =>
            match strptime (base_part ++ tz_part)%string
                           (PyStr.replace format_str ".%f" "") with
            | Some dt => Some (dt, (base_confidence * (9 # 10))%Q)
            | None => None
            end
        end
    | _ => None
    end.

(** [specificity_bonus.get(pattern_info.get(KEY, LOW), 0.0)] *)
Definition specificity_bonus (pattern_info : PatternInfo.t) : float :=
  let key := match PatternInfo.specificity pattern_info with
             | Some k => k
             | None => "low"
             end in
  if String.eqb key "high" then (5 # 100)%Q
  else if String.eqb key "medium" then (2 # 100)%Q
  else 0%Q.

Definition flag (o : option bool) : bool :=
  match o with Some b => b | None => false end.

(** [\d{4}] *)
Definition four_digits : Re.pattern := Re.unnamed (Re.times 4 Re.d).

(** [abs((parsed_dt - current_time).total_seconds())], in
    microseconds. *)
Definition time_diff_us (parsed_dt : Datetime.t) : Z :=
  let current_time := now (Datetime.aware parsed_dt) in
  Z.abs (Datetime.micros parsed_dt - Datetime.micros current_time).

(** The block of [_calculate_final_confidence] under the comment
    "Penalty for timestamps too far in the future or past"; [time_diff]
    is in microseconds. *)
Definition temporal_penalty (time_diff : Z) (confidence : float) : float :=
  if (86400 * 365 * 10 * 1000000 <? time_diff)%Z
  then (confidence * (8 # 10))%Q
  else if (86400 * 365 * 50 * 1000000 <? time_diff)%Z
  then (confidence * (6 # 10))%Q
  else confidence.

(** The adjustments that come before the temporal check: specificity,
    time zone, microseconds, US formats. *)
Definition pattern_adjustments (base_confidence : float)
           (timestamp_str : string) (pattern_info : PatternInfo.t) : float :=
  let confidence := base_confidence in
  let confidence := (confidence + specificity_bonus pattern_info)%Q in
  let confidence :=
    if flag (PatternInfo.has_timezone pattern_info)
    then (confidence + (3 # 100))%Q else confidence in
  let confidence :=
    if flag (PatternInfo.has_microseconds pattern_info)
       && PyStr.contains timestamp_str "."
    then (confidence + (2 # 100))%Q else confidence in
  if PyStr.startswith (PatternInfo.name pattern_info) "us_"
  then (confidence - (5 # 100))%Q else confidence.

(** The adjustments that come after it: the length of the text and a run
    of four digits. *)
Definition text_adjustments (timestamp_str : string) (confidence : float)
  : float :=
  let len := String.length timestamp_str in
  let confidence :=
    if (19 <=? len) && (len <=? 35) then (confidence + (2 # 100))%Q
    else if len <? 10 then (confidence - (5 # 100))%Q
    else confidence in
  match Re.search four_digits timestamp_str with
  | Some _ => (confidence + (1 # 100))%Q
  | None => confidence
  end.

Definition _calculate_final_confidence (base_confidence : float)
           (timestamp_str : string) (pattern_info : PatternInfo.t)
           (parsed_dt : Datetime.t) : float :=
  let confidence :=
    pattern_adjustments base_confidence timestamp_str pattern_info in
  let confidence := temporal_penalty (time_diff_us parsed_dt) confidence in
  let confidence := text_adjustments timestamp_str confidence in
  fmax 0%Q (fmin 1%Q confidence).

(** [_parse_timestamp]: [None] is the pair [(None, 0.0)] returned when a
    [ValueError] was caught. *)
Definition _parse_timestamp (timestamp_str format_str : string)
           (pattern_info : PatternInfo.t) : option (Datetime.t * float) :=
  let parsed :=
    if PyStr.startswith format_str "unix_timestamp" then
      _parse_unix_timestamp timestamp_str format_str
    else if PyStr.endswith format_str "Z" then
      match strptime (PyStr.take (String.length timestamp_str - 1) timestamp_str)
                     (PyStr.take (String.length format_str - 1) format_str) with
      | Some dt => Some (Datetime.replace_utc dt,
                         PatternInfo.base_confidence pattern_info)
      | None => None
      end
    else if PyStr.contains format_str "%z" then
      _parse_with_timezone timestamp_str format_str pattern_info
    else if String.eqb format_str "apache_modjk_bracketed" then
      match strptime (PyStr.strip_chars "[]" timestamp_str)
                     (PyStr.strip_chars "[]" format_str) with
      | Some _ =>
          _parse_python_logging_format timestamp_str format_str pattern_info
      | None => None
      end
    else if PyStr.contains format_str ",%f" then
      _parse_iso_with_microseconds timestamp_str format_str pattern_info
    else
      match strptime timestamp_str format_str with
      | Some dt => Some (dt, PatternInfo.base_confidence pattern_info)
      | None => None
      end in
  match parsed with
  | Some (dt, base_confidence) =>
      Some (dt, _calculate_final_confidence base_confidence timestamp_str
                  pattern_info dt)
  | None => None
  end.

(** A result of [detect_timestamp]: [(datetime, format, confidence)]. *)
Definition detection := (Datetime.t * string * float)%type.

Definition det_dt (x : detection) : Datetime.t := fst (fst x).
Definition det_format (x : detection) : string := snd (fst x).
Definition det_confidence (x : detection) : float := snd x.

(** The loop of [detect_timestamp] over the matches of one pattern.  The
    state is [(results, found_positions)]; a result is kept with the span
    of its match, which the sort below drops. *)
Definition spanned := (nat * nat * detection)%type.

Definition scan_state := (list spanned * list nat)%type.

Definition scan_match (pattern_info : PatternInfo.t) (st : scan_state)
           (m : Re.match_obj) : scan_state :=
  let '(results, found_positions) := st in
  let start := Re.m_start m in
  let end_ := Re.m_end m in
  if existsb (fun pos => (start <=? pos) && (pos <? end_)) found_positions
  then st
  else
    match _parse_timestamp (Re.m_group0 m) (PatternInfo.format pattern_info)
                           pattern_info with
    | Some (parsed_dt, confidence) =>
        (results ++ [(start, end_,
                      (parsed_dt, PatternInfo.format pattern_info, confidence))],
         found_positions ++ seq start (end_ - start))
    | None => st
    end.

Definition scan_pattern (text : string) (st : scan_state)
           (pattern_info : PatternInfo.t) : scan_state :=
  fold_left (scan_match pattern_info)
            (Re.finditer (PatternInfo.pattern pattern_info) text) st.

(** The accepted matches, in the order the loops append them. *)
Definition accepted (text : string) : list spanned :=
  fst (fold_left (scan_pattern text) TIMESTAMP_PATTERNS ([], [])).

(** The sort key [(-x[2], x[0])], compared as tuples: the confidences
    first, the datetimes when the confidences are equal. *)
Definition key_lt (a b : detection) : bool :=
  Qlt_bool (det_confidence b) (det_confidence a)
  || (Qeq_bool (det_confidence a) (det_confidence b)
      && (Datetime.micros (det_dt a) <? Datetime.micros (det_dt b))%Z).

(** Two keys whose comparison raises: equal confidences, one datetime
    naive and the other aware. *)
Definition incomparable (a b : detection) : bool :=
  Qeq_bool (det_confidence a) (det_confidence b)
  && negb (Bool.eqb (Datetime.aware (det_dt a)) (Datetime.aware (det_dt b))).

Fixpoint insert_sorted (x : detection) (l : list detection) : list detection :=
  match l with
  | [] => [x]
  | y :: l' => if key_lt x y then x :: l else y :: insert_sorted x l'
  end.

(** The stable sort by [key_lt]: the elements are placed in the order
    of the list, each after those already placed that are not greater,
    so elements of equal key keep the order they had. *)
Definition stable_sort (l : list detection) : list detection :=
  fold_left (fun placed x => insert_sorted x placed) l [].

Fixpoint has_incomparable (l : list detection) : bool :=
  match l with
  | [] => false
  | x :: l' => existsb (incomparable x) l' || has_incomparable l'
  end.

(** [results.sort(key=lambda x: (-x[2], x[0]))].  A sort by comparisons
    has to compare, within every group of equal confidence, enough pairs
    to link the whole group, so it raises as soon as such a group holds
    a naive and an aware datetime; otherwise its result is the stable
    sort. *)
Definition sort_results (l : list detection) : result (list detection) :=
  if has_incomparable l
  then Raise (Exn TypeError "can't compare offset-naive and offset-aware datetimes")
  else Ok (stable_sort l).

Definition detect_timestamp (text : string) : result (list detection) :=
  sort_results (map snd (accepted text)).

Definition get_best_timestamp (text : string) : result (option detection) :=
  match detect_timestamp text with
  | Ok results => Ok (hd_error results)
  | Raise e => Raise e
  end.

Definition extract_all_timestamps (text : string) (min_confidence : float)
  : result (list detection) :=
  match detect_timestamp text with
  | Ok results =>
      Ok (filter (fun r => Qle_bool min_confidence (det_confidence r)) results)
  | Raise e => Raise e
  end.

End WithEnv.
End TimestampDetector.

(* ================================================================== *)
(** ** [float(s)] *)

Module PyFloat.
Import Re.

Inductive t :=
| Finite (q : Q)
| Inf (negative : bool)
| NaN.

(** [\d(?:_?\d)*] *)
Definition digitpart : regex := cat [d; star (cat [opt (lit "_"); d])].

(** A decimal literal: sign, digits with an optional fraction or a
    fraction alone, and an optional exponent. *)
Definition decimal : pattern :=
  unnamed (cat [RBol; RGroup 1 (opt (set [ALit "+"; ALit "-"]));
                RAlt (cat [RGroup 2 digitpart;
                           opt (cat [lit "."; opt (RGroup 3 digitpart)])])
                     (cat [lit "."; RGroup 4 digitpart]);
                opt (cat [set [ALit "e"; ALit "E"];
                          RGroup 5 (opt (set [ALit "+"; ALit "-"]));
                          RGroup 6 digitpart]);
                REol]).

Definition digits_value (o : option string) : Z :=
  match o with
  | Some s => match PyStr.digits_go s 0%Z false with Some z => z | None => 0%Z end
  | None => 0%Z
  end.

Definition count_digits (o : option string) : nat :=
  match o with
  | Some s => String.length (PyStr.replace s "_" "")
  | None => 0
  end.

Definition is_minus (o : option string) : bool :=
  match o with Some s => String.eqb s "-" | None => false end.

Definition unsigned (s : string) : string :=
  match s with
  | String "+" s' | String "-" s' => s'
  | _ => s
  end.

(** [float(s)]; [None] stands for [ValueError]. *)
Definition of_string (s : string) : option t :=
  let s := PyStr.strip s in
  let body := PyStr.lower (unsigned s) in
  if String.eqb body "inf" || String.eqb body "infinity"
  then Some (Inf (PyStr.startswith s "-"))
  else if String.eqb body "nan" then Some NaN
  else
    match match_ decimal s with
    | None => None
    | Some m =>
        let frac := match group m 3 with Some f => Some f | None => group m 4 end in
        let nfrac := count_digits frac in
        let mant :=
          (digits_value (group m 2) * 10 ^ Z.of_nat nfrac + digits_value frac)%Z in
        let mant := if is_minus (group m 1) then (- mant)%Z else mant in
        let ex := digits_value (group m 6) in
        let ex := if is_minus (group m 5) then (- ex)%Z else ex in
        let ex := (ex - Z.of_nat nfrac)%Z in
        Some (Finite (if (0 <=? ex)%Z then inject_Z (mant * 10 ^ ex)
                      else (mant # Z.to_pos (10 ^ (- ex)))%Q))
    end.

End PyFloat.

(* ================================================================== *)
(** ** [inference/utils.py] *)

Module Utils.
Import LogCore.
Local Open Scope stateful_scope.
Section WithEnv.
Context {E : PyEnv}.

(** [DataTypeInferrer.infer_string_type] *)
Definition infer_string_type (value : string) : result string :=
  if negb (PyStr.truthy value) then Ok "string"
  else if PyStr.mem (PyStr.lower value)
            ["true"; "false"; "yes"; "no"; "y"; "n"; "1"; "0"]
  then Ok "boolean"
  else
    match PyStr.to_int value with
    | Some _ => Ok "integer"
    | None =>
        match PyFloat.of_string value with
        | Some _ => Ok "float"
        | None =>
            match TimestampDetector.detect_timestamp value with
            | Ok (_ :: _) => Ok "timestamp"
            | Ok [] => Ok "string"
            | Raise e => Raise e
            end
        end
    end.

(** Rewriting the entry of a field that is in the schema. *)
Definition modify_field (field_name : string) (f : FieldInfo.t -> FieldInfo.t)
  : stateful Schema unit :=
  smodify (fun schema =>
             match Dict.get schema field_name with
             | Some fi => Dict.set schema field_name (f fi)
             | None => schema
             end).

(** [SchemaManager.update_field_info(schema, field_name, value,
    data_type, is_timestamp_field)] *)
Definition update_field_info (field_name value : string)
           (data_type : option string) (is_timestamp_field : bool)
  : stateful Schema unit :=
  if negb (PyStr.truthy value) || String.eqb value "-" then sret tt
  else
    schema <~ sget ;;
    (if negb (Dict.mem schema field_name) then
       data_type <~ match data_type with
                    | Some t => sret t
                    | None => slift (infer_string_type value)
                    end ;;
       smodify (fun schema =>
                  Dict.set schema field_name
                    (FieldInfo.new field_name data_type is_timestamp_field))
     else sret tt) ;;;
    modify_field field_name
      (fun fi => FieldInfo.add_sample_value (FieldInfo.update_frequency fi) value) ;;;
    schema <~ sget ;;
    let known_timestamp :=
      match Dict.get schema field_name with
      | Some fi => FieldInfo.is_timestamp fi
      | None => false
      end in
    if is_timestamp_field || negb known_timestamp then
      timestamps <~ slift (TimestampDetector.detect_timestamp value) ;;
      match timestamps with
      | best :: _ =>
          modify_field field_name
            (fun fi => FieldInfo.set_timestamp_format
                         (FieldInfo.set_is_timestamp fi true)
                         (Some (TimestampDetector.det_format best)))
      | [] => sret tt
      end
    else sret tt.

(** [PatternMatcher._extract_schema_from_match] *)
Definition _extract_schema_from_match (pattern : LinePatterns.LogPattern)
           (m : Re.match_obj) : stateful Schema unit :=
  sfor (combine (seq 1 (List.length (LinePatterns.field_names pattern)))
                (LinePatterns.field_names pattern))
       (fun '(i, field_name) =>
          if i <=? List.length (Re.m_groups m) then
            match Re.group m i with
            | Some value =>
                if PyStr.truthy value then
                  let is_timestamp :=
                    PyStr.mem field_name ["timestamp"; "time_local"; "time_iso8601"] in
                  update_field_info field_name value None is_timestamp
                else sret tt
            | None => sret tt
            end
          else sret tt).

(** [PatternMatcher.match_patterns] *)
Fixpoint match_patterns (line : string) (patterns : list LinePatterns.LogPattern)
  : stateful Schema bool :=
  match patterns with
  | [] => sret false
  | pattern :: rest =>
      match Re.match_ (LinePatterns.pattern pattern) line with
      | Some m => _extract_schema_from_match pattern m ;;; sret true
      | None => match_patterns line rest
      end
  end.

End WithEnv.
End Utils.

(* ================================================================== *)
(** ** [inference/base_detector.py] and the detectors *)

Module Detectors.
Import LogCore.
Local Open Scope stateful_scope.

(** [BaseFormatDetector.preprocess_lines] *)
Definition preprocess_lines (lines : list string) (max_lines : nat)
  : list string :=
  filter PyStr.truthy (map PyStr.strip (firstn max_lines lines)).

(** [BaseFormatDetector.calculate_line_coverage] *)
Definition calculate_line_coverage (matches total_lines : nat) : float :=
  if 0 <? total_lines then fdiv_nat matches total_lines else 0%Q.

(** The local variables of a detection loop: its counters, the schema
    and the sample lines. *)
Record loop (C : Type) := Loop {
  counters : C;
  schema : Schema;
  sample_lines : list string
}.
Arguments Loop {C} counters schema sample_lines.

Definition on_schema {C A} (c : stateful Schema A) : stateful (loop C) A :=
  fun st =>
    let (schema', r) := c (schema st) in
    (Loop (counters st) schema' (sample_lines st), r).

Definition count {C} (f : C -> C) : stateful (loop C) unit :=
  smodify (fun st => Loop (f (counters st)) (schema st) (sample_lines st)).

(** [sample_lines.append(line)] *)
Definition add_sample {C} (line : string) : stateful (loop C) unit :=
  smodify (fun st => Loop (counters st) (schema st) (sample_lines st ++ [line])).

(** [if len(sample_lines) < 5: sample_lines.append(line)] *)
Definition add_sample_lt5 {C} (line : string) : stateful (loop C) unit :=
  smodify (fun st =>
             if List.length (sample_lines st) <? 5
             then Loop (counters st) (schema st) (sample_lines st ++ [line])
             else st).

(** [try: body / except Exception: continue] *)
Definition continue_on_error {S} (body : stateful S unit) : stateful S unit :=
  stry body (fun _ => sret tt).

(** The value a loop leaves, or the exception that left it. *)
Definition finish {S A} (run : S * result unit) (f : S -> A) : result A :=
  match run with
  | (st, Ok _) => Ok (f st)
  | (_, Raise e) => Raise e
  end.

Definition VALID_LEVELS : list string :=
  ["DEBUG"; "INFO"; "WARNING"; "WARN"; "ERROR"; "CRITICAL"; "FATAL"].

Definition attribute_error : exn :=
  Exn AttributeError "'NoneType' object has no attribute".

Section WithEnv.
Context {E : PyEnv}.

(* ------------------------------------------------------------------ *)
(** *** [inference/app_log_detectors.py] *)

(** [BaseLogDetector.detect] *)
Definition BaseLogDetector_detect (patterns : list LinePatterns.LogPattern)
           (format_type : LogFormat) (lines : list string)
  : result FormatDetectionResult.t :=
  let processed_lines := preprocess_lines lines 100 in
  let body line :=
    continue_on_error
      (hit <~ on_schema (Utils.match_patterns line patterns) ;;
       if hit then count S ;;; add_sample_lt5 line else sret tt) in
  finish (sfor processed_lines body (Loop 0 [] []))
    (fun st =>
       let matches := counters st in
       FormatDetectionResult.mk format_type
         (calculate_line_coverage matches (List.length processed_lines))
         (schema st) (sample_lines st)
         [("matches", MInt matches);
          ("total_lines", MInt (List.length processed_lines))]).

(** [_find_matching_pattern] of [PythonLogDetector] and
    [BasicLogDetector]: the first pattern that matches, a match of the
    pattern named [validated] counting only when its first group is a
    log level. *)
Fixpoint _find_matching_pattern (validated : string) (line : string)
         (patterns : list LinePatterns.LogPattern)
  : result (option (LinePatterns.LogPattern * Re.match_obj)) :=
  match patterns with
  | [] => Ok None
  | pattern :: rest =>
      match Re.match_ (LinePatterns.pattern pattern) line with
      | Some m =>
          if String.eqb (LinePatterns.name pattern) validated then
            match Re.group m 1 with
            | Some level =>
                if negb (PyStr.mem (PyStr.upper level) VALID_LEVELS)
                then _find_matching_pattern validated line rest
                else Ok (Some (pattern, m))
            | None => Raise attribute_error
            end
          else Ok (Some (pattern, m))
      | None => _find_matching_pattern validated line rest
      end
  end.

(** The [detect] that [PythonLogDetector] and [BasicLogDetector]
    override with the same text. *)
Definition validated_detect (validated : string)
           (patterns : list LinePatterns.LogPattern)
           (format_type : LogFormat) (lines : list string)
  : result FormatDetectionResult.t :=
  let processed_lines := preprocess_lines lines 100 in
  let body line :=
    continue_on_error
      (pattern_match <~ slift (_find_matching_pattern validated line patterns) ;;
       match pattern_match with
       | Some (pattern, match_obj) =>
           count S ;;;
           add_sample_lt5 line ;;;
           on_schema (Utils._extract_schema_from_match pattern match_obj)
       | None => sret tt
       end) in
  finish (sfor processed_lines body (Loop 0 [] []))
    (fun st =>
       let matches := counters st in
       FormatDetectionResult.mk format_type
         (calculate_line_coverage matches (List.length processed_lines))
         (schema st) (sample_lines st)
         [("matches", MInt matches);
          ("total_lines", MInt (List.length processed_lines))]).

Definition PythonLogDetector_detect : list string -> result FormatDetectionResult.t :=
  validated_detect "simple_no_timestamp" LinePatterns.PythonLogDetector PYTHON_LOG.

Definition BasicLogDetector_detect : list string -> result FormatDetectionResult.t :=
  validated_detect "level_message_pattern" LinePatterns.BasicLogDetector BASIC_LOG.

(** [DelimiterAnalysis]: [field_data] holds, for the field indices in
    order, the values seen, [is_timestamp] and [timestamp_format]. *)
Record field_datum := FieldDatum {
  fd_values : list string;
  fd_is_timestamp : bool;
  fd_timestamp_format : option string
}.

Record DelimiterAnalysis := mkAnalysis {
  delimiter : string;
  field_counts : list nat;
  da_sample_lines : list string;
  consistent_line_count : nat;
  field_data : list field_datum
}.

(** The body of the loop of [add_line] for the field at [idx]. *)
Definition add_field (idx : nat) (field_value : string)
  : stateful (list field_datum) unit :=
  smodify (fun fd => if idx <? List.length fd then fd
                     else fd ++ [FieldDatum [] false None]) ;;;
  fd <~ sget ;;
  let info := nth idx fd (FieldDatum [] false None) in
  let info := FieldDatum (fd_values info ++ [field_value])
                         (fd_is_timestamp info) (fd_timestamp_format info) in
  let put info :=
    smodify (fun fd => firstn idx fd ++ [info] ++ skipn (S idx) fd) in
  put info ;;;
  if PyStr.truthy field_value && negb (fd_is_timestamp info) then
    timestamps <~ slift (TimestampDetector.detect_timestamp field_value) ;;
    match timestamps with
    | best :: _ =>
        put (FieldDatum (fd_values info) true
               (Some (TimestampDetector.det_format best)))
    | [] => sret tt
    end
  else sret tt.

(** [DelimiterAnalysis.add_line] *)
Definition add_line (line : string) (fields : list string)
  : stateful DelimiterAnalysis unit :=
  smodify (fun a => mkAnalysis (delimiter a)
                      (field_counts a ++ [List.length fields])
                      (da_sample_lines a ++ [line])
                      (consistent_line_count a + 1) (field_data a)) ;;;
  fun a =>
    let (fd, r) :=
      sfor (combine (seq 0 (List.length fields)) fields)
           (fun '(idx, v) => add_field idx v) (field_data a) in
    (mkAnalysis (delimiter a) (field_counts a) (da_sample_lines a)
                (consistent_line_count a) fd, r).

Definition has_data (a : DelimiterAnalysis) : bool :=
  0 <? consistent_line_count a.

Definition sum_nat (l : list nat) : nat := fold_left Nat.add l 0.
Definition sum_float (l : list float) : float := fold_left Qplus l 0%Q.

Definition avg_field_count (a : DelimiterAnalysis) : float :=
  match field_counts a with
  | [] => 0%Q
  | _ => fdiv_nat (sum_nat (field_counts a)) (List.length (field_counts a))
  end.

Definition field_count_variance (a : DelimiterAnalysis) : float :=
  match field_counts a with
  | [] => 0%Q
  | _ =>
      let avg := avg_field_count a in
      (sum_float (map (fun c => let x := (inject_Z (Z.of_nat c) - avg)%Q in (x * x)%Q)
                      (field_counts a))
       / inject_Z (Z.of_nat (List.length (field_counts a))))%Q
  end.

(** [CustomDelimitedDetector._calculate_delimiter_confidence], with
    [max_variance_ratio = 0.3]. *)
Definition _calculate_delimiter_confidence (a : DelimiterAnalysis)
           (total_lines : nat) : float :=
  if negb (has_data a) then 0%Q
  else
    let coverage_score :=
      (inject_Z (Z.of_nat (consistent_line_count a))
       / inject_Z (Z.of_nat total_lines))%Q in
    let variance_ratio :=
      (field_count_variance a / fmax (avg_field_count a) 1%Q)%Q in
    let consistency_score := fmax 0%Q (1 - variance_ratio / (3 # 10))%Q in
    let adequacy_score := fmin 1%Q (avg_field_count a / 4)%Q in
    let confidence :=
      ((5 # 10) * coverage_score + (3 # 10) * consistency_score
       + (2 # 10) * adequacy_score)%Q in
    fmin 1%Q confidence.

(** [max(type_counts.items(), key=lambda x: x[1])]: the first item with
    the greatest count. *)
Fixpoint first_max (best : string * nat) (l : list (string * nat)) : string * nat :=
  match l with
  | [] => best
  | x :: l' => first_max (if snd best <? snd x then x else best) l'
  end.

(** [CustomDelimitedDetector._infer_field_type] *)
Definition _infer_field_type (values : list string) : result string :=
  match values with
  | [] => Ok "string"
  | _ =>
      let sample_values := firstn 100 values in
      match
        sfor sample_values
          (fun value =>
             if PyStr.truthy value then
               inferred_type <~ slift (Utils.infer_string_type value) ;;
               smodify (fun type_counts =>
                          Dict.set type_counts inferred_type
                            (match Dict.get type_counts inferred_type with
                             | Some n => n + 1
                             | None => 1
                             end))
             else sret tt) []
      with
      | (_, Raise e) => Raise e
      | ([], Ok _) => Ok "string"
      | (x :: counts, Ok _) => Ok (fst (first_max x counts))
      end
  end.

(** [list(set(values))[:10]]: the distinct values; a set has no order of
    its own, the order of first occurrence is taken here. *)
Definition distinct (values : list string) : list string :=
  fold_left (fun acc v => if PyStr.mem v acc then acc else acc ++ [v]) values [].

(** [CustomDelimitedDetector._build_delimited_schema] *)
Definition _build_delimited_schema (a : DelimiterAnalysis) : result Schema :=
  finish
    (sfor (combine (seq 0 (List.length (field_data a))) (field_data a))
       (fun '(field_idx, fd) =>
          let field_name := ("field_" ++ PyStr.of_nat (field_idx + 1))%string in
          data_type <~ slift (_infer_field_type (fd_values fd)) ;;
          smodify (fun schema =>
                     Dict.set schema field_name
                       (FieldInfo.mk field_name data_type (fd_is_timestamp fd)
                          (fd_timestamp_format fd)
                          (firstn 10 (distinct (fd_values fd)))
                          (List.length (fd_values fd)) 0%Q))) [])
    (fun schema => schema).

(** [CustomDelimitedDetector._analyze_delimiter], with [min_fields = 2]
    and [confidence_threshold = 0.5]. *)
Definition _analyze_delimiter (lines : list string) (delim : string)
  : result FormatDetectionResult.t :=
  let run :=
    sfor lines
      (fun line =>
         if PyStr.contains line delim then
           let fields := map PyStr.strip (PyStr.split line delim) in
           if 2 <=? List.length fields then add_line line fields else sret tt
         else sret tt)
      (mkAnalysis delim [] [] 0 []) in
  match run with
  | (_, Raise e) => Raise e
  | (analysis, Ok _) =>
      if negb (has_data analysis)
      then Ok (FormatDetectionResult.empty CUSTOM_DELIMITED)
      else
        let confidence :=
          _calculate_delimiter_confidence analysis (List.length lines) in
        if Qlt_bool confidence (5 # 10)
        then Ok (FormatDetectionResult.empty CUSTOM_DELIMITED)
        else
          match _build_delimited_schema analysis with
          | Raise e => Raise e
          | Ok schema =>
              Ok (FormatDetectionResult.mk CUSTOM_DELIMITED confidence schema
                    (firstn 5 (da_sample_lines analysis))
                    [("delimiter", MStr delim);
                     ("avg_fields", MFloat (avg_field_count analysis));
                     ("field_count_variance", MFloat (field_count_variance analysis));
                     ("consistent_lines", MInt (consistent_line_count analysis))])
          end
  end.

Definition custom_delimiters : list string :=
  ["|"; ";"; ":"; String "009"%char EmptyString; "~"].

(** [CustomDelimitedDetector.detect] *)
Definition CustomDelimitedDetector_detect (lines : list string)
  : result FormatDetectionResult.t :=
  let processed_lines := preprocess_lines lines 100 in
  match processed_lines with
  | [] => Ok (FormatDetectionResult.empty CUSTOM_DELIMITED)
  | _ =>
      finish
        (sfor custom_delimiters
           (fun delim =>
              r <~ slift (_analyze_delimiter processed_lines delim) ;;
              smodify (fun best : option FormatDetectionResult.t * float =>
                         if Qlt_bool (snd best) (FormatDetectionResult.confidence r)
                         then (Some r, FormatDetectionResult.confidence r)
                         else best))
           (None, 0%Q))
        (fun best =>
           match fst best with
           | Some r => r
           | None => FormatDetectionResult.empty CUSTOM_DELIMITED
           end)
  end.

(* ------------------------------------------------------------------ *)
(** *** [inference/structured_detectors.py] *)

(** [JSONDetector._extract_json_schema] *)
Definition _extract_json_schema (data : json_value) : stateful Schema unit :=
  match data with
  | JDict items =>
      sfor items
        (fun '(key, value) =>
           let clean_key := PyStr.strip key in
           if PyStr.truthy clean_key
           then Utils.update_field_info clean_key value None false
           else sret tt)
  | _ => sret tt
  end.

(** [JSONDetector.detect]: the handler of the loop catches
    [json.JSONDecodeError] and [TypeError] only. *)
Definition JSONDetector_detect (lines : list string)
  : result FormatDetectionResult.t :=
  let processed_lines := preprocess_lines lines 50 in
  match processed_lines with
  | [] => Ok (FormatDetectionResult.empty JSON)
  | _ =>
      let body line : stateful (loop nat) bool :=
        stry
          (data <~ slift (json_loads line) ;;
           count S ;;;
           add_sample line ;;;
           on_schema (_extract_json_schema data) ;;;
           st <~ sget ;;
           sret (50 <=? counters st))
          (fun e =>
             if isinstance e JSONDecodeError || isinstance e TypeError
             then sret false
             else sraise e) in
      finish (sfor_break processed_lines body (Loop 0 [] []))
        (fun st =>
           let json_count := counters st in
           FormatDetectionResult.mk JSON
             (calculate_line_coverage json_count (List.length processed_lines))
             (schema st) (firstn 5 (sample_lines st))
             [("total_json_lines", MInt json_count)])
  end.

(** A value of a row of [csv.DictReader]: a cell, [None] for a missing
    cell, or the list of the cells beyond the header. *)
Inductive csv_cell :=
| Cell (s : string)
| CNone
| CRest (l : list string).

(** [repr(s)] for a string without quotes or escapes, and [str(v)] of a
    row value. *)
Definition repr_str (s : string) : string := ("'" ++ s ++ "'")%string.

Definition str_cell (v : csv_cell) : string :=
  match v with
  | Cell s => s
  | CNone => "None"
  | CRest l => ("[" ++ PyStr.join ", " (map repr_str l) ++ "]")%string
  end.

(** A row: the cells under the header names, then the value under the
    key [None] when the row is longer than the header. *)
Record csv_row := Row {
  named : Dict.t csv_cell;
  rest_cells : option (list string)
}.

Definition row_values (r : csv_row) : list csv_cell :=
  Dict.values (named r)
  ++ match rest_cells r with Some l => [CRest l] | None => [] end.

(** [row.items()], the key [None] as [None]. *)
Definition row_items (r : csv_row) : list (option string * csv_cell) :=
  map (fun kv => (Some (fst kv), snd kv)) (named r)
  ++ match rest_cells r with Some l => [(None, CRest l)] | None => [] end.

(** One row of [csv.DictReader]: [dict(zip(fieldnames, row))], the rest
    under [None], missing cells as [None]. *)
Definition dict_row (fieldnames row : list string) : csv_row :=
  let zipped :=
    fold_left (fun d kv => Dict.set d (fst kv) (Cell (snd kv)))
              (combine fieldnames row) [] in
  let lf := List.length fieldnames in
  let lr := List.length row in
  if lf <? lr then Row zipped (Some (skipn lf row))
  else Row (fold_left (fun d k => Dict.set d k CNone) (skipn lr fieldnames) zipped)
           None.

(** The rows [csv.DictReader] yields: the first line read is the
    header, empty lines after it are passed over. *)
Definition dict_reader (rows : list (list string)) : list csv_row :=
  match rows with
  | [] => []
  | fieldnames :: data =>
      map (dict_row fieldnames)
          (filter (fun row => negb (List.length row =? 0)) data)
  end.

Record schema_data := SchemaData {
  sd_schema : Schema;
  sd_samples : list string;
  sd_rows_processed : nat
}.

Definition empty_schema_data : schema_data := SchemaData [] [] 0.

(** [CSVDetector._parse_csv_content]: any exception gives the empty
    answer. *)
Definition _parse_csv_content (csv_text : string) (dialect : CsvDialect.t)
  : schema_data :=
  match csv_reader dialect csv_text with
  | Raise _ => empty_schema_data
  | Ok rows =>
      let body (row : csv_row) : stateful schema_data bool :=
        st <~ sget ;;
        if 50 <=? sd_rows_processed st then sret true
        else if (match row_values row with [] => true | _ => false end)
                || negb (existsb (fun v => PyStr.truthy (PyStr.strip (str_cell v)))
                                 (row_values row))
        then sret false
        else
          let rvalues :=
            map (fun v => match v with CNone => "" | _ => str_cell v end)
                (row_values row) in
          sput (SchemaData (sd_schema st)
                  (sd_samples st ++ [PyStr.join (CsvDialect.delimiter dialect) rvalues])
                  (sd_rows_processed st + 1)) ;;;
          (fun st =>
             let (schema', r) :=
               sfor (row_items row)
                 (fun '(field_name, value) =>
                    let clean_field_name :=
                      match field_name with
                      | Some n => if PyStr.truthy n then PyStr.strip n else ""
                      | None => ""
                      end in
                    if PyStr.truthy clean_field_name
                    then Utils.update_field_info clean_field_name (str_cell value)
                           None false
                    else sret tt) (sd_schema st) in
             (SchemaData schema' (sd_samples st) (sd_rows_processed st), r)) ;;;
          sret false in
      match sfor_break (dict_reader rows) body empty_schema_data with
      | (st, Ok _) => st
      | (_, Raise _) => empty_schema_data
      end
  end.

Definition supported_delimiters : list string :=
  [","; ";"; String "009"%char EmptyString; "|"].

Definition newline : string := String "010"%char EmptyString.

Definition max_nat (l : list nat) : nat := fold_left Nat.max l 0.

(** [len(set(counts))] *)
Definition count_distinct (l : list nat) : nat := List.length (nodup Nat.eq_dec l).

(** [max(delimiter_counts.items(), key=lambda x: x[1])] *)
Definition first_max_item (l : list (string * nat)) : option (string * nat) :=
  match l with
  | [] => None
  | x :: l' => Some (first_max x l')
  end.

(** [CSVDetector._fallback_dialect_detection] *)
Definition _fallback_dialect_detection (csv_text : string)
  : option (CsvDialect.t * bool) :=
  let lines := firstn 5 (PyStr.split csv_text newline) in
  if List.length lines <? 2 then None
  else
    let delimiter_counts :=
      fold_left
        (fun acc delim =>
           let counts :=
             map (fun line => PyStr.count line delim)
                 (filter (fun line => PyStr.truthy (PyStr.strip line)) lines) in
           match counts with
           | [] => acc
           | _ => if count_distinct counts <=? 2
                  then Dict.set acc delim (max_nat counts) else acc
           end)
        supported_delimiters [] in
    match first_max_item delimiter_counts with
    | None => None
    | Some (best_delimiter, _) =>
        Some (CsvDialect.with_delimiter CsvDialect.excel best_delimiter, true)
    end.

(** [CSVDetector._detect_csv_dialect]: whatever the sniffer raises, the
    fallback answers. *)
Definition _detect_csv_dialect (csv_text : string)
  : option (CsvDialect.t * bool) :=
  match csv_sniff csv_text (PyStr.join "" supported_delimiters) with
  | Ok dialect =>
      match csv_has_header csv_text with
      | Ok has_header => Some (dialect, has_header)
      | Raise _ => _fallback_dialect_detection csv_text
      end
  | Raise _ => _fallback_dialect_detection csv_text
  end.

(** [CSVDetector._is_probably_csv] *)
Definition _is_probably_csv (lines : list string) (dialect : CsvDialect.t)
           (sd : schema_data) : bool :=
  let delim := CsvDialect.delimiter dialect in
  let delimiter_lines :=
    List.length (filter (fun line => PyStr.contains line delim) lines) in
  (Nat.max 3 (List.length lines / 2) <=? delimiter_lines)
  && (3 <=? sd_rows_processed sd).

(** [CSVDetector._calculate_csv_confidence] *)
Definition _calculate_csv_confidence (sd : schema_data) (total_lines : nat)
  : float :=
  let rows_processed := sd_rows_processed sd in
  if rows_processed =? 0 then 0%Q
  else
    let base_confidence := fdiv_nat rows_processed (Nat.max total_lines 1) in
    fmin (base_confidence + (if 3 <=? rows_processed then (2 # 10) else 0))%Q 1%Q.

(** [CSVDetector.detect]: everything after the preprocessing is inside
    one [try] whose handler returns the empty result; the calls below
    have caught their own exceptions already. *)
Definition CSVDetector_detect (lines : list string)
  : result FormatDetectionResult.t :=
  let processed_lines := preprocess_lines lines 50 in
  match processed_lines with
  | [] => Ok (FormatDetectionResult.empty CSV)
  | _ =>
      let csv_text := PyStr.join newline processed_lines in
      match _detect_csv_dialect csv_text with
      | None => Ok (FormatDetectionResult.empty CSV)
      | Some (dialect, has_header) =>
          let sd := _parse_csv_content csv_text dialect in
          if negb (_is_probably_csv processed_lines dialect sd)
          then Ok (FormatDetectionResult.empty CSV)
          else
            Ok (FormatDetectionResult.mk CSV
                  (_calculate_csv_confidence sd (List.length processed_lines))
                  (sd_schema sd) (firstn 5 (sd_samples sd))
                  [("delimiter", MStr (CsvDialect.delimiter dialect));
                   ("has_header", MBool has_header);
                   ("rows_processed", MInt (sd_rows_processed sd))])
      end
  end.

Definition tab : string := String "009"%char EmptyString.

(** [LTSVDetector._is_valid_ltsv_pair] *)
Definition _is_valid_ltsv_pair (part : string) : bool :=
  if negb (PyStr.contains part ":") || PyStr.contains part "=" then false
  else
    match PyStr.split_max part ":" 1 with
    | [key; value] =>
        PyStr.truthy (PyStr.strip key) && PyStr.truthy (PyStr.strip value)
    | _ => false
    end.

(** [LTSVDetector._is_ltsv_format] *)
Definition _is_ltsv_format (line : string) : bool :=
  if negb (PyStr.contains line tab) then false
  else
    let parts := PyStr.split line tab in
    let valid_pairs :=
      List.length (filter (fun part => _is_valid_ltsv_pair (PyStr.strip part)) parts) in
    2 <=? valid_pairs.

(** [LTSVDetector._extract_ltsv_schema]: the handler inside its loop
    catches [ValueError] only. *)
Definition _extract_ltsv_schema (line : string) : stateful Schema unit :=
  sfor (PyStr.split line tab)
    (fun part =>
       let part := PyStr.strip part in
       if PyStr.contains part ":" then
         stry
           (match PyStr.split_max part ":" 1 with
            | [key; value] =>
                let key := PyStr.strip key in
                let value := PyStr.strip value in
                if PyStr.truthy key && PyStr.truthy value
                then Utils.update_field_info key value None false
                else sret tt
            | _ => sret tt
            end)
           (fun e => if isinstance e ValueError then sret tt else sraise e)
       else sret tt).

(** [LTSVDetector.detect]: its loop has no handler. *)
Definition LTSVDetector_detect (lines : list string)
  : result FormatDetectionResult.t :=
  let processed_lines := preprocess_lines lines 100 in
  match processed_lines with
  | [] => Ok (FormatDetectionResult.empty LTSV)
  | _ =>
      let body line : stateful (loop nat) unit :=
        if _is_ltsv_format line then
          count S ;;; add_sample line ;;; on_schema (_extract_ltsv_schema line)
        else sret tt in
      finish (sfor processed_lines body (Loop 0 [] []))
        (fun st =>
           let matches := counters st in
           FormatDetectionResult.mk LTSV
             (calculate_line_coverage matches (List.length processed_lines))
             (schema st) (firstn 5 (sample_lines st))
             [("ltsv_matches", MInt matches)])
  end.

(** [KeyValueDetector._extract_key_value_pairs] *)
Definition _extract_key_value_pairs (line : string) : Dict.t string :=
  fold_left
    (fun kv_pairs pattern =>
       fold_left
         (fun kv_pairs '(key, value) =>
            let key := PyStr.strip key in
            let value := PyStr.strip value in
            if PyStr.truthy key && PyStr.truthy value
            then Dict.set kv_pairs key value else kv_pairs)
         (Re.findall2 (LinePatterns.pattern pattern) line) kv_pairs)
    LinePatterns.KeyValueDetector [].

(** [KeyValueDetector._update_kv_schema] *)
Definition _update_kv_schema (kv_pairs : Dict.t string) : stateful Schema unit :=
  sfor kv_pairs (fun '(key, value) => Utils.update_field_info key value None false).

(** [KeyValueDetector.detect]: its loop has no handler. *)
Definition KeyValueDetector_detect (lines : list string)
  : result FormatDetectionResult.t :=
  let processed_lines := preprocess_lines lines 100 in
  match processed_lines with
  | [] => Ok (FormatDetectionResult.empty KEY_VALUE)
  | _ =>
      let body line : stateful (loop nat) unit :=
        let kv_pairs := _extract_key_value_pairs line in
        if 2 <=? List.length kv_pairs then
          count S ;;; add_sample line ;;; on_schema (_update_kv_schema kv_pairs)
        else sret tt in
      finish (sfor processed_lines body (Loop 0 [] []))
        (fun st =>
           let matches := counters st in
           FormatDetectionResult.mk KEY_VALUE
             (calculate_line_coverage matches (List.length processed_lines))
             (schema st) (firstn 5 (sample_lines st))
             [("kv_matches", MInt matches)])
  end.

(* ------------------------------------------------------------------ *)
(** *** [inference/web_log_detectors.py] *)

(** [WebLogDetectorMixin._update_field_schema] (the caller never passes
    [data_type]). *)
Definition _update_field_schema (field_name value : string)
  : stateful Schema unit :=
  if negb (PyStr.truthy value) || String.eqb value "-" then sret tt
  else
    schema <~ sget ;;
    (if negb (Dict.mem schema field_name) then
       data_type <~
         (if PyStr.mem field_name
               ["status"; "bytes_sent"; "pid"; "tid"; "response_size"]
          then sret "integer"
          else if PyStr.mem field_name ["request_time"; "response_time"]
          then sret "float"
          else slift (Utils.infer_string_type value)) ;;
       let is_timestamp :=
         PyStr.mem field_name
           ["timestamp"; "time_local"; "time_iso8601"; "time"; "datetime"]
         || PyStr.contains (PyStr.lower field_name) "time"
         || PyStr.contains (PyStr.lower field_name) "date" in
       smodify (fun schema =>
                  Dict.set schema field_name
                    (FieldInfo.new field_name data_type is_timestamp))
     else sret tt) ;;;
    Utils.modify_field field_name
      (fun fi => FieldInfo.add_sample_value (FieldInfo.update_frequency fi) value) ;;;
    schema <~ sget ;;
    let is_ts :=
      match Dict.get schema field_name with
      | Some fi => FieldInfo.is_timestamp fi
      | None => false
      end in
    if is_ts then
      timestamps <~ slift (TimestampDetector.detect_timestamp value) ;;
      match timestamps with
      | best_timestamp :: _ =>
          Utils.modify_field field_name
            (fun fi => FieldInfo.set_confidence
                         (FieldInfo.set_timestamp_format fi
                            (Some (TimestampDetector.det_format best_timestamp)))
                         (TimestampDetector.det_confidence best_timestamp))
      | [] => sret tt
      end
    else sret tt.

(** [WebLogDetectorMixin._calculate_format_confidence], with
    [consistency_bonus = 0.1]. *)
Definition _calculate_format_confidence (matches total_lines : nat) : float :=
  let base_confidence := calculate_line_coverage matches total_lines in
  let base_confidence :=
    if (0 <? matches) && (0 <? total_lines) then
      let consistency := fdiv_nat matches total_lines in
      if Qlt_bool (8 # 10) consistency then (base_confidence + (1 # 10))%Q
      else base_confidence
    else base_confidence in
  fmin base_confidence 1%Q.

(** [WebLogDetectorMixin._try_pattern_match] *)
Definition _try_pattern_match {C} (line : string)
           (log_pattern : LinePatterns.LogPattern) : stateful (loop C) bool :=
  match Re.match_ (LinePatterns.pattern log_pattern) line with
  | Some m =>
      add_sample_lt5 line ;;;
      let groups := Re.m_groups m in
      on_schema
        (sfor (combine (seq 0 (List.length (LinePatterns.field_names log_pattern)))
                       (LinePatterns.field_names log_pattern))
           (fun '(i, field_name) =>
              if i <? List.length groups then
                match nth i groups None with
                | Some gi =>
                    if PyStr.truthy gi && negb (PyStr.mem gi ["-"; ""])
                    then _update_field_schema field_name gi
                    else sret tt
                | None => sret tt
                end
              else sret tt)) ;;;
      sret true
  | None => sret false
  end.

(** [_try_extended_patterns] of Apache and [_try_patterns] of Nginx. *)
Fixpoint _try_patterns {C} (line : string)
         (pattern_list : list LinePatterns.LogPattern) : stateful (loop C) bool :=
  match pattern_list with
  | [] => sret false
  | pattern :: rest =>
      hit <~ _try_pattern_match line pattern ;;
      if hit then sret true else _try_patterns line rest
  end.

(** [WebLogDetectorMixin._create_empty_result] *)
Definition _create_empty_result : FormatDetectionResult.t :=
  FormatDetectionResult.mk UNKNOWN 0%Q [] []
    [("error", MStr "No lines to process")].

Definition no_pattern : LinePatterns.LogPattern :=
  LinePatterns.mkLogPattern (Re.unnamed Re.REps) [] "".

(** [ApacheDetector._determine_apache_format] *)
Definition _determine_apache_format (common combined extended : nat)
  : LogFormat :=
  if Nat.max common extended <? combined then APACHE_COMBINED
  else if Nat.max common combined <? extended then APACHE_EXTENDED
  else APACHE_COMMON.

(** [ApacheDetector.detect]; the counters are
    [(common_matches, combined_matches, extended_matches)]. *)
Definition ApacheDetector_detect (lines : list string)
  : result FormatDetectionResult.t :=
  let common_pattern := nth 0 LinePatterns.ApacheDetector no_pattern in
  let combined_pattern := nth 1 LinePatterns.ApacheDetector no_pattern in
  let extended_patterns := LinePatterns.ApacheDetector_EXTENDED in
  let processed_lines := preprocess_lines lines 100 in
  match processed_lines with
  | [] => Ok _create_empty_result
  | _ =>
      let body line : stateful (loop (nat * nat * nat)) unit :=
        continue_on_error
          (hit <~ _try_pattern_match line combined_pattern ;;
           if hit then count (fun '(c, b, e) => (c, b + 1, e))
           else
             hit <~ _try_pattern_match line common_pattern ;;
             if hit then count (fun '(c, b, e) => (c + 1, b, e))
             else
               hit <~ _try_patterns line extended_patterns ;;
               if hit then count (fun '(c, b, e) => (c, b, e + 1))
               else sret tt) in
      finish (sfor processed_lines body (Loop (0, 0, 0) [] []))
        (fun st =>
           let '(common_matches, combined_matches, extended_matches) :=
             counters st in
           let total_matches :=
             common_matches + combined_matches + extended_matches in
           FormatDetectionResult.mk
             (_determine_apache_format common_matches combined_matches
                extended_matches)
             (_calculate_format_confidence total_matches
                (List.length processed_lines))
             (schema st) (firstn 5 (sample_lines st))
             [("common_matches", MInt common_matches);
              ("combined_matches", MInt combined_matches);
              ("extended_matches", MInt extended_matches);
              ("total_processed_lines", MInt (List.length processed_lines))])
  end.

(** [NginxDetector.detect]; the counters are
    [(access_matches, error_matches)]. *)
Definition NginxDetector_detect (lines : list string)
  : result FormatDetectionResult.t :=
  let access_pattern := nth 0 LinePatterns.NginxDetector no_pattern in
  let error_pattern := nth 1 LinePatterns.NginxDetector no_pattern in
  let access_alt_patterns := LinePatterns.NginxDetector_ACCESS_ALT in
  let error_alt_patterns := LinePatterns.NginxDetector_ERROR_ALT in
  let processed_lines := preprocess_lines lines 100 in
  match processed_lines with
  | [] => Ok _create_empty_result
  | _ =>
      let body line : stateful (loop (nat * nat)) unit :=
        continue_on_error
          (hit <~ _try_patterns line (access_pattern :: access_alt_patterns) ;;
           if hit then count (fun '(a, e) => (a + 1, e))
           else
             hit <~ _try_patterns line (error_pattern :: error_alt_patterns) ;;
             if hit then count (fun '(a, e) => (a, e + 1))
             else sret tt) in
      finish (sfor processed_lines body (Loop (0, 0) [] []))
        (fun st =>
           let '(access_matches, error_matches) := counters st in
           let total_matches := access_matches + error_matches in
           FormatDetectionResult.mk
             (if error_matches <=? access_matches then NGINX_ACCESS
              else NGINX_ERROR)
             (_calculate_format_confidence total_matches
                (List.length processed_lines))
             (schema st) (firstn 5 (sample_lines st))
             [("access_matches", MInt access_matches);
              ("error_matches", MInt error_matches);
              ("total_processed_lines", MInt (List.length processed_lines))])
  end.

(** [GenericWebLogDetector.detect]: the result is labelled
    [BASIC_LOG]. *)
Definition GenericWebLogDetector_detect (lines : list string)
  : result FormatDetectionResult.t :=
  let generic_patterns := LinePatterns.GenericWebLogDetector in
  let processed_lines := preprocess_lines lines 100 in
  match processed_lines with
  | [] => Ok _create_empty_result
  | _ =>
      let body line : stateful (loop nat) unit :=
        continue_on_error
          (hit <~ _try_patterns line generic_patterns ;;
           if hit then count S else sret tt) in
      finish (sfor processed_lines body (Loop 0 [] []))
        (fun st =>
           let total_matches := counters st in
           FormatDetectionResult.mk BASIC_LOG
             (_calculate_format_confidence total_matches
                (List.length processed_lines))
             (schema st) (firstn 5 (sample_lines st))
             [("generic_matches", MInt total_matches);
              ("total_processed_lines", MInt (List.length processed_lines))])
  end.

(* ------------------------------------------------------------------ *)
(** *** [inference/syslog_detectors.py] *)

Record SyslogMatch := mkSyslogMatch {
  sm_priority : option string;
  sm_timestamp : option string;
  sm_hostname : option string;
  sm_tag : option string;
  sm_message : option string;
  sm_version : option string;
  sm_app_name : option string;
  sm_procid : option string;
  sm_msgid : option string;
  sm_structured_data : option string
}.

(** [SyslogDetector._try_match_line]: a pattern that matches and has
    neither of the two names is passed over. *)
Fixpoint _try_match_line (line : string)
         (patterns : list LinePatterns.LogPattern)
  : option (string * SyslogMatch) :=
  match patterns with
  | [] => None
  | pattern :: rest =>
      let p := LinePatterns.pattern pattern in
      match Re.match_ p line with
      | Some m =>
          let grp := Re.group_named p m in
          if String.eqb (LinePatterns.name pattern) "RFC3164" then
            Some ("RFC3164",
                  mkSyslogMatch (grp "priority") (grp "timestamp")
                    (grp "hostname") (grp "tag") (grp "message")
                    None None None None None)
          else if String.eqb (LinePatterns.name pattern) "RFC5424" then
            Some ("RFC5424",
                  mkSyslogMatch (grp "priority") (grp "timestamp")
                    (grp "hostname") (Some "") (grp "message")
                    (grp "version") (grp "app_name") (grp "procid")
                    (grp "msgid")
                    (if Dict.mem (Re.group_names p) "structured_data"
                     then grp "structured_data" else None))
          else _try_match_line line rest
      | None => _try_match_line line rest
      end
  end.

(** [SyslogDetector._update_schema_from_match] *)
Definition _update_schema_from_match (match_data : SyslogMatch)
  : stateful Schema unit :=
  let fields : list (string * option string) :=
    [("priority", sm_priority match_data);
     ("timestamp", sm_timestamp match_data);
     ("hostname", sm_hostname match_data);
     ("message", sm_message match_data)]
    ++ match sm_version match_data with
       | None => [("tag", sm_tag match_data)]
       | Some _ =>
           [("version", sm_version match_data);
            ("app_name", sm_app_name match_data);
            ("procid", sm_procid match_data);
            ("msgid", sm_msgid match_data);
            ("structured_data", sm_structured_data match_data)]
       end in
  sfor fields
    (fun '(field_name, value) =>
       match value with
       | Some value =>
           if PyStr.truthy value then
             let data_type :=
               if PyStr.mem field_name ["priority"; "version"]
               then Some "integer" else None in
             let is_timestamp := PyStr.mem field_name ["timestamp"] in
             Utils.update_field_info field_name value data_type is_timestamp
           else sret tt
       | None => sret tt
       end).

(** [SyslogDetector.detect]; the counters are
    [(rfc3164_matches, rfc5424_matches)]. *)
Definition SyslogDetector_detect (lines : list string)
  : result FormatDetectionResult.t :=
  let processed_lines := preprocess_lines lines 100 in
  let body line : stateful (loop (nat * nat)) unit :=
    continue_on_error
      (match _try_match_line line LinePatterns.SyslogDetector with
       | Some (match_type, match_data) =>
           (if String.eqb match_type "RFC3164"
            then count (fun '(a, b) => (a + 1, b))
            else count (fun '(a, b) => (a, b + 1))) ;;;
           add_sample line ;;;
           on_schema (_update_schema_from_match match_data)
       | None => sret tt
       end) in
  finish (sfor processed_lines body (Loop (0, 0) [] []))
    (fun st =>
       let '(rfc3164_matches, rfc5424_matches) := counters st in
       let total_matches := rfc3164_matches + rfc5424_matches in
       FormatDetectionResult.mk SYSLOG
         (calculate_line_coverage total_matches (List.length processed_lines))
         (schema st) (firstn 5 (sample_lines st))
         [("rfc3164_matches", MInt rfc3164_matches);
          ("rfc5424_matches", MInt rfc5424_matches);
          ("detected_rfc",
           MStr (if rfc5424_matches <=? rfc3164_matches
                 then "RFC3164" else "RFC5424"));
          ("total_lines_processed", MInt (List.length processed_lines))]).

(** [SystemdJournalDetector.preprocess_lines]: blank lines are kept. *)
Definition journal_preprocess_lines (lines : list string) (max_lines : nat)
  : list string :=
  map PyStr.strip (firstn max_lines lines).

(** [^[_A-Z][A-Z0-9_]*$] *)
Definition FIELD_NAME_PATTERN : Re.pattern :=
  Re.unnamed (Re.cat [Re.RBol; Re.set [Re.ALit "_"; Re.ARange "A" "Z"];
                      Re.star (Re.set [Re.ARange "A" "Z"; Re.ARange "0" "9";
                                       Re.ALit "_"]);
                      Re.REol]).

Definition _is_valid_journal_field (field_name : string) : bool :=
  PyStr.truthy field_name
  && match Re.match_ FIELD_NAME_PATTERN field_name with
     | Some _ => true
     | None => false
     end.

Definition _parse_journal_field (line : string) : option (string * string) :=
  if negb (PyStr.contains line "=") then None
  else
    match PyStr.split_max line "=" 1 with
    | [key; value] =>
        if _is_valid_journal_field key then Some (key, value) else None
    | _ => None
    end.

(** [SystemdJournalDetector._parse_journal_entries]; the state is
    [(entries, current_entry)]. *)
Definition _parse_journal_entries (lines : list string)
  : list (Dict.t string) :=
  let '(entries, current_entry) :=
    fold_left
      (fun '(entries, current_entry) line =>
         if negb (PyStr.truthy (PyStr.strip line)) then
           match current_entry with
           | [] => (entries, current_entry)
           | _ => (entries ++ [current_entry], [])
           end
         else
           match _parse_journal_field line with
           | Some (key, value) => (entries, Dict.set current_entry key value)
           | None => (entries, current_entry)
           end)
      lines (([] : list (Dict.t string)), ([] : Dict.t string)) in
  match current_entry with
  | [] => entries
  | _ => entries ++ [current_entry]
  end.

Definition JOURNAL_INTEGER_FIELDS : list string :=
  ["_PID"; "_UID"; "_GID"; "PRIORITY"; "EXIT_STATUS"; "__REALTIME_TIMESTAMP";
   "__MONOTONIC_TIMESTAMP"; "SOURCE_REALTIME_TIMESTAMP"].

Definition JOURNAL_TIMESTAMP_FIELDS : list string :=
  ["__REALTIME_TIMESTAMP"; "__MONOTONIC_TIMESTAMP"; "SOURCE_REALTIME_TIMESTAMP"].

(** [SystemdJournalDetector._build_schema_from_entries] *)
Definition _build_schema_from_entries (entries : list (Dict.t string))
  : result Schema :=
  finish
    (sfor entries
       (fun entry =>
          sfor entry
            (fun '(field_name, value) =>
               let data_type :=
                 if PyStr.mem field_name JOURNAL_INTEGER_FIELDS
                    || PyStr.contains field_name "TIMESTAMP"
                 then Some "integer" else None in
               let is_timestamp :=
                 PyStr.mem field_name JOURNAL_TIMESTAMP_FIELDS
                 || PyStr.contains field_name "TIME" in
               Utils.update_field_info field_name value data_type is_timestamp))
       [])
    (fun schema => schema).

(** [SystemdJournalDetector._calculate_journal_confidence] *)
Definition _calculate_journal_confidence (entries : list (Dict.t string))
           (processed_lines : list string) : float :=
  match entries with
  | [] => 0%Q
  | _ =>
      let expected_lines_per_entry :=
        fmax (fdiv_nat (List.length processed_lines) 10) 1%Q in
      fmin (inject_Z (Z.of_nat (List.length entries)) / expected_lines_per_entry)%Q
           1%Q
  end.

(** [str(entry)] for a dict of strings. *)
Definition str_dict (entry : Dict.t string) : string :=
  ("{" ++ PyStr.join ", "
            (map (fun kv => repr_str (fst kv) ++ ": " ++ repr_str (snd kv)) entry)
       ++ "}")%string.

(** [SystemdJournalDetector.detect] *)
Definition SystemdJournalDetector_detect (lines : list string)
  : result FormatDetectionResult.t :=
  let processed_lines := journal_preprocess_lines lines 200 in
  let entries := _parse_journal_entries processed_lines in
  match _build_schema_from_entries entries with
  | Raise e => Raise e
  | Ok schema =>
      Ok (FormatDetectionResult.mk SYSTEMD_JOURNAL
            (_calculate_journal_confidence entries processed_lines)
            schema (map str_dict (firstn 5 entries))
            [("journal_entries", MInt (List.length entries));
             ("total_lines_processed", MInt (List.length processed_lines))])
  end.

End WithEnv.
End Detectors.

(* ================================================================== *)
(** ** [inference/inference_engine.py] *)

Module InferenceEngine.
Import LogCore.

(** What the engine uses of a detector. *)
Record Detector := mkDetector {
  name : string;
  detect : list string -> result FormatDetectionResult.t;
  get_confidence_threshold : float
}.

(** [LogSchemaInferenceEngine]: its list of detectors. *)
Record Engine := mkEngine { detectors : list Detector }.

(** [LogSchemaInferenceEngine.__init__] *)
Definition new {E : PyEnv} : Engine :=
  mkEngine
    [ mkDetector "JSONDetector" Detectors.JSONDetector_detect (8 # 10);
      mkDetector "SyslogDetector" Detectors.SyslogDetector_detect (7 # 10);
      mkDetector "PythonLogDetector" Detectors.PythonLogDetector_detect (8 # 10);
      mkDetector "SystemdJournalDetector" Detectors.SystemdJournalDetector_detect
        (6 # 10);
      mkDetector "ApacheDetector" Detectors.ApacheDetector_detect (7 # 10);
      mkDetector "NginxDetector" Detectors.NginxDetector_detect (7 # 10);
      mkDetector "CSVDetector" Detectors.CSVDetector_detect (6 # 10);
      mkDetector "LTSVDetector" Detectors.LTSVDetector_detect (7 # 10);
      mkDetector "GenericWebLogDetector" Detectors.GenericWebLogDetector_detect
        (6 # 10);
      mkDetector "CustomDelimitedDetector" Detectors.CustomDelimitedDetector_detect
        (5 # 10);
      mkDetector "KeyValueDetector" Detectors.KeyValueDetector_detect (6 # 10);
      mkDetector "BasicLogDetector" Detectors.BasicLogDetector_detect (7 # 10) ].

(** One turn of the loop over the detectors; the state is
    [(results, detection_errors)]. *)
Definition run_detector (lines : list string)
           (st : list FormatDetectionResult.t * list string) (detector : Detector)
  : list FormatDetectionResult.t * list string :=
  let '(results, detection_errors) := st in
  match detect detector lines with
  | Ok r =>
      if Qle_bool (get_confidence_threshold detector)
                  (FormatDetectionResult.confidence r)
      then (results ++ [r], detection_errors)
      else (results, detection_errors)
  | Raise e =>
      let error_msg :=
        ("Detector " ++ name detector ++ " failed: " ++ exn_msg e)%string in
      (results, detection_errors ++ [error_msg])
  end.

(** [max(results, key=lambda x: x.confidence)] from its first element
    on: a later result replaces the best one only when its confidence is
    greater. *)
Definition max_by_confidence (first : FormatDetectionResult.t)
           (others : list FormatDetectionResult.t) : FormatDetectionResult.t :=
  fold_left
    (fun best r =>
       if Qlt_bool (FormatDetectionResult.confidence best)
                   (FormatDetectionResult.confidence r)
       then r else best)
    others first.

(** The confidence [_calculate_field_confidence] gives one field. *)
Definition field_confidence (total_sample_lines : nat) (field_info : FieldInfo.t)
  : float :=
  let frequency_score :=
    fmin (fdiv_nat (FieldInfo.frequency field_info) total_sample_lines) 1%Q in
  let timestamp_bonus :=
    if FieldInfo.is_timestamp field_info then (2 # 10)%Q else 0%Q in
  let type_bonus :=
    if negb (String.eqb (FieldInfo.data_type field_info) "unknown")
    then (1 # 10)%Q else 0%Q in
  fmin (frequency_score + timestamp_bonus + type_bonus)%Q 1%Q.

(** [LogSchemaInferenceEngine._calculate_field_confidence] *)
Definition _calculate_field_confidence (r : FormatDetectionResult.t)
  : FormatDetectionResult.t :=
  match FormatDetectionResult.schema r with
  | [] => r
  | schema =>
      let total_sample_lines :=
        match FormatDetectionResult.sample_lines r with
        | [] => 1
        | l => List.length l
        end in
      FormatDetectionResult.set_schema r
        (map (fun kv =>
                (fst kv,
                 FieldInfo.set_confidence (snd kv)
                   (field_confidence total_sample_lines (snd kv))))
             schema)
  end.

(** [LogSchemaInferenceEngine.analyze_lines] *)
Definition analyze_lines (self : Engine) (lines : list string)
  : FormatDetectionResult.t :=
  match lines with
  | [] =>
      FormatDetectionResult.mk UNKNOWN 0%Q [] []
        [("error", MStr "No lines provided")]
  | _ =>
      let '(results, detection_errors) :=
        fold_left (run_detector lines) (detectors self) ([], []) in
      match results with
      | [] =>
          FormatDetectionResult.mk UNKNOWN 0%Q [] (firstn 5 lines)
            [("message", MStr "No format detected with sufficient confidence");
             ("detection_errors", MList detection_errors);
             ("total_lines_analyzed", MInt (List.length lines))]
      | first :: others =>
          let best_result := max_by_confidence first others in
          let best_result := _calculate_field_confidence best_result in
          FormatDetectionResult.set_metadata best_result
            (Dict.update (FormatDetectionResult.metadata best_result)
               [("total_detectors_run", MInt (List.length (detectors self)));
                ("detectors_above_threshold", MInt (List.length results));
                ("detection_errors", MList detection_errors);
                ("total_lines_analyzed", MInt (List.length lines))])
      end
  end.

(** [LogSchemaInferenceEngine.get_supported_formats] *)
Definition get_supported_formats : list string :=
  map LogFormat_value
      (filter (fun fmt => negb (LogFormat_eqb fmt UNKNOWN)) LogFormat_members).

End InferenceEngine.

(* ================================================================== *)
(** ** [parser/base_parser.py] *)

(** A value stored in [entry.fields]. *)
Inductive pyval :=
| VStr (s : string)
| VInt (z : Z)
| VFloat (f : PyFloat.t)
| VBool (b : bool).

Module ParsedLogEntry.

Record t := mk {
  fields : Dict.t pyval;
  raw_line : string;
  line_number : option nat;
  timestamp : option Datetime.t;
  is_malformed : bool;
  parse_errors : list string;
  confidence : float
}.

(** [ParsedLogEntry(fields={}, raw_line=line, line_number=line_number)] *)
Definition new (line : string) (line_number : option nat) : t :=
  mk [] line line_number None false [] 1.

Definition add_parse_error (self : t) (error : string) : t :=
  let parse_errors := parse_errors self ++ [error] in
  mk (fields self) (raw_line self) (line_number self) (timestamp self)
     true parse_errors
     (fmax (1 # 10) (1 - inject_Z (Z.of_nat (List.length parse_errors)) * (2 # 10))).

(** [entry.fields[name] = value] *)
Definition set_field (self : t) (name : string) (value : pyval) : t :=
  mk (Dict.set (fields self) name value) (raw_line self) (line_number self)
     (timestamp self) (is_malformed self) (parse_errors self) (confidence self).

(** [entry.timestamp = dt] *)
Definition set_timestamp (self : t) (dt : option Datetime.t) : t :=
  mk (fields self) (raw_line self) (line_number self) dt
     (is_malformed self) (parse_errors self) (confidence self).

End ParsedLogEntry.

Module ParseResult.

(** [parse_statistics]: empty when there is no entry. *)
Record statistics := mkStatistics {
  field_extraction_rates : Dict.t (float * nat);
  average_confidence : float;
  error_types : Dict.t nat
}.

Record t := mk {
  entries : list ParsedLogEntry.t;
  total_lines : nat;
  successfully_parsed : nat;
  malformed_lines : nat;
  parse_statistics : option statistics;
  format_detection_confidence : option float
}.

Definition success_rate (self : t) : float :=
  if 0 <? total_lines self
  then fdiv_nat (successfully_parsed self) (total_lines self) else 0.

End ParseResult.

Module Parser.
Import LogCore.
Local Open Scope stateful_scope.

(** The classes registered in the parsing engine. *)
Inductive parser_class :=
| JSONParser | DelimitedParser | KeyValueParser | WebLogParser
| SyslogParser | SystemdJournalParser | PatternBasedParser.

(** A parser object: its class and the attributes [__init__] and
    [_setup_parser] give it.  [patterns] is used by the pattern-based
    classes, [field_names] and [delimiter] by [DelimitedParser];
    [delimiter] is whatever [metadata] holds under that key. *)
Record t := mk {
  cls : parser_class;
  detection_result : FormatDetectionResult.t;
  patterns : list LinePatterns.LogPattern;
  field_names : list string;
  delimiter : meta_value
}.

Definition schema (self : t) : Schema :=
  FormatDetectionResult.schema (detection_result self).
Definition format_type (self : t) : LogFormat :=
  FormatDetectionResult.format_type (detection_result self).

(** Code that fills an entry and can raise. *)
Definition PM (A : Type) : Type := stateful ParsedLogEntry.t A.

Definition add_parse_error (error : string) : PM unit :=
  smodify (fun entry => ParsedLogEntry.add_parse_error entry error).
Definition set_field (name : string) (value : pyval) : PM unit :=
  smodify (fun entry => ParsedLogEntry.set_field entry name value).
Definition set_timestamp (dt : Datetime.t) : PM unit :=
  smodify (fun entry => ParsedLogEntry.set_timestamp entry (Some dt)).

Section WithEnv.
Context {E : PyEnv}.

(** [BaseParser._convert_field_value] *)
Definition _convert_field_value (self : t) (field_name value : string) : pyval :=
  match Dict.get (schema self) field_name with
  | None => VStr value
  | Some field_info =>
      let data_type := PyStr.lower (FieldInfo.data_type field_info) in
      if String.eqb data_type "integer" then
        match PyStr.to_int value with
        | Some z => VInt z
        | None => VStr value
        end
      else if String.eqb data_type "float" then
        match PyFloat.of_string value with
        | Some f => VFloat f
        | None => VStr value
        end
      else if String.eqb data_type "boolean" then
        VBool (PyStr.mem (PyStr.lower value) ["true"; "1"; "yes"; "on"])
      else VStr value
  end.

(** [BaseParser._extract_timestamp_from_entry] *)
Fixpoint first_timestamp (items : list (string * pyval))
  : result (option Datetime.t) :=
  match items with
  | [] => Ok None
  | (_, VStr value) :: rest =>
      match TimestampDetector.detect_timestamp value with
      | Raise e => Raise e
      | Ok (best :: _) => Ok (Some (TimestampDetector.det_dt best))
      | Ok [] => first_timestamp rest
      end
  | _ :: rest => first_timestamp rest
  end.

Definition _extract_timestamp_from_entry : PM (option Datetime.t) :=
  entry <~ sget ;;
  slift (first_timestamp (ParsedLogEntry.fields entry)).

(** [entry.timestamp = self._extract_timestamp_from_entry(entry)] *)
Definition assign_extracted_timestamp : PM unit :=
  dt <~ _extract_timestamp_from_entry ;;
  smodify (fun entry => ParsedLogEntry.set_timestamp entry dt).

(** The branch shared by every place that stores a timestamp text and
    asks the detector for its value: [entry.timestamp] is set when
    something is detected, [error] is recorded otherwise. *)
Definition detect_into_timestamp (value : string) (error : string) : PM unit :=
  detected <~ slift (TimestampDetector.detect_timestamp value) ;;
  match detected with
  | best :: _ => set_timestamp (TimestampDetector.det_dt best)
  | [] => add_parse_error error
  end.

(** [BaseParser._map_field_value] *)
Definition _map_field_value (self : t) (field_name value : string) : PM unit :=
  if Dict.mem (schema self) field_name then
    if String.eqb field_name "timestamp" then
      set_field field_name (VStr value) ;;;
      detect_into_timestamp value ("Failed to parse timestamp: " ++ value)
    else set_field field_name (_convert_field_value self field_name value)
  else sret tt.

(** The loop over [enumerate(pattern.field_names, 1)] of
    [PatternBasedParser._try_pattern]: [match.group(i).strip()] raises
    [AttributeError] for a group that took no part in the match. *)
Definition map_groups (self : t) (pattern : LinePatterns.LogPattern)
           (m : Re.match_obj) : PM unit :=
  sfor (combine (seq 1 (List.length (LinePatterns.field_names pattern)))
                (LinePatterns.field_names pattern))
       (fun '(i, field_name) =>
          if i <=? List.length (Re.m_groups m) then
            match Re.group m i with
            | Some g => _map_field_value self field_name (PyStr.strip g)
            | None => sraise Detectors.attribute_error
            end
          else sret tt).

(** [PatternBasedParser._try_pattern] *)
Definition base_try_pattern (self : t) (line : string)
           (pattern : LinePatterns.LogPattern) : PM bool :=
  match Re.match_ (LinePatterns.pattern pattern) line with
  | None => sret false
  | Some m => map_groups self pattern m ;;; sret true
  end.

(** [PatternBasedParser._fallback_parsing] *)
Definition base_fallback_parsing (self : t) (line : string) : PM unit :=
  add_parse_error "No matching pattern found - using fallback parsing" ;;;
  detected <~ slift (TimestampDetector.detect_timestamp line) ;;
  (match detected with
   | best :: _ =>
       set_timestamp (TimestampDetector.det_dt best) ;;;
       if Dict.mem (schema self) "timestamp"
       then set_field "timestamp" (VStr line) else sret tt
   | [] => sret tt
   end) ;;;
  if Dict.mem (schema self) "message"
  then set_field "message" (VStr line) else sret tt.

(* ------------------------------------------------------------------ *)
(** *** [parser/web_log_parsers.py] *)

Definition index_error : exn := Exn IndexError "list index out of range".

(** [WebLogParser._parse_web_timestamp] *)
Definition _parse_web_timestamp (self : t) : PM unit :=
  entry <~ sget ;;
  match Dict.get (ParsedLogEntry.fields entry) "timestamp" with
  | Some (VStr timestamp_str) =>
      let by_detector :=
        detect_into_timestamp timestamp_str
          ("Failed to parse timestamp: " ++ timestamp_str) in
      if LogFormat_eqb (format_type self) NGINX_ERROR then
        match strptime timestamp_str "%Y/%m/%d %H:%M:%S" with
        | Some dt => set_timestamp dt
        | None => by_detector
        end
      else if PyStr.contains timestamp_str "[" then
        match PyStr.split_ws (PyStr.strip_chars "[]" timestamp_str) with
        | clean_timestamp :: _ =>
            match strptime clean_timestamp "%d/%b/%Y:%H:%M:%S" with
            | Some dt => set_timestamp dt
            | None => by_detector
            end
        | [] => sraise index_error
        end
      else by_detector
  | _ => sraise (Exn TypeError "timestamp field is not a string")
  end.

(** [WebLogParser._parse_request_field]: whatever its body raises is
    passed over. *)
Definition _parse_request_field (self : t) : PM unit :=
  entry <~ sget ;;
  match Dict.get (ParsedLogEntry.fields entry) "request" with
  | Some (VStr request) =>
      if negb (PyStr.truthy request) || String.eqb request "-" then sret tt
      else
        match PyStr.split_ws request with
        | method :: path :: more =>
            (if Dict.mem (schema self) "method"
             then set_field "method" (VStr method) else sret tt) ;;;
            (if Dict.mem (schema self) "path"
             then set_field "path" (VStr path) else sret tt) ;;;
            match more with
            | protocol :: _ =>
                if Dict.mem (schema self) "protocol"
                then set_field "protocol" (VStr protocol) else sret tt
            | [] => sret tt
            end
        | _ => sret tt
        end
  | _ => sret tt
  end.

(** [WebLogParser._try_pattern] *)
Definition web_try_pattern (self : t) (line : string)
           (pattern : LinePatterns.LogPattern) : PM bool :=
  hit <~ base_try_pattern self line pattern ;;
  if negb hit then sret false
  else
    entry <~ sget ;;
    (if Dict.mem (ParsedLogEntry.fields entry) "timestamp"
     then _parse_web_timestamp self else sret tt) ;;;
    entry <~ sget ;;
    (if Dict.mem (ParsedLogEntry.fields entry) "request"
     then _parse_request_field self else sret tt) ;;;
    sret true.

(* ------------------------------------------------------------------ *)
(** *** [parser/syslog_parsers.py], [SyslogParser] *)

(** [SyslogParser._extract_facility_severity] *)
Definition _extract_facility_severity (self : t) (priority : Z) : PM unit :=
  let facility := Z.shiftr priority 3 in
  let severity := Z.land priority 7 in
  (if Dict.mem (schema self) "facility"
   then set_field "facility"
          (_convert_field_value self "facility" (PyStr.of_Z facility))
   else sret tt) ;;;
  (if Dict.mem (schema self) "severity"
   then set_field "severity"
          (_convert_field_value self "severity" (PyStr.of_Z severity))
   else sret tt).

(** The timestamp branch of the RFC 3164 and journalctl paths: the
    current year is put in front and [strptime] is tried; when it fails,
    [_map_field_value] is called. *)
Definition year_timestamp (self : t) (field_name value : string) : PM unit :=
  let full_timestamp := (PyStr.of_nat current_year ++ " " ++ value)%string in
  match strptime full_timestamp "%Y %b %d %H:%M:%S" with
  | Some dt => set_timestamp dt
  | None => _map_field_value self field_name value
  end.

(** [SyslogParser._parse_rfc_pattern] *)
Definition _parse_rfc_pattern (self : t) (p : Re.pattern) (m : Re.match_obj)
           (rfc_type : string) : PM unit :=
  let grp := Re.group_named p m in
  let field_mapping : list (string * option string) :=
    if String.eqb rfc_type "RFC3164" then
      [("priority", grp "priority"); ("timestamp", grp "timestamp");
       ("hostname", grp "hostname"); ("tag", grp "tag");
       ("message", grp "message")]
    else
      [("priority", grp "priority"); ("version", grp "version");
       ("timestamp", grp "timestamp"); ("hostname", grp "hostname");
       ("app_name", grp "app_name"); ("procid", grp "procid");
       ("msgid", grp "msgid"); ("message", grp "message")] in
  sfor field_mapping
    (fun '(field_name, value) =>
       match value with
       | Some value =>
           if Dict.mem (schema self) field_name && PyStr.truthy value then
             if String.eqb field_name "timestamp" then
               set_field field_name (VStr value) ;;;
               if String.eqb rfc_type "RFC3164"
               then year_timestamp self field_name value
               else _map_field_value self field_name value
             else set_field field_name (_convert_field_value self field_name value)
           else sret tt
       | None => sret tt
       end) ;;;
  match grp "priority" with
  | Some priority =>
      if PyStr.truthy priority then
        match PyStr.to_int priority with
        | Some n => _extract_facility_severity self n
        | None => sraise (Exn ValueError "invalid literal for int()")
        end
      else sret tt
  | None => sret tt
  end.

(** [SyslogParser._try_pattern] *)
Definition syslog_try_pattern (self : t) (line : string)
           (pattern : LinePatterns.LogPattern) : PM bool :=
  match Re.match_ (LinePatterns.pattern pattern) line with
  | None => sret false
  | Some m =>
      (if PyStr.mem (LinePatterns.name pattern) ["RFC3164"; "RFC5424"]
       then _parse_rfc_pattern self (LinePatterns.pattern pattern) m
              (LinePatterns.name pattern)
       else map_groups self pattern m) ;;;
      sret true
  end.

(** [self.simple_pattern]: three word characters, a day of one or two
    digits and a time in the first group, a run without blanks in the
    second, the rest of the line in the third. *)
Definition simple_pattern : Re.pattern :=
  Re.unnamed
    (Re.cat [Re.RBol;
             Re.RGroup 1 (Re.cat [Re.times 3 Re.w; Re.plus Re.ws;
                                  Re.between 1 2 Re.d; Re.plus Re.ws;
                                  LinePatterns.hms]);
             Re.plus Re.ws; Re.RGroup 2 (Re.plus Re.nws); Re.plus Re.ws;
             Re.RGroup 3 (Re.star Re.any); Re.REol]).

(** The loop over a mapping with [timestamp], shared by
    [SyslogParser._fallback_parsing] and
    [SystemdJournalParser._parse_journalctl_output]. *)
Definition map_with_year (self : t) (field_mapping : list (string * string))
  : PM unit :=
  sfor field_mapping
    (fun '(field_name, value) =>
       if Dict.mem (schema self) field_name then
         if String.eqb field_name "timestamp" then
           set_field field_name (VStr value) ;;;
           year_timestamp self field_name value
         else set_field field_name (_convert_field_value self field_name value)
       else sret tt).

Definition group_text (m : Re.match_obj) (i : nat) : string :=
  match Re.group m i with Some g => g | None => "" end.

(** [SyslogParser._fallback_parsing] *)
Definition syslog_fallback_parsing (self : t) (line : string) : PM unit :=
  match Re.match_ simple_pattern line with
  | Some m =>
      map_with_year self
        [("timestamp", group_text m 1); ("hostname", group_text m 2);
         ("message", group_text m 3)]
  | None => base_fallback_parsing self line
  end.

(** [PatternBasedParser.parse_line], [_try_pattern] and
    [_fallback_parsing] being those of the parser's class. *)
Definition _try_pattern (self : t) : string -> LinePatterns.LogPattern -> PM bool :=
  match cls self with
  | WebLogParser => web_try_pattern self
  | SyslogParser => syslog_try_pattern self
  | _ => base_try_pattern self
  end.

Definition _fallback_parsing (self : t) : string -> PM unit :=
  match cls self with
  | SyslogParser => syslog_fallback_parsing self
  | _ => base_fallback_parsing self
  end.

Fixpoint try_patterns (self : t) (line : string)
         (patterns : list LinePatterns.LogPattern) : PM unit :=
  match patterns with
  | [] => _fallback_parsing self line
  | pattern :: rest =>
      hit <~ _try_pattern self line pattern ;;
      if hit then sret tt else try_patterns self line rest
  end.

(** [try: body / except Exception as e: entry.add_parse_error(prefix + str(e))],
    then [return entry]. *)
Definition guarded (prefix : string) (body : PM unit) (entry : ParsedLogEntry.t)
  : ParsedLogEntry.t :=
  match body entry with
  | (entry', Ok _) => entry'
  | (entry', Raise e) =>
      ParsedLogEntry.add_parse_error entry' (prefix ++ exn_msg e)
  end.

Definition pattern_parse_line (self : t) (line : string)
           (line_number : option nat) : ParsedLogEntry.t :=
  guarded "Parsing error: " (try_patterns self line (patterns self))
          (ParsedLogEntry.new line line_number).

(* ------------------------------------------------------------------ *)
(** *** [parser/structured_parsers.py] *)

Definition dq : string := LinePatterns.dq.

(** [field_name in json_data] and [json_data[field_name]] for what
    [json.loads] returned. *)
Definition json_contains (data : json_value) (field_name : string) : result bool :=
  match data with
  | JDict items => Ok (Dict.mem items field_name)
  | JString s => Ok (PyStr.contains s field_name)
  | JList strings => Ok (PyStr.mem field_name strings)
  | JAtom => Raise (Exn TypeError "argument is not iterable")
  end.

Definition json_index (data : json_value) (field_name : string) : result string :=
  match data with
  | JDict items =>
      match Dict.get items field_name with
      | Some v => Ok v
      | None => Raise (Exn KeyError field_name)
      end
  | _ => Raise (Exn TypeError "indices must be integers")
  end.

(** The body of [JSONParser.parse_line]. *)
Definition json_body (self : t) (line : string) : PM unit :=
  json_data <~ slift (json_loads line) ;;
  sfor (Dict.keys (schema self))
    (fun field_name =>
       present <~ slift (json_contains json_data field_name) ;;
       if present then
         raw_value <~ slift (json_index json_data field_name) ;;
         set_field field_name (_convert_field_value self field_name raw_value)
       else
         add_parse_error
           ("Expected field " ++ dq ++ field_name ++ dq ++ " not found in JSON")) ;;;
  assign_extracted_timestamp.

(** [JSONParser.parse_line]: the two handlers record the exception under
    different headings. *)
Definition json_parse_line (self : t) (line : string) (line_number : option nat)
  : ParsedLogEntry.t :=
  match json_body self line (ParsedLogEntry.new line line_number) with
  | (entry, Ok _) => entry
  | (entry, Raise e) =>
      if isinstance e JSONDecodeError
      then ParsedLogEntry.add_parse_error entry ("Invalid JSON: " ++ exn_msg e)
      else ParsedLogEntry.add_parse_error entry
             ("Unexpected error parsing JSON: " ++ exn_msg e)
  end.

(** [DelimitedParser._get_delimiter_candidates] *)
Definition _get_delimiter_candidates (format_type : LogFormat) : list string :=
  if LogFormat_eqb format_type CSV
  then [","; ";"; Detectors.tab; "|"]
  else ["|"; ";"; Detectors.tab; ","; ":"; " "].

(** [DelimitedParser._get_default_delimiter] *)
Definition _get_default_delimiter (format_type : LogFormat) : string :=
  if LogFormat_eqb format_type CSV then "," else "|".

Definition abs_diff (a b : nat) : nat := (a - b) + (b - a).

(** [max(delimiter_scores.items(), key=lambda x: x[1])] *)
Fixpoint first_max_score (best : string * float) (l : list (string * float))
  : string * float :=
  match l with
  | [] => best
  | x :: l' => first_max_score (if Qlt_bool (snd best) (snd x) then x else best) l'
  end.

(** [DelimitedParser._detect_delimiter] *)
Definition _detect_delimiter (r : FormatDetectionResult.t)
           (field_names : list string) : meta_value :=
  match Dict.get (FormatDetectionResult.metadata r) "delimiter" with
  | Some v => v
  | None =>
      match FormatDetectionResult.sample_lines r with
      | [] => MStr (_get_default_delimiter (FormatDetectionResult.format_type r))
      | sample_line :: _ =>
          let expected_fields := List.length field_names in
          let delimiter_scores :=
            fold_left
              (fun scores delim =>
                 let count := PyStr.count sample_line delim in
                 let field_count := count + 1 in
                 let score :=
                   (inject_Z (Z.of_nat count)
                    * (1 / inject_Z (Z.of_nat (1 + abs_diff field_count expected_fields))))%Q in
                 Dict.set scores delim score)
              (_get_delimiter_candidates (FormatDetectionResult.format_type r)) [] in
          match delimiter_scores with
          | [] => MStr (_get_default_delimiter (FormatDetectionResult.format_type r))
          | x :: rest => MStr (fst (first_max_score x rest))
          end
      end
  end.

(** The parts of a line: [next(csv.reader(StringIO(line), delimiter=d))]
    for CSV and [line.split(d)] otherwise. *)
Definition split_parts (self : t) (line : string) : result (list string) :=
  match delimiter self with
  | MStr d =>
      if LogFormat_eqb (format_type self) CSV then
        if String.length d =? 1 then
          match csv_reader (CsvDialect.with_delimiter CsvDialect.excel d) line with
          | Ok (parts :: _) => Ok parts
          | Ok [] => Raise (Exn StopIteration "")
          | Raise e => Raise e
          end
        else Raise (Exn TypeError "delimiter must be a 1-character string")
      else if String.length d =? 0 then Raise (Exn ValueError "empty separator")
      else Ok (PyStr.split line d)
  | _ => Raise (Exn TypeError "must be str")
  end.

(** [if not entry.timestamp: for value in parts: ...]: the first part in
    which a timestamp is detected. *)
Fixpoint first_detected (parts : list string) : PM unit :=
  match parts with
  | [] => sret tt
  | value :: rest =>
      detected <~ slift (TimestampDetector.detect_timestamp (PyStr.strip value)) ;;
      match detected with
      | best :: _ => set_timestamp (TimestampDetector.det_dt best)
      | [] => first_detected rest
      end
  end.

(** The body of [DelimitedParser.parse_line]. *)
Definition delimited_body (self : t) (line : string) : PM unit :=
  parts <~ slift (split_parts self line) ;;
  sfor (combine (seq 0 (List.length (field_names self))) (field_names self))
    (fun '(i, field_name) =>
       if i <? List.length parts then
         let raw_value := PyStr.strip (nth i parts "") in
         match Dict.get (schema self) field_name with
         | Some field_info =>
             if FieldInfo.is_timestamp field_info then
               set_field field_name (VStr raw_value) ;;;
               detect_into_timestamp raw_value
                 ("Failed to parse timestamp: " ++ raw_value)
             else
               set_field field_name
                 (_convert_field_value self field_name raw_value)
         | None => sret tt
         end
       else
         add_parse_error
           ("Missing value for field " ++ dq ++ field_name ++ dq)) ;;;
  (if List.length (field_names self) <? List.length parts then
     add_parse_error
       ("Extra values found: "
          ++ PyStr.of_nat (List.length parts - List.length (field_names self))
          ++ " more")
   else sret tt) ;;;
  entry <~ sget ;;
  match ParsedLogEntry.timestamp entry with
  | None => first_detected parts
  | Some _ => sret tt
  end.

Definition delimited_parse_line (self : t) (line : string)
           (line_number : option nat) : ParsedLogEntry.t :=
  guarded "Delimited parsing error: " (delimited_body self line)
          (ParsedLogEntry.new line line_number).

(** The pattern of [KeyValueParser] for LTSV: a key without colon or
    tab, a colon, a value without tab. *)
Definition kv_pattern : Re.pattern :=
  Re.unnamed
    (Re.cat [Re.RGroup 1 (Re.plus (Re.nset [Re.ALit ":"; Re.ALit "009"%char]));
             Re.lit ":";
             Re.RGroup 2 (Re.star (Re.nset [Re.ALit "009"%char]))]).

(** The dict [found_fields] of [KeyValueParser.parse_line]. *)
Definition found_fields (self : t) (line : string) : Dict.t string :=
  if LogFormat_eqb (format_type self) LTSV then
    fold_left (fun found '(key, value) =>
                 Dict.set found (PyStr.strip key) (PyStr.strip value))
              (Re.findall2 kv_pattern line) []
  else
    fold_left
      (fun found pattern =>
         fold_left
           (fun found '(key, value) =>
              let key := PyStr.strip key in
              let value := PyStr.strip value in
              if PyStr.truthy key && PyStr.truthy value
              then Dict.set found key value else found)
           (Re.findall2 (LinePatterns.pattern pattern) line) found)
      (patterns self) [].

(** The body of [KeyValueParser.parse_line]. *)
Definition kv_body (self : t) (line : string) : PM unit :=
  let found := found_fields self line in
  match found with
  | [] => add_parse_error "No valid key-value pairs found"
  | _ =>
      sfor (Dict.keys (schema self))
        (fun field_name =>
           match Dict.get found field_name with
           | Some v => set_field field_name (_convert_field_value self field_name v)
           | None =>
               let found_key :=
                 find (fun k => String.eqb (PyStr.lower k) (PyStr.lower field_name))
                      (Dict.keys found) in
               match found_key with
               | Some k =>
                   if PyStr.truthy k then
                     match Dict.get found k with
                     | Some v =>
                         set_field field_name
                           (_convert_field_value self field_name v)
                     | None => sret tt
                     end
                   else
                     add_parse_error
                       ("Expected field " ++ dq ++ field_name ++ dq ++ " not found")
               | None =>
                   add_parse_error
                     ("Expected field " ++ dq ++ field_name ++ dq ++ " not found")
               end
           end) ;;;
      assign_extracted_timestamp
  end.

Definition kv_parse_line (self : t) (line : string) (line_number : option nat)
  : ParsedLogEntry.t :=
  guarded "Key-value parsing error: " (kv_body self line)
          (ParsedLogEntry.new line line_number).

(* ------------------------------------------------------------------ *)
(** *** [parser/syslog_parsers.py], [SystemdJournalParser] *)

(** [self.field_pattern]: a journal field name in the first group, the
    equals sign, the rest of the line in the second group. *)
Definition field_pattern : Re.pattern :=
  Re.unnamed
    (Re.cat [Re.RBol;
             Re.RGroup 1
               (Re.cat [Re.set [Re.ARange "A" "Z"; Re.ALit "_"];
                        Re.star (Re.set [Re.ARange "A" "Z"; Re.ARange "0" "9";
                                         Re.ALit "_"])]);
             Re.lit "="; Re.RGroup 2 (Re.star Re.any); Re.REol]).

(** [self.journalctl_pattern]: the timestamp as in [simple_pattern], a
    host, a service up to the first colon, the message. *)
Definition journalctl_pattern : Re.pattern :=
  Re.unnamed
    (Re.cat [Re.RBol;
             Re.RGroup 1 (Re.cat [Re.times 3 Re.w; Re.plus Re.ws;
                                  Re.between 1 2 Re.d; Re.plus Re.ws;
                                  LinePatterns.hms]);
             Re.plus Re.ws; Re.RGroup 2 (Re.plus Re.nws); Re.plus Re.ws;
             Re.RGroup 3 LinePatterns.not_colon; Re.lit ":"; Re.star Re.ws;
             Re.RGroup 4 (Re.star Re.any); Re.REol]).

(** [^[A-Z_][A-Z0-9_]*$] *)
Definition journal_name_pattern : Re.pattern :=
  Re.unnamed
    (Re.cat [Re.RBol; Re.set [Re.ARange "A" "Z"; Re.ALit "_"];
             Re.star (Re.set [Re.ARange "A" "Z"; Re.ARange "0" "9"; Re.ALit "_"]);
             Re.REol]).

(** [SystemdJournalParser._parse_journalctl_output] *)
Definition _parse_journalctl_output (self : t) (line : string) : PM unit :=
  match Re.match_ journalctl_pattern line with
  | None =>
      add_parse_error "Line does not match journalctl output format" ;;;
      if Dict.mem (schema self) "message"
      then set_field "message" (VStr line) else sret tt
  | Some m =>
      map_with_year self
        [("timestamp", group_text m 1); ("hostname", group_text m 2);
         ("service", group_text m 3); ("message", group_text m 4)]
  end.

(** The branch for [__REALTIME_TIMESTAMP]:
    [datetime.fromtimestamp(float(value) / 1000000)] inside a handler
    for [ValueError] and [OSError]. *)
Definition realtime_timestamp (field_name value : string) : PM unit :=
  set_field field_name (VStr value) ;;;
  stry
    (match PyFloat.of_string value with
     | None => sraise (Exn ValueError "could not convert string to float")
     | Some PyFloat.NaN => sraise (Exn ValueError "cannot convert float NaN to integer")
     | Some (PyFloat.Inf _) =>
         sraise (Exn OverflowError "cannot convert float infinity to integer")
     | Some (PyFloat.Finite q) =>
         dt <~ slift (fromtimestamp (q / 1000000)%Q) ;;
         set_timestamp dt
     end)
    (fun e =>
       if isinstance e ValueError || isinstance e OSError
       then add_parse_error ("Failed to parse realtime timestamp: " ++ value)
       else sraise e).

(** A field of the schema found in a journal line. *)
Definition store_journal_field (self : t) (field_name value : string) : PM unit :=
  if Dict.mem (schema self) field_name then
    if String.eqb field_name "__REALTIME_TIMESTAMP"
    then realtime_timestamp field_name value
    else set_field field_name (_convert_field_value self field_name value)
  else sret tt.

(** The body of [SystemdJournalParser._parse_journal_entry]. *)
Definition journal_entry_body (self : t) (entry_lines : list string) : PM unit :=
  let journalctl :=
    match entry_lines with
    | [only] => negb (PyStr.contains only "=")
    | _ => false
    end in
  if journalctl then _parse_journalctl_output self (hd "" entry_lines)
  else
    sfor entry_lines
      (fun line =>
         if negb (PyStr.contains line "=")
         then add_parse_error ("Invalid journal field format: " ++ line)
         else
           match PyStr.split_max line "=" 1 with
           | [field_name; value] =>
               match Re.match_ journal_name_pattern field_name with
               | None =>
                   add_parse_error ("Invalid journal field name: " ++ field_name)
               | Some _ =>
                   stry (store_journal_field self field_name value)
                     (fun e =>
                        if isinstance e ValueError then
                          add_parse_error
                            ("Error parsing field from line '" ++ line ++ "': "
                               ++ exn_msg e)
                        else sraise e)
               end
           | _ => sret tt
           end).

(** [SystemdJournalParser._parse_journal_entry] *)
Definition _parse_journal_entry (self : t) (entry_lines : list string)
  : ParsedLogEntry.t :=
  guarded "Systemd journal parsing error: " (journal_entry_body self entry_lines)
          (ParsedLogEntry.new (PyStr.join Detectors.newline entry_lines) None).

(** The body of [SystemdJournalParser.parse_line]. *)
Definition journal_line_body (self : t) (line : string) : PM unit :=
  if PyStr.contains line "=" then
    match Re.match_ field_pattern line with
    | None => add_parse_error "Invalid journal field format"
    | Some m => store_journal_field self (group_text m 1) (group_text m 2)
    end
  else _parse_journalctl_output self line.

Definition journal_parse_line (self : t) (line : string)
           (line_number : option nat) : ParsedLogEntry.t :=
  guarded "Systemd journal parsing error: " (journal_line_body self line)
          (ParsedLogEntry.new line line_number).

(** [SystemdJournalParser._group_lines_into_entries]; the state is
    [(entries, current_entry)]. *)
Definition _group_lines_into_entries (lines : list string) : list (list string) :=
  let '(entries, current_entry) :=
    fold_left
      (fun '(entries, current_entry) line =>
         if negb (PyStr.truthy (PyStr.strip line)) then
           match current_entry with
           | [] => (entries, current_entry)
           | _ => (entries ++ [current_entry], [])
           end
         else (entries, current_entry ++ [PyStr.strip line]))
      lines (([] : list (list string)), ([] : list string)) in
  match current_entry with
  | [] => entries
  | _ => entries ++ [current_entry]
  end.

(* ------------------------------------------------------------------ *)
(** *** [parse_line], [parse_lines] and the statistics *)

(** [self.parse_line(line, line_number)], by the class of the parser. *)
Definition parse_line (self : t) (line : string) (line_number : option nat)
  : ParsedLogEntry.t :=
  match cls self with
  | JSONParser => json_parse_line self line line_number
  | DelimitedParser => delimited_parse_line self line line_number
  | KeyValueParser => kv_parse_line self line line_number
  | SystemdJournalParser => journal_parse_line self line line_number
  | WebLogParser | SyslogParser | PatternBasedParser =>
      pattern_parse_line self line line_number
  end.

(** [BaseParser._classify_error] *)
Definition _classify_error (error : string) : string :=
  let error_lower := PyStr.lower error in
  if PyStr.contains error_lower "timestamp" then "timestamp_parsing"
  else if PyStr.contains error_lower "field" then "field_extraction"
  else if PyStr.contains error_lower "format" then "format_mismatch"
  else if PyStr.contains error_lower "type" then "type_conversion"
  else "other".

(** [BaseParser._calculate_statistics] *)
Definition _calculate_statistics (self : t) (entries : list ParsedLogEntry.t)
  : option ParseResult.statistics :=
  match entries with
  | [] => None
  | _ =>
      let n := List.length entries in
      let field_stats :=
        fold_left
          (fun stats field_name =>
             let extracted_count :=
               List.length
                 (filter (fun entry => Dict.mem (ParsedLogEntry.fields entry) field_name)
                         entries) in
             Dict.set stats field_name (fdiv_nat extracted_count n, extracted_count))
          (Dict.keys (schema self)) [] in
      let error_counts :=
        fold_left
          (fun counts entry =>
             fold_left
               (fun counts error =>
                  let error_type := _classify_error error in
                  Dict.set counts error_type
                    (match Dict.get counts error_type with
                     | Some c => c + 1
                     | None => 1
                     end))
               (ParsedLogEntry.parse_errors entry) counts)
          entries [] in
      Some (ParseResult.mkStatistics field_stats
              (Detectors.sum_float (map ParsedLogEntry.confidence entries)
               / inject_Z (Z.of_nat n))%Q
              error_counts)
  end.

(** The local variables of the loops of [parse_lines]:
    [(entries, successfully_parsed, malformed_lines)]. *)
Definition tally := (list ParsedLogEntry.t * nat * nat)%type.

(** [entries.append(entry)] and the count of its kind. *)
Definition record_entry (acc : tally) (entry : ParsedLogEntry.t) : tally :=
  let '(entries, successfully_parsed, malformed_lines) := acc in
  if ParsedLogEntry.is_malformed entry
  then (entries ++ [entry], successfully_parsed, malformed_lines + 1)
  else (entries ++ [entry], successfully_parsed + 1, malformed_lines).

(** [len([l for l in lines if l.strip()])] *)
Definition count_non_blank (lines : list string) : nat :=
  List.length (filter (fun l => PyStr.truthy (PyStr.strip l)) lines).

(** [BaseParser.parse_lines]: the loop over [enumerate(lines, 1)]. *)
Definition base_parse_lines (self : t) (lines : list string) : ParseResult.t :=
  let '(entries, successfully_parsed, malformed_lines) :=
    fold_left
      (fun acc '(i, line) =>
         if negb (PyStr.truthy (PyStr.strip line)) then acc
         else record_entry acc (parse_line self (PyStr.strip line) (Some i)))
      (combine (seq 1 (List.length lines)) lines) ([], 0, 0) in
  ParseResult.mk entries (count_non_blank lines) successfully_parsed
    malformed_lines (_calculate_statistics self entries) None.

(** [SystemdJournalParser.parse_lines] *)
Definition journal_parse_lines (self : t) (lines : list string) : ParseResult.t :=
  let journal_entries := _group_lines_into_entries lines in
  let '(entries, successfully_parsed, malformed_lines) :=
    fold_left
      (fun acc entry_lines =>
         match entry_lines with
         | [] => acc
         | _ => record_entry acc (_parse_journal_entry self entry_lines)
         end)
      journal_entries ([], 0, 0) in
  ParseResult.mk entries (count_non_blank lines) successfully_parsed
    malformed_lines (_calculate_statistics self entries) None.

(** [parser.parse_lines(lines)] *)
Definition parse_lines (self : t) (lines : list string) : ParseResult.t :=
  match cls self with
  | SystemdJournalParser => journal_parse_lines self lines
  | _ => base_parse_lines self lines
  end.

End WithEnv.
End Parser.

(* ================================================================== *)
(** ** [parser/parsing_engine.py] *)

Module ParsingEngine.
Import LogCore.

(** [self.parser_classes] *)
Definition parser_classes : list (LogFormat * Parser.parser_class) :=
  [ (JSON, Parser.JSONParser);
    (CSV, Parser.DelimitedParser);
    (LTSV, Parser.KeyValueParser);
    (KEY_VALUE, Parser.KeyValueParser);
    (APACHE_COMMON, Parser.WebLogParser);
    (APACHE_COMBINED, Parser.WebLogParser);
    (APACHE_EXTENDED, Parser.WebLogParser);
    (NGINX_ACCESS, Parser.WebLogParser);
    (NGINX_ERROR, Parser.WebLogParser);
    (SYSLOG, Parser.SyslogParser);
    (SYSTEMD_JOURNAL, Parser.SystemdJournalParser);
    (PYTHON_LOG, Parser.PatternBasedParser);
    (BASIC_LOG, Parser.PatternBasedParser);
    (CUSTOM_DELIMITED, Parser.DelimitedParser) ].

(** [self.parser_classes[format_type]], [None] when the key is absent. *)
Fixpoint lookup (classes : list (LogFormat * Parser.parser_class))
         (format_type : LogFormat) : option Parser.parser_class :=
  match classes with
  | [] => None
  | (f, c) :: rest =>
      if LogFormat_eqb format_type f then Some c else lookup rest format_type
  end.

(** The module-level dict [patterns] as it stands: [WebLogParser] extends
    two of its lists in place. *)
Definition PatternTable := Dict.t (list LinePatterns.LogPattern).

(** [target = patterns[key]; target.extend(patterns[extra])] *)
Definition extend (tbl : PatternTable) (key extra : string) : PatternTable :=
  Dict.set tbl key
    (LinePatterns.patterns_at tbl key ++ LinePatterns.patterns_at tbl extra).

(** [WebLogParser._setup_parser]: the table after it, and the list the
    parser holds. *)
Definition web_setup (tbl : PatternTable) (format_type : LogFormat)
  : PatternTable * list LinePatterns.LogPattern :=
  match format_type with
  | APACHE_COMMON | APACHE_COMBINED =>
      (tbl, LinePatterns.patterns_at tbl "ApacheDetector")
  | APACHE_EXTENDED =>
      let tbl := extend tbl "ApacheDetector" "ApacheDetector_EXTENDED" in
      (tbl, LinePatterns.patterns_at tbl "ApacheDetector")
  | NGINX_ACCESS =>
      let tbl := extend tbl "NginxDetector" "NginxDetector_ACCESS_ALT" in
      (tbl, LinePatterns.patterns_at tbl "NginxDetector")
  | NGINX_ERROR =>
      let tbl := extend tbl "NginxDetector" "NginxDetector_ERROR_ALT" in
      (tbl, LinePatterns.patterns_at tbl "NginxDetector")
  | _ => (tbl, LinePatterns.patterns_at tbl "GenericWebLogDetector")
  end.

(** [parser_class(detection_result)]: [__init__] followed by the
    [_setup_parser] of the class. *)
Definition instantiate (tbl : PatternTable) (c : Parser.parser_class)
           (r : FormatDetectionResult.t) : PatternTable * Parser.t :=
  let format_type := FormatDetectionResult.format_type r in
  let plain patterns := Parser.mk c r patterns [] (MStr "") in
  match c with
  | Parser.JSONParser | Parser.SystemdJournalParser
  | Parser.PatternBasedParser => (tbl, plain [])
  | Parser.DelimitedParser =>
      let field_names := Dict.keys (FormatDetectionResult.schema r) in
      (tbl, Parser.mk c r [] field_names (Parser._detect_delimiter r field_names))
  | Parser.KeyValueParser =>
      if LogFormat_eqb format_type LTSV then (tbl, plain [])
      else (tbl, plain (LinePatterns.patterns_at tbl "KeyValueDetector"))
  | Parser.WebLogParser =>
      let '(tbl, patterns) := web_setup tbl format_type in (tbl, plain patterns)
  | Parser.SyslogParser =>
      (tbl, plain (LinePatterns.patterns_at tbl "SyslogDetector"))
  end.

(** [LogParsingEngine.create_parser], given the pattern table as it
    stands; it answers the table as it leaves it and the parser. *)
Definition create_parser (tbl : PatternTable) (detection_result : FormatDetectionResult.t)
  : result (PatternTable * Parser.t) :=
  let format_type := FormatDetectionResult.format_type detection_result in
  if LogFormat_eqb format_type UNKNOWN then
    Raise (Exn ValueError "Cannot create parser for unknown format")
  else
    match lookup parser_classes format_type with
    | None =>
        Raise (Exn ValueError
                 ("No parser available for format: " ++ LogFormat_value format_type))
    | Some parser_class =>
        let '(tbl, parser) := instantiate tbl parser_class detection_result in
        let parser :=
          match Parser.cls parser with
          | Parser.PatternBasedParser | Parser.WebLogParser | Parser.SyslogParser =>
              if LogFormat_eqb format_type PYTHON_LOG then
                Parser.mk (Parser.cls parser) detection_result
                  (LinePatterns.patterns_at tbl "PythonLogDetector")
                  (Parser.field_names parser) (Parser.delimiter parser)
              else if LogFormat_eqb format_type BASIC_LOG then
                Parser.mk (Parser.cls parser) detection_result
                  (LinePatterns.patterns_at tbl "BasicLogDetector")
                  (Parser.field_names parser) (Parser.delimiter parser)
              else parser
          | _ => parser
          end in
        Ok (tbl, parser)
    end.

(** [LogParsingEngine.parse_lines] *)
Definition parse_lines {E : PyEnv} (tbl : PatternTable) (lines : list string)
           (detection_result : FormatDetectionResult.t)
  : result (PatternTable * ParseResult.t) :=
  match create_parser tbl detection_result with
  | Raise e => Raise e
  | Ok (tbl, parser) =>
      let r := Parser.parse_lines parser lines in
      Ok (tbl,
          ParseResult.mk (ParseResult.entries r) (ParseResult.total_lines r)
            (ParseResult.successfully_parsed r) (ParseResult.malformed_lines r)
            (ParseResult.parse_statistics r)
            (Some (FormatDetectionResult.confidence detection_result)))
  end.

(** [LogParsingEngine.parse_single_line] *)
Definition parse_single_line {E : PyEnv} (tbl : PatternTable) (line : string)
           (detection_result : FormatDetectionResult.t)
  : result (PatternTable * ParsedLogEntry.t) :=
  match create_parser tbl detection_result with
  | Raise e => Raise e
  | Ok (tbl, parser) => Ok (tbl, Parser.parse_line parser line None)
  end.

(** [LogParsingEngine.get_supported_formats] *)
Definition get_supported_formats : list string :=
  map (fun kv => LogFormat_value (fst kv)) parser_classes.

(** The dict [validate_parsing_capability] returns. *)
Record validation := mkValidation {
  can_parse : bool;
  v_format_type : string;
  detection_confidence : float;
  estimated_parse_quality : float;
  warnings : list string;
  field_count : nat
}.

(** [LogParsingEngine.validate_parsing_capability] *)
Definition validate_parsing_capability (detection_result : FormatDetectionResult.t)
  : validation :=
  let format_type := FormatDetectionResult.format_type detection_result in
  let schema := FormatDetectionResult.schema detection_result in
  let refused warning :=
    mkValidation false (LogFormat_value format_type)
      (FormatDetectionResult.confidence detection_result) 0 [warning]
      (List.length schema) in
  if LogFormat_eqb format_type UNKNOWN then
    refused "Format is unknown - cannot parse"
  else
    match lookup parser_classes format_type with
    | None =>
        refused ("No parser available for format: "
                 ++ LogFormat_value format_type)%string
    | Some _ =>
        let base_quality := FormatDetectionResult.confidence detection_result in
        let timestamp_fields :=
          List.length (filter FieldInfo.is_timestamp (Dict.values schema)) in
        let timestamp_bonus :=
          fmin (inject_Z (Z.of_nat timestamp_fields) * (1 # 10))%Q (2 # 10)%Q in
        let field_bonus :=
          fmin (inject_Z (Z.of_nat (List.length schema)) * (5 # 100))%Q (3 # 10)%Q in
        let limited :=
          List.length (FormatDetectionResult.sample_lines detection_result) <? 3 in
        let sample_penalty := if limited then (1 # 10)%Q else 0%Q in
        let warnings :=
          if limited then ["Limited sample size may affect parsing accuracy"]
          else [] in
        let estimated_quality :=
          fmin (base_quality + timestamp_bonus + field_bonus - sample_penalty)%Q
               1%Q in
        let warnings :=
          if Qlt_bool estimated_quality (7 # 10)
          then warnings ++ ["Low estimated parsing quality - expect parsing errors"]
          else warnings in
        mkValidation true (LogFormat_value format_type)
          (FormatDetectionResult.confidence detection_result)
          estimated_quality warnings (List.length schema)
    end.

End ParsingEngine.

(* ================================================================== *)
(** ** Notions used to state the properties *)

Module Spec.
Import LogCore.

(** A result clears the threshold of the detector that produced it. *)
Definition clears (d : InferenceEngine.Detector) (r : FormatDetectionResult.t)
  : Prop :=
  (InferenceEngine.get_confidence_threshold d <= FormatDetectionResult.confidence r)%Q.

(** No detector returns a result that clears its threshold. *)
Definition none_clears (ds : list InferenceEngine.Detector) (lines : list string)
  : Prop :=
  forall d r, In d ds -> InferenceEngine.detect d lines = Ok r -> ~ clears d r.

(** The diagnostic the engine records for a detector that raised. *)
Definition error_of (lines : list string) (d : InferenceEngine.Detector)
  : list string :=
  match InferenceEngine.detect d lines with
  | Ok _ => []
  | Raise e =>
      [("Detector " ++ InferenceEngine.name d ++ " failed: " ++ exn_msg e)%string]
  end.

(** The diagnostics of all detectors, in the order of the list. *)
Definition detection_errors (ds : list InferenceEngine.Detector)
           (lines : list string) : list string :=
  flat_map (error_of lines) ds.

(** The result of a detector when it clears the threshold. *)
Definition cleared_of (lines : list string) (d : InferenceEngine.Detector)
  : list FormatDetectionResult.t :=
  match InferenceEngine.detect d lines with
  | Ok r =>
      if Qle_bool (InferenceEngine.get_confidence_threshold d)
                  (FormatDetectionResult.confidence r)
      then [r] else []
  | Raise _ => []
  end.

(** The results that clear their thresholds, in the order of the
    detectors. *)
Definition cleared (ds : list InferenceEngine.Detector) (lines : list string)
  : list FormatDetectionResult.t :=
  flat_map (cleared_of lines) ds.

(** The number of sample lines the refinement pass divides by. *)
Definition sample_count (r : FormatDetectionResult.t) : nat :=
  match FormatDetectionResult.sample_lines r with
  | [] => 1
  | l => List.length l
  end.

(** The share of the sample lines in which the field was seen, at most
    one. *)
Definition frequency_score (n : nat) (fi : FieldInfo.t) : Q :=
  Qmin (inject_Z (Z.of_nat (FieldInfo.frequency fi)) / inject_Z (Z.of_nat n)) 1.

(** The field confidence as the specification words it: the type bonus
    goes to a field whose type is not [string]. *)
Definition spec_field_confidence (n : nat) (fi : FieldInfo.t) : Q :=
  Qmin 1 (frequency_score n fi
          + (if FieldInfo.is_timestamp fi then 2 # 10 else 0)
          + (if String.eqb (FieldInfo.data_type fi) "string" then 0 else 1 # 10)).

(** The same with the type bonus going to a field whose type is not
    [unknown]. *)
Definition amended_field_confidence (n : nat) (fi : FieldInfo.t) : Q :=
  Qmin 1 (frequency_score n fi
          + (if FieldInfo.is_timestamp fi then 2 # 10 else 0)
          + (if String.eqb (FieldInfo.data_type fi) "unknown" then 0 else 1 # 10)).

(** A field description without its confidence. *)
Definition without_confidence (fi : FieldInfo.t) : FieldInfo.t :=
  FieldInfo.set_confidence fi 0.

(** Ten and fifty years in microseconds, as the code counts them. *)
Definition ten_years_us : Z := 86400 * 365 * 10 * 1000000.
Definition fifty_years_us : Z := 86400 * 365 * 50 * 1000000.

(** A computation keeps a property of the object it mutates, whether it
    returns or raises. *)
Definition keeps {S A : Type} (P : S -> Prop) (c : stateful S A) : Prop :=
  forall s, P s -> P (fst (c s)).

(** The entry invariant: the flag says whether errors were recorded, and
    the confidence is max(0.1, 1 - 0.2 n) for n recorded errors. *)
Definition entry_invariant (e : ParsedLogEntry.t) : Prop :=
  (ParsedLogEntry.is_malformed e = true <-> ParsedLogEntry.parse_errors e <> [])
  /\ (ParsedLogEntry.confidence e
      == Qmax (1 # 10)
              (1 - (2 # 10)
                   * inject_Z (Z.of_nat (List.length (ParsedLogEntry.parse_errors e)))))%Q.

(** An entry still carries the text and the line number it was created
    with. *)
Definition created_with (line : string) (line_number : option nat)
           (e : ParsedLogEntry.t) : Prop :=
  ParsedLogEntry.raw_line e = line /\ ParsedLogEntry.line_number e = line_number.

(** [l.strip()] is not empty. *)
Definition non_blank (l : string) : bool := PyStr.truthy (PyStr.strip l).

(** The lines of the input that are not blank, each with its 1-based
    position in the input. *)
Definition numbered_non_blank (lines : list string) : list (nat * string) :=
  filter (fun il => non_blank (snd il)) (combine (seq 1 (List.length lines)) lines).

(** The entry [BaseParser.parse_lines] makes of a numbered line. *)
Definition entry_of {E : PyEnv} (self : Parser.t) (il : nat * string)
  : ParsedLogEntry.t :=
  Parser.parse_line self (PyStr.strip (snd il)) (Some (fst il)).

Definition is_nil {A} (l : list A) : bool :=
  match l with [] => true | _ => false end.

(** A result with one field of type [string], seen once, and two sample
    lines. *)
Definition one_string_field : FormatDetectionResult.t :=
  FormatDetectionResult.mk BASIC_LOG (1 # 2)
    [("message", FieldInfo.mk "message" "string" false None ["a"] 1 0)]
    ["a"; "b"] [].

(** The order of the list [detect_timestamp] returns: [a] may stand
    before [b] when its confidence is at least that of [b] and, the
    confidences being equal, its datetime is not later. *)
Definition in_key_order (a b : TimestampDetector.detection) : Prop :=
  (TimestampDetector.det_confidence b <= TimestampDetector.det_confidence a)%Q
  /\ ((TimestampDetector.det_confidence a == TimestampDetector.det_confidence b)%Q ->
      (Datetime.micros (TimestampDetector.det_dt a)
       <= Datetime.micros (TimestampDetector.det_dt b))%Z).

(** A table with the one pattern for dates written with slashes, and
    what [strptime] answers for two days of July 2023 (microseconds
    since the epoch, naive). *)
Definition slash_datetime : PatternInfo.t :=
  PatternInfo.mk "slash_datetime"
    (Re.unnamed (Re.cat [LinePatterns.ymd_slash; Re.lit " "; LinePatterns.hms]))
    "%Y/%m/%d %H:%M:%S" (85 # 100) (Some "medium") None None.

Definition july_27 : Datetime.t := Datetime.mk 1690468200000000 false.
Definition july_26 : Datetime.t := Datetime.mk 1690381800000000 false.

Definition two_days_env : PyEnv := {|
  TIMESTAMP_PATTERNS := [slash_datetime];
  strptime := fun s fmt =>
    if String.eqb fmt "%Y/%m/%d %H:%M:%S" then
      if String.eqb s "2023/07/27 14:30:00" then Some july_27
      else if String.eqb s "2023/07/26 14:30:00" then Some july_26
      else None
    else None;
  now := fun aware => Datetime.mk 1700000000000000 aware;
  current_year := 2023;
  fromtimestamp := fun _ => Raise (Exn OSError "");
  json_loads := fun _ => Raise (Exn JSONDecodeError "");
  csv_sniff := fun _ _ => Raise (Exn CsvError "");
  csv_has_header := fun _ => Raise (Exn CsvError "");
  csv_reader := fun _ _ => Raise (Exn CsvError "")
|}.

Definition two_days_text : string := "2023/07/27 14:30:00 2023/07/26 14:30:00".

(** A computation never raises. *)
Definition returns {S A : Type} (c : stateful S A) : Prop :=
  forall s, exists s' a, c s = (s', Ok a).

(** A line that opens [2 ^ k] nested arrays. *)
Fixpoint doubled (s : string) (k : nat) : string :=
  match k with
  | O => s
  | S k' => doubled (s ++ s) k'
  end.

Definition nested_arrays (k : nat) : string := doubled "[" k.

(** An environment in which [json.loads] gives up on deep nesting with
    [RecursionError], as the decoder does when the nesting exceeds the
    recursion limit of the interpreter (1000 by default), and rejects
    any other text; nothing else is consulted.  The test is on the
    first 1024 characters. *)
Definition deep_json_env : PyEnv := {|
  TIMESTAMP_PATTERNS := [];
  strptime := fun _ _ => None;
  now := fun aware => Datetime.mk 1700000000000000 aware;
  current_year := 2023;
  fromtimestamp := fun _ => Raise (Exn OSError "");
  json_loads := fun s =>
    if PyStr.startswith s (nested_arrays 10)
    then Raise (Exn RecursionError
                  "maximum recursion depth exceeded while decoding a JSON array")
    else Raise (Exn JSONDecodeError "Expecting value");
  csv_sniff := fun _ _ => Raise (Exn CsvError "Could not determine delimiter");
  csv_has_header := fun _ => Raise (Exn CsvError "");
  csv_reader := fun _ _ => Raise (Exn CsvError "")
|}.

(** The first end-to-end scenario: a header and three rows. *)
Definition csv_lines : list string :=
  ["name,age,city"; "Alice,30,New York"; "Bob,25,London"; "Charlie,35,Sydney"].

Definition csv_text : string := PyStr.join Detectors.newline csv_lines.

Definition csv_rows : list (list string) :=
  map (fun l => PyStr.split l ",") csv_lines.

Definition csv_cells : list string := concat csv_rows.

(** [csv.excel] with the comma for its delimiter: the dialect of the
    fallback of the detector for these lines, and the one the parser
    reads each line with. *)
Definition excel_comma : CsvDialect.t :=
  CsvDialect.with_delimiter CsvDialect.excel ",".

(** What the scenario takes for granted about the environment:
    [json.loads] rejects the four lines, the timestamp table finds
    nothing in any of the twelve cells, the sniffer fails or settles on
    a dialect with the comma whose reader splits the text into its four
    rows, and the reader of [csv.excel] with the comma splits the text
    and each line at the commas (no cell holds a quote or a line
    break).  Nothing is asked of the reader of any other dialect. *)
Record csv_scenario (E : PyEnv) : Prop := {
  csv_json :
    forall l, In l csv_lines ->
              exists msg, json_loads l = Raise (Exn JSONDecodeError msg);
  csv_no_timestamp :
    forall v, In v csv_cells -> TimestampDetector.detect_timestamp v = Ok [];
  csv_sniffed :
    forall d, csv_sniff csv_text (PyStr.join "" Detectors.supported_delimiters)
              = Ok d ->
              CsvDialect.delimiter d = ","
              /\ csv_reader d csv_text = Ok csv_rows;
  csv_read :
    csv_reader excel_comma csv_text = Ok csv_rows
    /\ forall l, In l csv_lines ->
                 csv_reader excel_comma l = Ok [PyStr.split l ","]
}.

(** An environment for the two scenarios: an empty timestamp table,
    a [json.loads] that rejects every text, a sniffer that settles on
    the comma wherever there is one, a reader that splits at line
    breaks and delimiters, and a [strptime] that knows the one instant
    of the second scenario (11 October 2023, 22:14:15, in microseconds
    since the epoch, naive). *)
Definition october_11 : Datetime.t := Datetime.mk 1697062455000000 false.

Definition plain_env : PyEnv := {|
  TIMESTAMP_PATTERNS := [];
  strptime := fun s fmt =>
    if String.eqb fmt "%Y %b %d %H:%M:%S"
       && String.eqb s "2023 Oct 11 22:14:15"
    then Some october_11 else None;
  now := fun aware => Datetime.mk 1700000000000000 aware;
  current_year := 2023;
  fromtimestamp := fun _ => Raise (Exn OSError "");
  json_loads := fun _ => Raise (Exn JSONDecodeError "Expecting value");
  csv_sniff := fun text _ =>
    if PyStr.contains text ","
    then Ok CsvDialect.excel
    else Raise (Exn CsvError "Could not determine delimiter");
  csv_has_header := fun _ => Ok true;
  csv_reader := fun d text =>
    Ok (map (fun l => PyStr.split l (CsvDialect.delimiter d))
            (PyStr.split text Detectors.newline))
|}.

(** The second end-to-end scenario: one line of RFC 3164 with the
    priority 34. *)
Definition syslog_line : string :=
  "<34>Oct 11 22:14:15 mymachine su: 'su root' failed for lonvick on /dev/pts/8".

(** The texts of the groups of that line. *)
Definition syslog_values : list string :=
  ["34"; "Oct 11 22:14:15"; "mymachine";
   "'su root' failed for lonvick on /dev/pts/8"; "su"].

(** What the scenario takes for granted about the environment:
    [json.loads] rejects the line, and the timestamp detector returns a
    list, empty or not, for each of the five texts. *)
Record syslog_scenario (E : PyEnv) : Prop := {
  syslog_json :
    exists msg, json_loads syslog_line = Raise (Exn JSONDecodeError msg);
  syslog_timestamps :
    forall v, In v syslog_values ->
              exists l, TimestampDetector.detect_timestamp v = Ok l
}.

(** The answer of a detector is an exception or a result whose
    confidence is at most one. *)
Definition bounded (t : result FormatDetectionResult.t) : Prop :=
  match t with
  | Ok r => (FormatDetectionResult.confidence r <= 1)%Q
  | Raise _ => True
  end.

(** The data type of a field is one that [_convert_field_value] leaves
    as text. *)
Definition textual (fi : FieldInfo.t) : Prop :=
  FieldInfo.data_type fi = "string" \/ FieldInfo.data_type fi = "timestamp".

(** The fields of the entry parsed from the line. *)
Definition syslog_fields : Dict.t pyval :=
  [("priority", VInt 34); ("timestamp", VStr "Oct 11 22:14:15");
   ("hostname", VStr "mymachine"); ("tag", VStr "su");
   ("message", VStr "'su root' failed for lonvick on /dev/pts/8")].

(** The fields of the four entries parsed from the lines of the first
    scenario. *)
Definition csv_fields : list (Dict.t pyval) :=
  [ [("name", VStr "name"); ("age", VStr "age"); ("city", VStr "city")];
    [("name", VStr "Alice"); ("age", VInt 30); ("city", VStr "New York")];
    [("name", VStr "Bob"); ("age", VInt 25); ("city", VStr "London")];
    [("name", VStr "Charlie"); ("age", VInt 35); ("city", VStr "Sydney")] ].

End Spec.
(* ================================================================== *)
(** ** Properties of the code beyond the specification *)

Module Props.
Import LogCore.

(** Two spans of a text share no position. *)
Definition disjoint_spans (a b : TimestampDetector.spanned) : Prop :=
  forall p, ~ ((fst (fst a) <= p < snd (fst a)) /\ (fst (fst b) <= p < snd (fst b))).

(** A confidence is a number between 0 and 1. *)
Definition unit_interval (q : Q) : Prop := (0 <= q /\ q <= 1)%Q.

(** What the scan keeps true of [(results, found_positions)]. *)
Definition scan_inv (st : TimestampDetector.scan_state) : Prop :=
  Forall (fun x => unit_interval (TimestampDetector.det_confidence (snd x))) (fst st)
  /\ ForallOrdPairs disjoint_spans (fst st)
  /\ (forall x p, In x (fst st) -> fst (fst x) <= p < snd (fst x) -> In p (snd st)).

(** The sum of the counts of a dict of counters. *)
Definition total_count (d : Dict.t nat) : nat := list_sum (Dict.values d).

(** The number of entries that have the field. *)
Definition extracted (field_name : string) (entries : list ParsedLogEntry.t) : nat :=
  List.length (filter (fun e => Dict.mem (ParsedLogEntry.fields e) field_name) entries).

(** The number of errors recorded in the entries. *)
Definition error_total (entries : list ParsedLogEntry.t) : nat :=
  list_sum (map (fun e => List.length (ParsedLogEntry.parse_errors e)) entries).

(** The classes [_classify_error] answers. *)
Definition error_classes : list string :=
  ["timestamp_parsing"; "field_extraction"; "format_mismatch";
   "type_conversion"; "other"].

(** The pattern table after [n] parsers were created, one after the
    other, for the same detection result. *)
Fixpoint table_after (n : nat) (tbl : ParsingEngine.PatternTable)
         (r : FormatDetectionResult.t) : result ParsingEngine.PatternTable :=
  match n with
  | O => Ok tbl
  | S n' =>
      match ParsingEngine.create_parser tbl r with
      | Ok (tbl', _) => table_after n' tbl' r
      | Raise e => Raise e
      end
  end.

(** [n] copies of the list [l], one after the other: what [n] calls of
    [target.extend(l)] append to [target]. *)
Fixpoint copies {A} (n : nat) (l : list A) : list A :=
  match n with
  | O => []
  | S n' => l ++ copies n' l
  end.

(** The key [WebLogParser._setup_parser] extends for a format, and the
    key of the list it appends. *)
Definition extended_keys (f : LogFormat) : option (string * string) :=
  match f with
  | APACHE_EXTENDED => Some ("ApacheDetector", "ApacheDetector_EXTENDED")
  | NGINX_ACCESS => Some ("NginxDetector", "NginxDetector_ACCESS_ALT")
  | NGINX_ERROR => Some ("NginxDetector", "NginxDetector_ERROR_ALT")
  | _ => None
  end.

(** Every field of the entry is a field of the schema of the parser. *)
Definition fields_in_schema (self : Parser.t) (e : ParsedLogEntry.t) : Prop :=
  forall k, Dict.mem (ParsedLogEntry.fields e) k = true ->
            Dict.mem (Parser.schema self) k = true.

(** The names [DataTypeInferrer] and the detectors give to types. *)
Definition data_types : list string :=
  ["string"; "boolean"; "integer"; "float"; "timestamp"].

(** What holds of the [FieldInfo] a schema has under the key [k]. *)
Record field_wf (k : string) (fi : FieldInfo.t) : Prop := {
  wf_name : FieldInfo.name fi = k;
  wf_type : In (FieldInfo.data_type fi) data_types;
  wf_samples : List.length (FieldInfo.sample_values fi) <= 10;
  wf_distinct : NoDup (FieldInfo.sample_values fi);
  wf_frequency : List.length (FieldInfo.sample_values fi) <= FieldInfo.frequency fi;
  wf_format : FieldInfo.timestamp_format fi <> None -> FieldInfo.is_timestamp fi = true
}.

(** Every field info of the schema is well formed for its key. *)
Definition schema_wf (s : Schema) : Prop :=
  forall k fi, In (k, fi) s -> field_wf k fi.

(** The computation keeps [P] and, when it returns, its answer has [R]. *)
Definition answers {S A : Type} (P : S -> Prop) (c : stateful S A)
           (R : A -> Prop) : Prop :=
  forall s, P s ->
            P (fst (c s)) /\ match snd (c s) with Ok a => R a | Raise _ => True end.

(** [c] takes a state that has [P] to a state that has [Q], whether it
    returns or raises. *)
Definition hoare {S A : Type} (P : S -> Prop) (c : stateful S A)
           (Q : S -> Prop) : Prop :=
  forall s, P s -> Q (fst (c s)).

(** What a detection loop keeps after [n] lines: the schema is well
    formed, the matches counted are at most [n], the sample lines have
    [B]. *)
Definition loop_inv {C : Type} (m : C -> nat) (B : list string -> Prop)
           (n : nat) (st : Detectors.loop C) : Prop :=
  schema_wf (Detectors.schema st)
  /\ m (Detectors.counters st) <= n
  /\ B (Detectors.sample_lines st).

(** The two things a loop keeps of its sample lines: at most five of
    them when it appends only below five, nothing when it cuts the list
    at the end. *)
Definition at_most_5 (l : list string) : Prop := List.length l <= 5.
Definition any_samples (l : list string) : Prop := True.

(** What holds of the result of a detector. *)
Definition result_wf (r : FormatDetectionResult.t) : Prop :=
  unit_interval (FormatDetectionResult.confidence r)
  /\ List.length (FormatDetectionResult.sample_lines r) <= 5
  /\ schema_wf (FormatDetectionResult.schema r).

(** The answer has [Q] when there is one. *)
Definition result_has {A : Type} (Q : A -> Prop) (t : result A) : Prop :=
  match t with
  | Ok r => Q r
  | Raise _ => True
  end.

(** A field of a [DelimiterAnalysis] has a timestamp format only when
    it is flagged as a timestamp. *)
Definition datum_ok (fd : Detectors.field_datum) : Prop :=
  Detectors.fd_timestamp_format fd <> None -> Detectors.fd_is_timestamp fd = true.

(** A line that is empty once stripped. *)
Definition blank (line : string) : Prop := PyStr.truthy (PyStr.strip line) = false.

(** The result carries one of the labels, and the label UNKNOWN only
    with the confidence 0 and an empty schema. *)
Definition labelled (labels : list LogFormat) (r : FormatDetectionResult.t) : Prop :=
  In (FormatDetectionResult.format_type r) labels
  /\ (FormatDetectionResult.format_type r = UNKNOWN ->
      FormatDetectionResult.confidence r = 0%Q
      /\ FormatDetectionResult.schema r = []).

(** The formats each detector of the engine can answer, in the order of
    [LogSchemaInferenceEngine.__init__]. *)
Definition detector_labels : list (list LogFormat) :=
  [ [JSON]; [SYSLOG]; [PYTHON_LOG]; [SYSTEMD_JOURNAL];
    [UNKNOWN; APACHE_COMMON; APACHE_COMBINED; APACHE_EXTENDED];
    [UNKNOWN; NGINX_ACCESS; NGINX_ERROR];
    [CSV]; [LTSV]; [UNKNOWN; BASIC_LOG]; [CUSTOM_DELIMITED]; [KEY_VALUE];
    [BASIC_LOG] ].

(** The three detectors that answer UNKNOWN, by name. *)
Definition web_detectors : list string :=
  ["ApacheDetector"; "NginxDetector"; "GenericWebLogDetector"].

(** The label of [ApacheDetector.detect] after its loop: what
    [_determine_apache_format] makes of the three counters it leaves in
    the metadata. *)
Definition apache_label (r : FormatDetectionResult.t) : Prop :=
  exists common combined extended,
    Dict.get (FormatDetectionResult.metadata r) "common_matches"
    = Some (MInt common)
    /\ Dict.get (FormatDetectionResult.metadata r) "combined_matches"
       = Some (MInt combined)
    /\ Dict.get (FormatDetectionResult.metadata r) "extended_matches"
       = Some (MInt extended)
    /\ FormatDetectionResult.format_type r
       = Detectors._determine_apache_format common combined extended.

(** The label of [NginxDetector.detect] after its loop: NGINX_ACCESS
    unless the error patterns matched more lines than the access
    patterns. *)
Definition nginx_label (r : FormatDetectionResult.t) : Prop :=
  exists access error,
    Dict.get (FormatDetectionResult.metadata r) "access_matches"
    = Some (MInt access)
    /\ Dict.get (FormatDetectionResult.metadata r) "error_matches"
       = Some (MInt error)
    /\ FormatDetectionResult.format_type r
       = (if error <=? access then NGINX_ACCESS else NGINX_ERROR).

(** The label of [GenericWebLogDetector.detect] after its loop. *)
Definition generic_label (r : FormatDetectionResult.t) : Prop :=
  FormatDetectionResult.format_type r = BASIC_LOG.

(** What a web detector answers for [lines]: when preprocessing leaves
    no line, the empty result of [_create_empty_result]; and a result
    it returns is labelled UNKNOWN exactly in that case, and has [own]
    in the other. *)
Definition web_answer (own : FormatDetectionResult.t -> Prop)
           (lines : list string) (t : result FormatDetectionResult.t) : Prop :=
  (Detectors.preprocess_lines lines 100 = [] ->
   t = Ok Detectors._create_empty_result)
  /\ (forall r, t = Ok r ->
                (FormatDetectionResult.format_type r = UNKNOWN
                 <-> Detectors.preprocess_lines lines 100 = [])
                /\ (Detectors.preprocess_lines lines 100 <> [] -> own r)).

(** Every key of the schema is one of [names]. *)
Definition keys_within (names : list string) (s : Schema) : Prop :=
  forall k fi, In (k, fi) s -> In k names.

(** The field names [SyslogDetector._update_schema_from_match] uses. *)
Definition syslog_schema_fields : list string :=
  ["priority"; "timestamp"; "hostname"; "message"; "tag"; "version";
   "app_name"; "procid"; "msgid"; "structured_data"].

(** From a state that has [P], the computation raises or returns an
    answer [a] in a state that has [Q a]. *)
Definition triple {S A : Type} (P : S -> Prop) (c : stateful S A)
           (Q : A -> S -> Prop) : Prop :=
  forall s, P s ->
            match c s with
            | (s', Ok a) => Q a s'
            | (_, Raise _) => True
            end.

(** The entry is malformed, or it has every field of [names] that the
    schema of the parser has. *)
Definition extracted_or_malformed (self : Parser.t) (names : list string)
           (e : ParsedLogEntry.t) : Prop :=
  ParsedLogEntry.is_malformed e = true
  \/ forall k, In k names -> Dict.mem (Parser.schema self) k = true ->
               Dict.mem (ParsedLogEntry.fields e) k = true.

(** The invariant of the loop of [DelimitedParser.parse_line] after [i]
    field names: the entry is malformed, or the line has at least [i]
    parts and the entry has the first [i] fields that the schema has. *)
Definition within_parts (self : Parser.t) (parts : list string) (i : nat)
           (e : ParsedLogEntry.t) : Prop :=
  ParsedLogEntry.is_malformed e = true
  \/ (i <= List.length parts
      /\ forall k, In k (firstn i (Parser.field_names self)) ->
                   Dict.mem (Parser.schema self) k = true ->
                   Dict.mem (ParsedLogEntry.fields e) k = true).

(** What an entry that is not malformed tells about the line, by the
    class of the parser. *)
Definition complete {E : PyEnv} (self : Parser.t) (line : string)
           (e : ParsedLogEntry.t) : Prop :=
  let matched :=
    exists pattern, In pattern (Parser.patterns self)
                    /\ Re.match_ (LinePatterns.pattern pattern) line <> None in
  match Parser.cls self with
  | Parser.JSONParser =>
      forall k, Dict.mem (Parser.schema self) k = true ->
                Dict.mem (ParsedLogEntry.fields e) k = true
  | Parser.DelimitedParser =>
      exists parts,
        Parser.split_parts self line = Ok parts
        /\ List.length parts = List.length (Parser.field_names self)
        /\ forall k, In k (Parser.field_names self) ->
                     Dict.mem (Parser.schema self) k = true ->
                     Dict.mem (ParsedLogEntry.fields e) k = true
  | Parser.KeyValueParser =>
      Parser.found_fields self line <> []
      /\ forall k, Dict.mem (Parser.schema self) k = true ->
                   Dict.mem (ParsedLogEntry.fields e) k = true
  | Parser.PatternBasedParser | Parser.WebLogParser => matched
  | Parser.SyslogParser =>
      matched \/ Re.match_ Parser.simple_pattern line <> None
  | Parser.SystemdJournalParser => True
  end.

(** A parser of two delimited fields, as [DelimitedParser] is set up for
    a detection result with these fields and the delimiter [|]. *)
Definition two_fields : Parser.t :=
  Parser.mk Parser.DelimitedParser
    (FormatDetectionResult.mk CUSTOM_DELIMITED 1
       [("field_1", FieldInfo.new "field_1" "string" false);
        ("field_2", FieldInfo.new "field_2" "integer" false)] [] [])
    [] ["field_1"; "field_2"] (MStr "|").

(** The detectors whose loop body stands in a handler of [Exception],
    and the CSV detector, whose whole body does. *)
Definition handled_detectors : list string :=
  ["SyslogDetector"; "PythonLogDetector"; "ApacheDetector"; "NginxDetector";
   "CSVDetector"; "GenericWebLogDetector"; "BasicLogDetector"].

(** The type name the schema of the parser declares for a field, in
    lower case as [_convert_field_value] reads it. *)
Definition declared_type (self : Parser.t) (field_name : string) : option string :=
  match Dict.get (Parser.schema self) field_name with
  | Some field_info => Some (PyStr.lower (FieldInfo.data_type field_info))
  | None => None
  end.

(** A value fits the field: an [int], a [float] or a [bool] only under a
    field the schema declares as integer, float or boolean. *)
Definition typed (self : Parser.t) (field_name : string) (value : pyval) : Prop :=
  match value with
  | VStr _ => True
  | VInt _ => declared_type self field_name = Some "integer"
  | VFloat _ => declared_type self field_name = Some "float"
  | VBool _ => declared_type self field_name = Some "boolean"
  end.

(** Every value of the entry fits its field. *)
Definition fields_typed (self : Parser.t) (e : ParsedLogEntry.t) : Prop :=
  forall k v, Dict.get (ParsedLogEntry.fields e) k = Some v -> typed self k v.

End Props.


(* ================================================================== *)
(** * Properties *)

Unset Implicit Arguments.

Example split_ex : PyStr.split "a,b,,c" "," = ["a"; "b"; ""; "c"].
Proof. reflexivity. Qed.
Example split_max_ex : PyStr.split_max "k:v:w" ":" 1 = ["k"; "v:w"].
Proof. reflexivity. Qed.
Example strip_ex : PyStr.strip "  a b  " = "a b".
Proof. reflexivity. Qed.
Example to_int_ex : PyStr.to_int " -12_3 " = Some (-123)%Z.
Proof. reflexivity. Qed.
Example of_nat_ex : PyStr.of_nat 340 = "340".
Proof. reflexivity. Qed.
Example count_ex : PyStr.count "a,b,,c" "," = 3.
Proof. reflexivity. Qed.
Example replace_ex : PyStr.replace "a %z b%z" "%z" "" = "a  b".
Proof. reflexivity. Qed.
Example re_ex1 :
  option_map Re.m_groups
    (Re.match_ (Re.unnamed (Re.cat [Re.RBol; Re.RGroup 1 (Re.plus Re.w); Re.lit ":";
                                    Re.star Re.ws; Re.RGroup 2 (Re.star Re.any)]))
       "ERROR: disk full")
  = Some [Some "ERROR"; Some "disk full"].
Proof. reflexivity. Qed.
Example re_ex2 :
  Re.findall2 (Re.unnamed (Re.cat [Re.RGroup 1 (Re.plus Re.w); Re.lit "=";
                                   Re.RGroup 2 (Re.plus (Re.nset [Re.ASpace; Re.ALit ","; Re.ALit ";"]))]))
       "a=1 b=22,c=x"
  = [("a", "1"); ("b", "22"); ("c", "x")].
Proof. reflexivity. Qed.

Example re_syslog_ex :
  option_map Re.m_groups
    (Re.match_ (LinePatterns.pattern (nth 0 LinePatterns.SyslogDetector
                  (LinePatterns.mkLogPattern (Re.unnamed Re.REps) [] "")))
       "<34>Oct 11 22:14:15 mymachine su: 'su root' failed for lonvick on /dev/pts/8")
  = Some [Some "34"; Some "Oct 11 22:14:15"; Some "mymachine"; Some "su";
          Some "'su root' failed for lonvick on /dev/pts/8"].
Proof. vm_compute. reflexivity. Qed.

(* ------------------------------------------------------------------ *)
(** ** Comparisons of floats *)

Lemma Qlt_bool_iff (a b : Q) : Qlt_bool a b = true <-> (a < b)%Q.
Proof.
  unfold Qlt_bool. rewrite negb_true_iff. split; intros H.
  - apply Qnot_le_lt. intros Hle. apply Qle_bool_iff in Hle. congruence.
  - destruct (Qle_bool b a) eqn:Hb; [|reflexivity].
    apply Qle_bool_iff in Hb. exfalso. exact (Qlt_not_le _ _ H Hb).
Qed.

Lemma Qlt_bool_false (a b : Q) : Qlt_bool a b = false <-> (b <= a)%Q.
Proof.
  unfold Qlt_bool. rewrite negb_false_iff. apply Qle_bool_iff.
Qed.

Lemma fmax_Qmax (a b : Q) : (fmax a b == Qmax a b)%Q.
Proof.
  unfold fmax. destruct (Qle_bool b a) eqn:H.
  - apply Qle_bool_iff in H. symmetry. apply Q.max_l. exact H.
  - symmetry. apply Q.max_r. apply Qlt_le_weak. apply Qlt_bool_iff.
    unfold Qlt_bool. rewrite H. reflexivity.
Qed.

Lemma fmin_Qmin (a b : Q) : (fmin a b == Qmin a b)%Q.
Proof.
  unfold fmin. destruct (Qle_bool a b) eqn:H.
  - apply Qle_bool_iff in H. symmetry. apply Q.min_l. exact H.
  - symmetry. apply Q.min_r. apply Qlt_le_weak. apply Qlt_bool_iff.
    unfold Qlt_bool. rewrite H. reflexivity.
Qed.

(* ------------------------------------------------------------------ *)
(** ** Dictionaries *)

Lemma dict_get_set_same {V} (d : Dict.t V) k v :
  Dict.get (Dict.set d k v) k = Some v.
Proof.
  induction d as [|[k' v'] d IH]; simpl.
  - now rewrite String.eqb_refl.
  - destruct (String.eqb k k') eqn:Hk; simpl.
    + now rewrite String.eqb_refl.
    + now rewrite Hk.
Qed.

Lemma dict_get_set_other {V} (d : Dict.t V) k k' v :
  k <> k' -> Dict.get (Dict.set d k' v) k = Dict.get d k.
Proof.
  intros Hne. induction d as [|[k0 v0] d IH]; simpl.
  - apply String.eqb_neq in Hne. now rewrite Hne.
  - destruct (String.eqb k' k0) eqn:Hk; simpl.
    + apply String.eqb_eq in Hk. subst k0.
      apply String.eqb_neq in Hne. now rewrite Hne.
    + destruct (String.eqb k k0); [reflexivity | exact IH].
Qed.

Lemma dict_mem_set {V} (d : Dict.t V) k k' v :
  Dict.mem (Dict.set d k' v) k = String.eqb k k' || Dict.mem d k.
Proof.
  unfold Dict.mem. destruct (String.eqb k k') eqn:Hk.
  - apply String.eqb_eq in Hk. subst. now rewrite dict_get_set_same.
  - apply String.eqb_neq in Hk. now rewrite dict_get_set_other.
Qed.

(* ------------------------------------------------------------------ *)
(** ** The inference engine: arbitration between the detectors *)

Section Arbitration.
Import LogCore.
Variable lines : list string.

Abbreviation conf := FormatDetectionResult.confidence.

Lemma run_detectors_fold ds rs es :
  fold_left (InferenceEngine.run_detector lines) ds (rs, es)
  = (rs ++ Spec.cleared ds lines, es ++ Spec.detection_errors ds lines).
Proof.
  revert rs es. induction ds as [|d ds IH]; intros rs es; simpl.
  - now rewrite !app_nil_r.
  - unfold Spec.cleared_of, Spec.error_of.
    destruct (InferenceEngine.detect d lines) as [r|e]; simpl.
    + destruct (Qle_bool _ _); rewrite IH; simpl;
        now rewrite ?app_nil_r, <- ?app_assoc.
    + rewrite IH. simpl. now rewrite <- app_assoc.
Qed.

(** The loop of [max], started on [best] with the elements [mid] already
    passed over: the element it returns splits the list, nothing before
    it reaches its key, nothing after it exceeds it. *)
Lemma max_loop_split others :
  forall pre best mid,
    (forall x, In x pre -> (conf x < conf best)%Q) ->
    (forall x, In x mid -> (conf x <= conf best)%Q) ->
    exists pre' post,
      pre ++ best :: mid ++ others
      = pre' ++ InferenceEngine.max_by_confidence best others :: post
      /\ (forall x, In x pre' ->
            (conf x < conf (InferenceEngine.max_by_confidence best others))%Q)
      /\ (forall x, In x post ->
            (conf x <= conf (InferenceEngine.max_by_confidence best others))%Q).
Proof.
  unfold InferenceEngine.max_by_confidence.
  induction others as [|r others IH]; intros pre best mid Hpre Hmid; simpl.
  - exists pre, mid. rewrite app_nil_r. repeat split; assumption.
  - destruct (Qlt_bool (conf best) (conf r)) eqn:Hlt.
    + apply Qlt_bool_iff in Hlt.
      destruct (IH (pre ++ best :: mid) r []) as (pre' & post & Heq & Hp & Hq).
      * intros x Hx. apply in_app_or in Hx. destruct Hx as [Hx|[<-|Hx]].
        -- eapply Qlt_trans; [apply Hpre, Hx | exact Hlt].
        -- exact Hlt.
        -- eapply Qle_lt_trans; [apply Hmid, Hx | exact Hlt].
      * intros x [].
      * exists pre', post. split; [|split; assumption].
        rewrite <- Heq. rewrite <- app_assoc. reflexivity.
    + apply Qlt_bool_false in Hlt.
      destruct (IH pre best (mid ++ [r]) Hpre) as (pre' & post & Heq & Hp & Hq).
      * intros x Hx. apply in_app_or in Hx. destruct Hx as [Hx|[<-|[]]].
        -- apply Hmid, Hx.
        -- exact Hlt.
      * exists pre', post. split; [|split; assumption].
        rewrite <- Heq. rewrite <- app_assoc. reflexivity.
Qed.

Lemma max_by_confidence_split first others :
  exists pre post,
    first :: others = pre ++ InferenceEngine.max_by_confidence first others :: post
    /\ (forall x, In x pre ->
          (conf x < conf (InferenceEngine.max_by_confidence first others))%Q)
    /\ (forall x, In x post ->
          (conf x <= conf (InferenceEngine.max_by_confidence first others))%Q).
Proof.
  apply (max_loop_split others [] first []); intros x [].
Qed.

Lemma cleared_of_cases d :
  (exists r, InferenceEngine.detect d lines = Ok r /\ Spec.clears d r
             /\ Spec.cleared_of lines d = [r])
  \/ Spec.cleared_of lines d = [].
Proof.
  unfold Spec.cleared_of, Spec.clears.
  destruct (InferenceEngine.detect d lines) as [r|e]; [|now right].
  destruct (Qle_bool _ _) eqn:H; [|now right].
  left. exists r. apply Qle_bool_iff in H. auto.
Qed.

(** A cleared result comes from a detector; the cleared results before
    and after it come from the detectors before and after that one. *)
Lemma cleared_split ds :
  forall pre r post,
    Spec.cleared ds lines = pre ++ r :: post ->
    exists i d,
      nth_error ds i = Some d
      /\ InferenceEngine.detect d lines = Ok r
      /\ Spec.clears d r
      /\ pre = Spec.cleared (firstn i ds) lines
      /\ post = Spec.cleared (skipn (S i) ds) lines.
Proof.
  induction ds as [|d ds IH]; intros pre r post Heq.
  - destruct pre; discriminate.
  - change (Spec.cleared (d :: ds) lines)
      with (Spec.cleared_of lines d ++ Spec.cleared ds lines) in Heq.
    destruct (cleared_of_cases d) as [(r0 & Hd & Hc & H0) | H0]; rewrite H0 in Heq.
    + destruct pre as [|x pre]; simpl in Heq; injection Heq as <- Heq.
      * exists 0, d. simpl. auto.
      * destruct (IH _ _ _ Heq) as (i & d' & Hn & Hd' & Hc' & -> & ->).
        exists (S i), d'. repeat split; try assumption.
        change (Spec.cleared (firstn (S i) (d :: ds)) lines)
          with (Spec.cleared_of lines d ++ Spec.cleared (firstn i ds) lines).
        now rewrite H0.
    + simpl in Heq. destruct (IH _ _ _ Heq) as (i & d' & Hn & Hd' & Hc' & -> & ->).
      exists (S i), d'. repeat split; try assumption.
      change (Spec.cleared (firstn (S i) (d :: ds)) lines)
        with (Spec.cleared_of lines d ++ Spec.cleared (firstn i ds) lines).
      now rewrite H0.
Qed.

Lemma cleared_in ds d r :
  In d ds -> InferenceEngine.detect d lines = Ok r -> Spec.clears d r ->
  In r (Spec.cleared ds lines).
Proof.
  intros Hin Hd Hc. unfold Spec.cleared. apply in_flat_map. exists d.
  split; [exact Hin|]. unfold Spec.cleared_of. rewrite Hd.
  apply Qle_bool_iff in Hc. rewrite Hc. now left.
Qed.

Lemma cleared_nil_iff ds :
  Spec.cleared ds lines = [] <-> Spec.none_clears ds lines.
Proof.
  split.
  - intros H d r Hin Hd Hc. pose proof (cleared_in ds d r Hin Hd Hc) as Hr.
    rewrite H in Hr. exact Hr.
  - intros H. induction ds as [|d ds IH]; [reflexivity|].
    change (Spec.cleared (d :: ds) lines)
      with (Spec.cleared_of lines d ++ Spec.cleared ds lines).
    rewrite IH.
    + destruct (cleared_of_cases d) as [(r & Hd & Hc & _) | ->]; [|reflexivity].
      exfalso. exact (H d r (or_introl eq_refl) Hd Hc).
    + intros d' r' Hin. apply H. now right.
Qed.

End Arbitration.

Lemma field_confidence_pass_keeps r :
  LogCore.FormatDetectionResult.format_type (InferenceEngine._calculate_field_confidence r)
  = LogCore.FormatDetectionResult.format_type r
  /\ LogCore.FormatDetectionResult.confidence (InferenceEngine._calculate_field_confidence r)
     = LogCore.FormatDetectionResult.confidence r
  /\ LogCore.FormatDetectionResult.sample_lines (InferenceEngine._calculate_field_confidence r)
     = LogCore.FormatDetectionResult.sample_lines r
  /\ LogCore.FormatDetectionResult.metadata (InferenceEngine._calculate_field_confidence r)
     = LogCore.FormatDetectionResult.metadata r.
Proof.
  unfold InferenceEngine._calculate_field_confidence.
  destruct (LogCore.FormatDetectionResult.schema r); simpl; auto.
Qed.

(** C1.  For a non-empty list of lines, [analyze_lines] either finds
    that no detector result clears its own threshold, and then returns
    the UNKNOWN result (confidence 0, empty schema, the first five raw
    lines as samples, and a metadata holding the collected detector
    errors and the number of lines); or it returns the format,
    confidence and sample lines of the result [r] of some detector [d]
    at position [i] of its list, [r] clearing the threshold of [d], such
    that every result clearing its own detector's threshold has a
    confidence less than or equal to that of [r], and strictly less when
    its detector stands before [d]. *)
Theorem analyze_lines_selects_max_cleared :
  forall (ds : list InferenceEngine.Detector) (l : string) (ls : list string),
    let lines := l :: ls in
    let out := InferenceEngine.analyze_lines (InferenceEngine.mkEngine ds) lines in
    (Spec.none_clears ds lines
     /\ out = LogCore.FormatDetectionResult.mk LogCore.UNKNOWN 0%Q []
                (firstn 5 lines)
                [("message",
                  LogCore.MStr "No format detected with sufficient confidence");
                 ("detection_errors",
                  LogCore.MList (Spec.detection_errors ds lines));
                 ("total_lines_analyzed", LogCore.MInt (List.length lines))])
    \/
    (exists i d r,
        nth_error ds i = Some d
        /\ InferenceEngine.detect d lines = Ok r
        /\ Spec.clears d r
        /\ LogCore.FormatDetectionResult.format_type out
           = LogCore.FormatDetectionResult.format_type r
        /\ LogCore.FormatDetectionResult.confidence out
           = LogCore.FormatDetectionResult.confidence r
        /\ LogCore.FormatDetectionResult.sample_lines out
           = LogCore.FormatDetectionResult.sample_lines r
        /\ Dict.get (LogCore.FormatDetectionResult.metadata out) "detection_errors"
           = Some (LogCore.MList (Spec.detection_errors ds lines))
        /\ forall j d' r',
            nth_error ds j = Some d' ->
            InferenceEngine.detect d' lines = Ok r' ->
            Spec.clears d' r' ->
            (LogCore.FormatDetectionResult.confidence r'
             <= LogCore.FormatDetectionResult.confidence r)%Q
            /\ (j < i ->
                (LogCore.FormatDetectionResult.confidence r'
                 < LogCore.FormatDetectionResult.confidence r)%Q)).
Proof.
  intros ds l ls lines out. subst out.
  unfold InferenceEngine.analyze_lines. fold lines.
  cbn [InferenceEngine.detectors].
  change (match lines with [] => _ | _ :: _ => ?b end) with b.
  rewrite run_detectors_fold. cbn [app].
  destruct (Spec.cleared ds lines) as [|first others] eqn:Hcl.
  - left. split; [now apply cleared_nil_iff | reflexivity].
  - right.
    destruct (max_by_confidence_split first others) as (pre & post & Heq & Hpre & Hpost).
    set (b := InferenceEngine.max_by_confidence first others) in *.
    rewrite <- Hcl in Heq.
    destruct (cleared_split lines ds _ _ _ Heq) as (i & d & Hn & Hd & Hc & Hpre' & Hpost').
    exists i, d, b.
    destruct (field_confidence_pass_keeps b) as (Hf & Hcf & Hs & Hm).
    repeat split; try assumption.
    + cbn [LogCore.FormatDetectionResult.set_metadata
             LogCore.FormatDetectionResult.metadata Dict.update fold_left fst snd].
      rewrite dict_get_set_other by discriminate.
      apply dict_get_set_same.
    + destruct (Nat.lt_trichotomy j i) as [Hlt|[->|Hgt]].
      * apply Qlt_le_weak, Hpre. rewrite Hpre'.
        apply (cleared_in lines _ d'); try assumption.
        apply nth_error_In with (n := j). rewrite nth_error_firstn.
        destruct (Nat.ltb_spec j i); [assumption | lia].
      * rewrite Hn in H. injection H as <-. rewrite Hd in H0. injection H0 as <-.
        apply Qle_refl.
      * apply Hpost. rewrite Hpost'.
        apply (cleared_in lines _ d'); try assumption.
        apply nth_error_In with (n := j - S i). rewrite nth_error_skipn.
        replace (S i + (j - S i)) with j by lia. assumption.
    + intros Hlt. apply Hpre. rewrite Hpre'.
      apply (cleared_in lines _ d'); try assumption.
      apply nth_error_In with (n := j). rewrite nth_error_firstn.
      destruct (Nat.ltb_spec j i); [assumption | lia].
Qed.

(* ------------------------------------------------------------------ *)
(** ** The field-confidence refinement pass *)

Lemma field_confidence_amended n fi :
  (InferenceEngine.field_confidence n fi == Spec.amended_field_confidence n fi)%Q.
Proof.
  unfold InferenceEngine.field_confidence, Spec.amended_field_confidence,
    Spec.frequency_score, fdiv_nat.
  rewrite !fmin_Qmin. rewrite (Q.min_comm _ 1).
  destruct (LogCore.FieldInfo.is_timestamp fi);
    destruct (String.eqb (LogCore.FieldInfo.data_type fi) "unknown");
    reflexivity.
Qed.

(** C6, as stated, fails: for a field of type [string] seen in one of
    two sample lines the pass gives 0.6, the worded formula 0.5. *)
Lemma field_confidence_not_spec :
  exists fi,
    Dict.get (LogCore.FormatDetectionResult.schema
                (InferenceEngine._calculate_field_confidence Spec.one_string_field))
             "message" = Some fi
    /\ (LogCore.FieldInfo.confidence fi == 6 # 10)%Q
    /\ (Spec.spec_field_confidence (Spec.sample_count Spec.one_string_field) fi
        == 5 # 10)%Q.
Proof.
  eexists. split; [reflexivity|]. split; reflexivity.
Qed.

(** C6, amended.  The refinement pass sets the confidence of every field
    of the schema to min(1, s + 0.2 if the field is flagged as a
    timestamp + 0.1 if its data type is not [unknown]), where s =
    min(frequency / n, 1) and n is the number of sample lines of the
    result (1 when it has none); it changes nothing else in the
    schema. *)
Theorem field_confidence_pass :
  forall r : LogCore.FormatDetectionResult.t,
    let out := InferenceEngine._calculate_field_confidence r in
    Forall (fun kv =>
              (LogCore.FieldInfo.confidence (snd kv)
               == Spec.amended_field_confidence (Spec.sample_count r) (snd kv))%Q)
           (LogCore.FormatDetectionResult.schema out)
    /\ map (fun kv => (fst kv, Spec.without_confidence (snd kv)))
           (LogCore.FormatDetectionResult.schema out)
       = map (fun kv => (fst kv, Spec.without_confidence (snd kv)))
             (LogCore.FormatDetectionResult.schema r).
Proof.
  intros r out. subst out.
  unfold InferenceEngine._calculate_field_confidence, Spec.sample_count.
  destruct (LogCore.FormatDetectionResult.schema r) as [|kv schema] eqn:Hs.
  - rewrite Hs. split; [constructor | reflexivity].
  - cbn [LogCore.FormatDetectionResult.set_schema LogCore.FormatDetectionResult.schema].
    set (n := match LogCore.FormatDetectionResult.sample_lines r with
              | [] => 1 | _ :: _ => _ end).
    generalize (kv :: schema). intros l. split.
    + induction l as [|[k fi] l IH]; constructor; [|exact IH].
      cbn [snd fst].
      apply (Qeq_trans _ (Spec.amended_field_confidence n fi));
        [apply field_confidence_amended | apply Qeq_refl].
    + induction l as [|[k fi] l IH]; [reflexivity|].
      cbn [map fst snd]. rewrite IH. reflexivity.
Qed.

(* ------------------------------------------------------------------ *)
(** ** The temporal penalty of the timestamp recognizer *)

(** C5: what the code does.  An instant more than fifty years from the
    current time is more than ten years from it, so the first branch of
    the temporal check takes it: its confidence is multiplied by 0.8,
    and the branch that multiplies by 0.6 is never taken. *)
Theorem temporal_penalty_beyond_fifty_years :
  forall (time_diff : Z) (confidence : float),
    (Spec.fifty_years_us < time_diff)%Z ->
    TimestampDetector.temporal_penalty time_diff confidence
    = (confidence * (8 # 10))%Q.
Proof.
  intros td c H. unfold TimestampDetector.temporal_penalty.
  unfold Spec.fifty_years_us in H.
  destruct (Z.ltb_spec (86400 * 365 * 10 * 1000000) td) as [_|Hle]; [reflexivity|].
  exfalso. lia.
Qed.

(** An instant sixty years away, confidence 0.85 before the check: the
    code gives 0.68, the factor 0.6 would give 0.51. *)
Lemma temporal_penalty_sixty_years :
  (Spec.fifty_years_us < 86400 * 365 * 60 * 1000000)%Z
  /\ TimestampDetector.temporal_penalty (86400 * 365 * 60 * 1000000) (85 # 100)
     = ((85 # 100) * (8 # 10))%Q.
Proof.
  split; [reflexivity|].
  apply (temporal_penalty_beyond_fifty_years (86400 * 365 * 60 * 1000000) (85 # 100)).
  reflexivity.
Defined.

(* ------------------------------------------------------------------ *)
(** ** Construction of parsers *)

Lemma LogFormat_eqb_eq a b : LogCore.LogFormat_eqb a b = true <-> a = b.
Proof.
  split; [|intros ->; destruct b; reflexivity].
  destruct a, b; try reflexivity; intros H; vm_compute in H; discriminate H.
Qed.

Lemma lookup_registered f :
  ParsingEngine.lookup ParsingEngine.parser_classes f = None <-> f = LogCore.UNKNOWN.
Proof.
  destruct f; vm_compute; split; intros H; try reflexivity; discriminate H.
Qed.

(** C3.  [create_parser] raises exactly when the format of the detection
    result is UNKNOWN or has no registered parser class; every format
    other than UNKNOWN is registered, and for each of them a parser of
    the registered class is returned. *)
Theorem create_parser_raises_iff :
  forall (tbl : ParsingEngine.PatternTable) (r : LogCore.FormatDetectionResult.t),
    let f := LogCore.FormatDetectionResult.format_type r in
    ((exists e, ParsingEngine.create_parser tbl r = Raise e)
     <-> (f = LogCore.UNKNOWN
          \/ ParsingEngine.lookup ParsingEngine.parser_classes f = None))
    /\ ((exists tbl' p, ParsingEngine.create_parser tbl r = Ok (tbl', p)
                        /\ ParsingEngine.lookup ParsingEngine.parser_classes f
                           = Some (Parser.cls p)
                        /\ Parser.detection_result p = r)
        <-> f <> LogCore.UNKNOWN)
    /\ (forall g, g <> LogCore.UNKNOWN <->
                  ParsingEngine.lookup ParsingEngine.parser_classes g <> None).
Proof.
  intros tbl r f.
  assert (Hok : f <> LogCore.UNKNOWN ->
                exists tbl' p, ParsingEngine.create_parser tbl r = Ok (tbl', p)
                               /\ ParsingEngine.lookup ParsingEngine.parser_classes f
                                  = Some (Parser.cls p)
                               /\ Parser.detection_result p = r).
  { intros Hf. unfold ParsingEngine.create_parser. fold f.
    destruct (LogCore.LogFormat_eqb f LogCore.UNKNOWN) eqn:Hu.
    { apply LogFormat_eqb_eq in Hu. contradiction. }
    destruct (ParsingEngine.lookup ParsingEngine.parser_classes f) as [c|] eqn:Hl.
    2:{ apply lookup_registered in Hl. contradiction. }
    unfold ParsingEngine.instantiate. fold f.
    destruct c; cbn -[LinePatterns.patterns_at Parser._detect_delimiter];
      try (destruct (LogCore.LogFormat_eqb f LogCore.LTSV));
      try (destruct (ParsingEngine.web_setup tbl f) as [tbl' pats]);
      cbn -[LinePatterns.patterns_at Parser._detect_delimiter];
      try (destruct (LogCore.LogFormat_eqb f LogCore.PYTHON_LOG);
           [|destruct (LogCore.LogFormat_eqb f LogCore.BASIC_LOG)]);
      eexists; eexists; (split; [reflexivity | split; reflexivity]). }
  split; [|split].
  - split.
    + intros [e He]. destruct (LogCore.LogFormat_eqb f LogCore.UNKNOWN) eqn:Hu.
      * left. now apply LogFormat_eqb_eq.
      * exfalso. destruct Hok as (tbl' & p & Hp & _).
        { intros Hf. apply LogFormat_eqb_eq in Hf. congruence. }
        congruence.
    + intros H. assert (Hf : f = LogCore.UNKNOWN).
      { destruct H as [H|H]; [exact H | now apply lookup_registered]. }
      unfold ParsingEngine.create_parser. fold f. rewrite Hf.
      eexists. reflexivity.
  - split; [|exact Hok].
    intros (tbl' & p & Hp & _) Hf.
    unfold ParsingEngine.create_parser in Hp. fold f in Hp. rewrite Hf in Hp.
    discriminate Hp.
  - intros g. rewrite lookup_registered. tauto.
Qed.

(* ------------------------------------------------------------------ *)
(** ** Properties kept by the code that fills an entry *)

Section Keeps.
Context {S : Type} (P : S -> Prop).

Lemma keeps_sret {A} (a : A) : Spec.keeps P (sret a).
Proof. intros s H. exact H. Qed.

Lemma keeps_sraise {A} (e : exn) : Spec.keeps P (@sraise S A e).
Proof. intros s H. exact H. Qed.

Lemma keeps_sget : Spec.keeps P (@sget S).
Proof. intros s H. exact H. Qed.

Lemma keeps_slift {A} (r : result A) : Spec.keeps P (@slift S A r).
Proof. intros s H. exact H. Qed.

Lemma keeps_smodify (f : S -> S) :
  (forall s, P s -> P (f s)) -> Spec.keeps P (smodify f).
Proof. intros Hf s H. apply Hf, H. Qed.

Lemma keeps_sbind {A B} (c : stateful S A) (f : A -> stateful S B) :
  Spec.keeps P c -> (forall a, Spec.keeps P (f a)) -> Spec.keeps P (sbind c f).
Proof.
  intros Hc Hf s H. unfold sbind. specialize (Hc s H).
  destruct (c s) as [s' [a|e]]; simpl in *; [apply Hf, Hc | exact Hc].
Qed.

Lemma keeps_stry {A} (body : stateful S A) (handler : exn -> stateful S A) :
  Spec.keeps P body -> (forall e, Spec.keeps P (handler e)) ->
  Spec.keeps P (stry body handler).
Proof.
  intros Hb Hh s H. unfold stry. specialize (Hb s H).
  destruct (body s) as [s' [a|e]]; simpl in *; [exact Hb | apply Hh, Hb].
Qed.

Lemma keeps_sfor {X} (xs : list X) (body : X -> stateful S unit) :
  (forall x, Spec.keeps P (body x)) -> Spec.keeps P (sfor xs body).
Proof.
  intros Hb. induction xs as [|x xs IH]; simpl.
  - apply keeps_sret.
  - apply keeps_sbind; [apply Hb | intros _; exact IH].
Qed.

Lemma keeps_sfor_break {X} (xs : list X) (body : X -> stateful S bool) :
  (forall x, Spec.keeps P (body x)) -> Spec.keeps P (sfor_break xs body).
Proof.
  intros Hb. induction xs as [|x xs IH]; simpl.
  - apply keeps_sret.
  - apply keeps_sbind; [apply Hb | intros [|]; [apply keeps_sret | exact IH]].
Qed.

End Keeps.

(** One step of a proof that a computation keeps a property: the rule of
    the construct at its head, or a case analysis on what it branches
    on. *)
Ltac keeps_step :=
  lazymatch goal with
  | |- Spec.keeps _ (sbind _ _) => apply keeps_sbind; [|intros ?]
  | |- Spec.keeps _ (sret _) => apply keeps_sret
  | |- Spec.keeps _ (sraise _) => apply keeps_sraise
  | |- Spec.keeps _ sget => apply keeps_sget
  | |- Spec.keeps _ (slift _) => apply keeps_slift
  | |- Spec.keeps _ (stry _ _) => apply keeps_stry; [|intros ?]
  | |- Spec.keeps _ (sfor _ _) => apply keeps_sfor; intros ?
  | |- Spec.keeps _ (sfor_break _ _) => apply keeps_sfor_break; intros ?
  | |- Spec.keeps _ (match ?x with _ => _ end) => destruct x
  | |- Spec.keeps _ (let _ := _ in _) => cbv zeta
  end.

Create HintDb keeps.

Section EntryProperties.
Context {E : PyEnv}.
Variable P : ParsedLogEntry.t -> Prop.
Hypothesis P_error : forall e err, P e -> P (ParsedLogEntry.add_parse_error e err).
Hypothesis P_field : forall e k v, P e -> P (ParsedLogEntry.set_field e k v).
Hypothesis P_timestamp : forall e dt, P e -> P (ParsedLogEntry.set_timestamp e dt).

Lemma keeps_add_parse_error err : Spec.keeps P (Parser.add_parse_error err).
Proof. apply keeps_smodify. intros e. apply P_error. Qed.

Lemma keeps_set_field k v : Spec.keeps P (Parser.set_field k v).
Proof. apply keeps_smodify. intros e. apply P_field. Qed.

Lemma keeps_set_timestamp dt : Spec.keeps P (Parser.set_timestamp dt).
Proof. apply keeps_smodify. intros e. apply P_timestamp. Qed.

Hint Resolve keeps_add_parse_error keeps_set_field keeps_set_timestamp : keeps.

Ltac keeps_auto := repeat keeps_step; auto with keeps.

Lemma keeps_assign_extracted_timestamp :
  Spec.keeps P Parser.assign_extracted_timestamp.
Proof.
  unfold Parser.assign_extracted_timestamp, Parser._extract_timestamp_from_entry.
  keeps_auto. apply keeps_smodify. intros e. apply P_timestamp.
Qed.

Lemma keeps_detect_into_timestamp value err :
  Spec.keeps P (Parser.detect_into_timestamp value err).
Proof. unfold Parser.detect_into_timestamp. keeps_auto. Qed.

Hint Resolve keeps_assign_extracted_timestamp keeps_detect_into_timestamp : keeps.

Lemma keeps_map_field_value self field_name value :
  Spec.keeps P (Parser._map_field_value self field_name value).
Proof. unfold Parser._map_field_value. keeps_auto. Qed.

Hint Resolve keeps_map_field_value : keeps.

Lemma keeps_map_groups self pattern m :
  Spec.keeps P (Parser.map_groups self pattern m).
Proof. unfold Parser.map_groups. keeps_auto. Qed.

Hint Resolve keeps_map_groups : keeps.

Lemma keeps_base_try_pattern self line pattern :
  Spec.keeps P (Parser.base_try_pattern self line pattern).
Proof. unfold Parser.base_try_pattern. keeps_auto. Qed.

Lemma keeps_base_fallback_parsing self line :
  Spec.keeps P (Parser.base_fallback_parsing self line).
Proof. unfold Parser.base_fallback_parsing. keeps_auto. Qed.

Hint Resolve keeps_base_try_pattern keeps_base_fallback_parsing : keeps.

Lemma keeps_parse_web_timestamp self :
  Spec.keeps P (Parser._parse_web_timestamp self).
Proof. unfold Parser._parse_web_timestamp. keeps_auto. Qed.

Lemma keeps_parse_request_field self :
  Spec.keeps P (Parser._parse_request_field self).
Proof. unfold Parser._parse_request_field. keeps_auto. Qed.

Hint Resolve keeps_parse_web_timestamp keeps_parse_request_field : keeps.

Lemma keeps_web_try_pattern self line pattern :
  Spec.keeps P (Parser.web_try_pattern self line pattern).
Proof. unfold Parser.web_try_pattern. keeps_auto. Qed.

Lemma keeps_extract_facility_severity self priority :
  Spec.keeps P (Parser._extract_facility_severity self priority).
Proof. unfold Parser._extract_facility_severity. keeps_auto. Qed.

Lemma keeps_year_timestamp self field_name value :
  Spec.keeps P (Parser.year_timestamp self field_name value).
Proof. unfold Parser.year_timestamp. keeps_auto. Qed.

Hint Resolve keeps_web_try_pattern keeps_extract_facility_severity
  keeps_year_timestamp : keeps.

Lemma keeps_parse_rfc_pattern self p m rfc_type :
  Spec.keeps P (Parser._parse_rfc_pattern self p m rfc_type).
Proof. unfold Parser._parse_rfc_pattern. keeps_auto. Qed.

Hint Resolve keeps_parse_rfc_pattern : keeps.

Lemma keeps_syslog_try_pattern self line pattern :
  Spec.keeps P (Parser.syslog_try_pattern self line pattern).
Proof. unfold Parser.syslog_try_pattern. keeps_auto. Qed.

Lemma keeps_map_with_year self mapping :
  Spec.keeps P (Parser.map_with_year self mapping).
Proof. unfold Parser.map_with_year. keeps_auto. Qed.

Hint Resolve keeps_syslog_try_pattern keeps_map_with_year : keeps.

Lemma keeps_syslog_fallback_parsing self line :
  Spec.keeps P (Parser.syslog_fallback_parsing self line).
Proof. unfold Parser.syslog_fallback_parsing. keeps_auto. Qed.

Hint Resolve keeps_syslog_fallback_parsing : keeps.

Lemma keeps_try_pattern self line pattern :
  Spec.keeps P (Parser._try_pattern self line pattern).
Proof. unfold Parser._try_pattern. destruct (Parser.cls self); auto with keeps. Qed.

Lemma keeps_fallback_parsing self line :
  Spec.keeps P (Parser._fallback_parsing self line).
Proof. unfold Parser._fallback_parsing. destruct (Parser.cls self); auto with keeps. Qed.

Hint Resolve keeps_try_pattern keeps_fallback_parsing : keeps.

Lemma keeps_try_patterns self line patterns :
  Spec.keeps P (Parser.try_patterns self line patterns).
Proof.
  induction patterns as [|pattern rest IH]; simpl.
  - auto with keeps.
  - keeps_auto.
Qed.

Lemma keeps_json_body self line : Spec.keeps P (Parser.json_body self line).
Proof. unfold Parser.json_body. keeps_auto. Qed.

Lemma keeps_first_detected parts : Spec.keeps P (Parser.first_detected parts).
Proof. induction parts as [|value rest IH]; simpl; keeps_auto. Qed.

Hint Resolve keeps_first_detected : keeps.

Lemma keeps_delimited_body self line :
  Spec.keeps P (Parser.delimited_body self line).
Proof. unfold Parser.delimited_body. keeps_auto. Qed.

Lemma keeps_kv_body self line : Spec.keeps P (Parser.kv_body self line).
Proof. unfold Parser.kv_body. keeps_auto. Qed.

Lemma keeps_parse_journalctl_output self line :
  Spec.keeps P (Parser._parse_journalctl_output self line).
Proof. unfold Parser._parse_journalctl_output. keeps_auto. Qed.

Lemma keeps_realtime_timestamp field_name value :
  Spec.keeps P (Parser.realtime_timestamp field_name value).
Proof. unfold Parser.realtime_timestamp. keeps_auto. Qed.

Hint Resolve keeps_parse_journalctl_output keeps_realtime_timestamp : keeps.

Lemma keeps_store_journal_field self field_name value :
  Spec.keeps P (Parser.store_journal_field self field_name value).
Proof. unfold Parser.store_journal_field. keeps_auto. Qed.

Hint Resolve keeps_store_journal_field : keeps.

Lemma keeps_journal_entry_body self entry_lines :
  Spec.keeps P (Parser.journal_entry_body self entry_lines).
Proof. unfold Parser.journal_entry_body. keeps_auto. Qed.

Lemma keeps_journal_line_body self line :
  Spec.keeps P (Parser.journal_line_body self line).
Proof. unfold Parser.journal_line_body. keeps_auto. Qed.

Lemma guarded_keeps prefix body e :
  Spec.keeps P body -> P e -> P (Parser.guarded prefix body e).
Proof.
  intros Hb He. unfold Parser.guarded. specialize (Hb e He).
  destruct (body e) as [e' [u|x]]; simpl in Hb; [exact Hb | apply P_error, Hb].
Qed.

(** Whatever the class of the parser, [parse_line] keeps the property
    from the fresh entry to the entry it returns. *)
Lemma parse_line_keeps self line line_number :
  P (ParsedLogEntry.new line line_number) ->
  P (Parser.parse_line self line line_number).
Proof.
  intros H0. unfold Parser.parse_line.
  destruct (Parser.cls self).
  - unfold Parser.json_parse_line.
    pose proof (keeps_json_body self line _ H0) as Hb.
    destruct (Parser.json_body self line _) as [e' [u|x]]; simpl in Hb;
      [exact Hb | destruct (isinstance x JSONDecodeError); apply P_error, Hb].
  - apply guarded_keeps; [apply keeps_delimited_body | exact H0].
  - apply guarded_keeps; [apply keeps_kv_body | exact H0].
  - apply guarded_keeps; [apply keeps_try_patterns | exact H0].
  - apply guarded_keeps; [apply keeps_try_patterns | exact H0].
  - apply guarded_keeps; [apply keeps_journal_line_body | exact H0].
  - apply guarded_keeps; [apply keeps_try_patterns | exact H0].
Qed.

Lemma parse_journal_entry_keeps self entry_lines :
  P (ParsedLogEntry.new (PyStr.join Detectors.newline entry_lines) None) ->
  P (Parser._parse_journal_entry self entry_lines).
Proof.
  intros H0. apply guarded_keeps; [apply keeps_journal_entry_body | exact H0].
Qed.

End EntryProperties.

(* ------------------------------------------------------------------ *)
(** ** The entry invariant *)

Lemma invariant_new line line_number :
  Spec.entry_invariant (ParsedLogEntry.new line line_number).
Proof.
  split; cbn.
  - split; [discriminate | intros H; now contradiction H].
  - reflexivity.
Qed.

Lemma confidence_after_error e err :
  (ParsedLogEntry.confidence (ParsedLogEntry.add_parse_error e err)
   == Qmax (1 # 10)
        (1 - (2 # 10)
             * inject_Z (Z.of_nat (List.length
                 (ParsedLogEntry.parse_errors (ParsedLogEntry.add_parse_error e err))))))%Q.
Proof.
  cbn [ParsedLogEntry.add_parse_error ParsedLogEntry.confidence
       ParsedLogEntry.parse_errors].
  rewrite fmax_Qmax. apply Q.max_compat; [reflexivity | ring].
Qed.

Lemma invariant_add_parse_error e err :
  Spec.entry_invariant e ->
  Spec.entry_invariant (ParsedLogEntry.add_parse_error e err).
Proof.
  intros _. split.
  - cbn. split; [intros _ | reflexivity].
    destruct (ParsedLogEntry.parse_errors e); discriminate.
  - apply confidence_after_error.
Qed.

Lemma invariant_set_field e k v :
  Spec.entry_invariant e -> Spec.entry_invariant (ParsedLogEntry.set_field e k v).
Proof. intros H. exact H. Qed.

Lemma invariant_set_timestamp e dt :
  Spec.entry_invariant e -> Spec.entry_invariant (ParsedLogEntry.set_timestamp e dt).
Proof. intros H. exact H. Qed.

(* ------------------------------------------------------------------ *)
(** ** The loops of [parse_lines] *)

(** A loop that records [f x] for the elements [x] it keeps. *)
Lemma record_fold {X} (keep : X -> bool) (f : X -> ParsedLogEntry.t)
      (g : Parser.tally -> X -> Parser.tally) :
  (forall acc x, g acc x = if keep x then Parser.record_entry acc (f x) else acc) ->
  forall xs es s m,
    fold_left g xs (es, s, m)
    = (es ++ map f (filter keep xs),
       s + List.length (filter (fun e => negb (ParsedLogEntry.is_malformed e))
                               (map f (filter keep xs))),
       m + List.length (filter ParsedLogEntry.is_malformed (map f (filter keep xs)))).
Proof.
  intros Hg. induction xs as [|x xs IH]; intros es s m; simpl.
  - now rewrite app_nil_r, !Nat.add_0_r.
  - rewrite Hg. destruct (keep x); [|apply IH].
    unfold Parser.record_entry. cbn [map filter].
    destruct (ParsedLogEntry.is_malformed (f x)) eqn:Hm; rewrite IH;
      cbn [negb List.length]; rewrite <- app_assoc; cbn [app];
      (apply f_equal2; [apply f_equal2; [reflexivity|]|]; lia).
Qed.

Lemma filter_partition_length {A} (p : A -> bool) (l : list A) :
  List.length (filter (fun a => negb (p a)) l) + List.length (filter p l)
  = List.length l.
Proof.
  induction l as [|a l IH]; simpl; [reflexivity|].
  destruct (p a); simpl; lia.
Qed.

Section ParseLines.
Context {E : PyEnv}.

Lemma base_parse_lines_entries self lines :
  let kept := map (Spec.entry_of self) (Spec.numbered_non_blank lines) in
  Parser.base_parse_lines self lines
  = ParseResult.mk kept (Parser.count_non_blank lines)
      (List.length (filter (fun e => negb (ParsedLogEntry.is_malformed e)) kept))
      (List.length (filter ParsedLogEntry.is_malformed kept))
      (Parser._calculate_statistics self kept) None.
Proof.
  intros kept. unfold Parser.base_parse_lines.
  rewrite (record_fold (fun il => Spec.non_blank (snd il)) (Spec.entry_of self)).
  - reflexivity.
  - intros acc [i line]. unfold Spec.non_blank, Spec.entry_of. simpl.
    destruct (PyStr.truthy (PyStr.strip line)); reflexivity.
Qed.

Lemma journal_parse_lines_entries self lines :
  let kept :=
    map (Parser._parse_journal_entry self)
        (filter (fun g => negb (Spec.is_nil g)) (Parser._group_lines_into_entries lines)) in
  Parser.journal_parse_lines self lines
  = ParseResult.mk kept (Parser.count_non_blank lines)
      (List.length (filter (fun e => negb (ParsedLogEntry.is_malformed e)) kept))
      (List.length (filter ParsedLogEntry.is_malformed kept))
      (Parser._calculate_statistics self kept) None.
Proof.
  intros kept. unfold Parser.journal_parse_lines.
  rewrite (record_fold (fun g => negb (Spec.is_nil g)) (Parser._parse_journal_entry self)).
  - reflexivity.
  - intros acc [|x g]; reflexivity.
Qed.

End ParseLines.

(** The groups of [_group_lines_into_entries] are not empty, and put end
    to end they are the stripped non-blank lines in their order. *)
Lemma group_lines_partition lines :
  Forall (fun g => g <> []) (Parser._group_lines_into_entries lines)
  /\ concat (Parser._group_lines_into_entries lines)
     = map PyStr.strip (filter Spec.non_blank lines).
Proof.
  unfold Parser._group_lines_into_entries.
  set (step := fun '(entries, current_entry) line => _).
  assert (G : forall ls entries current,
             Forall (fun g : list string => g <> []) entries ->
             Forall (fun g : list string => g <> [])
                    (fst (fold_left step ls (entries, current)))
             /\ concat (fst (fold_left step ls (entries, current)))
                ++ snd (fold_left step ls (entries, current))
                = (concat entries ++ current)
                    ++ map PyStr.strip (filter Spec.non_blank ls)).
  { induction ls as [|line ls IH]; intros entries current Hne; simpl.
    - now rewrite app_nil_r.
    - unfold Spec.non_blank.
      destruct (PyStr.truthy (PyStr.strip line)) eqn:Hb; simpl.
      + destruct (IH entries (current ++ [PyStr.strip line]) Hne) as [H1 H2].
        split; [exact H1|]. rewrite H2. now rewrite <- !app_assoc.
      + destruct current as [|c current].
        * apply IH, Hne.
        * destruct (IH (entries ++ [c :: current]) []) as [H1 H2].
          { apply Forall_app. split; [exact Hne|]. constructor; [discriminate|constructor]. }
          split; [exact H1|]. rewrite H2. rewrite concat_app. simpl.
          now rewrite !app_nil_r. }
  destruct (G lines [] [] (Forall_nil _)) as [H1 H2].
  destruct (fold_left step lines ([], [])) as [entries current]. simpl in *.
  destruct current as [|c current].
  - rewrite app_nil_r in H2. split; assumption.
  - split.
    + apply Forall_app. split; [exact H1|]. constructor; [discriminate|constructor].
    + rewrite concat_app. simpl. rewrite app_nil_r. exact H2.
Qed.

Lemma numbered_non_blank_positions lines :
  Forall (fun il => 1 <= fst il /\ nth_error lines (fst il - 1) = Some (snd il))
         (Spec.numbered_non_blank lines)
  /\ map snd (Spec.numbered_non_blank lines) = filter Spec.non_blank lines.
Proof.
  unfold Spec.numbered_non_blank.
  assert (G : forall ls k,
             Forall (fun il => k <= fst il /\ nth_error ls (fst il - k) = Some (snd il))
                    (filter (fun il => Spec.non_blank (snd il))
                            (combine (seq k (List.length ls)) ls))
             /\ map snd (filter (fun il => Spec.non_blank (snd il))
                                (combine (seq k (List.length ls)) ls))
                = filter Spec.non_blank ls).
  { induction ls as [|l ls IH]; intros k; simpl; [split; [constructor|reflexivity]|].
    destruct (IH (S k)) as [H1 H2].
    assert (H1' : Forall (fun il => k <= fst il
                                    /\ nth_error (l :: ls) (fst il - k) = Some (snd il))
                         (filter (fun il => Spec.non_blank (snd il))
                                 (combine (seq (S k) (List.length ls)) ls))).
    { eapply Forall_impl; [|exact H1]. intros [i x] [Hi Hx]. simpl in *.
      split; [lia|]. replace (i - k) with (S (i - S k)) by lia. exact Hx. }
    destruct (Spec.non_blank l); simpl.
    - split; [constructor; [|exact H1'] | now rewrite H2].
      simpl. rewrite Nat.sub_diag. auto.
    - split; assumption. }
  apply (G lines 1).
Qed.

Section EntryTheorems.
Context {E : PyEnv}.

Lemma created_with_parse_line self line line_number :
  Spec.created_with line line_number (Parser.parse_line self line line_number).
Proof.
  apply (parse_line_keeps (Spec.created_with line line_number)).
  - intros e err H. exact H.
  - intros e k v H. exact H.
  - intros e dt H. exact H.
  - split; reflexivity.
Qed.

Lemma invariant_parse_line self line line_number :
  Spec.entry_invariant (Parser.parse_line self line line_number).
Proof.
  apply (parse_line_keeps Spec.entry_invariant).
  - apply invariant_add_parse_error.
  - apply invariant_set_field.
  - apply invariant_set_timestamp.
  - apply invariant_new.
Qed.

Lemma invariant_parse_journal_entry self entry_lines :
  Spec.entry_invariant (Parser._parse_journal_entry self entry_lines).
Proof.
  apply (parse_journal_entry_keeps Spec.entry_invariant).
  - apply invariant_add_parse_error.
  - apply invariant_set_field.
  - apply invariant_set_timestamp.
  - apply invariant_new.
Qed.

Lemma created_with_parse_journal_entry self entry_lines :
  Spec.created_with (PyStr.join Detectors.newline entry_lines) None
    (Parser._parse_journal_entry self entry_lines).
Proof.
  apply (parse_journal_entry_keeps
           (Spec.created_with (PyStr.join Detectors.newline entry_lines) None)).
  - intros e err H. exact H.
  - intros e k v H. exact H.
  - intros e dt H. exact H.
  - split; reflexivity.
Qed.

End EntryTheorems.

(** C2.  A freshly created entry has [is_malformed] false and confidence
    1.0; [add_parse_error] appends the error, sets [is_malformed] and
    sets the confidence to max(0.1, 1 - 0.2 n) for the n errors now
    recorded; and every entry a parser returns, from [parse_line] of any
    parser class and in the entries of [parse_lines], has [is_malformed]
    true exactly when [parse_errors] is not empty and its confidence
    equal to max(0.1, 1 - 0.2 n) for its n errors. *)
Theorem parsed_entry_invariant :
  (forall line line_number,
      ParsedLogEntry.is_malformed (ParsedLogEntry.new line line_number) = false
      /\ ParsedLogEntry.parse_errors (ParsedLogEntry.new line line_number) = []
      /\ (ParsedLogEntry.confidence (ParsedLogEntry.new line line_number) == 1)%Q)
  /\ (forall e err,
         let e' := ParsedLogEntry.add_parse_error e err in
         ParsedLogEntry.is_malformed e' = true
         /\ ParsedLogEntry.parse_errors e' = ParsedLogEntry.parse_errors e ++ [err]
         /\ (ParsedLogEntry.confidence e'
             == Qmax (1 # 10)
                  (1 - (2 # 10)
                       * inject_Z (Z.of_nat (List.length (ParsedLogEntry.parse_errors e')))))%Q)
  /\ (forall (E : PyEnv) (self : Parser.t) (line : string) (line_number : option nat),
         Spec.entry_invariant (Parser.parse_line self line line_number))
  /\ (forall (E : PyEnv) (self : Parser.t) (lines : list string),
         Forall Spec.entry_invariant
                (ParseResult.entries (Parser.parse_lines self lines))).
Proof.
  split; [|split; [|split]].
  - intros line line_number. repeat split.
  - intros e err e'. subst e'. repeat split. apply confidence_after_error.
  - intros E self line line_number. apply invariant_parse_line.
  - intros E self lines. unfold Parser.parse_lines.
    destruct (Parser.cls self);
      try (rewrite base_parse_lines_entries; cbn [ParseResult.entries];
           apply Forall_map, Forall_forall; intros il _;
           apply invariant_parse_line).
    rewrite journal_parse_lines_entries. cbn [ParseResult.entries].
    apply Forall_map, Forall_forall. intros g _.
    apply invariant_parse_journal_entry.
Qed.

(** C10.  For every parser and every list of lines, the result of
    [parse_lines] has [successfully_parsed + malformed_lines] equal to
    the number of its entries and [total_lines] equal to the number of
    input lines that are not blank.  [BaseParser.parse_lines], which the
    line-based parsers run, returns one entry for each line that is not
    blank, in order, made from the stripped line and carrying the
    1-based position of that line in the input, blank lines counted.
    [SystemdJournalParser.parse_lines] returns one entry for each group
    of consecutive non-blank lines, whose raw text is the stripped lines
    of the group joined by newlines; the groups are not empty and
    together hold exactly the non-blank lines. *)
Theorem parse_lines_accounting :
  forall (E : PyEnv) (self : Parser.t) (lines : list string),
    let r := Parser.parse_lines self lines in
    let b := Parser.base_parse_lines self lines in
    let j := Parser.journal_parse_lines self lines in
    let groups := Parser._group_lines_into_entries lines in
    ParseResult.successfully_parsed r + ParseResult.malformed_lines r
    = List.length (ParseResult.entries r)
    /\ ParseResult.total_lines r = List.length (filter Spec.non_blank lines)
    /\ ParseResult.entries b
       = map (Spec.entry_of self) (Spec.numbered_non_blank lines)
    /\ map (fun e => (ParsedLogEntry.line_number e, ParsedLogEntry.raw_line e))
           (ParseResult.entries b)
       = map (fun il => (Some (fst il), PyStr.strip (snd il)))
             (Spec.numbered_non_blank lines)
    /\ Forall (fun il => 1 <= fst il
                         /\ nth_error lines (fst il - 1) = Some (snd il))
              (Spec.numbered_non_blank lines)
    /\ map snd (Spec.numbered_non_blank lines) = filter Spec.non_blank lines
    /\ map ParsedLogEntry.raw_line (ParseResult.entries j)
       = map (PyStr.join Detectors.newline) groups
    /\ Forall (fun g => g <> []) groups
    /\ concat groups = map PyStr.strip (filter Spec.non_blank lines).
Proof.
  intros E self lines r b j groups. subst r b j groups.
  pose proof (base_parse_lines_entries self lines) as Hb.
  pose proof (journal_parse_lines_entries self lines) as Hj.
  cbv zeta in Hb, Hj.
  destruct (group_lines_partition lines) as [Hne Hcat].
  destruct (numbered_non_blank_positions lines) as [Hpos Hsnd].
  assert (Hacc : forall r kept stats,
             r = ParseResult.mk kept (Parser.count_non_blank lines)
                   (List.length (filter (fun e => negb (ParsedLogEntry.is_malformed e)) kept))
                   (List.length (filter ParsedLogEntry.is_malformed kept)) stats None ->
             ParseResult.successfully_parsed r + ParseResult.malformed_lines r
             = List.length (ParseResult.entries r)
             /\ ParseResult.total_lines r = List.length (filter Spec.non_blank lines)).
  { intros r kept stats ->. cbn. split; [apply filter_partition_length | reflexivity]. }
  split; [|split].
  - unfold Parser.parse_lines.
    destruct (Parser.cls self);
      first [apply (Hacc _ _ _ Hb) | apply (Hacc _ _ _ Hj)].
  - unfold Parser.parse_lines.
    destruct (Parser.cls self);
      first [apply (Hacc _ _ _ Hb) | apply (Hacc _ _ _ Hj)].
  - rewrite Hb, Hj. cbn [ParseResult.entries].
    repeat split; try assumption.
    + rewrite map_map. apply map_ext. intros [i l].
      destruct (created_with_parse_line self (PyStr.strip l) (Some i)) as [H1 H2].
      unfold Spec.entry_of. cbn [fst snd]. now rewrite H1, H2.
    + rewrite map_map.
      assert (Hall : filter (fun g => negb (Spec.is_nil g))
                            (Parser._group_lines_into_entries lines)
                     = Parser._group_lines_into_entries lines).
      { clear -Hne. induction Hne as [|g gs Hg _ IH]; [reflexivity|].
        simpl. destruct g; [contradiction|]. simpl. now rewrite IH. }
      rewrite Hall. apply map_ext. intros g.
      apply (created_with_parse_journal_entry self g).
Qed.

(* ------------------------------------------------------------------ *)
(** ** The order of the detected timestamps *)

Section SortOrder.
Import TimestampDetector.

Lemma key_lt_spec a b :
  key_lt a b = true <->
  ((det_confidence b < det_confidence a)%Q
   \/ ((det_confidence a == det_confidence b)%Q
       /\ (Datetime.micros (det_dt a) < Datetime.micros (det_dt b))%Z)).
Proof.
  unfold key_lt. rewrite orb_true_iff, andb_true_iff, Qlt_bool_iff,
    Qeq_bool_iff, Z.ltb_lt. reflexivity.
Qed.

(** [b] is not before [a] in the key order exactly when [a] may stand
    before [b]. *)
Lemma key_lt_false a b : key_lt b a = false <-> Spec.in_key_order a b.
Proof.
  unfold Spec.in_key_order. split.
  - intros H. assert (Hn : ~ (key_lt b a = true)) by congruence.
    rewrite key_lt_spec in Hn. split.
    + apply Qnot_lt_le. intros Hlt. apply Hn. now left.
    + intros Heq. apply Z.nlt_ge. intros Hlt. apply Hn. right.
      split; [now symmetry | exact Hlt].
  - intros [Hle Hz]. destruct (key_lt b a) eqn:Hk; [|reflexivity].
    apply key_lt_spec in Hk. destruct Hk as [Hlt | [Heq Hlt]].
    + exfalso. exact (Qlt_not_le _ _ Hlt Hle).
    + exfalso. symmetry in Heq. specialize (Hz Heq). lia.
Qed.

Lemma in_key_order_trans a b c :
  Spec.in_key_order a b -> Spec.in_key_order b c -> Spec.in_key_order a c.
Proof.
  intros [H1 H2] [H3 H4]. split.
  - eapply Qle_trans; eassumption.
  - intros Heq.
    assert (Hab : (det_confidence a == det_confidence b)%Q).
    { apply Qle_antisym; [rewrite Heq; exact H3 | exact H1]. }
    assert (Hbc : (det_confidence b == det_confidence c)%Q).
    { rewrite <- Hab. exact Heq. }
    specialize (H2 Hab). specialize (H4 Hbc). lia.
Qed.

Lemma key_lt_in_key_order a b : key_lt a b = true -> Spec.in_key_order a b.
Proof.
  intros H. apply key_lt_spec in H. destruct H as [Hlt | [Heq Hlt]]; split.
  - apply Qlt_le_weak, Hlt.
  - intros Heq. rewrite Heq in Hlt. exfalso. exact (Qlt_irrefl _ Hlt).
  - rewrite Heq. apply Qle_refl.
  - intros _. lia.
Qed.

Lemma insert_sorted_perm x l : Permutation (insert_sorted x l) (x :: l).
Proof.
  induction l as [|y l IH]; simpl; [reflexivity|].
  destruct (key_lt x y); [reflexivity|].
  rewrite IH. apply perm_swap.
Qed.

Lemma insert_sorted_sorted x l :
  StronglySorted Spec.in_key_order l ->
  StronglySorted Spec.in_key_order (insert_sorted x l).
Proof.
  intros Hs. induction Hs as [|y l Hs IH Hy]; simpl.
  - constructor; constructor.
  - destruct (key_lt x y) eqn:Hk.
    + constructor; [constructor; assumption|].
      constructor; [apply key_lt_in_key_order, Hk|].
      eapply Forall_impl; [|exact Hy]. intros z Hz.
      eapply in_key_order_trans; [apply key_lt_in_key_order, Hk | exact Hz].
    + constructor; [exact IH|].
      apply (Permutation_Forall
               (Permutation_sym (insert_sorted_perm x l))).
      constructor; [apply key_lt_false, Hk | exact Hy].
Qed.

Lemma stable_sort_perm l : Permutation (stable_sort l) l.
Proof.
  unfold stable_sort.
  assert (G : forall placed,
             Permutation (fold_left (fun placed x => insert_sorted x placed) l placed)
                         (placed ++ l)).
  { induction l as [|x l IH]; intros placed; simpl.
    - now rewrite app_nil_r.
    - rewrite IH. rewrite (insert_sorted_perm x placed). simpl.
      apply Permutation_middle. }
  exact (G []).
Qed.

Lemma stable_sort_sorted l :
  StronglySorted Spec.in_key_order (stable_sort l).
Proof.
  unfold stable_sort.
  assert (G : forall placed,
             StronglySorted Spec.in_key_order placed ->
             StronglySorted Spec.in_key_order
               (fold_left (fun placed x => insert_sorted x placed) l placed)).
  { induction l as [|x l IH]; intros placed Hs; simpl; [exact Hs|].
    apply IH, insert_sorted_sorted, Hs. }
  apply G. constructor.
Qed.

Lemma insert_sorted_last x l :
  Forall (fun y => key_lt x y = false) l -> insert_sorted x l = l ++ [x].
Proof.
  induction 1 as [|y l Hy _ IH]; simpl; [reflexivity|].
  now rewrite Hy, IH.
Qed.

(** The sort is stable: elements none of which goes before an earlier
    one keep the order they had. *)
Lemma stable_sort_ties l :
  ForallOrdPairs (fun a b => key_lt b a = false) l -> stable_sort l = l.
Proof.
  unfold stable_sort.
  assert (G : forall placed,
             Forall (fun x => Forall (fun y => key_lt x y = false) placed) l ->
             ForallOrdPairs (fun a b => key_lt b a = false) l ->
             fold_left (fun placed x => insert_sorted x placed) l placed
             = placed ++ l).
  { induction l as [|x l IH]; intros placed Hp Ho; simpl.
    - now rewrite app_nil_r.
    - inversion Hp as [|? ? Hx Hl]; subst. inversion Ho as [|? ? Hxl Ho']; subst.
      rewrite (@insert_sorted_last _ _ Hx), IH, <- app_assoc; [reflexivity| |exact Ho'].
      rewrite Forall_forall in *. intros z Hz.
      apply Forall_app. split; [apply Hl, Hz|].
      constructor; [apply Hxl, Hz | constructor]. }
  intros Ho. apply (G [] ); [|exact Ho].
  apply Forall_forall. intros; constructor.
Qed.

End SortOrder.

(** C4: what the code does.  The list [detect_timestamp] returns holds
    the accepted matches, without their offsets, sorted by confidence in
    descending order; two results of equal confidence are ordered by
    their datetimes, the earlier instant first, and not by the offsets
    of their matches. *)
Theorem detect_timestamp_order :
  forall (E : PyEnv) (text : string) (results : list TimestampDetector.detection),
    TimestampDetector.detect_timestamp text = Ok results ->
    Permutation results (map snd (TimestampDetector.accepted text))
    /\ StronglySorted Spec.in_key_order results.
Proof.
  intros E text results H.
  unfold TimestampDetector.detect_timestamp, TimestampDetector.sort_results in H.
  destruct (TimestampDetector.has_incomparable _); [discriminate H|].
  injection H as <-. split; [apply stable_sort_perm | apply stable_sort_sorted].
Qed.

(** In the text with 27 July at offset 0 and 26 July at offset 20, both
    matches get the same confidence, and the result lists the match of
    offset 20 first. *)
Lemma detect_timestamp_two_days :
  @TimestampDetector.accepted Spec.two_days_env Spec.two_days_text
  = [(0, 19, (Spec.july_27, "%Y/%m/%d %H:%M:%S", (85 # 100) + (2 # 100) + (2 # 100) + (1 # 100))%Q);
     (20, 39, (Spec.july_26, "%Y/%m/%d %H:%M:%S", (85 # 100) + (2 # 100) + (2 # 100) + (1 # 100))%Q)]
  /\ @TimestampDetector.detect_timestamp Spec.two_days_env Spec.two_days_text
     = Ok [(Spec.july_26, "%Y/%m/%d %H:%M:%S", (85 # 100) + (2 # 100) + (2 # 100) + (1 # 100))%Q;
           (Spec.july_27, "%Y/%m/%d %H:%M:%S", (85 # 100) + (2 # 100) + (2 # 100) + (1 # 100))%Q]
  /\ StronglySorted Spec.in_key_order
       [(Spec.july_26, "%Y/%m/%d %H:%M:%S", (85 # 100) + (2 # 100) + (2 # 100) + (1 # 100))%Q;
        (Spec.july_27, "%Y/%m/%d %H:%M:%S", (85 # 100) + (2 # 100) + (2 # 100) + (1 # 100))%Q].
Proof.
  split; [vm_compute; reflexivity|]. split; [vm_compute; reflexivity|].
  apply (detect_timestamp_order Spec.two_days_env Spec.two_days_text).
  vm_compute. reflexivity.
Defined.

(* ------------------------------------------------------------------ *)
(** ** Exceptions in the detectors *)

Section Returns.
Context {S : Type}.

Lemma returns_sret {A} (a : A) : Spec.returns (@sret S A a).
Proof. intros s. exists s, a. reflexivity. Qed.

Lemma returns_continue_on_error (body : stateful S unit) :
  Spec.returns (Detectors.continue_on_error body).
Proof.
  intros s. unfold Detectors.continue_on_error, stry.
  destruct (body s) as [s' [[]|e]]; eexists; eexists; reflexivity.
Qed.

Lemma returns_sfor {X} (xs : list X) (body : X -> stateful S unit) :
  (forall x, Spec.returns (body x)) -> Spec.returns (sfor xs body).
Proof.
  intros Hb. induction xs as [|x xs IH]; simpl; [apply returns_sret|].
  intros s. unfold sbind. destruct (Hb x s) as (s' & [] & ->). apply IH.
Qed.

Lemma finish_returns {A} (run : S * result unit) (f : S -> A) :
  (exists s' a, run = (s', Ok a)) -> exists r, Detectors.finish run f = Ok r.
Proof. intros (s' & a & ->). eexists. reflexivity. Qed.

End Returns.

(** The detectors whose loop body stands in a handler of [Exception],
    and the CSV detector, whose whole body does, return a result for
    every input. *)
Lemma handled_detectors_return (E : PyEnv) (lines : list string) :
  (exists r, Detectors.PythonLogDetector_detect lines = Ok r)
  /\ (exists r, Detectors.BasicLogDetector_detect lines = Ok r)
  /\ (exists r, Detectors.SyslogDetector_detect lines = Ok r)
  /\ (exists r, Detectors.ApacheDetector_detect lines = Ok r)
  /\ (exists r, Detectors.NginxDetector_detect lines = Ok r)
  /\ (exists r, Detectors.GenericWebLogDetector_detect lines = Ok r)
  /\ (exists r, Detectors.CSVDetector_detect lines = Ok r).
Proof.
  repeat split.
  - apply finish_returns, returns_sfor. intros x. apply returns_continue_on_error.
  - apply finish_returns, returns_sfor. intros x. apply returns_continue_on_error.
  - apply finish_returns, returns_sfor. intros x. apply returns_continue_on_error.
  - unfold Detectors.ApacheDetector_detect.
    destruct (Detectors.preprocess_lines lines 100); [eexists; reflexivity|].
    apply finish_returns, returns_sfor. intros x. apply returns_continue_on_error.
  - unfold Detectors.NginxDetector_detect.
    destruct (Detectors.preprocess_lines lines 100); [eexists; reflexivity|].
    apply finish_returns, returns_sfor. intros x. apply returns_continue_on_error.
  - unfold Detectors.GenericWebLogDetector_detect.
    destruct (Detectors.preprocess_lines lines 100); [eexists; reflexivity|].
    apply finish_returns, returns_sfor. intros x. apply returns_continue_on_error.
  - unfold Detectors.CSVDetector_detect.
    destruct (Detectors.preprocess_lines lines 50); [eexists; reflexivity|].
    destruct (Detectors._detect_csv_dialect _) as [[d h]|]; [|eexists; reflexivity].
    destruct (negb _); eexists; reflexivity.
Qed.

(** C9: what the code does.  The handler in the loop of
    [JSONDetector.detect] names [json.JSONDecodeError] and [TypeError]
    only: when [json.loads] raises an exception of another class on the
    first line of the sample, that exception leaves [detect]. *)
Theorem json_detector_lets_exception_escape :
  forall (E : PyEnv) (lines : list string) (first : string) (rest : list string)
         (e : exn),
    Detectors.preprocess_lines lines 50 = first :: rest ->
    json_loads first = Raise e ->
    isinstance e JSONDecodeError = false ->
    isinstance e TypeError = false ->
    Detectors.JSONDetector_detect lines = Raise e.
Proof.
  intros E lines first rest e Hp Hj H1 H2.
  unfold Detectors.JSONDetector_detect. rewrite Hp.
  cbn [sfor_break]. unfold sbind at 1. unfold stry at 1.
  unfold sbind at 1. unfold slift at 1. rewrite Hj.
  rewrite H1, H2. reflexivity.
Qed.

(** A line of 4096 opening brackets: [json.loads] raises
    [RecursionError], and so does [JSONDetector.detect]. *)
Lemma json_detector_recursion_error :
  @Detectors.JSONDetector_detect Spec.deep_json_env [Spec.nested_arrays 12]
  = Raise (Exn RecursionError
             "maximum recursion depth exceeded while decoding a JSON array").
Proof.
  apply (json_detector_lets_exception_escape Spec.deep_json_env
           [Spec.nested_arrays 12] (Spec.nested_arrays 12) []).
  - vm_compute. reflexivity.
  - vm_compute. reflexivity.
  - reflexivity.
  - reflexivity.
Defined.

(* ------------------------------------------------------------------ *)
(** ** The end-to-end scenarios *)

(** The scenarios are run inside the logic: the term is evaluated by
    value up to the first call of the environment, the call is replaced
    by what the scenario says of it, and the evaluation goes on. *)

Lemma app_cong {A B} (f g : A -> B) (a b : A) : f = g -> a = b -> f a = g b.
Proof. now intros -> ->. Qed.

Lemma result_case {A} (t : result A) (P : A -> Prop) :
  match t with Ok a => P a | Raise _ => False end ->
  exists a, t = Ok a /\ P a.
Proof. destruct t; [eauto | tauto]. Qed.

Lemma parse_case {T} (t : result (T * ParseResult.t)) (tbl : T)
      (Q : ParseResult.t -> Prop) :
  match t with
  | Ok (tbl', pr) => tbl' = tbl /\ Q pr
  | Raise _ => False
  end ->
  exists pr, t = Ok (tbl, pr) /\ Q pr.
Proof. destruct t as [[tbl' pr]|e]; [intros [-> H]; eauto | tauto]. Qed.

(** Evaluation of the goal, and of the left-hand side of an equation,
    up to a call of the environment. *)
Ltac head_goal :=
  cbv head beta iota zeta delta
    -[TimestampDetector.detect_timestamp json_loads csv_reader csv_sniff
      csv_has_header strptime now current_year fromtimestamp
      Detectors._detect_csv_dialect].

Ltac head_step :=
  match goal with
  | |- ?t = ?v =>
      let t' := eval cbv head beta iota zeta delta
                  -[TimestampDetector.detect_timestamp json_loads csv_reader
                    csv_sniff csv_has_header strptime now current_year
                    fromtimestamp Detectors._detect_csv_dialect] in t in
      change (t' = v)
  end.

Ltac closed_in E v := lazymatch v with context [E] => fail | _ => idtac end.

(** The equation [H : f a = rhs] rewritten where the goal has [f a']
    with [a'] convertible to [a]. *)
Ltac rewrite_conv H :=
  lazymatch type of H with
  | ?f ?a = ?rhs =>
      match goal with
      | |- context [f ?a'] =>
          let Heq := fresh "Heq" in
          assert (Heq : f a' = rhs) by exact H;
          rewrite Heq; clear Heq
      end
  end.

(** The value of the left-hand side, computed into the right-hand side;
    [oracle] replaces one call of the environment. *)
Ltac force E oracle :=
  lazymatch goal with
  | |- ?t = _ =>
      lazymatch t with
      | context [E] =>
          head_step; repeat (oracle; head_step);
          lazymatch goal with
          | |- ?f ?a = _ =>
              first [ eapply app_cong; [force_fun E oracle | force E oracle]
                    | reflexivity ]
          | |- _ => reflexivity
          end
      | _ => vm_compute; reflexivity
      end
  end
with force_fun E oracle :=
  lazymatch goal with
  | |- ?f ?a = _ =>
      first [ eapply app_cong; [force_fun E oracle | force E oracle]
            | reflexivity ]
  | |- _ => reflexivity
  end.

(** One call of the environment in the first scenario. *)
Ltac csv_oracle E Hj Hts Hsn Hr :=
  match goal with
  | |- context [TimestampDetector.detect_timestamp ?v] =>
      closed_in E v;
      let Heq := fresh "Heq" in
      assert (Heq : TimestampDetector.detect_timestamp v = Ok [])
        by (apply Hts; vm_compute; tauto);
      rewrite Heq; clear Heq
  | |- context [json_loads ?l] =>
      closed_in E l;
      let m := fresh "msg" in
      let Hm := fresh "Hm" in
      destruct (Hj l ltac:(vm_compute; tauto)) as [m Hm];
      rewrite Hm; clear Hm
  | |- context [csv_reader ?d ?l] =>
      closed_in E l; closed_in E d;
      let Heq := fresh "Heq" in
      first [ assert (Heq : csv_reader d l = Ok Spec.csv_rows)
                by first [exact Hsn | exact (proj1 Hr)]
            | assert (Heq : csv_reader d l = Ok [PyStr.split l ","])
                by (apply (proj2 Hr); vm_compute; tauto) ];
      rewrite Heq; clear Heq
  end.

(** In the first scenario the dialect has the comma and its reader
    splits the text into the four rows, whether it comes from the
    sniffer or from the fallback. *)
Lemma csv_dialect_comma (E : PyEnv) (H : Spec.csv_scenario E) :
  exists d has_header,
    Detectors._detect_csv_dialect Spec.csv_text = Some (d, has_header)
    /\ CsvDialect.delimiter d = ","
    /\ csv_reader d Spec.csv_text = Ok Spec.csv_rows.
Proof.
  destruct H as [_ _ Hs [Hr _]]. unfold Detectors._detect_csv_dialect.
  destruct (csv_sniff Spec.csv_text (PyStr.join "" Detectors.supported_delimiters))
    as [d|e] eqn:Hd.
  - destruct (Hs d eq_refl) as [Hd1 Hd2].
    destruct (csv_has_header Spec.csv_text) as [b|e].
    + exists d, b. now repeat split.
    + exists Spec.excel_comma, true.
      split; [vm_compute; reflexivity|]. split; [reflexivity | exact Hr].
  - exists Spec.excel_comma, true.
    split; [vm_compute; reflexivity|]. split; [reflexivity | exact Hr].
Qed.

(** C7, as the code has it.  For the lines [name,age,city],
    [Alice,30,New York], [Bob,25,London] and [Charlie,35,Sydney], in an
    environment in which [json.loads] rejects the four lines, no cell
    is taken for a timestamp, the sniffer fails or settles on a
    dialect with the comma whose reader splits the text into its four
    rows, and the reader of [csv.excel] with the comma splits the text
    and each line at the commas: the inference engine selects
    CSV with confidence 0.95 (above 0.6), a schema with the fields
    name, age and city, in that order, and the delimiter [,] in the
    metadata; parsing the four lines with that result succeeds and
    yields FOUR entries, none malformed, one per line, the header line
    included: the entry of the header line holds the three header
    texts as strings (its age is the string [age]), and each of the
    three data rows has a string for name and an integer for age. *)
Theorem csv_scenario_outcome :
  forall (E : PyEnv), Spec.csv_scenario E ->
    let r := InferenceEngine.analyze_lines InferenceEngine.new Spec.csv_lines in
    LogCore.FormatDetectionResult.format_type r = LogCore.CSV
    /\ (LogCore.FormatDetectionResult.confidence r == 95 # 100)%Q
    /\ (6 # 10 < LogCore.FormatDetectionResult.confidence r)%Q
    /\ Dict.keys (LogCore.FormatDetectionResult.schema r) = ["name"; "age"; "city"]
    /\ Dict.get (LogCore.FormatDetectionResult.metadata r) "delimiter"
       = Some (LogCore.MStr ",")
    /\ exists pr,
         ParsingEngine.parse_lines LinePatterns.patterns Spec.csv_lines r
         = Ok (LinePatterns.patterns, pr)
         /\ map ParsedLogEntry.fields (ParseResult.entries pr)
            = [ [("name", VStr "name"); ("age", VStr "age"); ("city", VStr "city")];
                [("name", VStr "Alice"); ("age", VInt 30); ("city", VStr "New York")];
                [("name", VStr "Bob"); ("age", VInt 25); ("city", VStr "London")];
                [("name", VStr "Charlie"); ("age", VInt 35); ("city", VStr "Sydney")] ]
         /\ map ParsedLogEntry.is_malformed (ParseResult.entries pr)
            = [false; false; false; false].
Proof.
  intros E H.
  destruct (csv_dialect_comma E H) as (d & hh & Hd & Hdel & Hsn).
  destruct d as [delim qc si]; cbn in Hdel; subst delim.
  destruct H as [Hj Hts Hs Hr].
  eassert (HJ : Detectors.JSONDetector_detect Spec.csv_lines = _).
  { force E ltac:(idtac; csv_oracle E Hj Hts Hsn Hr). }
  eassert (HC : Detectors.CSVDetector_detect Spec.csv_lines = _).
  { force E ltac:(idtac; first [csv_oracle E Hj Hts Hsn Hr | rewrite_conv Hd]). }
  eassert (Hout : InferenceEngine.analyze_lines InferenceEngine.new Spec.csv_lines = _).
  { unfold InferenceEngine.analyze_lines.
    change (match Spec.csv_lines with [] => ?a | _ :: _ => ?b end) with b.
    rewrite run_detectors_fold.
    unfold Spec.cleared, Spec.detection_errors, InferenceEngine.new.
    cbn [InferenceEngine.detectors flat_map].
    unfold Spec.cleared_of, Spec.error_of. cbn [InferenceEngine.detect].
    rewrite !HJ, !HC.
    vm_compute. reflexivity. }
  cbv zeta. rewrite !Hout. clear HJ HC Hout.
  split; [reflexivity|]. split; [reflexivity|]. split; [reflexivity|].
  split; [reflexivity|]. split; [reflexivity|].
  apply parse_case.
  head_goal; repeat (csv_oracle E Hj Hts Hsn Hr; head_goal).
  repeat split.
Qed.

(** [Spec.plain_env] is an environment of the first scenario. *)
Lemma plain_env_csv_scenario : Spec.csv_scenario Spec.plain_env.
Proof.
  constructor.
  - intros l _. eexists. reflexivity.
  - intros v Hv. vm_compute in Hv.
    repeat destruct Hv as [<-|Hv]; try contradiction; vm_compute; reflexivity.
  - intros d Hd. vm_compute in Hd. injection Hd as <-.
    split; vm_compute; reflexivity.
  - split.
    + vm_compute. reflexivity.
    + intros l Hl. vm_compute in Hl.
      repeat destruct Hl as [<-|Hl]; try contradiction; vm_compute; reflexivity.
Qed.

(** The first scenario in [Spec.plain_env]: the engine selects CSV, and
    the four lines give four entries. *)
Lemma csv_scenario_plain_env :
  Spec.csv_scenario Spec.plain_env
  /\ LogCore.FormatDetectionResult.format_type
       (InferenceEngine.analyze_lines (@InferenceEngine.new Spec.plain_env)
          Spec.csv_lines)
     = LogCore.CSV.
Proof.
  split; [exact plain_env_csv_scenario|].
  exact (proj1 (csv_scenario_outcome Spec.plain_env plain_env_csv_scenario)).
Defined.

(** C7, where the claim fails: in [Spec.plain_env] the four lines,
    parsed with the result the engine selects for them, give four
    entries and not three, and the first of them, the entry of the
    header line, has the string [age] for its age, not an integer. *)
Lemma csv_header_line_is_an_entry :
  exists pr e,
    @ParsingEngine.parse_lines Spec.plain_env LinePatterns.patterns Spec.csv_lines
      (InferenceEngine.analyze_lines (@InferenceEngine.new Spec.plain_env)
         Spec.csv_lines)
    = Ok (LinePatterns.patterns, pr)
    /\ List.length (ParseResult.entries pr) = 4
    /\ nth_error (ParseResult.entries pr) 0 = Some e
    /\ ParsedLogEntry.raw_line e = "name,age,city"
    /\ Dict.get (ParsedLogEntry.fields e) "age" = Some (VStr "age").
Proof.
  eexists. eexists. split; [vm_compute; reflexivity|].
  repeat split.
Qed.

(* ------------------------------------------------------------------ *)
(** *** The line of RFC 3164 *)

(** One call of the environment in the second scenario: a list for the
    timestamp detector, empty or not, any answer of [strptime], and
    either of the two data types of a textual field. *)
Ltac syslog_oracle E H :=
  match goal with
  | |- context [TimestampDetector.detect_timestamp ?v] =>
      closed_in E v;
      let Hl := fresh "Hl" in
      let best := fresh "best" in
      let rest := fresh "rest" in
      destruct (H v ltac:(vm_compute; tauto)) as [[|best rest] Hl];
      rewrite Hl; clear Hl
  | |- context [strptime ?a ?b] =>
      let dt := fresh "dt" in
      destruct (strptime a b) as [dt|]
  | Ht : ?t = "string" \/ ?t = "timestamp" |- _ =>
      destruct Ht as [-> | ->]
  end.

(** What [SyslogDetector.detect] answers for the line: one match of
    RFC 3164, and a schema of five fields whose types are those the
    parser relies on. *)
Lemma syslog_detection (E : PyEnv)
      (H : forall v, In v Spec.syslog_values ->
                     exists l, TimestampDetector.detect_timestamp v = Ok l) :
  exists r,
    Detectors.SyslogDetector_detect [Spec.syslog_line] = Ok r
    /\ (LogCore.FormatDetectionResult.format_type r = LogCore.SYSLOG
        /\ (LogCore.FormatDetectionResult.confidence r == 1)%Q
        /\ Dict.get (LogCore.FormatDetectionResult.metadata r) "rfc3164_matches"
           = Some (LogCore.MInt 1)
        /\ exists fi1 fi2 fi3 fi4 fi5,
             r = LogCore.FormatDetectionResult.mk LogCore.SYSLOG 1
                   [("priority", fi1); ("timestamp", fi2); ("hostname", fi3);
                    ("message", fi4); ("tag", fi5)]
                   [Spec.syslog_line]
                   [("rfc3164_matches", LogCore.MInt 1);
                    ("rfc5424_matches", LogCore.MInt 0);
                    ("detected_rfc", LogCore.MStr "RFC3164");
                    ("total_lines_processed", LogCore.MInt 1)]
             /\ LogCore.FieldInfo.data_type fi1 = "integer"
             /\ Spec.textual fi3 /\ Spec.textual fi4 /\ Spec.textual fi5).
Proof.
  apply result_case.
  head_goal; repeat (syslog_oracle E H; head_goal).
  all: (split; [reflexivity|]; split; [reflexivity|]; split; [reflexivity|];
        do 5 eexists; split; [reflexivity|]; split; [reflexivity|];
        repeat split; (first [left; reflexivity | right; reflexivity])).
Qed.

(** Parsing the line with a SYSLOG result that has such a schema. *)
Lemma syslog_parse (E : PyEnv)
      (H : forall v, In v Spec.syslog_values ->
                     exists l, TimestampDetector.detect_timestamp v = Ok l)
      conf fi1 fi2 fi3 fi4 fi5 samples md :
  LogCore.FieldInfo.data_type fi1 = "integer" ->
  Spec.textual fi3 -> Spec.textual fi4 -> Spec.textual fi5 ->
  exists pr,
    ParsingEngine.parse_lines LinePatterns.patterns [Spec.syslog_line]
      (LogCore.FormatDetectionResult.mk LogCore.SYSLOG conf
         [("priority", fi1); ("timestamp", fi2); ("hostname", fi3);
          ("message", fi4); ("tag", fi5)] samples md)
    = Ok (LinePatterns.patterns, pr)
    /\ map ParsedLogEntry.fields (ParseResult.entries pr) = [Spec.syslog_fields].
Proof.
  destruct fi1 as [n1 t1 ? ? ? ? ?], fi3 as [n3 t3 ? ? ? ? ?],
           fi4 as [n4 t4 ? ? ? ? ?], fi5 as [n5 t5 ? ? ? ? ?].
  unfold Spec.textual. cbn [LogCore.FieldInfo.data_type].
  intros -> H3 H4 H5.
  apply parse_case.
  head_goal; repeat (syslog_oracle E H; head_goal).
  all: repeat split.
Qed.

(** [SyslogParser._extract_facility_severity] on the priority 34:
    nothing is stored for a schema without the two names, and the texts
    of 4 and 2, converted as the schema says, for a schema with both. *)
Lemma extract_facility_severity_34 (self : Parser.t) (entry : ParsedLogEntry.t) :
  (Dict.mem (Parser.schema self) "facility" = false ->
   Dict.mem (Parser.schema self) "severity" = false ->
   Parser._extract_facility_severity self 34 entry = (entry, Ok tt))
  /\ (Dict.mem (Parser.schema self) "facility" = true ->
      Dict.mem (Parser.schema self) "severity" = true ->
      Parser._extract_facility_severity self 34 entry
      = (ParsedLogEntry.set_field
           (ParsedLogEntry.set_field entry "facility"
              (Parser._convert_field_value self "facility" "4"))
           "severity" (Parser._convert_field_value self "severity" "2"),
         Ok tt)).
Proof.
  unfold Parser._extract_facility_severity.
  split; intros -> ->; reflexivity.
Qed.

(** One call of the timestamp detector, whatever it answers. *)
Ltac any_oracle E :=
  match goal with
  | |- context [TimestampDetector.detect_timestamp ?v] =>
      closed_in E v;
      let best := fresh "best" in
      let rest := fresh "rest" in
      let e := fresh "e" in
      destruct (TimestampDetector.detect_timestamp v) as [[|best rest]|e]
  end.

(** The confidence of the CSV detector is capped. *)
Lemma csv_detector_bounded (E : PyEnv) (lines : list string) :
  Spec.bounded (Detectors.CSVDetector_detect lines).
Proof.
  unfold Detectors.CSVDetector_detect.
  destruct (Detectors.preprocess_lines lines 50); [cbn; intro; discriminate|].
  destruct (Detectors._detect_csv_dialect _) as [[d h]|]; [|cbn; intro; discriminate].
  destruct (negb _); [cbn; intro; discriminate|].
  cbn [Spec.bounded LogCore.FormatDetectionResult.confidence].
  unfold Detectors._calculate_csv_confidence.
  destruct (Nat.eqb _ _); [intro; discriminate|].
  rewrite fmin_Qmin. apply Q.le_min_r.
Qed.

(** On the line of the second scenario no detector after the second
    of the engine's list answers a confidence above one, whatever the
    timestamp detector does. *)
Lemma syslog_rivals_bounded (E : PyEnv) :
  Forall (fun d => Spec.bounded (InferenceEngine.detect d [Spec.syslog_line]))
         (skipn 2 (InferenceEngine.detectors InferenceEngine.new)).
Proof.
  unfold InferenceEngine.new. cbn [InferenceEngine.detectors skipn].
  repeat match goal with
         | |- Forall _ (_ :: _) => apply Forall_cons
         | |- Forall _ [] => apply Forall_nil
         end; cbn [InferenceEngine.detect].
  1,8,9,10:
    (unfold Spec.bounded; head_goal; repeat (any_oracle E; head_goal);
     first [exact I | intro; discriminate]).
  4: apply csv_detector_bounded.
  all: (vm_compute; intro; discriminate).
Qed.

(** [max] keeps its first element when no other has a greater key. *)
Lemma max_by_confidence_first first others :
  Forall (fun r => (LogCore.FormatDetectionResult.confidence r
                    <= LogCore.FormatDetectionResult.confidence first)%Q) others ->
  InferenceEngine.max_by_confidence first others = first.
Proof.
  unfold InferenceEngine.max_by_confidence.
  induction 1 as [|r others Hr _ IH]; [reflexivity|].
  cbn [fold_left]. apply Qlt_bool_false in Hr. rewrite Hr. exact IH.
Qed.

Lemma cleared_of_bounded lines d :
  Spec.bounded (InferenceEngine.detect d lines) ->
  Forall (fun r => (LogCore.FormatDetectionResult.confidence r <= 1)%Q)
         (Spec.cleared_of lines d).
Proof.
  unfold Spec.bounded, Spec.cleared_of.
  destruct (InferenceEngine.detect d lines) as [r|e]; [|constructor].
  intros Hr. destruct (Qle_bool _ _); repeat constructor. exact Hr.
Qed.

(** The call of [json.loads] in the second scenario. *)
Ltac json_oracle E Hj :=
  match goal with
  | |- context [json_loads ?l] =>
      closed_in E l; rewrite_conv Hj
  end.

(** C8, as the code has it.  For the one line
    [<34>Oct 11 22:14:15 mymachine su: 'su root' failed for lonvick on /dev/pts/8],
    in an environment in which [json.loads] rejects the line and the
    timestamp detector returns a list for each of the five group
    texts: the inference engine answers the format SYSLOG with
    [rfc3164_matches] equal to 1 in the metadata and a schema of
    exactly the fields priority, timestamp, hostname, message and tag;
    parsing the line with that result succeeds and gives one entry,
    whose fields are priority (the integer 34), timestamp, hostname,
    tag and message, so that NEITHER facility NOR severity is among
    them.  [_extract_facility_severity] stores them only for a schema
    that has fields of those names, and then stores the texts of
    [34 >> 3 = 4] and [34 & 7 = 2] converted as that schema says. *)
Theorem syslog_scenario_outcome :
  forall (E : PyEnv), Spec.syslog_scenario E ->
    let r := InferenceEngine.analyze_lines InferenceEngine.new [Spec.syslog_line] in
    LogCore.FormatDetectionResult.format_type r = LogCore.SYSLOG
    /\ Dict.get (LogCore.FormatDetectionResult.metadata r) "rfc3164_matches"
       = Some (LogCore.MInt 1)
    /\ Dict.keys (LogCore.FormatDetectionResult.schema r)
       = ["priority"; "timestamp"; "hostname"; "message"; "tag"]
    /\ (exists pr e,
          ParsingEngine.parse_lines LinePatterns.patterns [Spec.syslog_line] r
          = Ok (LinePatterns.patterns, pr)
          /\ ParseResult.entries pr = [e]
          /\ ParsedLogEntry.fields e
             = [("priority", VInt 34); ("timestamp", VStr "Oct 11 22:14:15");
                ("hostname", VStr "mymachine"); ("tag", VStr "su");
                ("message", VStr "'su root' failed for lonvick on /dev/pts/8")])
    /\ forall (self : Parser.t) (entry : ParsedLogEntry.t),
         (Dict.mem (Parser.schema self) "facility" = false ->
          Dict.mem (Parser.schema self) "severity" = false ->
          Parser._extract_facility_severity self 34 entry = (entry, Ok tt))
         /\ (Dict.mem (Parser.schema self) "facility" = true ->
             Dict.mem (Parser.schema self) "severity" = true ->
             Parser._extract_facility_severity self 34 entry
             = (ParsedLogEntry.set_field
                  (ParsedLogEntry.set_field entry "facility"
                     (Parser._convert_field_value self "facility" "4"))
                  "severity" (Parser._convert_field_value self "severity" "2"),
                Ok tt)).
Proof.
  intros E [[msg Hj] Hts].
  destruct (syslog_detection E Hts)
    as (r0 & Hdet & _ & _ & _ & fi1 & fi2 & fi3 & fi4 & fi5 & -> & Ht1 & Ht3 & Ht4 & Ht5).
  eassert (HJ : Detectors.JSONDetector_detect [Spec.syslog_line] = _).
  { force E ltac:(idtac; json_oracle E Hj). }
  pose proof (syslog_rivals_bounded E) as Hrivals.
  eassert (Hout : InferenceEngine.analyze_lines InferenceEngine.new [Spec.syslog_line]
                  = LogCore.FormatDetectionResult.mk LogCore.SYSLOG _
                      [("priority", _); ("timestamp", _); ("hostname", _);
                       ("message", _); ("tag", _)] _
                      (("rfc3164_matches", LogCore.MInt 1) :: _)).
  { unfold InferenceEngine.analyze_lines. cbv iota.
    rewrite run_detectors_fold. cbn [app].
    assert (Hcl : Spec.cleared (InferenceEngine.detectors InferenceEngine.new)
                    [Spec.syslog_line]
                  = LogCore.FormatDetectionResult.mk LogCore.SYSLOG 1
                      [("priority", fi1); ("timestamp", fi2); ("hostname", fi3);
                       ("message", fi4); ("tag", fi5)]
                      [Spec.syslog_line]
                      [("rfc3164_matches", LogCore.MInt 1);
                       ("rfc5424_matches", LogCore.MInt 0);
                       ("detected_rfc", LogCore.MStr "RFC3164");
                       ("total_lines_processed", LogCore.MInt 1)]
                    :: Spec.cleared
                         (skipn 2 (InferenceEngine.detectors InferenceEngine.new))
                         [Spec.syslog_line]).
    { unfold Spec.cleared at 1. unfold InferenceEngine.new at 1.
      cbn [InferenceEngine.detectors flat_map skipn].
      unfold Spec.cleared_of at 1 2. cbn [InferenceEngine.detect].
      rewrite HJ, Hdet. reflexivity. }
    rewrite Hcl.
    rewrite max_by_confidence_first.
    - reflexivity.
    - apply Forall_flat_map. revert Hrivals. apply Forall_impl.
      intros d Hd. apply cleared_of_bounded. exact Hd. }
  cbv zeta. rewrite !Hout. clear Hout HJ Hrivals Hdet.
  split; [reflexivity|]. split; [reflexivity|]. split; [reflexivity|].
  split.
  - edestruct (syslog_parse E Hts) as (pr & Hpr & Hfields);
      [ | | | | rewrite Hpr ]; try eassumption.
    destruct (ParseResult.entries pr) as [|e [|e' es]] eqn:He; try discriminate.
    exists pr, e. split; [reflexivity|]. split; [assumption|].
    cbn [map] in Hfields. injection Hfields as Hf. rewrite Hf. reflexivity.
  - intros self entry. apply extract_facility_severity_34.
Qed.

(** [Spec.plain_env] is an environment of the second scenario. *)
Lemma plain_env_syslog_scenario : Spec.syslog_scenario Spec.plain_env.
Proof.
  constructor.
  - eexists. reflexivity.
  - intros v Hv. vm_compute in Hv.
    repeat destruct Hv as [<-|Hv]; try contradiction;
      eexists; vm_compute; reflexivity.
Qed.

(** The second scenario in [Spec.plain_env]: the engine answers
    SYSLOG. *)
Lemma syslog_scenario_plain_env :
  Spec.syslog_scenario Spec.plain_env
  /\ LogCore.FormatDetectionResult.format_type
       (InferenceEngine.analyze_lines (@InferenceEngine.new Spec.plain_env)
          [Spec.syslog_line])
     = LogCore.SYSLOG.
Proof.
  split; [exact plain_env_syslog_scenario|].
  exact (proj1 (syslog_scenario_outcome Spec.plain_env plain_env_syslog_scenario)).
Defined.

(** C8, where the claim fails: in [Spec.plain_env] the line, parsed
    with the result the engine answers for it, gives one entry that has
    the priority 34 and neither a facility nor a severity. *)
Lemma syslog_entry_without_facility :
  exists pr e,
    @ParsingEngine.parse_lines Spec.plain_env LinePatterns.patterns
      [Spec.syslog_line]
      (InferenceEngine.analyze_lines (@InferenceEngine.new Spec.plain_env)
         [Spec.syslog_line])
    = Ok (LinePatterns.patterns, pr)
    /\ ParseResult.entries pr = [e]
    /\ Dict.get (ParsedLogEntry.fields e) "priority" = Some (VInt 34)
    /\ Dict.get (ParsedLogEntry.fields e) "facility" = None
    /\ Dict.get (ParsedLogEntry.fields e) "severity" = None.
Proof.
  eexists. eexists. split; [vm_compute; reflexivity|].
  split; [reflexivity|]. repeat split.
Qed.
(* ================================================================== *)
(** ** Further properties of the code *)

Section TimestampResults.
Context {E : PyEnv}.
Import TimestampDetector.

Lemma final_confidence_unit b s p dt :
  Props.unit_interval (_calculate_final_confidence b s p dt).
Proof.
  unfold _calculate_final_confidence, Props.unit_interval.
  rewrite fmax_Qmax, fmin_Qmin. split.
  - apply Q.le_max_l.
  - apply Q.max_lub; [discriminate | apply Q.le_min_l].
Qed.

Lemma parse_timestamp_unit s f p dt c :
  _parse_timestamp s f p = Some (dt, c) -> Props.unit_interval c.
Proof.
  unfold _parse_timestamp.
  match goal with |- match ?x with _ => _ end = _ -> _ => destruct x as [[d b]|] end;
    [|discriminate].
  intros H. injection H as _ <-. apply final_confidence_unit.
Qed.

Lemma scan_match_inv p st m : Props.scan_inv st -> Props.scan_inv (scan_match p st m).
Proof.
  destruct st as [results found]. unfold scan_match.
  intros (Hc & Hd & Hf).
  destruct (existsb _ found) eqn:Hex; [now repeat split|].
  destruct (_parse_timestamp _ _ _) as [[dt c]|] eqn:Hp; [|now repeat split].
  cbn [fst snd] in *. repeat split.
  - apply Forall_app. split; [exact Hc|]. constructor; [|constructor].
    cbn. apply (parse_timestamp_unit _ _ _ _ _ Hp).
  - clear Hc Hp.
    assert (Hnew : Forall (fun x => Props.disjoint_spans x
                             (Re.m_start m, Re.m_end m,
                              (dt, PatternInfo.format p, c))) results).
    { apply Forall_forall. intros x Hx q [Hq1 Hq2]. cbn [fst snd] in Hq2.
      pose proof (Hf x q Hx Hq1) as Hin.
      assert (existsb (fun pos => (Re.m_start m <=? pos) && (pos <? Re.m_end m)) found = true).
      { apply existsb_exists. exists q. split; [exact Hin|].
        apply andb_true_iff. split; [apply Nat.leb_le | apply Nat.ltb_lt]; lia. }
      congruence. }
    clear Hex Hf. induction Hd as [|x l Hx Hd IH]; cbn.
    + constructor; constructor.
    + inversion Hnew as [|? ? Hx' Hl']; subst.
      constructor; [|apply IH, Hl'].
      apply Forall_app. split; [exact Hx|]. constructor; [exact Hx'|constructor].
  - intros x q Hx Hq. apply in_app_iff. apply in_app_iff in Hx.
    destruct Hx as [Hx|[<-|[]]].
    + left. eapply Hf; eassumption.
    + right. cbn [fst snd] in Hq. apply in_seq. lia.
Qed.

Lemma scan_inv_accepted text : Props.scan_inv (fold_left (scan_pattern text) TIMESTAMP_PATTERNS ([], [])).
Proof.
  assert (H0 : Props.scan_inv ([], [])).
  { repeat split; [constructor | constructor | intros x p []]. }
  revert H0. generalize (@nil spanned, @nil nat). 
  induction TIMESTAMP_PATTERNS as [|p ps IH]; intros st Hst; [exact Hst|].
  cbn [fold_left]. apply IH. unfold scan_pattern.
  revert st Hst. induction (Re.finditer _ _) as [|m ms IHm]; intros st Hst; [exact Hst|].
  cbn [fold_left]. apply IHm. apply scan_match_inv, Hst.
Qed.

End TimestampResults.

(** X1.  Every confidence the timestamp detector gives lies between 0
    and 1: of each match the scan accepts, and of each detection
    [detect_timestamp] returns when it returns. *)
Theorem detected_confidences_in_unit_interval :
  forall (E : PyEnv) (text : string),
    Forall (fun x => Props.unit_interval (TimestampDetector.det_confidence (snd x)))
           (TimestampDetector.accepted text)
    /\ match TimestampDetector.detect_timestamp text with
       | Ok results =>
           Forall (fun d => Props.unit_interval (TimestampDetector.det_confidence d))
                  results
       | Raise _ => True
       end.
Proof.
  intros E text.
  assert (Ha : Forall (fun x => Props.unit_interval
                                  (TimestampDetector.det_confidence (snd x)))
                      (TimestampDetector.accepted text)).
  { apply (scan_inv_accepted text). }
  split; [exact Ha|].
  unfold TimestampDetector.detect_timestamp, TimestampDetector.sort_results.
  destruct (TimestampDetector.has_incomparable _); [exact I|].
  apply (Permutation_Forall (Permutation_sym (stable_sort_perm _))).
  apply Forall_map. exact Ha.
Qed.

(** X2.  The matches the scan of [detect_timestamp] accepts cover
    pairwise disjoint positions of the text: a match that overlaps an
    accepted one is passed over. *)
Theorem accepted_spans_disjoint :
  forall (E : PyEnv) (text : string),
    ForallOrdPairs Props.disjoint_spans (TimestampDetector.accepted text).
Proof. intros E text. apply (scan_inv_accepted text). Qed.

Lemma sorted_head_greatest (l : list TimestampDetector.detection) b :
  StronglySorted Spec.in_key_order l -> hd_error l = Some b ->
  Forall (fun d => (TimestampDetector.det_confidence d
                    <= TimestampDetector.det_confidence b)%Q) l.
Proof.
  intros Hs Hb. destruct l as [|x l]; [discriminate|]. injection Hb as ->.
  inversion Hs as [|? ? _ Hall]; subst. constructor; [apply Qle_refl|].
  eapply Forall_impl; [|exact Hall]. intros d [Hd _]. exact Hd.
Qed.

(** X3.  [get_best_timestamp] answers [None] exactly when
    [detect_timestamp] finds nothing; otherwise it answers one of the
    detections, and no detection has a greater confidence.  When
    [detect_timestamp] raises, so does [get_best_timestamp]. *)
Theorem best_timestamp_is_greatest :
  forall (E : PyEnv) (text : string),
    match TimestampDetector.detect_timestamp text with
    | Ok results =>
        (results = [] /\ TimestampDetector.get_best_timestamp text = Ok None)
        \/ (exists best,
               TimestampDetector.get_best_timestamp text = Ok (Some best)
               /\ In best results
               /\ Forall (fun d => (TimestampDetector.det_confidence d
                                    <= TimestampDetector.det_confidence best)%Q)
                         results)
    | Raise e => TimestampDetector.get_best_timestamp text = Raise e
    end.
Proof.
  intros E text. unfold TimestampDetector.get_best_timestamp.
  destruct (TimestampDetector.detect_timestamp text) as [results|e] eqn:Hd;
    [|reflexivity].
  destruct results as [|b rest]; [left; now split|]. right. exists b.
  split; [reflexivity|]. split; [now left|].
  apply sorted_head_greatest; [|reflexivity].
  unfold TimestampDetector.detect_timestamp, TimestampDetector.sort_results in Hd.
  destruct (TimestampDetector.has_incomparable _); [discriminate|].
  injection Hd as <-. apply stable_sort_sorted.
Qed.

Lemma filter_sorted {A} (R : A -> A -> Prop) (f : A -> bool) l :
  StronglySorted R l -> StronglySorted R (filter f l).
Proof.
  induction 1 as [|x l Hs IH Hx]; cbn; [constructor|].
  destruct (f x); [|exact IH]. constructor; [exact IH|].
  apply Forall_forall. intros y Hy. apply filter_In in Hy.
  eapply Forall_forall in Hx; [exact Hx | apply Hy].
Qed.

(** X4.  [extract_all_timestamps] keeps exactly the detections of
    [detect_timestamp] whose confidence is at least [min_confidence];
    they stay in the order of [detect_timestamp], best first, and an
    exception of [detect_timestamp] is passed on. *)
Theorem extract_all_timestamps_filters :
  forall (E : PyEnv) (text : string) (min_confidence : float),
    match TimestampDetector.detect_timestamp text with
    | Ok results =>
        exists kept,
          TimestampDetector.extract_all_timestamps text min_confidence = Ok kept
          /\ (forall d, In d kept <->
                        In d results
                        /\ (min_confidence <= TimestampDetector.det_confidence d)%Q)
          /\ StronglySorted Spec.in_key_order kept
          /\ List.length kept <= List.length results
    | Raise e =>
        TimestampDetector.extract_all_timestamps text min_confidence = Raise e
    end.
Proof.
  intros E text m. unfold TimestampDetector.extract_all_timestamps.
  destruct (TimestampDetector.detect_timestamp text) as [results|e] eqn:Hd;
    [|reflexivity].
  eexists. split; [reflexivity|]. split; [|split].
  - intros d. rewrite filter_In, Qle_bool_iff. reflexivity.
  - apply filter_sorted.
    unfold TimestampDetector.detect_timestamp, TimestampDetector.sort_results in Hd.
    destruct (TimestampDetector.has_incomparable _); [discriminate|].
    injection Hd as <-. apply stable_sort_sorted.
  - apply filter_length_le.
Qed.

Lemma fdiv_nat_unit a b : a <= b -> Props.unit_interval (fdiv_nat a b).
Proof.
  intros Hab. unfold fdiv_nat, Props.unit_interval.
  destruct b as [|b].
  - assert (a = 0) by lia. subst. split; vm_compute; discriminate.
  - assert (Hb : (0 < inject_Z (Z.of_nat (S b)))%Q).
    { unfold Qlt. cbn. lia. }
    split.
    + apply Qle_shift_div_l; [exact Hb|]. rewrite Qmult_0_l.
      unfold Qle. cbn. lia.
    + apply Qle_shift_div_r; [exact Hb|]. rewrite Qmult_1_l.
      unfold Qle. cbn. lia.
Qed.

(** X5.  The confidence of an entry a parser returns lies between 0.1
    and 1; it is 1 exactly when the entry is not malformed, at most 0.8
    when it is, and 0.1 from five recorded errors on. *)
Theorem parsed_entry_confidence_range :
  forall (E : PyEnv) (self : Parser.t) (line : string) (line_number : option nat),
    let e := Parser.parse_line self line line_number in
    (1 # 10 <= ParsedLogEntry.confidence e)%Q
    /\ (ParsedLogEntry.confidence e <= 1)%Q
    /\ ((ParsedLogEntry.confidence e == 1)%Q <-> ParsedLogEntry.is_malformed e = false)
    /\ (ParsedLogEntry.is_malformed e = true -> (ParsedLogEntry.confidence e <= 8 # 10)%Q)
    /\ (5 <= List.length (ParsedLogEntry.parse_errors e) ->
        (ParsedLogEntry.confidence e == 1 # 10)%Q).
Proof.
  intros E self line line_number e.
  destruct (invariant_parse_line self line line_number) as [Hm Hc].
  fold e in Hm, Hc.
  set (n := List.length (ParsedLogEntry.parse_errors e)) in *.
  assert (Hn0 : n = 0 <-> ParsedLogEntry.is_malformed e = false).
  { unfold n. destruct (ParsedLogEntry.parse_errors e) as [|x l] eqn:Hl; cbn.
    - split; [intros _|reflexivity].
      destruct (ParsedLogEntry.is_malformed e); [|reflexivity].
      exfalso. now apply (proj1 Hm).
    - split; [discriminate|]. intros Hf. exfalso.
      assert (ParsedLogEntry.is_malformed e = true) by (apply Hm; discriminate).
      congruence. }
  assert (Hle : n = 0 \/ (1 - (2 # 10) * inject_Z (Z.of_nat n) <= 8 # 10)%Q).
  { destruct n as [|k]; [now left|right].
    unfold Qle, Qminus, Qplus, Qmult, Qopp, inject_Z. cbn -[Z.of_nat Z.mul Z.add]. lia. }
  split; [rewrite Hc; apply Q.le_max_l|].
  split.
  { rewrite Hc. apply Q.max_lub; [discriminate|].
    unfold Qle, Qminus, Qplus, Qmult, Qopp, inject_Z. cbn -[Z.of_nat Z.mul Z.add]. lia. }
  split.
  { split.
    - intros H1. apply Hn0. destruct Hle as [H0|Hle]; [exact H0|]. exfalso.
      rewrite Hc in H1.
      assert (Hmax : (Qmax (1 # 10) (1 - (2 # 10) * inject_Z (Z.of_nat n)) <= 8 # 10)%Q).
      { apply Q.max_lub; [discriminate | exact Hle]. }
      rewrite H1 in Hmax. revert Hmax. vm_compute. intros H; now apply H.
    - intros Hf. apply Hn0 in Hf. rewrite Hc, Hf. reflexivity. }
  split.
  { intros Ht. destruct Hle as [H0|Hle].
    - apply Hn0 in H0. congruence.
    - rewrite Hc. apply Q.max_lub; [discriminate | exact Hle]. }
  intros H5. rewrite Hc. apply Q.max_l.
  unfold Qle, Qminus, Qplus, Qmult, Qopp, inject_Z. cbn -[Z.of_nat Z.mul Z.add]. lia.
Qed.

Lemma count_non_blank_filter lines :
  Parser.count_non_blank lines = List.length (filter Spec.non_blank lines).
Proof. reflexivity. Qed.

Lemma non_empty_groups_length {A} (groups : list (list A)) :
  Forall (fun g => g <> []) groups ->
  List.length groups <= List.length (concat groups).
Proof.
  induction 1 as [|g gs Hg _ IH]; cbn; [lia|].
  rewrite length_app. destruct g; [contradiction|]. cbn. lia.
Qed.

Lemma entries_at_most_lines (E : PyEnv) self lines :
  List.length (ParseResult.entries (Parser.parse_lines self lines))
  <= Parser.count_non_blank lines.
Proof.
  unfold Parser.parse_lines.
  destruct (Parser.cls self);
    try (rewrite base_parse_lines_entries; cbn [ParseResult.entries];
         rewrite length_map, count_non_blank_filter;
         rewrite <- (proj2 (numbered_non_blank_positions lines));
         rewrite length_map; apply Nat.le_refl).
  rewrite journal_parse_lines_entries. cbn [ParseResult.entries].
  rewrite length_map. etransitivity; [apply filter_length_le|].
  destruct (group_lines_partition lines) as [Hne Hcat].
  etransitivity; [apply non_empty_groups_length, Hne|].
  rewrite Hcat, length_map. apply Nat.le_refl.
Qed.

Lemma parse_lines_counts (E : PyEnv) self lines :
  let r := Parser.parse_lines self lines in
  ParseResult.total_lines r = Parser.count_non_blank lines
  /\ ParseResult.successfully_parsed r
     = List.length (filter (fun e => negb (ParsedLogEntry.is_malformed e))
                           (ParseResult.entries r))
  /\ ParseResult.malformed_lines r
     = List.length (filter ParsedLogEntry.is_malformed (ParseResult.entries r)).
Proof.
  unfold Parser.parse_lines.
  destruct (Parser.cls self);
    first [rewrite base_parse_lines_entries | rewrite journal_parse_lines_entries];
    cbn; repeat split.
Qed.

(** X6.  In the result of [parse_lines] the entries, the successfully
    parsed and the malformed lines each number at most [total_lines],
    the success rate lies between 0 and 1, and an input of blank lines
    only gives no entry, [total_lines] 0 and the rate 0. *)
Theorem success_rate_is_a_fraction :
  forall (E : PyEnv) (self : Parser.t) (lines : list string),
    let r := Parser.parse_lines self lines in
    List.length (ParseResult.entries r) <= ParseResult.total_lines r
    /\ ParseResult.successfully_parsed r <= ParseResult.total_lines r
    /\ ParseResult.malformed_lines r <= ParseResult.total_lines r
    /\ (0 <= ParseResult.success_rate r)%Q
    /\ (ParseResult.success_rate r <= 1)%Q
    /\ (Forall (fun l => PyStr.strip l = "") lines ->
        ParseResult.entries r = []
        /\ ParseResult.total_lines r = 0
        /\ ParseResult.success_rate r = 0%Q).
Proof.
  intros E self lines r.
  destruct (parse_lines_counts E self lines) as (Ht & Hs & Hm). fold r in Ht, Hs, Hm.
  pose proof (entries_at_most_lines E self lines) as Hle. fold r in Hle.
  rewrite <- Ht in Hle.
  assert (Hs' : ParseResult.successfully_parsed r <= ParseResult.total_lines r).
  { rewrite Hs. etransitivity; [apply filter_length_le | exact Hle]. }
  assert (Hm' : ParseResult.malformed_lines r <= ParseResult.total_lines r).
  { rewrite Hm. etransitivity; [apply filter_length_le | exact Hle]. }
  split; [exact Hle|]. split; [exact Hs'|]. split; [exact Hm'|].
  assert (Hrate : Props.unit_interval (ParseResult.success_rate r)).
  { unfold ParseResult.success_rate.
    destruct (0 <? ParseResult.total_lines r);
      [apply fdiv_nat_unit, Hs' | split; discriminate]. }
  split; [apply Hrate|]. split; [apply Hrate|].
  intros Hblank.
  assert (H0 : ParseResult.total_lines r = 0).
  { rewrite Ht, count_non_blank_filter. clear - Hblank.
    induction Hblank as [|l ls Hl _ IH]; [reflexivity|].
    cbn. unfold Spec.non_blank at 1. rewrite Hl. exact IH. }
  split; [|split; [exact H0|]].
  - rewrite H0 in Hle. destruct (ParseResult.entries r); [reflexivity|cbn in Hle; lia].
  - unfold ParseResult.success_rate. rewrite H0. reflexivity.
Qed.

Lemma total_count_increment (d : Dict.t nat) k :
  Props.total_count
    (Dict.set d k (match Dict.get d k with Some c => c + 1 | None => 1 end))
  = S (Props.total_count d).
Proof.
  unfold Props.total_count, Dict.values.
  induction d as [|[k' v'] d IH]; [reflexivity|].
  cbn [Dict.set Dict.get]. destruct (String.eqb k k').
  - cbn [map snd list_sum fold_right]. lia.
  - cbn [map snd list_sum fold_right]. fold (list_sum (map snd d)).
    change (fold_right Nat.add 0 (map snd (Dict.set d k
              match Dict.get d k with Some c => c + 1 | None => 1 end)))
      with (list_sum (map snd (Dict.set d k
              match Dict.get d k with Some c => c + 1 | None => 1 end))).
    rewrite IH. lia.
Qed.

Lemma keys_increment (d : Dict.t nat) k v :
  incl (Dict.keys (Dict.set d k v)) (k :: Dict.keys d).
Proof.
  unfold Dict.keys. induction d as [|[k' v'] d IH]; cbn.
  - intros x [<-|[]]. now left.
  - destruct (String.eqb k k') eqn:Hk; cbn.
    + apply String.eqb_eq in Hk. subst. intros x [<-|Hx]; [now left|right; now right].
    + intros x [<-|Hx]; [right; now left|].
      destruct (IH x Hx) as [<-|Hd]; [now left | right; now right].
Qed.

Lemma classify_error_class error :
  In (Parser._classify_error error) Props.error_classes.
Proof.
  unfold Parser._classify_error, Props.error_classes.
  repeat match goal with |- context [if ?b then _ else _] => destruct b end;
    cbn; tauto.
Qed.

Lemma fold_set_get {V} (f : string -> V) (ks : list string) (init : Dict.t V) name :
  Dict.get (fold_left (fun s k => Dict.set s k (f k)) ks init) name
  = if in_dec string_dec name ks then Some (f name) else Dict.get init name.
Proof.
  revert init. induction ks as [|k ks IH]; intros init; [reflexivity|].
  cbn [fold_left]. rewrite IH.
  destruct (in_dec string_dec name ks) as [Hin|Hnin].
  - destruct (in_dec string_dec name (k :: ks)) as [|Hn]; [reflexivity|].
    exfalso. apply Hn. now right.
  - destruct (in_dec string_dec name (k :: ks)) as [[->|Hin]|Hn].
    + apply dict_get_set_same.
    + contradiction.
    + apply dict_get_set_other. intros ->. apply Hn. now left.
Qed.

(** X7.  [_calculate_statistics] answers nothing exactly for no entry.
    Otherwise the counts of [error_types] add up to the number of
    errors recorded in the entries, their keys are among the five error
    classes, and [field_extraction_rates] has exactly the fields of the
    schema, each with the number of entries that hold the field and
    that number over the number of entries. *)
Theorem statistics_account_for_entries :
  forall (self : Parser.t) (entries : list ParsedLogEntry.t),
    match Parser._calculate_statistics self entries with
    | None => entries = []
    | Some stats =>
        entries <> []
        /\ Props.total_count (ParseResult.error_types stats)
           = Props.error_total entries
        /\ incl (Dict.keys (ParseResult.error_types stats)) Props.error_classes
        /\ (forall name,
               In name (Dict.keys (Parser.schema self)) ->
               Dict.get (ParseResult.field_extraction_rates stats) name
               = Some (fdiv_nat (Props.extracted name entries) (List.length entries),
                       Props.extracted name entries)
               /\ Props.extracted name entries <= List.length entries)
        /\ (forall name,
               ~ In name (Dict.keys (Parser.schema self)) ->
               Dict.get (ParseResult.field_extraction_rates stats) name = None)
    end.
Proof.
  intros self entries. unfold Parser._calculate_statistics.
  destruct entries as [|e0 es]; [reflexivity|].
  set (entries := e0 :: es).
  cbn [ParseResult.error_types ParseResult.field_extraction_rates].
  split; [discriminate|]. split; [|split; [|split]].
  - unfold Props.error_total.
    assert (G : forall l counts,
               Props.total_count
                 (fold_left
                    (fun counts entry =>
                       fold_left
                         (fun counts error =>
                            Dict.set counts (Parser._classify_error error)
                              match Dict.get counts (Parser._classify_error error) with
                              | Some c => c + 1
                              | None => 1
                              end) (ParsedLogEntry.parse_errors entry) counts)
                    l counts)
               = Props.total_count counts
                 + list_sum (map (fun e => List.length (ParsedLogEntry.parse_errors e)) l)).
    { induction l as [|e l IH]; intros counts;
        [unfold list_sum; cbn [fold_left map fold_right]; lia|].
      cbn [fold_left map].
      change (list_sum (?a :: ?l)) with (a + list_sum l).
      rewrite IH. clear IH.
      assert (G2 : forall errs counts,
                 Props.total_count
                   (fold_left
                      (fun counts error =>
                         Dict.set counts (Parser._classify_error error)
                           match Dict.get counts (Parser._classify_error error) with
                           | Some c => c + 1
                           | None => 1
                           end) errs counts)
                 = Props.total_count counts + List.length errs).
      { induction errs as [|x errs IH]; intros c; cbn [fold_left List.length]; [lia|].
        rewrite IH, total_count_increment. lia. }
      rewrite G2. lia. }
    rewrite G. reflexivity.
  - assert (G : forall l counts,
               incl (Dict.keys counts) Props.error_classes ->
               incl (Dict.keys
                 (fold_left
                    (fun counts entry =>
                       fold_left
                         (fun counts error =>
                            Dict.set counts (Parser._classify_error error)
                              match Dict.get counts (Parser._classify_error error) with
                              | Some c => c + 1
                              | None => 1
                              end) (ParsedLogEntry.parse_errors entry) counts)
                    l counts)) Props.error_classes).
    { induction l as [|e l IH]; intros counts Hc; cbn [fold_left]; [exact Hc|].
      apply IH. clear IH. revert counts Hc.
      induction (ParsedLogEntry.parse_errors e) as [|x errs IH]; intros c Hc;
        cbn [fold_left]; [exact Hc|].
      apply IH. intros k Hk. apply keys_increment in Hk.
      destruct Hk as [<-|Hk]; [apply classify_error_class | apply Hc, Hk]. }
    apply G. intros k [].
  - intros name Hin. split; [|apply filter_length_le].
    rewrite (fold_set_get
               (fun field_name =>
                  (fdiv_nat (Props.extracted field_name entries) (List.length entries),
                   Props.extracted field_name entries))).
    destruct (in_dec string_dec name (Dict.keys (Parser.schema self)));
      [reflexivity | contradiction].
  - intros name Hnin.
    rewrite (fold_set_get
               (fun field_name =>
                  (fdiv_nat (Props.extracted field_name entries) (List.length entries),
                   Props.extracted field_name entries))).
    destruct (in_dec string_dec name (Dict.keys (Parser.schema self)));
      [contradiction | reflexivity].
Qed.

Lemma create_parser_table tbl r tbl' p :
  ParsingEngine.create_parser tbl r = Ok (tbl', p) ->
  tbl' = match Props.extended_keys (LogCore.FormatDetectionResult.format_type r) with
         | Some (key, extra) => ParsingEngine.extend tbl key extra
         | None => tbl
         end
  /\ (forall key extra,
         Props.extended_keys (LogCore.FormatDetectionResult.format_type r)
         = Some (key, extra) ->
         Parser.patterns p = LinePatterns.patterns_at tbl' key).
Proof.
  unfold ParsingEngine.create_parser.
  destruct (LogCore.LogFormat_eqb _ LogCore.UNKNOWN); [discriminate|].
  destruct r as [f c s l m]. cbn [LogCore.FormatDetectionResult.format_type].
  destruct f; cbn -[LinePatterns.patterns_at Parser._detect_delimiter ParsingEngine.extend];
    intros H; try discriminate; injection H as <- <-;
    (split; [reflexivity|]); intros key extra Hk; try discriminate;
    injection Hk as <- <-; reflexivity.
Qed.

Lemma patterns_at_extend tbl key extra k :
  LinePatterns.patterns_at (ParsingEngine.extend tbl key extra) k
  = if String.eqb k key
    then LinePatterns.patterns_at tbl key ++ LinePatterns.patterns_at tbl extra
    else LinePatterns.patterns_at tbl k.
Proof.
  unfold ParsingEngine.extend, LinePatterns.patterns_at at 1.
  destruct (String.eqb k key) eqn:Hk.
  - apply String.eqb_eq in Hk. subst. now rewrite dict_get_set_same.
  - apply String.eqb_neq in Hk. now rewrite dict_get_set_other.
Qed.

Lemma table_after_unextended n tbl r :
  LogCore.FormatDetectionResult.format_type r <> LogCore.UNKNOWN ->
  Props.extended_keys (LogCore.FormatDetectionResult.format_type r) = None ->
  Props.table_after n tbl r = Ok tbl.
Proof.
  intros Hu Hk. induction n as [|n IH]; [reflexivity|]. cbn [Props.table_after].
  destruct (ParsingEngine.create_parser tbl r) as [[tbl' p]|e] eqn:Hc.
  - destruct (create_parser_table _ _ _ _ Hc) as [-> _]. rewrite Hk. exact IH.
  - exfalso. revert Hc. unfold ParsingEngine.create_parser.
    destruct (LogCore.LogFormat_eqb _ LogCore.UNKNOWN) eqn:Hq.
    + apply LogFormat_eqb_eq in Hq. contradiction.
    + destruct r as [f c s l m]. cbn [LogCore.FormatDetectionResult.format_type] in *.
      destruct f; cbn -[LinePatterns.patterns_at Parser._detect_delimiter ParsingEngine.extend];
        try discriminate; congruence.
Qed.

Lemma copies_snoc {A} n (l : list A) :
  Props.copies n l ++ l = Props.copies (n + 1) l.
Proof.
  induction n as [|n IH]; cbn [Props.copies Nat.add].
  - now rewrite app_nil_r.
  - now rewrite <- app_assoc, IH.
Qed.

Lemma length_copies {A} n (l : list A) :
  List.length (Props.copies n l) = n * List.length l.
Proof.
  induction n as [|n IH]; cbn [Props.copies Nat.mul]; [reflexivity|].
  now rewrite length_app, IH.
Qed.

Lemma table_after_extended n tbl r key extra :
  Props.extended_keys (LogCore.FormatDetectionResult.format_type r) = Some (key, extra) ->
  key <> extra ->
  exists tbl',
    Props.table_after n tbl r = Ok tbl'
    /\ LinePatterns.patterns_at tbl' extra = LinePatterns.patterns_at tbl extra
    /\ LinePatterns.patterns_at tbl' key
       = LinePatterns.patterns_at tbl key
         ++ Props.copies n (LinePatterns.patterns_at tbl extra)
    /\ (forall k, k <> key ->
                  LinePatterns.patterns_at tbl' k = LinePatterns.patterns_at tbl k).
Proof.
  intros Hk Hne. revert tbl. induction n as [|n IH]; intros tbl.
  - exists tbl. cbn [Props.table_after Props.copies]. rewrite app_nil_r.
    repeat split.
  - cbn [Props.table_after].
    destruct (ParsingEngine.create_parser tbl r) as [[tbl1 p]|e] eqn:Hc.
    + destruct (create_parser_table _ _ _ _ Hc) as [-> _]. rewrite Hk.
      destruct (IH (ParsingEngine.extend tbl key extra)) as (tbl' & H1 & H2 & H3 & H4).
      exists tbl'. split; [exact H1|].
      rewrite !patterns_at_extend in *.
      rewrite String.eqb_refl in H3.
      assert (Hx : String.eqb extra key = false)
        by (apply String.eqb_neq; congruence).
      rewrite Hx in H2, H3. split; [exact H2|]. split.
      * rewrite H3, <- app_assoc. reflexivity.
      * intros k Hkk. rewrite H4 by exact Hkk. rewrite patterns_at_extend.
        apply String.eqb_neq in Hkk. now rewrite Hkk.
    + exfalso. revert Hc. unfold ParsingEngine.create_parser.
      destruct r as [f c s l m]. cbn [LogCore.FormatDetectionResult.format_type] in *.
      destruct f; try discriminate;
        cbn -[LinePatterns.patterns_at Parser._detect_delimiter ParsingEngine.extend];
        discriminate.
Qed.

(** X8.  [WebLogParser._setup_parser] extends the shared pattern
    table in place: for APACHE_EXTENDED, NGINX_ACCESS and NGINX_ERROR
    each parser created appends the extra patterns to the list of the
    detector once more.  After [n] parsers the list of the detector is
    the base patterns followed by [n] copies of the extra ones, in
    that order, and every other list of the table is as it was; the
    next parser is created, its patterns are the base patterns
    followed by [n + 1] copies of the extra ones, and that is the list
    it leaves in the table.  The extra list is not empty, so the lists
    do grow.  For the other formats the table stays as it is. *)
Theorem web_parsers_extend_the_pattern_table :
  forall (n : nat) (r : LogCore.FormatDetectionResult.t),
    match Props.extended_keys (LogCore.FormatDetectionResult.format_type r) with
    | Some (key, extra) =>
        let base := LinePatterns.patterns_at LinePatterns.patterns key in
        let more := LinePatterns.patterns_at LinePatterns.patterns extra in
        exists tbl tbl' p,
          Props.table_after n LinePatterns.patterns r = Ok tbl
          /\ LinePatterns.patterns_at tbl key = base ++ Props.copies n more
          /\ (forall k, k <> key ->
                        LinePatterns.patterns_at tbl k
                        = LinePatterns.patterns_at LinePatterns.patterns k)
          /\ ParsingEngine.create_parser tbl r = Ok (tbl', p)
          /\ Parser.patterns p = base ++ Props.copies (n + 1) more
          /\ LinePatterns.patterns_at tbl' key = Parser.patterns p
          /\ (forall k, k <> key ->
                        LinePatterns.patterns_at tbl' k
                        = LinePatterns.patterns_at LinePatterns.patterns k)
          /\ List.length (Parser.patterns p)
             = List.length base + (n + 1) * List.length more
          /\ 0 < List.length more
    | None =>
        LogCore.FormatDetectionResult.format_type r = LogCore.UNKNOWN
        \/ Props.table_after n LinePatterns.patterns r = Ok LinePatterns.patterns
    end.
Proof.
  intros n r.
  destruct (Props.extended_keys _) as [[key extra]|] eqn:Hk.
  - assert (Hne : key <> extra).
    { destruct r as [f c s l m]. cbn in Hk.
      destruct f; try discriminate; injection Hk as <- <-; discriminate. }
    assert (Hpos : 0 < List.length (LinePatterns.patterns_at LinePatterns.patterns extra)).
    { destruct r as [f c s l m]. cbn in Hk.
      destruct f; try discriminate; injection Hk as <- <-; vm_compute; lia. }
    destruct (table_after_extended n LinePatterns.patterns r key extra Hk Hne)
      as (tbl & H1 & H2 & H3 & H4).
    destruct (table_after_extended 1 tbl r key extra Hk Hne)
      as (tbl' & G1 & G2 & G3 & G4).
    cbn [Props.table_after] in G1.
    destruct (ParsingEngine.create_parser tbl r) as [[tbl1 p]|e] eqn:Hc;
      [|discriminate].
    injection G1 as ->.
    destruct (create_parser_table _ _ _ _ Hc) as [_ Hp].
    assert (Hpat : Parser.patterns p
                   = LinePatterns.patterns_at LinePatterns.patterns key
                     ++ Props.copies (n + 1)
                          (LinePatterns.patterns_at LinePatterns.patterns extra)).
    { rewrite (Hp key extra Hk), G3, H3, H2, <- app_assoc. f_equal.
      cbn [Props.copies]. rewrite app_nil_r. apply copies_snoc. }
    cbv zeta. exists tbl, tbl', p.
    split; [exact H1|]. split; [exact H3|]. split; [exact H4|].
    split; [exact Hc|]. split; [exact Hpat|].
    split; [symmetry; exact (Hp key extra Hk)|].
    split; [intros k Hkk; rewrite (G4 k Hkk); exact (H4 k Hkk)|].
    split; [|exact Hpos].
    rewrite Hpat, length_app, length_copies. reflexivity.
  - destruct (LogCore.LogFormat_eqb (LogCore.FormatDetectionResult.format_type r)
                                    LogCore.UNKNOWN) eqn:Hu.
    + left. now apply LogFormat_eqb_eq.
    + right. apply table_after_unextended; [|exact Hk].
      intros Hf. apply LogFormat_eqb_eq in Hf. congruence.
Qed.

Lemma keeps_sfor_in {S X} (P : S -> Prop) (xs : list X) (body : X -> stateful S unit) :
  (forall x, In x xs -> Spec.keeps P (body x)) -> Spec.keeps P (sfor xs body).
Proof.
  induction xs as [|x xs IH]; intros Hb; simpl.
  - apply keeps_sret.
  - apply keeps_sbind; [apply Hb; now left | intros _; apply IH].
    intros y Hy. apply Hb. now right.
Qed.

Lemma dict_keys_mem {V} (d : Dict.t V) k : In k (Dict.keys d) -> Dict.mem d k = true.
Proof.
  unfold Dict.mem, Dict.keys. induction d as [|[k' v] d IH]; cbn; [tauto|].
  intros [->|H]; [now rewrite String.eqb_refl|].
  destruct (String.eqb k k'); [reflexivity | apply IH, H].
Qed.

Lemma dict_get_mem {V} (d : Dict.t V) k v : Dict.get d k = Some v -> Dict.mem d k = true.
Proof. unfold Dict.mem. now intros ->. Qed.

Ltac in_schema :=
  first
    [ assumption
    | match goal with
      | H : Dict.get _ ?k = Some _ |- Dict.mem _ ?k = true => exact (dict_get_mem _ _ _ H)
      | H : In ?k (Dict.keys _) |- Dict.mem _ ?k = true => exact (dict_keys_mem _ _ H)
      | H : (_ && _)%bool = true |- _ =>
          apply andb_true_iff in H; destruct H; assumption
      end ].

Ltac fields_step :=
  lazymatch goal with
  | |- Spec.keeps _ (sbind _ _) => apply keeps_sbind; [|intros ?]
  | |- Spec.keeps _ (sret _) => apply keeps_sret
  | |- Spec.keeps _ (sraise _) => apply keeps_sraise
  | |- Spec.keeps _ sget => apply keeps_sget
  | |- Spec.keeps _ (slift _) => apply keeps_slift
  | |- Spec.keeps _ (stry _ _) => apply keeps_stry; [|intros ?]
  | |- Spec.keeps _ (sfor _ _) => apply keeps_sfor_in; intros ? ?
  | |- Spec.keeps _ (sfor_break _ _) => apply keeps_sfor_break; intros ?
  | |- Spec.keeps _ (match ?x with _ => _ end) => destruct x eqn:?
  | |- Spec.keeps _ (let _ := _ in _) => cbv zeta
  end.

Create HintDb fields.

Section SchemaFields.
Context {E : PyEnv}.
Variable self : Parser.t.

Abbreviation Inv := (Props.fields_in_schema self).

Lemma fields_add_parse_error err : Spec.keeps Inv (Parser.add_parse_error err).
Proof. apply keeps_smodify. intros e H. exact H. Qed.

Lemma fields_set_timestamp dt : Spec.keeps Inv (Parser.set_timestamp dt).
Proof. apply keeps_smodify. intros e H. exact H. Qed.

Lemma fields_set_field k v :
  Dict.mem (Parser.schema self) k = true -> Spec.keeps Inv (Parser.set_field k v).
Proof.
  intros Hk. apply keeps_smodify. intros e H k'.
  cbn [ParsedLogEntry.set_field ParsedLogEntry.fields]. rewrite dict_mem_set.
  destruct (String.eqb k' k) eqn:Hq; [|apply H].
  apply String.eqb_eq in Hq. now subst.
Qed.

Hint Resolve fields_add_parse_error fields_set_timestamp : fields.

Ltac fields_auto :=
  repeat fields_step;
  try (apply fields_set_field; in_schema);
  auto with fields.

Lemma fields_assign_extracted_timestamp :
  Spec.keeps Inv Parser.assign_extracted_timestamp.
Proof.
  unfold Parser.assign_extracted_timestamp, Parser._extract_timestamp_from_entry.
  fields_auto. apply keeps_smodify. intros e H. exact H.
Qed.

Lemma fields_detect_into_timestamp value err :
  Spec.keeps Inv (Parser.detect_into_timestamp value err).
Proof. unfold Parser.detect_into_timestamp. fields_auto. Qed.

Hint Resolve fields_assign_extracted_timestamp fields_detect_into_timestamp : fields.

Lemma fields_map_field_value field_name value :
  Spec.keeps Inv (Parser._map_field_value self field_name value).
Proof. unfold Parser._map_field_value. fields_auto. Qed.

Hint Resolve fields_map_field_value : fields.

Lemma fields_map_groups pattern m : Spec.keeps Inv (Parser.map_groups self pattern m).
Proof. unfold Parser.map_groups. fields_auto. Qed.

Hint Resolve fields_map_groups : fields.

Lemma fields_base_try_pattern line pattern :
  Spec.keeps Inv (Parser.base_try_pattern self line pattern).
Proof. unfold Parser.base_try_pattern. fields_auto. Qed.

Lemma fields_base_fallback_parsing line :
  Spec.keeps Inv (Parser.base_fallback_parsing self line).
Proof. unfold Parser.base_fallback_parsing. fields_auto. Qed.

Hint Resolve fields_base_try_pattern fields_base_fallback_parsing : fields.

Lemma fields_parse_web_timestamp : Spec.keeps Inv (Parser._parse_web_timestamp self).
Proof. unfold Parser._parse_web_timestamp. fields_auto. Qed.

Lemma fields_parse_request_field : Spec.keeps Inv (Parser._parse_request_field self).
Proof. unfold Parser._parse_request_field. fields_auto. Qed.

Hint Resolve fields_parse_web_timestamp fields_parse_request_field : fields.

Lemma fields_web_try_pattern line pattern :
  Spec.keeps Inv (Parser.web_try_pattern self line pattern).
Proof. unfold Parser.web_try_pattern. fields_auto. Qed.

Lemma fields_extract_facility_severity priority :
  Spec.keeps Inv (Parser._extract_facility_severity self priority).
Proof. unfold Parser._extract_facility_severity. fields_auto. Qed.

Lemma fields_year_timestamp field_name value :
  Spec.keeps Inv (Parser.year_timestamp self field_name value).
Proof. unfold Parser.year_timestamp. fields_auto. Qed.

Hint Resolve fields_web_try_pattern fields_extract_facility_severity
  fields_year_timestamp : fields.

Lemma fields_parse_rfc_pattern p m rfc_type :
  Spec.keeps Inv (Parser._parse_rfc_pattern self p m rfc_type).
Proof. unfold Parser._parse_rfc_pattern. fields_auto. Qed.

Hint Resolve fields_parse_rfc_pattern : fields.

Lemma fields_syslog_try_pattern line pattern :
  Spec.keeps Inv (Parser.syslog_try_pattern self line pattern).
Proof. unfold Parser.syslog_try_pattern. fields_auto. Qed.

Lemma fields_map_with_year mapping : Spec.keeps Inv (Parser.map_with_year self mapping).
Proof. unfold Parser.map_with_year. fields_auto. Qed.

Hint Resolve fields_syslog_try_pattern fields_map_with_year : fields.

Lemma fields_syslog_fallback_parsing line :
  Spec.keeps Inv (Parser.syslog_fallback_parsing self line).
Proof. unfold Parser.syslog_fallback_parsing. fields_auto. Qed.

Hint Resolve fields_syslog_fallback_parsing : fields.

Lemma fields_try_pattern line pattern :
  Spec.keeps Inv (Parser._try_pattern self line pattern).
Proof. unfold Parser._try_pattern. destruct (Parser.cls self); auto with fields. Qed.

Lemma fields_fallback_parsing line :
  Spec.keeps Inv (Parser._fallback_parsing self line).
Proof. unfold Parser._fallback_parsing. destruct (Parser.cls self); auto with fields. Qed.

Hint Resolve fields_try_pattern fields_fallback_parsing : fields.

Lemma fields_try_patterns line patterns :
  Spec.keeps Inv (Parser.try_patterns self line patterns).
Proof.
  induction patterns as [|pattern rest IH]; simpl.
  - auto with fields.
  - fields_auto.
Qed.

Lemma fields_json_body line : Spec.keeps Inv (Parser.json_body self line).
Proof. unfold Parser.json_body. fields_auto. Qed.

Lemma fields_first_detected parts : Spec.keeps Inv (Parser.first_detected parts).
Proof. induction parts as [|value rest IH]; simpl; fields_auto. Qed.

Hint Resolve fields_first_detected : fields.

Lemma fields_delimited_body line : Spec.keeps Inv (Parser.delimited_body self line).
Proof. unfold Parser.delimited_body. fields_auto. Qed.

Lemma fields_kv_body line : Spec.keeps Inv (Parser.kv_body self line).
Proof. unfold Parser.kv_body. fields_auto. Qed.

Lemma fields_parse_journalctl_output line :
  Spec.keeps Inv (Parser._parse_journalctl_output self line).
Proof. unfold Parser._parse_journalctl_output. fields_auto. Qed.

Lemma fields_realtime_timestamp field_name value :
  Dict.mem (Parser.schema self) field_name = true ->
  Spec.keeps Inv (Parser.realtime_timestamp field_name value).
Proof. intros Hk. unfold Parser.realtime_timestamp. fields_auto. Qed.

Hint Resolve fields_parse_journalctl_output : fields.

Lemma fields_store_journal_field field_name value :
  Spec.keeps Inv (Parser.store_journal_field self field_name value).
Proof.
  unfold Parser.store_journal_field. fields_auto.
  apply fields_realtime_timestamp. assumption.
Qed.

Hint Resolve fields_store_journal_field : fields.

Lemma fields_journal_entry_body entry_lines :
  Spec.keeps Inv (Parser.journal_entry_body self entry_lines).
Proof. unfold Parser.journal_entry_body. fields_auto. Qed.

Lemma fields_journal_line_body line :
  Spec.keeps Inv (Parser.journal_line_body self line).
Proof. unfold Parser.journal_line_body. fields_auto. Qed.

Lemma fields_guarded prefix body e :
  Spec.keeps Inv body -> Inv e -> Inv (Parser.guarded prefix body e).
Proof.
  intros Hb He. unfold Parser.guarded. specialize (Hb e He).
  destruct (body e) as [e' [u|x]]; simpl in Hb; exact Hb.
Qed.

Lemma fields_new line line_number : Inv (ParsedLogEntry.new line line_number).
Proof. intros k H. discriminate H. Qed.

End SchemaFields.

Lemma parse_line_fields_in_schema (E : PyEnv) (self : Parser.t) line line_number :
  Props.fields_in_schema self (Parser.parse_line self line line_number).
Proof.
  unfold Parser.parse_line.
  pose proof (fields_new self line line_number) as H0.
  destruct (Parser.cls self).
  - unfold Parser.json_parse_line.
    pose proof (fields_json_body self line _ H0) as Hb.
    destruct (Parser.json_body self line _) as [e' [u|x]]; simpl in Hb;
      [exact Hb | destruct (isinstance x JSONDecodeError); exact Hb].
  - apply fields_guarded; [apply fields_delimited_body | exact H0].
  - apply fields_guarded; [apply fields_kv_body | exact H0].
  - apply fields_guarded; [apply fields_try_patterns | exact H0].
  - apply fields_guarded; [apply fields_try_patterns | exact H0].
  - apply fields_guarded; [apply fields_journal_line_body | exact H0].
  - apply fields_guarded; [apply fields_try_patterns | exact H0].
Qed.

(** X9.  Whatever the class of the parser and whatever the environment
    does, an entry returned by [parse_line], and every entry of
    [parse_lines], has only fields that the schema of the detection
    result declares. *)
Theorem parsed_fields_are_schema_fields :
  forall (E : PyEnv) (self : Parser.t),
    (forall line line_number,
        Props.fields_in_schema self (Parser.parse_line self line line_number))
    /\ (forall lines,
           Forall (Props.fields_in_schema self)
                  (ParseResult.entries (Parser.parse_lines self lines))).
Proof.
  intros E self.
  split; [apply parse_line_fields_in_schema|].
  intros lines. unfold Parser.parse_lines.
  destruct (Parser.cls self);
    try (rewrite base_parse_lines_entries; cbn [ParseResult.entries];
         apply Forall_map, Forall_forall; intros il _;
         apply parse_line_fields_in_schema).
  rewrite journal_parse_lines_entries. cbn [ParseResult.entries].
  apply Forall_map, Forall_forall. intros g _.
  apply fields_guarded; [apply fields_journal_entry_body | apply fields_new].
Qed.

(* ================================================================== *)
(** ** What the detectors and the engine return *)

Import LogCore.

Ltac result_split :=
  split; [|split];
  cbn [FormatDetectionResult.confidence FormatDetectionResult.sample_lines
       FormatDetectionResult.schema].

Lemma dict_set_in {V} (d : Dict.t V) k v k' v' :
  In (k', v') (Dict.set d k v) -> (k' = k /\ v' = v) \/ In (k', v') d.
Proof.
  induction d as [|[k0 v0] d IH]; cbn.
  - intros [H|[]]. injection H as <- <-. now left.
  - destruct (String.eqb k k0) eqn:Hk.
    + intros [H|H]; [|right; now right].
      injection H as <- <-. apply String.eqb_eq in Hk. subst. now left.
    + intros [H|H]; [right; now left|].
      destruct (IH H) as [?|?]; [now left | right; now right].
Qed.

Lemma dict_get_in {V} (d : Dict.t V) k v : Dict.get d k = Some v -> In (k, v) d.
Proof.
  induction d as [|[k0 v0] d IH]; cbn; [discriminate|].
  destruct (String.eqb k k0) eqn:Hk.
  - intros H. injection H as <-. apply String.eqb_eq in Hk. subst. now left.
  - intros H. right. apply IH, H.
Qed.

Lemma pystr_mem_in v l : PyStr.mem v l = true <-> In v l.
Proof.
  unfold PyStr.mem. rewrite existsb_exists. split.
  - intros (x & Hx & He). apply String.eqb_eq in He. now subst.
  - intros H. exists v. split; [exact H | apply String.eqb_refl].
Qed.

Section Answers.
Context {S : Type} (P : S -> Prop).

Lemma answers_sret {A} (a : A) (R : A -> Prop) : R a -> Props.answers P (sret a) R.
Proof. intros Ha s H. now split. Qed.

Lemma answers_sget : Props.answers P sget P.
Proof. intros s H. now split. Qed.

Lemma answers_slift {A} (r : result A) (R : A -> Prop) :
  (forall a, r = Ok a -> R a) -> Props.answers P (slift r) R.
Proof. intros Hr s H. split; [exact H|]. cbn. destruct r; [now apply Hr | exact I]. Qed.

Lemma answers_sbind {A B} (c : stateful S A) (f : A -> stateful S B) (R : A -> Prop) :
  Props.answers P c R -> (forall a, R a -> Spec.keeps P (f a)) ->
  Spec.keeps P (sbind c f).
Proof.
  intros Hc Hf s H. unfold sbind. destruct (Hc s H) as [Hs Ha].
  destruct (c s) as [s' [a|e]]; cbn in *; [now apply Hf | exact Hs].
Qed.

End Answers.

Section SchemaInvariant.
Context {E : PyEnv}.

Lemma infer_string_type_known value t :
  Utils.infer_string_type value = Ok t -> In t Props.data_types.
Proof.
  unfold Utils.infer_string_type, Props.data_types.
  repeat match goal with
         | |- (if ?b then _ else _) = _ -> _ => destruct b
         | |- match ?x with _ => _ end = _ -> _ => destruct x
         end;
    intros H; try discriminate H; injection H as <-; cbn; tauto.
Qed.

Lemma field_wf_new k t b : In t Props.data_types -> Props.field_wf k (FieldInfo.new k t b).
Proof.
  intros Ht. split; cbn; try easy; try lia. constructor.
Qed.

Lemma field_wf_sample k fi value :
  Props.field_wf k fi ->
  Props.field_wf k (FieldInfo.add_sample_value (FieldInfo.update_frequency fi) value).
Proof.
  intros [Hn Ht Hs Hd Hf Hz]. unfold FieldInfo.add_sample_value.
  cbn [FieldInfo.update_frequency FieldInfo.sample_values FieldInfo.name
       FieldInfo.data_type FieldInfo.is_timestamp FieldInfo.timestamp_format
       FieldInfo.frequency FieldInfo.confidence].
  destruct (Nat.ltb_spec (List.length (FieldInfo.sample_values fi)) 10) as [Hlt|Hge];
    cbn [andb].
  - destruct (PyStr.mem value (FieldInfo.sample_values fi)) eqn:Hm; cbn [negb].
    + split; cbn; try assumption. lia.
    + split; cbn; try assumption.
      * rewrite length_app. cbn. lia.
      * apply NoDup_app; [exact Hd | constructor; [intros [] | constructor] |].
        intros x Hx [<-|[]]. apply pystr_mem_in in Hx. congruence.
      * rewrite length_app. cbn. lia.
  - split; cbn; try assumption. lia.
Qed.

Lemma schema_wf_set s k fi :
  Props.schema_wf s -> Props.field_wf k fi -> Props.schema_wf (Dict.set s k fi).
Proof.
  intros Hs Hfi k' fi' Hin. apply dict_set_in in Hin.
  destruct Hin as [[-> ->]|Hin]; [exact Hfi | apply Hs, Hin].
Qed.

Lemma keeps_modify_field field_name f :
  (forall fi, Props.field_wf field_name fi -> Props.field_wf field_name (f fi)) ->
  Spec.keeps Props.schema_wf (Utils.modify_field field_name f).
Proof.
  intros Hf. apply keeps_smodify. intros s Hs.
  destruct (Dict.get s field_name) as [fi|] eqn:Hg; [|exact Hs].
  apply schema_wf_set; [exact Hs|]. apply Hf, Hs, dict_get_in, Hg.
Qed.

Lemma keeps_update_field_info field_name value data_type is_timestamp_field :
  (forall t, data_type = Some t -> In t Props.data_types) ->
  Spec.keeps Props.schema_wf
    (Utils.update_field_info field_name value data_type is_timestamp_field).
Proof.
  intros Hdt. unfold Utils.update_field_info.
  destruct (_ || _); [apply keeps_sret|].
  apply keeps_sbind; [apply keeps_sget | intros schema].
  apply keeps_sbind.
  { destruct (negb _); [|apply keeps_sret].
    apply (answers_sbind _ _ _ (fun t => In t Props.data_types)).
    - destruct data_type as [t|].
      + apply answers_sret, Hdt. reflexivity.
      + apply answers_slift, infer_string_type_known.
    - intros t Ht. apply keeps_smodify. intros s Hs.
      apply schema_wf_set; [exact Hs | apply field_wf_new, Ht]. }
  intros _. apply keeps_sbind.
  { apply keeps_modify_field. intros fi. apply field_wf_sample. }
  intros _. apply keeps_sbind; [apply keeps_sget | intros schema'].
  destruct (_ || _); [|apply keeps_sret].
  apply keeps_sbind; [apply keeps_slift | intros [|best rest]]; [apply keeps_sret|].
  apply keeps_modify_field. intros fi [Hn Ht Hs Hd Hf Hz]. now split.
Qed.

Lemma keeps_extract_schema_from_match pattern m :
  Spec.keeps Props.schema_wf (Utils._extract_schema_from_match pattern m).
Proof.
  unfold Utils._extract_schema_from_match. apply keeps_sfor. intros [i field_name].
  repeat keeps_step. apply keeps_update_field_info. discriminate.
Qed.

Lemma keeps_match_patterns line patterns :
  Spec.keeps Props.schema_wf (Utils.match_patterns line patterns).
Proof.
  induction patterns as [|pattern rest IH]; cbn; [apply keeps_sret|].
  destruct (Re.match_ _ _); [|exact IH].
  apply keeps_sbind; [apply keeps_extract_schema_from_match | intros _; apply keeps_sret].
Qed.


End SchemaInvariant.

Section Hoare.
Context {S : Type}.

Lemma hoare_keeps {A} (P : S -> Prop) (c : stateful S A) :
  Spec.keeps P c -> Props.hoare P c P.
Proof. intros H. exact H. Qed.

Lemma hoare_sbind_l {A B} (P Q : S -> Prop) (c : stateful S A) (f : A -> stateful S B) :
  Spec.keeps P c -> (forall s, P s -> Q s) -> (forall a, Props.hoare P (f a) Q) ->
  Props.hoare P (sbind c f) Q.
Proof.
  intros Hc HPQ Hf s H. unfold sbind. specialize (Hc s H).
  destruct (c s) as [s' [a|e]]; cbn in *; [apply Hf, Hc | apply HPQ, Hc].
Qed.

Lemma hoare_sbind_r {A B} (P Q : S -> Prop) (c : stateful S A) (f : A -> stateful S B) :
  Props.hoare P c Q -> (forall a, Spec.keeps Q (f a)) ->
  Props.hoare P (sbind c f) Q.
Proof.
  intros Hc Hf s H. unfold sbind. specialize (Hc s H).
  destruct (c s) as [s' [a|e]]; cbn in *; [apply Hf, Hc | exact Hc].
Qed.

Lemma hoare_stry {A} (P Q : S -> Prop) (body : stateful S A) handler :
  Props.hoare P body Q -> (forall e, Spec.keeps Q (handler e)) ->
  Props.hoare P (stry body handler) Q.
Proof.
  intros Hb Hh s H. unfold stry. specialize (Hb s H).
  destruct (body s) as [s' [a|e]]; cbn in *; [exact Hb | apply Hh, Hb].
Qed.

Lemma hoare_skip (P Q : S -> Prop) :
  (forall s, P s -> Q s) -> Props.hoare P (sret tt) Q.
Proof. intros HPQ s H. apply HPQ, H. Qed.

Lemma hoare_sfor {X} (I : nat -> S -> Prop) (xs : list X) (body : X -> stateful S unit) :
  (forall n x, Props.hoare (I n) (body x) (I (Datatypes.S n))) ->
  (forall n s, I n s -> I (Datatypes.S n) s) ->
  forall n s, I n s -> I (n + List.length xs) (fst (sfor xs body s)).
Proof.
  intros Hb Hmono. induction xs as [|x xs IH]; intros n s H; cbn.
  - now rewrite Nat.add_0_r.
  - unfold sbind. specialize (Hb n x s H).
    destruct (body x s) as [s' [[]|e]]; cbn in *.
    + rewrite <- Nat.add_succ_comm. apply IH, Hb.
    + rewrite <- Nat.add_succ_comm.
      clear - Hmono Hb. induction (List.length xs) as [|k IHk].
      * now rewrite Nat.add_0_r.
      * rewrite Nat.add_succ_r. apply Hmono, IHk.
Qed.

Lemma hoare_sfor_break {X} (I : nat -> S -> Prop) (xs : list X)
      (body : X -> stateful S bool) :
  (forall n x, Props.hoare (I n) (body x) (I (Datatypes.S n))) ->
  (forall n s, I n s -> I (Datatypes.S n) s) ->
  forall n s, I n s -> I (n + List.length xs) (fst (sfor_break xs body s)).
Proof.
  intros Hb Hmono.
  assert (Hup : forall k n s, I n s -> I (n + k) s).
  { induction k as [|k IHk]; intros n s H.
    - now rewrite Nat.add_0_r.
    - rewrite Nat.add_succ_r. apply Hmono, IHk, H. }
  induction xs as [|x xs IH]; intros n s H; cbn.
  - now rewrite Nat.add_0_r.
  - unfold sbind. specialize (Hb n x s H).
    destruct (body x s) as [s' [[|]|e]]; cbn in *; rewrite <- Nat.add_succ_comm.
    + apply Hup, Hb.
    + apply IH, Hb.
    + apply Hup, Hb.
Qed.

End Hoare.

Section LoopState.
Context {E : PyEnv} {C : Type} (m : C -> nat) (B : list string -> Prop).

Lemma loop_inv_mono n (st : Detectors.loop C) :
  Props.loop_inv m B n st -> Props.loop_inv m B (S n) st.
Proof. intros (H1 & H2 & H3). split; [|split]; [exact H1 | lia | exact H3]. Qed.

Lemma keeps_on_schema {A} (c : stateful Schema A) n :
  Spec.keeps Props.schema_wf c ->
  Spec.keeps (Props.loop_inv m B n) (Detectors.on_schema c).
Proof.
  intros Hc st (H1 & H2 & H3). unfold Detectors.on_schema. specialize (Hc _ H1).
  destruct (c (Detectors.schema st)) as [schema' r]. cbn in *. split; [|split]; assumption.
Qed.

Lemma hoare_count (f : C -> C) n k :
  (forall c, m (f c) <= m c + k) ->
  Props.hoare (Props.loop_inv m B n) (Detectors.count f) (Props.loop_inv m B (n + k)).
Proof.
  intros Hf st (H1 & H2 & H3). unfold Detectors.count, smodify.
  cbn [fst Detectors.schema Detectors.counters Detectors.sample_lines].
  split; [|split]; [exact H1 | | exact H3].
  cbn [Detectors.counters]. specialize (Hf (Detectors.counters st)). lia.
Qed.

Lemma keeps_add_sample line n :
  (forall l, B l -> B (l ++ [line])) ->
  Spec.keeps (Props.loop_inv m B n) (Detectors.add_sample line).
Proof.
  intros HB st (H1 & H2 & H3). unfold Detectors.add_sample, smodify.
  split; [|split]; cbn [fst Detectors.schema Detectors.counters Detectors.sample_lines];
    auto.
Qed.

Lemma keeps_add_sample_lt5 line n :
  (forall l, List.length l < 5 -> B l -> B (l ++ [line])) ->
  Spec.keeps (Props.loop_inv m B n) (Detectors.add_sample_lt5 line).
Proof.
  intros HB st (H1 & H2 & H3). unfold Detectors.add_sample_lt5, smodify. cbn [fst].
  destruct (Nat.ltb_spec (List.length (Detectors.sample_lines st)) 5);
    (split; [|split]);
    cbn [fst Detectors.schema Detectors.counters Detectors.sample_lines]; auto.
Qed.

End LoopState.

Lemma coverage_unit matches total_lines :
  matches <= total_lines ->
  Props.unit_interval (Detectors.calculate_line_coverage matches total_lines).
Proof.
  intros H. unfold Detectors.calculate_line_coverage.
  destruct (0 <? total_lines); [apply fdiv_nat_unit, H | split; discriminate].
Qed.

Lemma firstn_5_length {A} (l : list A) : List.length (firstn 5 l) <= 5.
Proof. rewrite length_firstn. lia. Qed.

Lemma schema_wf_empty : Props.schema_wf [].
Proof. intros k fi []. Qed.

Lemma result_wf_empty fmt : Props.result_wf (FormatDetectionResult.empty fmt).
Proof.
  split; [|split]; cbn; [split; discriminate | lia | apply schema_wf_empty].
Qed.

Ltac loop_start Inv :=
  cbv zeta;
  lazymatch goal with
  | |- context [sfor ?xs ?body ?s0] =>
      let H := fresh "Hloop" in
      assert (H : Inv (0 + List.length xs) (fst (sfor xs body s0)));
      [ apply (hoare_sfor Inv xs body);
        [ intros ? ? | intros ? ?; apply loop_inv_mono
        | split; [|split]; cbn; [apply schema_wf_empty | lia | first [exact I | unfold Props.at_most_5; cbn; lia]] ]
      | destruct (sfor xs body s0) as [? [[]|?]]; cbn [Detectors.finish Props.result_has];
        [ cbn [fst] in H; destruct H as (Hwf & Hcount & Hsamples) | exact I ] ]
  | |- context [sfor_break ?xs ?body ?s0] =>
      let H := fresh "Hloop" in
      assert (H : Inv (0 + List.length xs) (fst (sfor_break xs body s0)));
      [ apply (hoare_sfor_break Inv xs body);
        [ intros ? ? | intros ? ?; apply loop_inv_mono
        | split; [|split]; cbn; [apply schema_wf_empty | lia | first [exact I | unfold Props.at_most_5; cbn; lia]] ]
      | destruct (sfor_break xs body s0) as [? [[]|?]];
        cbn [Detectors.finish Props.result_has];
        [ cbn [fst] in H; destruct H as (Hwf & Hcount & Hsamples) | exact I ] ]
  end.

Section DetectorResults.
Context {E : PyEnv}.


Lemma at_most_5_add line l : List.length l < 5 -> Props.at_most_5 l -> Props.at_most_5 (l ++ [line]).
Proof. unfold Props.at_most_5. rewrite length_app. cbn. lia. Qed.

Lemma validated_detect_wf validated patterns fmt lines :
  Props.result_has Props.result_wf
    (Detectors.validated_detect validated patterns fmt lines).
Proof.
  unfold Detectors.validated_detect.
  loop_start (Props.loop_inv (fun c : nat => c) Props.at_most_5).
  - unfold Detectors.continue_on_error.
    apply hoare_stry; [|intros ?; apply keeps_sret].
    apply hoare_sbind_l; [apply keeps_slift | apply loop_inv_mono | intros [[pattern m]|]].
    + apply hoare_sbind_r.
      * replace (S n) with (n + 1) by lia. apply hoare_count. intros c. lia.
      * intros _. apply keeps_sbind; [apply keeps_add_sample_lt5, at_most_5_add|].
        intros _. apply keeps_on_schema, keeps_extract_schema_from_match.
    + apply hoare_skip, loop_inv_mono.
  - split; [|split]; cbn.
    + apply coverage_unit. cbn in Hcount. exact Hcount.
    + exact Hsamples.
    + exact Hwf.
Qed.

End DetectorResults.

Lemma fdiv_nat_nonneg a b : (0 <= fdiv_nat a b)%Q.
Proof.
  unfold fdiv_nat. destruct b as [|b].
  - unfold Qdiv. cbn. rewrite Qmult_0_r. apply Qle_refl.
  - apply Qle_shift_div_l; [unfold Qlt; cbn; lia|].
    rewrite Qmult_0_l. unfold Qle. cbn. lia.
Qed.

Lemma fmin_unit_r x : (0 <= x)%Q -> Props.unit_interval (fmin x 1).
Proof.
  intros Hx. unfold fmin. destruct (Qle_bool x 1) eqn:H.
  - split; [exact Hx | apply Qle_bool_iff, H].
  - split; discriminate.
Qed.

Lemma fmin_unit_l x : (0 <= x)%Q -> Props.unit_interval (fmin 1 x).
Proof.
  intros Hx. unfold fmin. destruct (Qle_bool 1 x) eqn:H.
  - split; discriminate.
  - split; [exact Hx|]. apply Qlt_le_weak. apply Qlt_bool_iff.
    unfold Qlt_bool. now rewrite H.
Qed.

Lemma coverage_nonneg matches total_lines :
  (0 <= Detectors.calculate_line_coverage matches total_lines)%Q.
Proof.
  unfold Detectors.calculate_line_coverage.
  destruct (0 <? total_lines); [apply fdiv_nat_nonneg | apply Qle_refl].
Qed.

Section LoopKeeps.
Context {E : PyEnv} {C : Type} (m : C -> nat) (B : list string -> Prop).

Lemma hoare_weaken {S A} (P Q : S -> Prop) (c : stateful S A) :
  Spec.keeps P c -> (forall s, P s -> Q s) -> Props.hoare P c Q.
Proof. intros Hc HPQ s H. apply HPQ, Hc, H. Qed.

Lemma keeps_count (f : C -> C) n :
  (forall c, m (f c) <= m c) ->
  Spec.keeps (Props.loop_inv m B n) (Detectors.count f).
Proof.
  intros Hf st H. pose proof (hoare_count m B f n 0) as Hc.
  rewrite Nat.add_0_r in Hc. apply Hc; [|exact H].
  intros c. specialize (Hf c). lia.
Qed.

End LoopKeeps.

Section Detected.
Context {E : PyEnv}.

Lemma BaseLogDetector_detect_wf patterns fmt lines :
  Props.result_has Props.result_wf
    (Detectors.BaseLogDetector_detect patterns fmt lines).
Proof.
  unfold Detectors.BaseLogDetector_detect.
  loop_start (Props.loop_inv (fun c : nat => c) Props.at_most_5).
  - unfold Detectors.continue_on_error.
    apply hoare_stry; [|intros ?; apply keeps_sret].
    apply hoare_sbind_l;
      [apply keeps_on_schema, keeps_match_patterns | apply loop_inv_mono | intros [|]].
    + apply hoare_sbind_r.
      * replace (S n) with (n + 1) by lia. apply hoare_count. intros c. lia.
      * intros _. apply keeps_add_sample_lt5, at_most_5_add.
    + apply hoare_skip, loop_inv_mono.
  - split; [|split]; cbn.
    + apply coverage_unit. exact Hcount.
    + exact Hsamples.
    + exact Hwf.
Qed.

Lemma keeps_update_schema_from_match match_data :
  Spec.keeps Props.schema_wf (Detectors._update_schema_from_match match_data).
Proof.
  unfold Detectors._update_schema_from_match. cbv zeta.
  apply keeps_sfor. intros [field_name [value|]]; [|apply keeps_sret].
  destruct (PyStr.truthy value); [|apply keeps_sret].
  apply keeps_update_field_info. intros t.
  destruct (PyStr.mem field_name _); [|discriminate].
  intros H. injection H as <-. cbn. tauto.
Qed.

Lemma SyslogDetector_detect_wf lines :
  Props.result_has Props.result_wf (Detectors.SyslogDetector_detect lines).
Proof.
  unfold Detectors.SyslogDetector_detect.
  loop_start (Props.loop_inv (fun c : nat * nat => fst c + snd c) Props.any_samples).
  - unfold Detectors.continue_on_error.
    apply hoare_stry; [|intros ?; apply keeps_sret].
    destruct (Detectors._try_match_line _ _) as [[match_type match_data]|];
      [|apply hoare_skip, loop_inv_mono].
    apply hoare_sbind_r.
    + replace (S n) with (n + 1) by lia.
      destruct (String.eqb _ _); apply hoare_count; intros [a b]; cbn; lia.
    + intros _. apply keeps_sbind; [apply keeps_add_sample; intros; exact I|].
      intros _. apply keeps_on_schema, keeps_update_schema_from_match.
  - destruct (Detectors.counters l) as [a b] eqn:Hc. cbn in Hcount.
    split; [|split]; cbn.
    + apply coverage_unit. exact Hcount.
    + apply firstn_5_length.
    + exact Hwf.
Qed.

End Detected.

Section Detected2.
Context {E : PyEnv}.

Lemma keeps_extract_json_schema data :
  Spec.keeps Props.schema_wf (Detectors._extract_json_schema data).
Proof.
  unfold Detectors._extract_json_schema. destruct data; try apply keeps_sret.
  apply keeps_sfor. intros [key value]. cbv zeta.
  destruct (PyStr.truthy _); [|apply keeps_sret].
  apply keeps_update_field_info. discriminate.
Qed.

Lemma JSONDetector_detect_wf lines :
  Props.result_has Props.result_wf (Detectors.JSONDetector_detect lines).
Proof.
  unfold Detectors.JSONDetector_detect. cbv zeta.
  destruct (Detectors.preprocess_lines lines 50) as [|line0 rest] eqn:Hp;
    [apply result_wf_empty|].
  loop_start (Props.loop_inv (fun c : nat => c) Props.any_samples).
  - apply hoare_stry.
    + apply hoare_sbind_l; [apply keeps_slift | apply loop_inv_mono | intros data].
      apply hoare_sbind_r.
      * replace (S n) with (n + 1) by lia. apply hoare_count. intros c. lia.
      * intros _. apply keeps_sbind; [apply keeps_add_sample; intros; exact I|].
        intros _. apply keeps_sbind;
          [apply keeps_on_schema, keeps_extract_json_schema|].
        intros _. apply keeps_sbind; [apply keeps_sget | intros ?; apply keeps_sret].
    + intros e. destruct (_ || _); [apply keeps_sret | apply keeps_sraise].
  - result_split.
    + apply coverage_unit. exact Hcount.
    + apply firstn_5_length.
    + exact Hwf.
Qed.

Lemma keeps_extract_ltsv_schema line :
  Spec.keeps Props.schema_wf (Detectors._extract_ltsv_schema line).
Proof.
  unfold Detectors._extract_ltsv_schema. apply keeps_sfor. intros part. cbv zeta.
  destruct (PyStr.contains _ _); [|apply keeps_sret].
  apply keeps_stry.
  - repeat keeps_step. apply keeps_update_field_info. discriminate.
  - intros e. destruct (isinstance _ _); [apply keeps_sret | apply keeps_sraise].
Qed.

Lemma LTSVDetector_detect_wf lines :
  Props.result_has Props.result_wf (Detectors.LTSVDetector_detect lines).
Proof.
  unfold Detectors.LTSVDetector_detect. cbv zeta.
  destruct (Detectors.preprocess_lines lines 100) as [|line0 rest] eqn:Hp;
    [apply result_wf_empty|].
  loop_start (Props.loop_inv (fun c : nat => c) Props.any_samples).
  - destruct (Detectors._is_ltsv_format _); [|apply hoare_skip, loop_inv_mono].
    apply hoare_sbind_r.
    + replace (S n) with (n + 1) by lia. apply hoare_count. intros c. lia.
    + intros _. apply keeps_sbind; [apply keeps_add_sample; intros; exact I|].
      intros _. apply keeps_on_schema, keeps_extract_ltsv_schema.
  - result_split.
    + apply coverage_unit. exact Hcount.
    + apply firstn_5_length.
    + exact Hwf.
Qed.

Lemma keeps_update_kv_schema kv_pairs :
  Spec.keeps Props.schema_wf (Detectors._update_kv_schema kv_pairs).
Proof.
  unfold Detectors._update_kv_schema. apply keeps_sfor. intros [key value].
  apply keeps_update_field_info. discriminate.
Qed.

Lemma KeyValueDetector_detect_wf lines :
  Props.result_has Props.result_wf (Detectors.KeyValueDetector_detect lines).
Proof.
  unfold Detectors.KeyValueDetector_detect. cbv zeta.
  destruct (Detectors.preprocess_lines lines 100) as [|line0 rest] eqn:Hp;
    [apply result_wf_empty|].
  loop_start (Props.loop_inv (fun c : nat => c) Props.any_samples).
  - destruct (2 <=? _); [|apply hoare_skip, loop_inv_mono].
    apply hoare_sbind_r.
    + replace (S n) with (n + 1) by lia. apply hoare_count. intros c. lia.
    + intros _. apply keeps_sbind; [apply keeps_add_sample; intros; exact I|].
      intros _. apply keeps_on_schema, keeps_update_kv_schema.
  - result_split.
    + apply coverage_unit. exact Hcount.
    + apply firstn_5_length.
    + exact Hwf.
Qed.

End Detected2.

Section Detected3.
Context {E : PyEnv}.

Lemma keeps_update_field_schema field_name value :
  Spec.keeps Props.schema_wf (Detectors._update_field_schema field_name value).
Proof.
  unfold Detectors._update_field_schema.
  destruct (_ || _); [apply keeps_sret|].
  apply keeps_sbind; [apply keeps_sget | intros schema].
  apply keeps_sbind.
  { destruct (negb _); [|apply keeps_sret].
    apply (answers_sbind _ _ _ (fun t => In t Props.data_types)).
    - destruct (PyStr.mem field_name _);
        [apply answers_sret; cbn; tauto|].
      destruct (PyStr.mem field_name _);
        [apply answers_sret; cbn; tauto|].
      apply answers_slift, infer_string_type_known.
    - intros t Ht. cbv zeta. apply keeps_smodify. intros s Hs.
      apply schema_wf_set; [exact Hs | apply field_wf_new, Ht]. }
  intros _. apply keeps_sbind.
  { apply keeps_modify_field. intros fi. apply field_wf_sample. }
  intros _ s Hs. unfold sbind, sget. cbv zeta. cbn [fst snd].
  destruct (Dict.get s field_name) as [fi|] eqn:Hg; [|exact Hs].
  destruct (FieldInfo.is_timestamp fi) eqn:Hts; [|exact Hs].
  unfold slift. destruct (TimestampDetector.detect_timestamp value) as [[|best rest]|e];
    cbn [fst snd]; try exact Hs.
  unfold Utils.modify_field, smodify. cbn [fst]. rewrite Hg.
  apply schema_wf_set; [exact Hs|].
  destruct (Hs _ _ (dict_get_in _ _ _ Hg)) as [Hn Ht Hsm Hd Hf Hz].
  split; cbn; auto.
Qed.

Lemma keeps_try_pattern_match {C} (m : C -> nat) n line log_pattern :
  Spec.keeps (Props.loop_inv m Props.any_samples n)
    (Detectors._try_pattern_match line log_pattern).
Proof.
  unfold Detectors._try_pattern_match.
  destruct (Re.match_ _ _) as [mo|]; [|apply keeps_sret].
  apply keeps_sbind; [apply keeps_add_sample_lt5; intros; exact I|].
  intros _. cbv zeta. apply keeps_sbind; [|intros _; apply keeps_sret].
  apply keeps_on_schema. apply keeps_sfor. intros [i field_name].
  repeat keeps_step. apply keeps_update_field_schema.
Qed.

Lemma keeps_web_try_patterns {C} (m : C -> nat) n line pattern_list :
  Spec.keeps (Props.loop_inv m Props.any_samples n)
    (Detectors._try_patterns line pattern_list).
Proof.
  induction pattern_list as [|pattern rest IH]; cbn; [apply keeps_sret|].
  apply keeps_sbind; [apply keeps_try_pattern_match|].
  intros [|]; [apply keeps_sret | exact IH].
Qed.

Lemma format_confidence_unit matches total_lines :
  Props.unit_interval (Detectors._calculate_format_confidence matches total_lines).
Proof.
  unfold Detectors._calculate_format_confidence. cbv zeta.
  apply fmin_unit_r.
  pose proof (coverage_nonneg matches total_lines) as Hc.
  destruct (_ && _); [|exact Hc].
  destruct (Qlt_bool _ _); [|exact Hc].
  apply (Qle_trans _ (0 + 0)); [discriminate|].
  apply Qplus_le_compat; [exact Hc | discriminate].
Qed.

Lemma result_wf_create_empty : Props.result_wf Detectors._create_empty_result.
Proof. result_split; [split; discriminate | cbn; lia | apply schema_wf_empty]. Qed.

Ltac web_body :=
  unfold Detectors.continue_on_error;
  apply hoare_weaken; [|apply loop_inv_mono];
  apply keeps_stry; [|intros ?; apply keeps_sret];
  repeat first
    [ apply keeps_sret
    | apply keeps_try_pattern_match
    | apply keeps_web_try_patterns
    | apply keeps_count; intros; cbn; lia
    | apply keeps_sbind; [|intros [|]] ].

Lemma ApacheDetector_detect_wf lines :
  Props.result_has Props.result_wf (Detectors.ApacheDetector_detect lines).
Proof.
  unfold Detectors.ApacheDetector_detect. cbv zeta.
  destruct (Detectors.preprocess_lines lines 100) as [|line0 rest] eqn:Hp;
    [apply result_wf_create_empty|].
  loop_start (Props.loop_inv (fun _ : nat * nat * nat => 0) Props.any_samples).
  - web_body.
  - destruct (Detectors.counters l) as [[a b] c].
    result_split; [apply format_confidence_unit | apply firstn_5_length | exact Hwf].
Qed.

Lemma NginxDetector_detect_wf lines :
  Props.result_has Props.result_wf (Detectors.NginxDetector_detect lines).
Proof.
  unfold Detectors.NginxDetector_detect. cbv zeta.
  destruct (Detectors.preprocess_lines lines 100) as [|line0 rest] eqn:Hp;
    [apply result_wf_create_empty|].
  loop_start (Props.loop_inv (fun _ : nat * nat => 0) Props.any_samples).
  - web_body.
  - destruct (Detectors.counters l) as [a b].
    result_split; [apply format_confidence_unit | apply firstn_5_length | exact Hwf].
Qed.

Lemma GenericWebLogDetector_detect_wf lines :
  Props.result_has Props.result_wf (Detectors.GenericWebLogDetector_detect lines).
Proof.
  unfold Detectors.GenericWebLogDetector_detect. cbv zeta.
  destruct (Detectors.preprocess_lines lines 100) as [|line0 rest] eqn:Hp;
    [apply result_wf_create_empty|].
  loop_start (Props.loop_inv (fun _ : nat => 0) Props.any_samples).
  - web_body.
  - result_split; [apply format_confidence_unit | apply firstn_5_length | exact Hwf].
Qed.

End Detected3.

Lemma keeps_sput {S} (P : S -> Prop) (s : S) : P s -> Spec.keeps P (sput s).
Proof. intros H s0 _. exact H. Qed.

Lemma Qdiv_nonneg (a b : Q) : (0 <= a)%Q -> (0 <= b)%Q -> (0 <= a / b)%Q.
Proof.
  intros Ha Hb. unfold Qdiv. apply Qmult_le_0_compat; [exact Ha|].
  destruct b as [[|p|p] d]; unfold Qinv, Qle in *; cbn in *; lia.
Qed.

Lemma inject_nat_nonneg n : (0 <= inject_Z (Z.of_nat n))%Q.
Proof. unfold Qle. cbn. lia. Qed.

Lemma fmax_ge_l a b : (a <= fmax a b)%Q.
Proof.
  unfold fmax. destruct (Qle_bool b a) eqn:H; [apply Qle_refl|].
  apply Qlt_le_weak, Qlt_bool_iff. unfold Qlt_bool. now rewrite H.
Qed.

Lemma fmax_ge_r a b : (b <= fmax a b)%Q.
Proof.
  unfold fmax. destruct (Qle_bool b a) eqn:H; [apply Qle_bool_iff, H | apply Qle_refl].
Qed.

Lemma fmin_nonneg a b : (0 <= a)%Q -> (0 <= b)%Q -> (0 <= fmin a b)%Q.
Proof. intros Ha Hb. unfold fmin. now destruct (Qle_bool a b). Qed.

Section Detected4.
Context {E : PyEnv}.

(* ---------------- CSV ---------------- *)

Lemma parse_csv_content_wf csv_text dialect :
  Props.schema_wf (Detectors.sd_schema (Detectors._parse_csv_content csv_text dialect)).
Proof.
  unfold Detectors._parse_csv_content.
  destruct (csv_reader dialect csv_text) as [rows|e]; [|apply schema_wf_empty].
  cbv zeta.
  match goal with
  | |- context [sfor_break ?xs ?body ?s0] =>
      assert (H : Spec.keeps (fun sd => Props.schema_wf (Detectors.sd_schema sd))
                    (sfor_break xs body))
  end.
  { apply keeps_sfor_break. intros row.
    apply (answers_sbind _ _ _ (fun sd => Props.schema_wf (Detectors.sd_schema sd)));
      [apply answers_sget | intros st Hst].
    destruct (50 <=? _); [apply keeps_sret|].
    destruct (_ || _); [apply keeps_sret|].
    cbv zeta. apply keeps_sbind; [apply keeps_sput; exact Hst | intros _].
    apply keeps_sbind; [|intros _; apply keeps_sret].
    intros sd Hsd.
    match goal with
    | |- context [sfor ?xs ?body (Detectors.sd_schema sd)] =>
        assert (Hk : Spec.keeps Props.schema_wf (sfor xs body));
        [|specialize (Hk _ Hsd); destruct (sfor xs body (Detectors.sd_schema sd));
          exact Hk]
    end.
    apply keeps_sfor. intros [field_name value]. cbv zeta.
    destruct (PyStr.truthy _); [|apply keeps_sret].
    apply keeps_update_field_info. discriminate. }
  specialize (H Detectors.empty_schema_data schema_wf_empty).
  match goal with
  | |- context [sfor_break ?xs ?body ?s0] =>
      destruct (sfor_break xs body s0) as [st [[]|e]]
  end; [exact H | apply schema_wf_empty].
Qed.

Lemma csv_confidence_unit sd total_lines :
  Props.unit_interval (Detectors._calculate_csv_confidence sd total_lines).
Proof.
  unfold Detectors._calculate_csv_confidence. cbv zeta.
  destruct (_ =? 0); [split; discriminate|].
  apply fmin_unit_r. apply (Qle_trans _ (0 + 0)); [discriminate|].
  apply Qplus_le_compat; [apply fdiv_nat_nonneg|].
  destruct (3 <=? _); discriminate.
Qed.

Lemma CSVDetector_detect_wf lines :
  Props.result_has Props.result_wf (Detectors.CSVDetector_detect lines).
Proof.
  unfold Detectors.CSVDetector_detect. cbv zeta.
  destruct (Detectors.preprocess_lines lines 50) as [|line0 rest];
    [apply result_wf_empty|].
  destruct (Detectors._detect_csv_dialect _) as [[dialect has_header]|];
    [|apply result_wf_empty].
  destruct (negb _); [apply result_wf_empty|].
  result_split;
    [apply csv_confidence_unit | apply firstn_5_length | apply parse_csv_content_wf].
Qed.

(* ---------------- systemd journal ---------------- *)

Lemma build_schema_from_entries_wf entries :
  Props.result_has Props.schema_wf (Detectors._build_schema_from_entries entries).
Proof.
  unfold Detectors._build_schema_from_entries.
  match goal with
  | |- context [sfor ?xs ?body ?s0] =>
      assert (H : Spec.keeps Props.schema_wf (sfor xs body));
      [|specialize (H s0 schema_wf_empty);
        destruct (sfor xs body s0) as [st [[]|e]]; [exact H | exact I]]
  end.
  apply keeps_sfor. intros entry. apply keeps_sfor. intros [field_name value].
  cbv zeta. apply keeps_update_field_info. intros t.
  destruct (_ || _); [|discriminate]. intros H. injection H as <-. cbn. tauto.
Qed.

Lemma journal_confidence_unit entries processed_lines :
  Props.unit_interval (Detectors._calculate_journal_confidence entries processed_lines).
Proof.
  unfold Detectors._calculate_journal_confidence.
  destruct entries as [|entry entries]; [split; discriminate|].
  cbv zeta. apply fmin_unit_r. apply Qdiv_nonneg; [apply inject_nat_nonneg|].
  apply (Qle_trans _ 1); [discriminate | apply fmax_ge_r].
Qed.

Lemma SystemdJournalDetector_detect_wf lines :
  Props.result_has Props.result_wf (Detectors.SystemdJournalDetector_detect lines).
Proof.
  unfold Detectors.SystemdJournalDetector_detect. cbv zeta.
  pose proof (build_schema_from_entries_wf
                (Detectors._parse_journal_entries
                   (Detectors.journal_preprocess_lines lines 200))) as H.
  destruct (Detectors._build_schema_from_entries _) as [schema|e]; [|exact I].
  result_split; [apply journal_confidence_unit | | exact H].
  rewrite length_map. apply firstn_5_length.
Qed.

End Detected4.

Lemma NoDup_firstn {A} n (l : list A) : NoDup l -> NoDup (firstn n l).
Proof.
  revert n. induction l as [|x l IH]; intros [|n] H; cbn; try constructor.
  - inversion H as [|? ? Hx Hl]; subst. intros Hin. apply Hx.
    rewrite <- (firstn_skipn n l). apply in_or_app. now left.
  - inversion H; subst. now apply IH.
Qed.

Lemma Forall_firstn_skipn {A} (P : A -> Prop) n (l : list A) :
  Forall P l -> Forall P (firstn n l) /\ Forall P (skipn n l).
Proof. intros H. rewrite <- (firstn_skipn n l) in H. apply Forall_app, H. Qed.

Lemma distinct_spec values :
  NoDup (Detectors.distinct values)
  /\ List.length (Detectors.distinct values) <= List.length values.
Proof.
  unfold Detectors.distinct.
  assert (H : forall acc, NoDup acc ->
              NoDup (fold_left (fun acc v => if PyStr.mem v acc then acc else acc ++ [v])
                               values acc)
              /\ List.length (fold_left (fun acc v => if PyStr.mem v acc then acc
                                                       else acc ++ [v]) values acc)
                 <= List.length acc + List.length values).
  { induction values as [|v values IH]; intros acc Hacc; cbn [fold_left].
    - split; [exact Hacc | lia].
    - destruct (PyStr.mem v acc) eqn:Hm.
      + destruct (IH acc Hacc) as [H1 H2]. split; [exact H1 | cbn; lia].
      + assert (Hnew : NoDup (acc ++ [v])).
        { apply NoDup_app; [exact Hacc | constructor; [intros [] | constructor] |].
          intros x Hx [<-|[]]. apply pystr_mem_in in Hx. congruence. }
        destruct (IH _ Hnew) as [H1 H2]. split; [exact H1|].
        rewrite length_app in H2. cbn in *. lia. }
  destruct (H [] (NoDup_nil _)) as [H1 H2]. split; [exact H1 | exact H2].
Qed.

Lemma first_max_in (x : string * nat) l : In (Detectors.first_max x l) (x :: l).
Proof.
  revert x. induction l as [|y l IH]; intros x; cbn [Detectors.first_max].
  - now left.
  - destruct (snd x <? snd y).
    + right. apply IH.
    + destruct (IH x) as [H|H]; [left; exact H | right; right; exact H].
Qed.

Section Delimited.
Context {E : PyEnv}.

Lemma infer_field_type_known values t :
  Detectors._infer_field_type values = Ok t -> In t Props.data_types.
Proof.
  unfold Detectors._infer_field_type.
  destruct values as [|v0 values]; [intros H; injection H as <-; cbn; tauto|].
  cbv zeta.
  match goal with
  | |- context [sfor ?xs ?body ?s0] =>
      assert (H : Spec.keeps (fun tc : Dict.t nat =>
                                forall k n, In (k, n) tc -> In k Props.data_types)
                    (sfor xs body));
      [|specialize (H s0 (fun k n (F : In (k, n) []) => match F with end));
        destruct (sfor xs body s0) as [tc [[]|e]]]
  end.
  - apply keeps_sfor. intros value. destruct (PyStr.truthy value); [|apply keeps_sret].
    apply (answers_sbind _ _ _ (fun t => In t Props.data_types));
      [apply answers_slift, infer_string_type_known|].
    intros t' Ht'. apply keeps_smodify. intros tc Htc k n Hin.
    apply dict_set_in in Hin. destruct Hin as [[-> _]|Hin]; [exact Ht'|].
    eapply Htc, Hin.
  - cbn [fst] in H. destruct tc as [|x counts]; cbv beta iota.
    + intros Heq. injection Heq as <-. cbn. tauto.
    + intros Heq. injection Heq as <-.
      pose proof (first_max_in x counts) as Hin.
      destruct (Detectors.first_max x counts) as [k n]. eapply H, Hin.
  - destruct tc; intros Heq; discriminate Heq.
Qed.

Lemma build_delimited_schema_wf a :
  Forall Props.datum_ok (Detectors.field_data a) ->
  Props.result_has Props.schema_wf (Detectors._build_delimited_schema a).
Proof.
  intros Hok. unfold Detectors._build_delimited_schema.
  match goal with
  | |- context [sfor ?xs ?body ?s0] =>
      assert (H : Spec.keeps Props.schema_wf (sfor xs body));
      [|specialize (H s0 schema_wf_empty);
        destruct (sfor xs body s0) as [st [[]|e]]; [exact H | exact I]]
  end.
  apply keeps_sfor_in. intros [field_idx fd] Hin. cbv zeta.
  apply (answers_sbind _ _ _ (fun t => In t Props.data_types));
    [apply answers_slift, infer_field_type_known|].
  intros t Ht. apply keeps_smodify. intros s Hs.
  apply schema_wf_set; [exact Hs|].
  apply in_combine_r in Hin.
  pose proof (proj1 (Forall_forall _ _) Hok _ Hin) as Hfd.
  destruct (distinct_spec (Detectors.fd_values fd)) as [Hnd Hlen].
  split; cbn [FieldInfo.name FieldInfo.data_type FieldInfo.sample_values
              FieldInfo.frequency FieldInfo.timestamp_format FieldInfo.is_timestamp].
  - reflexivity.
  - exact Ht.
  - rewrite length_firstn. lia.
  - apply NoDup_firstn, Hnd.
  - rewrite length_firstn. lia.
  - exact Hfd.
Qed.

Lemma datum_ok_default : Props.datum_ok (Detectors.FieldDatum [] false None).
Proof. intros H. now contradiction H. Qed.

Lemma keeps_add_field idx field_value :
  Spec.keeps (Forall Props.datum_ok) (Detectors.add_field idx field_value).
Proof.
  unfold Detectors.add_field.
  apply keeps_sbind.
  { apply keeps_smodify. intros fd Hfd. destruct (idx <? _); [exact Hfd|].
    apply Forall_app. split; [exact Hfd|].
    constructor; [apply datum_ok_default | constructor]. }
  intros _.
  apply (answers_sbind _ _ _ (Forall Props.datum_ok)); [apply answers_sget|].
  intros fd Hfd. cbv zeta.
  assert (Hnth : Props.datum_ok (nth idx fd (Detectors.FieldDatum [] false None))).
  { destruct (Nat.lt_ge_cases idx (List.length fd)) as [Hlt|Hge].
    - apply (proj1 (Forall_forall _ _) Hfd). apply nth_In, Hlt.
    - rewrite nth_overflow by exact Hge. apply datum_ok_default. }
  assert (Hput : forall info, Props.datum_ok info ->
             Spec.keeps (Forall Props.datum_ok)
               (smodify (fun fd0 => firstn idx fd0 ++ [info] ++ skipn (S idx) fd0))).
  { intros info Hinfo. apply keeps_smodify. intros fd0 Hfd0.
    apply Forall_app. split; [apply (Forall_firstn_skipn _ idx _ Hfd0)|].
    apply Forall_app. split; [constructor; [exact Hinfo | constructor]|].
    apply (Forall_firstn_skipn _ (S idx) _ Hfd0). }
  apply keeps_sbind; [apply Hput; exact Hnth | intros _].
  destruct (_ && _); [|apply keeps_sret].
  apply keeps_sbind; [apply keeps_slift | intros [|best rest]]; [apply keeps_sret|].
  apply Hput. intros _. reflexivity.
Qed.

Lemma keeps_add_line line fields :
  Spec.keeps (fun a => Forall Props.datum_ok (Detectors.field_data a))
    (Detectors.add_line line fields).
Proof.
  unfold Detectors.add_line.
  apply keeps_sbind; [apply keeps_smodify; intros a Ha; exact Ha | intros _].
  intros a Ha.
  match goal with
  | |- context [sfor ?xs ?body (Detectors.field_data a)] =>
      assert (Hk : Spec.keeps (Forall Props.datum_ok) (sfor xs body));
      [|specialize (Hk _ Ha); destruct (sfor xs body (Detectors.field_data a));
        exact Hk]
  end.
  apply keeps_sfor. intros [idx v]. apply keeps_add_field.
Qed.

Lemma avg_field_count_nonneg a : (0 <= Detectors.avg_field_count a)%Q.
Proof.
  unfold Detectors.avg_field_count.
  destruct (Detectors.field_counts a); [apply Qle_refl | apply fdiv_nat_nonneg].
Qed.

Lemma delimiter_confidence_unit a total_lines :
  Props.unit_interval (Detectors._calculate_delimiter_confidence a total_lines).
Proof.
  unfold Detectors._calculate_delimiter_confidence.
  destruct (negb _); [split; discriminate|]. cbv zeta.
  apply fmin_unit_l.
  assert (H0 : forall x y, (0 <= x)%Q -> (0 <= y)%Q -> (0 <= x * y)%Q)
    by (intros; now apply Qmult_le_0_compat).
  assert (Hsum : forall x y, (0 <= x)%Q -> (0 <= y)%Q -> (0 <= x + y)%Q).
  { intros x y Hx Hy. apply (Qle_trans _ (0 + 0)); [discriminate|].
    now apply Qplus_le_compat. }
  apply Hsum; [apply Hsum|]; apply H0; try discriminate.
  - apply Qdiv_nonneg; apply inject_nat_nonneg.
  - apply fmax_ge_l.
  - apply fmin_nonneg; [discriminate|].
    apply Qdiv_nonneg; [apply avg_field_count_nonneg | discriminate].
Qed.

Lemma analyze_delimiter_wf lines delim :
  Props.result_has Props.result_wf (Detectors._analyze_delimiter lines delim).
Proof.
  unfold Detectors._analyze_delimiter. cbv zeta.
  match goal with
  | |- context [sfor ?xs ?body ?s0] =>
      assert (H : Spec.keeps (fun a => Forall Props.datum_ok (Detectors.field_data a))
                    (sfor xs body));
      [|specialize (H s0 (Forall_nil _));
        destruct (sfor xs body s0) as [analysis [[]|e]]; [|exact I]]
  end.
  { apply keeps_sfor. intros line. repeat keeps_step; apply keeps_add_line. }
  cbn [fst] in H.
  destruct (negb _); [apply result_wf_empty|].
  destruct (Qlt_bool _ _); [apply result_wf_empty|].
  pose proof (build_delimited_schema_wf analysis H) as Hs.
  destruct (Detectors._build_delimited_schema analysis) as [schema|e]; [|exact I].
  result_split; [apply delimiter_confidence_unit | apply firstn_5_length | exact Hs].
Qed.

Lemma CustomDelimitedDetector_detect_wf lines :
  Props.result_has Props.result_wf (Detectors.CustomDelimitedDetector_detect lines).
Proof.
  unfold Detectors.CustomDelimitedDetector_detect. cbv zeta.
  destruct (Detectors.preprocess_lines lines 100) as [|line0 rest];
    [apply result_wf_empty|].
  match goal with
  | |- context [sfor ?xs ?body ?s0] =>
      assert (H : Spec.keeps (fun best : option FormatDetectionResult.t * float =>
                                match fst best with
                                | Some r => Props.result_wf r
                                | None => True
                                end)
                    (sfor xs body));
      [|specialize (H s0 I);
        destruct (sfor xs body s0) as [best [[]|e]]; [|exact I]]
  end.
  { apply keeps_sfor. intros delim.
    apply (answers_sbind _ _ _ Props.result_wf).
    - apply answers_slift. intros r Hr.
      pose proof (analyze_delimiter_wf (line0 :: rest) delim) as Hwf.
      rewrite Hr in Hwf. exact Hwf.
    - intros r Hr. apply keeps_smodify. intros best Hbest.
      destruct (Qlt_bool _ _); [exact Hr | exact Hbest]. }
  cbn [fst Detectors.finish Props.result_has] in *.
  destruct (fst best); [exact H | apply result_wf_empty].
Qed.

End Delimited.

Lemma detectors_wf (E : PyEnv) (lines : list string) :
  Forall (fun d => Props.result_has Props.result_wf (InferenceEngine.detect d lines))
         (InferenceEngine.detectors InferenceEngine.new).
Proof.
  unfold InferenceEngine.new. cbn [InferenceEngine.detectors].
  apply Forall_cons; [exact (JSONDetector_detect_wf lines)|].
  apply Forall_cons; [exact (SyslogDetector_detect_wf lines)|].
  apply Forall_cons; [exact (validated_detect_wf _ _ _ lines)|].
  apply Forall_cons; [exact (SystemdJournalDetector_detect_wf lines)|].
  apply Forall_cons; [exact (ApacheDetector_detect_wf lines)|].
  apply Forall_cons; [exact (NginxDetector_detect_wf lines)|].
  apply Forall_cons; [exact (CSVDetector_detect_wf lines)|].
  apply Forall_cons; [exact (LTSVDetector_detect_wf lines)|].
  apply Forall_cons; [exact (GenericWebLogDetector_detect_wf lines)|].
  apply Forall_cons; [exact (CustomDelimitedDetector_detect_wf lines)|].
  apply Forall_cons; [exact (KeyValueDetector_detect_wf lines)|].
  apply Forall_cons; [exact (validated_detect_wf _ _ _ lines)|].
  apply Forall_nil.
Qed.

Lemma thresholds_at_least_half (E : PyEnv) :
  Forall (fun d => ((1 # 2) <= InferenceEngine.get_confidence_threshold d)%Q)
         (InferenceEngine.detectors InferenceEngine.new).
Proof.
  unfold InferenceEngine.new. cbn [InferenceEngine.detectors].
  repeat (match goal with
          | |- Forall _ (_ :: _) =>
              apply Forall_cons;
              [cbn [InferenceEngine.get_confidence_threshold]; discriminate|]
          end).
  apply Forall_nil.
Qed.

Lemma field_confidence_unit n fi :
  Props.unit_interval (InferenceEngine.field_confidence n fi).
Proof.
  unfold InferenceEngine.field_confidence. cbv zeta. apply fmin_unit_r.
  assert (Hsum : forall x y, (0 <= x)%Q -> (0 <= y)%Q -> (0 <= x + y)%Q).
  { intros x y Hx Hy. apply (Qle_trans _ (0 + 0)); [discriminate|].
    now apply Qplus_le_compat. }
  apply Hsum; [apply Hsum|].
  - apply fmin_nonneg; [apply fdiv_nat_nonneg | discriminate].
  - destruct (FieldInfo.is_timestamp fi); discriminate.
  - destruct (negb _); discriminate.
Qed.

Lemma field_confidence_pass_schema r :
  Props.schema_wf (FormatDetectionResult.schema r) ->
  Props.schema_wf
    (FormatDetectionResult.schema (InferenceEngine._calculate_field_confidence r))
  /\ (forall k fi,
         In (k, fi)
            (FormatDetectionResult.schema (InferenceEngine._calculate_field_confidence r)) ->
         Props.unit_interval (FieldInfo.confidence fi)).
Proof.
  intros Hwf. unfold InferenceEngine._calculate_field_confidence.
  destruct (FormatDetectionResult.schema r) as [|kv schema] eqn:Hs.
  - rewrite Hs. split; [exact Hwf | intros k fi []].
  - cbv zeta. cbn [FormatDetectionResult.set_schema FormatDetectionResult.schema].
    split.
    + intros k fi Hin. apply in_map_iff in Hin. destruct Hin as ([k0 fi0] & Heq & Hin).
      cbn [fst snd] in Heq. injection Heq as <- <-.
      destruct (Hwf _ _ Hin) as [Hn Ht Hsm Hd Hf Hz]. now split.
    + intros k fi Hin. apply in_map_iff in Hin. destruct Hin as ([k0 fi0] & Heq & Hin).
      cbn [fst snd] in Heq. injection Heq as <- <-.
      apply field_confidence_unit.
Qed.

Lemma preprocess_blank lines max_lines :
  Forall Props.blank lines -> Detectors.preprocess_lines lines max_lines = [].
Proof.
  intros H. unfold Detectors.preprocess_lines.
  assert (Hf : Forall Props.blank (firstn max_lines lines)).
  { rewrite <- (firstn_skipn max_lines lines) in H. apply Forall_app in H. apply H. }
  induction Hf as [|l ls Hl _ IH]; [reflexivity|].
  cbn [map filter]. unfold Props.blank in Hl. rewrite Hl. exact IH.
Qed.

Lemma journal_entries_blank lines max_lines :
  Forall Props.blank lines ->
  Detectors._parse_journal_entries (Detectors.journal_preprocess_lines lines max_lines)
  = [].
Proof.
  intros H. unfold Detectors.journal_preprocess_lines, Detectors._parse_journal_entries.
  assert (Hf : Forall Props.blank (firstn max_lines lines)).
  { rewrite <- (firstn_skipn max_lines lines) in H. apply Forall_app in H. apply H. }
  match goal with
  | |- context [fold_left ?f _ ?s0] =>
      assert (Hfold : fold_left f (map PyStr.strip (firstn max_lines lines)) s0 = s0)
  end.
  { induction Hf as [|l ls Hl _ IH]; [reflexivity|].
    cbn [map fold_left]. unfold Props.blank in Hl.
    destruct (PyStr.strip l) eqn:Hs; [|discriminate Hl]. cbn. exact IH. }
  rewrite Hfold. reflexivity.
Qed.

Section Blank.
Context {E : PyEnv}.
Variable lines : list string.
Hypothesis Hblank : Forall Props.blank lines.

Lemma blank_detectors :
  Forall (fun d => exists r,
              InferenceEngine.detect d lines = Ok r
              /\ FormatDetectionResult.confidence r = 0%Q
              /\ (0 < InferenceEngine.get_confidence_threshold d)%Q)
         (InferenceEngine.detectors InferenceEngine.new).
Proof.
  unfold InferenceEngine.new. cbn [InferenceEngine.detectors].
  repeat (match goal with
          | |- Forall _ (_ :: _) =>
              apply Forall_cons;
              [eexists;
               cbn [InferenceEngine.detect InferenceEngine.get_confidence_threshold];
               split; [|split; [|reflexivity]]|]
          end); [..|apply Forall_nil].
  all: try (unfold Detectors.JSONDetector_detect, Detectors.SyslogDetector_detect,
              Detectors.PythonLogDetector_detect, Detectors.BasicLogDetector_detect,
              Detectors.validated_detect, Detectors.ApacheDetector_detect,
              Detectors.NginxDetector_detect, Detectors.CSVDetector_detect,
              Detectors.LTSVDetector_detect, Detectors.GenericWebLogDetector_detect,
              Detectors.CustomDelimitedDetector_detect,
              Detectors.KeyValueDetector_detect;
            cbv zeta; rewrite (preprocess_blank lines _ Hblank)).
  all: try (unfold Detectors.SystemdJournalDetector_detect; cbv zeta;
            rewrite (journal_entries_blank lines _ Hblank)).
  all: cbn; reflexivity.
Qed.

End Blank.

Lemma nothing_cleared (lines : list string) ds :
  Forall (fun d => exists r,
              InferenceEngine.detect d lines = Ok r
              /\ FormatDetectionResult.confidence r = 0%Q
              /\ (0 < InferenceEngine.get_confidence_threshold d)%Q) ds ->
  Spec.cleared ds lines = [] /\ Spec.detection_errors ds lines = [].
Proof.
  induction 1 as [|d ds (r & Hd & Hc & Ht) _ [IH1 IH2]]; [now split|].
  unfold Spec.cleared, Spec.detection_errors in *. cbn [flat_map].
  rewrite IH1, IH2. unfold Spec.cleared_of, Spec.error_of. rewrite Hd, Hc.
  apply Qlt_bool_iff in Ht. unfold Qlt_bool in Ht. apply negb_true_iff in Ht.
  rewrite Ht. now split.
Qed.

(** X13.  For lines that are all blank every detector of the engine
    returns a result of confidence 0, [analyze_lines] answers UNKNOWN
    with confidence 0, an empty schema and the first five lines as
    samples, and [create_parser] refuses that answer with
    [ValueError]. *)
Theorem blank_input_is_unknown :
  forall (E : PyEnv) (lines : list string),
    Forall Props.blank lines ->
    let r := InferenceEngine.analyze_lines InferenceEngine.new lines in
    FormatDetectionResult.format_type r = UNKNOWN
    /\ FormatDetectionResult.confidence r = 0%Q
    /\ FormatDetectionResult.schema r = []
    /\ FormatDetectionResult.sample_lines r = firstn 5 lines
    /\ (forall d, In d (InferenceEngine.detectors InferenceEngine.new) ->
                  exists r', InferenceEngine.detect d lines = Ok r'
                             /\ FormatDetectionResult.confidence r' = 0%Q)
    /\ (forall tbl,
           ParsingEngine.create_parser tbl r
           = Raise (Exn ValueError "Cannot create parser for unknown format")).
Proof.
  intros E lines Hblank. cbv zeta.
  pose proof (blank_detectors lines Hblank) as Hds.
  assert (Hr : InferenceEngine.analyze_lines InferenceEngine.new lines
               = FormatDetectionResult.mk UNKNOWN 0%Q [] (firstn 5 lines)
                   (FormatDetectionResult.metadata
                      (InferenceEngine.analyze_lines InferenceEngine.new lines))).
  { unfold InferenceEngine.analyze_lines. destruct lines as [|line0 rest]; [reflexivity|].
    rewrite run_detectors_fold. cbn [app].
    destruct (nothing_cleared _ _ Hds) as [-> ->]. reflexivity. }
  rewrite Hr.
  cbn [FormatDetectionResult.format_type FormatDetectionResult.confidence
       FormatDetectionResult.schema FormatDetectionResult.sample_lines].
  repeat (split; [reflexivity|]). split.
  - intros d Hd. destruct (proj1 (Forall_forall _ _) Hds d Hd) as (r' & H1 & H2 & _).
    exists r'. now split.
  - intros tbl. reflexivity.
Qed.

(** X13 at two blank lines in [Spec.plain_env]. *)
Lemma blank_input_is_unknown_witness :
  Forall Props.blank ["   "; ""]
  /\ FormatDetectionResult.format_type
       (@InferenceEngine.analyze_lines
          (@InferenceEngine.new Spec.plain_env) ["   "; ""]) = UNKNOWN.
Proof.
  assert (H : Forall Props.blank ["   "; ""]).
  { apply Forall_cons; [reflexivity|]. apply Forall_cons; [reflexivity|].
    apply Forall_nil. }
  split; [exact H|].
  exact (proj1 (blank_input_is_unknown Spec.plain_env ["   "; ""] H)).
Defined.

Ltac label_loop :=
  match goal with
  | |- context [sfor ?xs ?body ?s0] =>
      destruct (sfor xs body s0) as [? [[]|?]]
  | |- context [sfor_break ?xs ?body ?s0] =>
      destruct (sfor_break xs body s0) as [? [[]|?]]
  end.

Ltac label_split :=
  repeat match goal with
         | |- context [let '(_, _) := ?c in _] => destruct c
         end;
  split;
  [ cbn [FormatDetectionResult.format_type FormatDetectionResult.empty
         Detectors._create_empty_result In]; tauto
  | cbn [FormatDetectionResult.format_type FormatDetectionResult.empty
         Detectors._create_empty_result];
    first [ intros Hu; discriminate Hu | intros _; split; reflexivity ] ].

Ltac label_done :=
  cbn [Detectors.finish Props.result_has];
  first [ exact I | label_split ].

Section Labels.
Context {E : PyEnv}.
Variable lines : list string.

Lemma JSONDetector_label :
  Props.result_has (Props.labelled [JSON]) (Detectors.JSONDetector_detect lines).
Proof.
  unfold Detectors.JSONDetector_detect. cbv zeta.
  destruct (Detectors.preprocess_lines lines 50); [label_done|].
  label_loop; label_done.
Qed.

Lemma SyslogDetector_label :
  Props.result_has (Props.labelled [SYSLOG]) (Detectors.SyslogDetector_detect lines).
Proof.
  unfold Detectors.SyslogDetector_detect. cbv zeta. label_loop; label_done.
Qed.

Lemma validated_detect_label validated patterns fmt :
  fmt <> UNKNOWN ->
  Props.result_has (Props.labelled [fmt])
    (Detectors.validated_detect validated patterns fmt lines).
Proof.
  intros Hf. unfold Detectors.validated_detect. cbv zeta.
  label_loop; cbn [Detectors.finish Props.result_has]; [|exact I].
  split; cbn [FormatDetectionResult.format_type]; [now left | intros Hu; now elim Hf].
Qed.

Lemma SystemdJournalDetector_label :
  Props.result_has (Props.labelled [SYSTEMD_JOURNAL])
    (Detectors.SystemdJournalDetector_detect lines).
Proof.
  unfold Detectors.SystemdJournalDetector_detect. cbv zeta.
  destruct (Detectors._build_schema_from_entries _); label_done.
Qed.

Lemma ApacheDetector_label :
  Props.result_has
    (Props.labelled [UNKNOWN; APACHE_COMMON; APACHE_COMBINED; APACHE_EXTENDED])
    (Detectors.ApacheDetector_detect lines).
Proof.
  unfold Detectors.ApacheDetector_detect. cbv zeta.
  destruct (Detectors.preprocess_lines lines 100); [label_done|].
  label_loop; cbn [Detectors.finish Props.result_has]; [|exact I].
  destruct (Detectors.counters l0) as [[a b] c].
  unfold Detectors._determine_apache_format.
  destruct (_ <? _); [label_done|]. destruct (_ <? _); label_done.
Qed.

Lemma NginxDetector_label :
  Props.result_has (Props.labelled [UNKNOWN; NGINX_ACCESS; NGINX_ERROR])
    (Detectors.NginxDetector_detect lines).
Proof.
  unfold Detectors.NginxDetector_detect. cbv zeta.
  destruct (Detectors.preprocess_lines lines 100); [label_done|].
  label_loop; cbn [Detectors.finish Props.result_has]; [|exact I].
  destruct (Detectors.counters l0) as [a b].
  destruct (_ <=? _); label_done.
Qed.

Lemma CSVDetector_label :
  Props.result_has (Props.labelled [CSV]) (Detectors.CSVDetector_detect lines).
Proof.
  unfold Detectors.CSVDetector_detect. cbv zeta.
  destruct (Detectors.preprocess_lines lines 50); [label_done|].
  destruct (Detectors._detect_csv_dialect _) as [[dialect has_header]|]; [|label_done].
  destruct (negb _); label_done.
Qed.

Lemma LTSVDetector_label :
  Props.result_has (Props.labelled [LTSV]) (Detectors.LTSVDetector_detect lines).
Proof.
  unfold Detectors.LTSVDetector_detect. cbv zeta.
  destruct (Detectors.preprocess_lines lines 100); [label_done|].
  label_loop; label_done.
Qed.

Lemma GenericWebLogDetector_label :
  Props.result_has (Props.labelled [UNKNOWN; BASIC_LOG])
    (Detectors.GenericWebLogDetector_detect lines).
Proof.
  unfold Detectors.GenericWebLogDetector_detect. cbv zeta.
  destruct (Detectors.preprocess_lines lines 100); [label_done|].
  label_loop; label_done.
Qed.

Lemma analyze_delimiter_label processed delim :
  Props.result_has (Props.labelled [CUSTOM_DELIMITED])
    (Detectors._analyze_delimiter processed delim).
Proof.
  unfold Detectors._analyze_delimiter. cbv zeta.
  label_loop; [|exact I].
  destruct (negb _); [label_done|]. destruct (Qlt_bool _ _); [label_done|].
  destruct (Detectors._build_delimited_schema _); label_done.
Qed.

Lemma CustomDelimitedDetector_label :
  Props.result_has (Props.labelled [CUSTOM_DELIMITED])
    (Detectors.CustomDelimitedDetector_detect lines).
Proof.
  unfold Detectors.CustomDelimitedDetector_detect. cbv zeta.
  destruct (Detectors.preprocess_lines lines 100) as [|line0 rest]; [label_done|].
  match goal with
  | |- context [sfor ?xs ?body ?s0] =>
      assert (H : Spec.keeps (fun best : option FormatDetectionResult.t * float =>
                                match fst best with
                                | Some r => Props.labelled [CUSTOM_DELIMITED] r
                                | None => True
                                end)
                    (sfor xs body));
      [|specialize (H s0 I);
        destruct (sfor xs body s0) as [best [[]|e]]; [|exact I]]
  end.
  { apply keeps_sfor. intros delim.
    apply (answers_sbind _ _ _ (Props.labelled [CUSTOM_DELIMITED])).
    - apply answers_slift. intros r Hr.
      pose proof (analyze_delimiter_label (line0 :: rest) delim) as Hl.
      rewrite Hr in Hl. exact Hl.
    - intros r Hr. apply keeps_smodify. intros best Hbest.
      destruct (Qlt_bool _ _); [exact Hr | exact Hbest]. }
  cbn [fst Detectors.finish Props.result_has] in *.
  destruct (fst best); [exact H | label_done].
Qed.

Lemma KeyValueDetector_label :
  Props.result_has (Props.labelled [KEY_VALUE]) (Detectors.KeyValueDetector_detect lines).
Proof.
  unfold Detectors.KeyValueDetector_detect. cbv zeta.
  destruct (Detectors.preprocess_lines lines 100); [label_done|].
  label_loop; label_done.
Qed.

Lemma detectors_labelled :
  Forall2 (fun d labels =>
             Props.result_has (Props.labelled labels) (InferenceEngine.detect d lines))
          (InferenceEngine.detectors InferenceEngine.new) Props.detector_labels.
Proof.
  unfold InferenceEngine.new, Props.detector_labels.
  cbn [InferenceEngine.detectors].
  apply Forall2_cons; [exact JSONDetector_label|].
  apply Forall2_cons; [exact SyslogDetector_label|].
  apply Forall2_cons;
    [exact (validated_detect_label _ _ PYTHON_LOG ltac:(discriminate))|].
  apply Forall2_cons; [exact SystemdJournalDetector_label|].
  apply Forall2_cons; [exact ApacheDetector_label|].
  apply Forall2_cons; [exact NginxDetector_label|].
  apply Forall2_cons; [exact CSVDetector_label|].
  apply Forall2_cons; [exact LTSVDetector_label|].
  apply Forall2_cons; [exact GenericWebLogDetector_label|].
  apply Forall2_cons; [exact CustomDelimitedDetector_label|].
  apply Forall2_cons; [exact KeyValueDetector_label|].
  apply Forall2_cons;
    [exact (validated_detect_label _ _ BASIC_LOG ltac:(discriminate))|].
  apply Forall2_nil.
Qed.

Lemma labelled_known labels (t : result FormatDetectionResult.t) :
  ~ In UNKNOWN labels ->
  Props.result_has (Props.labelled labels) t ->
  Props.result_has (fun r => FormatDetectionResult.format_type r <> UNKNOWN) t.
Proof.
  intros Hn. destruct t as [r|e]; cbn [Props.result_has]; [|trivial].
  intros [Hin _] Hu. rewrite Hu in Hin. contradiction.
Qed.

Lemma ApacheDetector_answer :
  Props.web_answer Props.apache_label lines (Detectors.ApacheDetector_detect lines).
Proof.
  unfold Props.web_answer, Detectors.ApacheDetector_detect. cbv zeta.
  destruct (Detectors.preprocess_lines lines 100) as [|line0 rest].
  - split; [reflexivity|]. intros r Hr. injection Hr as <-.
    split; [split; reflexivity | intros Hn; now elim Hn].
  - split; [discriminate|]. intros r.
    label_loop; cbn [Detectors.finish]; intros Hr; [|discriminate Hr].
    injection Hr as <-.
    destruct (Detectors.counters l) as [[a b] c].
    cbn [FormatDetectionResult.format_type FormatDetectionResult.metadata].
    split.
    + split; [|discriminate]. unfold Detectors._determine_apache_format.
      destruct (_ <? _); [discriminate|]. destruct (_ <? _); discriminate.
    + intros _. exists a, b, c. repeat split.
Qed.

Lemma NginxDetector_answer :
  Props.web_answer Props.nginx_label lines (Detectors.NginxDetector_detect lines).
Proof.
  unfold Props.web_answer, Detectors.NginxDetector_detect. cbv zeta.
  destruct (Detectors.preprocess_lines lines 100) as [|line0 rest].
  - split; [reflexivity|]. intros r Hr. injection Hr as <-.
    split; [split; reflexivity | intros Hn; now elim Hn].
  - split; [discriminate|]. intros r.
    label_loop; cbn [Detectors.finish]; intros Hr; [|discriminate Hr].
    injection Hr as <-.
    destruct (Detectors.counters l) as [a b].
    cbn [FormatDetectionResult.format_type FormatDetectionResult.metadata].
    split.
    + split; [|discriminate]. destruct (_ <=? _); discriminate.
    + intros _. exists a, b. repeat split.
Qed.

Lemma GenericWebLogDetector_answer :
  Props.web_answer Props.generic_label lines
    (Detectors.GenericWebLogDetector_detect lines).
Proof.
  unfold Props.web_answer, Detectors.GenericWebLogDetector_detect. cbv zeta.
  destruct (Detectors.preprocess_lines lines 100) as [|line0 rest].
  - split; [reflexivity|]. intros r Hr. injection Hr as <-.
    split; [split; reflexivity | intros Hn; now elim Hn].
  - split; [discriminate|]. intros r.
    label_loop; cbn [Detectors.finish]; intros Hr; [|discriminate Hr].
    injection Hr as <-.
    cbn [FormatDetectionResult.format_type].
    split; [split; discriminate | intros _; reflexivity].
Qed.

Lemma only_web_detectors_answer_unknown :
  Forall (fun d =>
            In (InferenceEngine.name d) Props.web_detectors
            \/ Props.result_has
                 (fun r => FormatDetectionResult.format_type r <> UNKNOWN)
                 (InferenceEngine.detect d lines))
         (InferenceEngine.detectors InferenceEngine.new).
Proof.
  assert (Hk : forall f, f <> UNKNOWN -> ~ In UNKNOWN [f])
    by (intros f Hf [H|[]]; now elim Hf).
  unfold InferenceEngine.new, Props.web_detectors.
  cbn [InferenceEngine.detectors].
  apply Forall_cons;
    [right; exact (labelled_known _ _ (Hk JSON ltac:(discriminate))
                     JSONDetector_label)|].
  apply Forall_cons;
    [right; exact (labelled_known _ _ (Hk SYSLOG ltac:(discriminate))
                     SyslogDetector_label)|].
  apply Forall_cons;
    [right; exact (labelled_known _ _ (Hk PYTHON_LOG ltac:(discriminate))
                     (validated_detect_label _ _ PYTHON_LOG ltac:(discriminate)))|].
  apply Forall_cons;
    [right; exact (labelled_known _ _ (Hk SYSTEMD_JOURNAL ltac:(discriminate))
                     SystemdJournalDetector_label)|].
  apply Forall_cons; [left; cbn; tauto|].
  apply Forall_cons; [left; cbn; tauto|].
  apply Forall_cons;
    [right; exact (labelled_known _ _ (Hk CSV ltac:(discriminate))
                     CSVDetector_label)|].
  apply Forall_cons;
    [right; exact (labelled_known _ _ (Hk LTSV ltac:(discriminate))
                     LTSVDetector_label)|].
  apply Forall_cons; [left; cbn; tauto|].
  apply Forall_cons;
    [right; exact (labelled_known _ _ (Hk CUSTOM_DELIMITED ltac:(discriminate))
                     CustomDelimitedDetector_label)|].
  apply Forall_cons;
    [right; exact (labelled_known _ _ (Hk KEY_VALUE ltac:(discriminate))
                     KeyValueDetector_label)|].
  apply Forall_cons;
    [right; exact (labelled_known _ _ (Hk BASIC_LOG ltac:(discriminate))
                     (validated_detect_label _ _ BASIC_LOG ltac:(discriminate)))|].
  apply Forall_nil.
Qed.

End Labels.

Lemma result_has_impl {A} (Q Q' : A -> Prop) (t : result A) :
  (forall r, Q r -> Q' r) -> Props.result_has Q t -> Props.result_has Q' t.
Proof. intros H. destruct t; cbn; auto. Qed.

Lemma create_parser_ok tbl r :
  FormatDetectionResult.format_type r <> UNKNOWN ->
  exists tbl' p,
    ParsingEngine.create_parser tbl r = Ok (tbl', p)
    /\ ParsingEngine.lookup ParsingEngine.parser_classes
         (FormatDetectionResult.format_type r) = Some (Parser.cls p)
    /\ Parser.detection_result p = r.
Proof.
  set (f := FormatDetectionResult.format_type r).
  intros Hf. unfold ParsingEngine.create_parser. fold f.
  destruct (LogFormat_eqb f UNKNOWN) eqn:Hu.
  { apply LogFormat_eqb_eq in Hu. contradiction. }
  destruct (ParsingEngine.lookup ParsingEngine.parser_classes f) as [c|] eqn:Hl.
  2:{ apply lookup_registered in Hl. contradiction. }
  unfold ParsingEngine.instantiate. fold f.
  destruct c; cbn -[LinePatterns.patterns_at Parser._detect_delimiter];
    try (destruct (LogFormat_eqb f LTSV));
    try (destruct (ParsingEngine.web_setup tbl f) as [tbl' pats]);
    cbn -[LinePatterns.patterns_at Parser._detect_delimiter];
    try (destruct (LogFormat_eqb f PYTHON_LOG);
         [|destruct (LogFormat_eqb f BASIC_LOG)]);
    eexists; eexists; (split; [reflexivity | split; reflexivity]).
Qed.

Section SchemaKeys.
Context {E : PyEnv}.
Variable names : list string.

Lemma keys_within_set s k fi :
  Props.keys_within names s -> In k names -> Props.keys_within names (Dict.set s k fi).
Proof.
  intros Hs Hk k' fi' Hin. apply dict_set_in in Hin.
  destruct Hin as [[-> _]|Hin]; [exact Hk | eapply Hs, Hin].
Qed.

Lemma keys_modify_field field_name f :
  In field_name names ->
  Spec.keeps (Props.keys_within names) (Utils.modify_field field_name f).
Proof.
  intros Hk. apply keeps_smodify. intros s Hs.
  destruct (Dict.get s field_name); [|exact Hs]. now apply keys_within_set.
Qed.

Lemma keys_update_field_info field_name value data_type is_timestamp_field :
  In field_name names ->
  Spec.keeps (Props.keys_within names)
    (Utils.update_field_info field_name value data_type is_timestamp_field).
Proof.
  intros Hk. unfold Utils.update_field_info.
  repeat keeps_step;
    try (apply keys_modify_field; exact Hk);
    apply keeps_smodify; intros s Hs; now apply keys_within_set.
Qed.

Lemma keys_on_schema {C A} (c : stateful Schema A) :
  Spec.keeps (Props.keys_within names) c ->
  Spec.keeps (fun st : Detectors.loop C => Props.keys_within names (Detectors.schema st))
    (Detectors.on_schema c).
Proof.
  intros Hc st H. unfold Detectors.on_schema. specialize (Hc _ H).
  destruct (c (Detectors.schema st)) as [schema' r]. exact Hc.
Qed.

End SchemaKeys.

Lemma syslog_schema_keys (E : PyEnv) lines :
  Props.result_has
    (fun r => Props.keys_within Props.syslog_schema_fields (FormatDetectionResult.schema r))
    (Detectors.SyslogDetector_detect lines).
Proof.
  unfold Detectors.SyslogDetector_detect. cbv zeta.
  match goal with
  | |- context [sfor ?xs ?body ?s0] =>
      assert (H : Spec.keeps
                    (fun st : Detectors.loop (nat * nat) =>
                       Props.keys_within Props.syslog_schema_fields (Detectors.schema st))
                    (sfor xs body));
      [|specialize (H s0 (fun k fi (F : In (k, fi) []) => match F with end));
        destruct (sfor xs body s0) as [st [[]|e]]; [|exact I]]
  end.
  - apply keeps_sfor. intros line. unfold Detectors.continue_on_error.
    apply keeps_stry; [|intros ?; apply keeps_sret].
    destruct (Detectors._try_match_line _ _) as [[match_type match_data]|];
      [|apply keeps_sret].
    apply keeps_sbind.
    { destruct (String.eqb _ _); apply keeps_smodify; intros st Hst; exact Hst. }
    intros _. apply keeps_sbind; [apply keeps_smodify; intros st Hst; exact Hst|].
    intros _. apply keys_on_schema.
    unfold Detectors._update_schema_from_match. cbv zeta.
    apply keeps_sfor_in. intros [field_name [value|]] Hin; [|apply keeps_sret].
    destruct (PyStr.truthy value); [|apply keeps_sret].
    apply keys_update_field_info.
    apply in_app_or in Hin. unfold Props.syslog_schema_fields.
    destruct Hin as [Hin|Hin].
    + cbn in Hin. repeat destruct Hin as [Hin|Hin]; try contradiction;
        injection Hin as <- _; cbn; tauto.
    + destruct (Detectors.sm_version match_data); cbn in Hin;
        repeat destruct Hin as [Hin|Hin]; try contradiction;
        injection Hin as <- _; cbn; tauto.
  - cbn [Detectors.finish Props.result_has fst] in *.
    destruct (Detectors.counters st) as [a b]. exact H.
Qed.

(** The two outcomes of [analyze_lines]: nothing cleared its threshold,
    or the result is the refined result of the detector at some index
    of the list. *)
Lemma analysis_cases (E : PyEnv) (lines : list string) :
  let r := InferenceEngine.analyze_lines InferenceEngine.new lines in
  (FormatDetectionResult.format_type r = UNKNOWN
   /\ FormatDetectionResult.confidence r = 0%Q
   /\ FormatDetectionResult.schema r = []
   /\ List.length (FormatDetectionResult.sample_lines r) <= 5)
  \/ (exists i d b,
         nth_error (InferenceEngine.detectors InferenceEngine.new) i = Some d
         /\ InferenceEngine.detect d lines = Ok b
         /\ Spec.clears d b
         /\ FormatDetectionResult.format_type r = FormatDetectionResult.format_type b
         /\ FormatDetectionResult.confidence r = FormatDetectionResult.confidence b
         /\ FormatDetectionResult.sample_lines r = FormatDetectionResult.sample_lines b
         /\ FormatDetectionResult.schema r
            = FormatDetectionResult.schema
                (InferenceEngine._calculate_field_confidence b)).
Proof.
  cbv zeta. unfold InferenceEngine.analyze_lines.
  destruct lines as [|line0 rest].
  { left. cbn. repeat split; lia. }
  rewrite run_detectors_fold. cbn [app].
  destruct (Spec.cleared _ _) as [|first others] eqn:Hcl.
  { left.
    cbn [FormatDetectionResult.format_type FormatDetectionResult.confidence
         FormatDetectionResult.schema FormatDetectionResult.sample_lines].
    split; [reflexivity|]. split; [reflexivity|]. split; [reflexivity|].
    apply firstn_5_length. }
  right.
  destruct (max_by_confidence_split first others) as (pre & post & Heq & _ & _).
  set (b := InferenceEngine.max_by_confidence first others) in *.
  rewrite <- Hcl in Heq.
  destruct (cleared_split _ _ _ _ _ Heq) as (i & d & Hn & Hd & Hc & _ & _).
  exists i, d, b.
  destruct (field_confidence_pass_keeps b) as (Hf & Hcf & Hs & _).
  cbv zeta. fold b. unfold FormatDetectionResult.set_metadata.
  cbn [FormatDetectionResult.format_type FormatDetectionResult.confidence
       FormatDetectionResult.schema FormatDetectionResult.sample_lines].
  repeat (split; [assumption|]). reflexivity.
Qed.

Lemma nth_error_Forall2 {A B} (R : A -> B -> Prop) l l' i a :
  Forall2 R l l' -> nth_error l i = Some a ->
  exists b, nth_error l' i = Some b /\ R a b.
Proof.
  intros H. revert i. induction H as [|x y l l' Hxy _ IH]; intros [|i] Hi;
    try discriminate Hi.
  - injection Hi as <-. exists y. now split.
  - apply IH, Hi.
Qed.

Lemma cleared_is_known (E : PyEnv) lines i d b :
  nth_error (InferenceEngine.detectors InferenceEngine.new) i = Some d ->
  InferenceEngine.detect d lines = Ok b -> Spec.clears d b ->
  FormatDetectionResult.format_type b <> UNKNOWN
  /\ ((1 # 2) <= FormatDetectionResult.confidence b)%Q.
Proof.
  intros Hn Hd Hc.
  pose proof (proj1 (Forall_forall _ _) (thresholds_at_least_half E) d
                (nth_error_In _ _ Hn)) as Hth.
  cbv beta in Hth.
  assert (Hhalf : ((1 # 2) <= FormatDetectionResult.confidence b)%Q)
    by (eapply Qle_trans; [exact Hth | exact Hc]).
  split; [|exact Hhalf].
  destruct (nth_error_Forall2 _ _ _ _ _ (detectors_labelled lines) Hn)
    as (labels & _ & Hl).
  rewrite Hd in Hl. cbn [Props.result_has] in Hl. destruct Hl as [_ Hu].
  intros Hf. destruct (Hu Hf) as [H0 _]. rewrite H0 in Hhalf.
  now apply Hhalf.
Qed.

(** X14.  What [analyze_lines] returns has a confidence between 0 and
    1, at most 5 sample lines, a well-formed schema and field
    confidences between 0 and 1.  Either it is UNKNOWN with confidence 0
    and an empty schema, and [create_parser] raises on it; or its
    format is not UNKNOWN, its confidence is at least 0.5, and
    [create_parser] returns a parser that holds it. *)
Theorem analysis_result_is_well_formed :
  forall (E : PyEnv) (lines : list string),
    let r := InferenceEngine.analyze_lines InferenceEngine.new lines in
    Props.result_wf r
    /\ (forall k fi, In (k, fi) (FormatDetectionResult.schema r) ->
                     Props.unit_interval (FieldInfo.confidence fi))
    /\ ((FormatDetectionResult.format_type r = UNKNOWN
         /\ FormatDetectionResult.confidence r = 0%Q
         /\ FormatDetectionResult.schema r = []
         /\ forall tbl, exists e, ParsingEngine.create_parser tbl r = Raise e)
        \/ (FormatDetectionResult.format_type r <> UNKNOWN
            /\ ((1 # 2) <= FormatDetectionResult.confidence r)%Q
            /\ forall tbl, exists tbl' p,
                 ParsingEngine.create_parser tbl r = Ok (tbl', p)
                 /\ Parser.detection_result p = r)).
Proof.
  intros E lines. cbv zeta.
  destruct (analysis_cases E lines) as [(Hf & Hc & Hs & Hl)|Hcase].
  - split; [|split].
    + split; [|split]; [rewrite Hc; split; discriminate | exact Hl |].
      rewrite Hs. apply schema_wf_empty.
    + rewrite Hs. intros k fi [].
    + left. repeat (split; [assumption|]). intros tbl.
      unfold ParsingEngine.create_parser. rewrite Hf. eexists. reflexivity.
  - destruct Hcase as (i & d & b & Hn & Hd & Hcl & Hf & Hc & Hl & Hs).
    pose proof (proj1 (Forall_forall _ _) (detectors_wf E lines) d
                  (nth_error_In _ _ Hn)) as Hwf.
    cbv beta in Hwf. rewrite Hd in Hwf. cbn [Props.result_has] in Hwf.
    destruct Hwf as (Hconf & Hsamples & Hschema).
    destruct (field_confidence_pass_schema b Hschema) as [Hwf' Hfc].
    destruct (cleared_is_known E lines i d b Hn Hd Hcl) as [Hknown Hhalf].
    split; [|split].
    + split; [|split]; [now rewrite Hc | now rewrite Hl | now rewrite Hs].
    + rewrite Hs. exact Hfc.
    + right. split; [now rewrite Hf|]. split; [now rewrite Hc|].
      intros tbl.
      destruct (create_parser_ok tbl
                  (InferenceEngine.analyze_lines InferenceEngine.new lines))
        as (tbl' & p & Hp & _ & Hr); [now rewrite Hf|].
      exists tbl', p. now split.
Qed.

Lemma syslog_analysis_keys (E : PyEnv) lines :
  let r := InferenceEngine.analyze_lines InferenceEngine.new lines in
  FormatDetectionResult.format_type r = SYSLOG ->
  Props.keys_within Props.syslog_schema_fields (FormatDetectionResult.schema r).
Proof.
  cbv zeta. intros Hsys.
  destruct (analysis_cases E lines) as [(Hf & _)|Hcase]; [congruence|].
  destruct Hcase as (i & d & b & Hn & Hd & Hcl & Hf & Hc & Hl & Hs).
  rewrite Hf in Hsys.
  destruct (nth_error_Forall2 _ _ _ _ _ (detectors_labelled lines) Hn)
    as (labels & Hlab & Hin).
  rewrite Hd in Hin. cbn [Props.result_has] in Hin. destruct Hin as [Hin _].
  rewrite Hsys in Hin.
  assert (Hb : Detectors.SyslogDetector_detect lines = Ok b).
  { unfold InferenceEngine.new in Hn. cbn [InferenceEngine.detectors] in Hn.
    unfold Props.detector_labels in Hlab.
    do 12 (destruct i as [|i];
           [cbn [nth_error] in Hn, Hlab; injection Hn as <-; injection Hlab as <-;
            cbn [In] in Hin;
            first [exact Hd | exfalso; intuition discriminate]|]).
    destruct i; discriminate Hn. }
  pose proof (syslog_schema_keys E lines) as Hk. rewrite Hb in Hk.
  cbn [Props.result_has] in Hk.
  rewrite Hs. unfold InferenceEngine._calculate_field_confidence.
  destruct (FormatDetectionResult.schema b) as [|kv schema] eqn:Hsb.
  - rewrite Hsb. intros k fi [].
  - cbv zeta. cbn [FormatDetectionResult.set_schema FormatDetectionResult.schema].
    intros k fi Hin'. apply in_map_iff in Hin'.
    destruct Hin' as ([k0 fi0] & Heq & Hin0). cbn [fst snd] in Heq.
    injection Heq as <- _. eapply Hk, Hin0.
Qed.

(** X15.  When [analyze_lines] answers SYSLOG, [create_parser]
    returns a [SyslogParser], and every entry it parses has only fields
    among the ten names the syslog detector puts in a schema; it never
    has the field [facility] or [severity], which
    [_extract_facility_severity] stores only when the schema has
    them. *)
Theorem syslog_entries_stay_within_detected_fields :
  forall (E : PyEnv) (lines : list string),
    let r := InferenceEngine.analyze_lines InferenceEngine.new lines in
    FormatDetectionResult.format_type r = SYSLOG ->
    forall tbl, exists tbl' p,
      ParsingEngine.create_parser tbl r = Ok (tbl', p)
      /\ Parser.cls p = Parser.SyslogParser
      /\ forall line line_number,
           let e := Parser.parse_line p line line_number in
           (forall k, Dict.mem (ParsedLogEntry.fields e) k = true ->
                      In k Props.syslog_schema_fields)
           /\ Dict.mem (ParsedLogEntry.fields e) "facility" = false
           /\ Dict.mem (ParsedLogEntry.fields e) "severity" = false.
Proof.
  intros E lines. cbv zeta. intros Hsys tbl.
  pose proof (syslog_analysis_keys E lines Hsys) as Hkeys.
  destruct (create_parser_ok tbl
              (InferenceEngine.analyze_lines InferenceEngine.new lines))
    as (tbl' & p & Hp & Hcls & Hr); [rewrite Hsys; discriminate|].
  exists tbl', p. split; [exact Hp|]. split.
  { rewrite Hsys in Hcls. cbn in Hcls. now injection Hcls as <-. }
  intros line line_number.
  assert (Hin : forall k,
             Dict.mem (ParsedLogEntry.fields (Parser.parse_line p line line_number)) k
             = true -> In k Props.syslog_schema_fields).
  { intros k Hk. apply (parse_line_fields_in_schema E p) in Hk.
    unfold Parser.schema in Hk. rewrite Hr in Hk. unfold Dict.mem in Hk.
    destruct (Dict.get _ k) as [fi|] eqn:Hg; [|discriminate Hk].
    eapply Hkeys, dict_get_in, Hg. }
  split; [exact Hin|].
  split.
  - destruct (Dict.mem _ "facility") eqn:Hm; [|reflexivity].
    apply Hin in Hm. cbn in Hm. exfalso. intuition discriminate.
  - destruct (Dict.mem _ "severity") eqn:Hm; [|reflexivity].
    apply Hin in Hm. cbn in Hm. exfalso. intuition discriminate.
Qed.

(** X15 at the syslog line of the second scenario in [Spec.plain_env]. *)
Lemma syslog_entries_stay_within_detected_fields_witness :
  FormatDetectionResult.format_type
    (InferenceEngine.analyze_lines (@InferenceEngine.new Spec.plain_env)
       [Spec.syslog_line]) = SYSLOG
  /\ exists tbl' p,
       ParsingEngine.create_parser LinePatterns.patterns
         (InferenceEngine.analyze_lines (@InferenceEngine.new Spec.plain_env)
            [Spec.syslog_line]) = Ok (tbl', p)
       /\ Parser.cls p = Parser.SyslogParser.
Proof.
  assert (H : FormatDetectionResult.format_type
                (InferenceEngine.analyze_lines (@InferenceEngine.new Spec.plain_env)
                   [Spec.syslog_line]) = SYSLOG) by (vm_compute; reflexivity).
  split; [exact H|].
  destruct (syslog_entries_stay_within_detected_fields Spec.plain_env
              [Spec.syslog_line] H LinePatterns.patterns)
    as (tbl' & p & Hp & Hc & _).
  exists tbl', p. now split.
Defined.

(** X10.  Whenever one of the twelve detectors of the engine, or
    [BaseLogDetector.detect], returns, the confidence of the result
    lies between 0 and 1, it has at most 5 sample lines, and each field
    of its schema is stored under its own name, has one of the five
    type names, at most 10 sample values without duplicates and no more
    of them than its frequency, and a timestamp format only when it is
    flagged as a timestamp. *)
Theorem detector_results_are_well_formed :
  forall (E : PyEnv) (lines : list string),
    Forall (fun d => Props.result_has Props.result_wf (InferenceEngine.detect d lines))
           (InferenceEngine.detectors InferenceEngine.new)
    /\ forall patterns format_type,
         Props.result_has Props.result_wf
           (Detectors.BaseLogDetector_detect patterns format_type lines).
Proof.
  intros E lines. split; [apply detectors_wf|].
  intros patterns format_type. apply BaseLogDetector_detect_wf.
Qed.

(** X11.  Each detector of the engine labels what it returns with
    its own formats, and a result labelled UNKNOWN has the confidence 0
    and an empty schema.  The three web detectors answer the empty
    result of [_create_empty_result], labelled UNKNOWN, when
    preprocessing leaves no line, and a result of theirs is labelled
    UNKNOWN in that case only: when a line is left, the Apache detector
    answers what [_determine_apache_format] makes of the three counters
    of its metadata, the Nginx detector NGINX_ACCESS unless the error
    patterns matched more lines than the access patterns, and
    [GenericWebLogDetector] BASIC_LOG.  The nine other detectors never
    answer UNKNOWN. *)
Theorem detectors_answer_their_own_formats :
  forall (E : PyEnv) (lines : list string),
    Forall2 (fun d labels =>
               Props.result_has (Props.labelled labels)
                 (InferenceEngine.detect d lines))
            (InferenceEngine.detectors InferenceEngine.new) Props.detector_labels
    /\ Props.web_answer Props.apache_label lines
         (Detectors.ApacheDetector_detect lines)
    /\ Props.web_answer Props.nginx_label lines
         (Detectors.NginxDetector_detect lines)
    /\ Props.web_answer Props.generic_label lines
         (Detectors.GenericWebLogDetector_detect lines)
    /\ Forall (fun d =>
                 In (InferenceEngine.name d) Props.web_detectors
                 \/ Props.result_has
                      (fun r => FormatDetectionResult.format_type r <> UNKNOWN)
                      (InferenceEngine.detect d lines))
              (InferenceEngine.detectors InferenceEngine.new).
Proof.
  intros E lines.
  split; [exact (detectors_labelled lines)|].
  split; [exact (ApacheDetector_answer lines)|].
  split; [exact (NginxDetector_answer lines)|].
  split; [exact (GenericWebLogDetector_answer lines)|].
  exact (only_web_detectors_answer_unknown lines).
Qed.

(** X12.  The seven detectors whose body stands in a handler of
    [Exception] return a result for every input and environment, so
    every diagnostic the engine records names one of the other five
    detectors and the exception that detector raised. *)
Theorem detectors_with_handlers_always_answer :
  forall (E : PyEnv) (lines : list string),
    (forall d, In d (InferenceEngine.detectors InferenceEngine.new) ->
               In (InferenceEngine.name d) Props.handled_detectors ->
               exists r, InferenceEngine.detect d lines = Ok r)
    /\ (forall msg,
           In msg (Spec.detection_errors
                     (InferenceEngine.detectors InferenceEngine.new) lines) ->
           exists d e,
             In d (InferenceEngine.detectors InferenceEngine.new)
             /\ ~ In (InferenceEngine.name d) Props.handled_detectors
             /\ InferenceEngine.detect d lines = Raise e
             /\ msg = ("Detector " ++ InferenceEngine.name d ++ " failed: "
                         ++ exn_msg e)%string).
Proof.
  intros E lines.
  destruct (handled_detectors_return E lines) as (H1 & H2 & H3 & H4 & H5 & H6 & H7).
  assert (Hret : forall d, In d (InferenceEngine.detectors InferenceEngine.new) ->
                           In (InferenceEngine.name d) Props.handled_detectors ->
                           exists r, InferenceEngine.detect d lines = Ok r).
  { intros d Hd Hn. unfold InferenceEngine.new in Hd.
    cbn [InferenceEngine.detectors] in Hd.
    repeat (destruct Hd as [<-|Hd];
            [cbn [InferenceEngine.name InferenceEngine.detect] in *;
             first [ assumption
                   | exfalso; unfold Props.handled_detectors in Hn; cbn [In] in Hn;
                     repeat (destruct Hn as [Hn|Hn]; [discriminate Hn|]);
                     exact Hn ]|]).
    contradiction. }
  split; [exact Hret|].
  intros msg Hmsg. unfold Spec.detection_errors in Hmsg.
  apply in_flat_map in Hmsg. destruct Hmsg as (d & Hd & Hm).
  unfold Spec.error_of in Hm.
  destruct (InferenceEngine.detect d lines) as [r|e] eqn:Hdet; [contradiction|].
  destruct Hm as [<-|[]]. exists d, e.
  split; [exact Hd|]. split; [|split; [exact Hdet | reflexivity]].
  intros Hn. destruct (Hret d Hd Hn) as [r Hr]. congruence.
Qed.

Section Strip.
Variable p : ascii -> bool.

Lemma rstrip_by_idempotent s :
  PyStr.rstrip_by p (PyStr.rstrip_by p s) = PyStr.rstrip_by p s.
Proof.
  induction s as [|c s IH]; [reflexivity|].
  cbn [PyStr.rstrip_by].
  destruct (PyStr.rstrip_by p s) as [|d t] eqn:Hr.
  - destruct (p c) eqn:Hc; [reflexivity|]. cbn [PyStr.rstrip_by]. now rewrite Hc.
  - change (PyStr.rstrip_by p (String c (String d t)))
      with (match PyStr.rstrip_by p (String d t) with
            | EmptyString => if p c then EmptyString else String c EmptyString
            | u => String c u
            end).
    rewrite IH. reflexivity.
Qed.

Lemma lstrip_by_head s :
  match PyStr.lstrip_by p s with
  | EmptyString => True
  | String c _ => p c = false
  end.
Proof.
  induction s as [|c s IH]; cbn [PyStr.lstrip_by]; [exact I|].
  destruct (p c) eqn:Hc; [exact IH | exact Hc].
Qed.

Lemma lstrip_rstrip_head s :
  match s with EmptyString => True | String c _ => p c = false end ->
  PyStr.lstrip_by p (PyStr.rstrip_by p s) = PyStr.rstrip_by p s.
Proof.
  destruct s as [|c s]; [reflexivity|]. intros Hc. cbn [PyStr.rstrip_by].
  destruct (PyStr.rstrip_by p s); rewrite ?Hc; cbn [PyStr.lstrip_by]; now rewrite Hc.
Qed.

Lemma strip_by_idempotent s :
  PyStr.strip_by p (PyStr.strip_by p s) = PyStr.strip_by p s.
Proof.
  unfold PyStr.strip_by.
  rewrite (lstrip_rstrip_head _ (lstrip_by_head s)). apply rstrip_by_idempotent.
Qed.

End Strip.

Lemma filter_idempotent {A} (f : A -> bool) l : filter f (filter f l) = filter f l.
Proof.
  induction l as [|x l IH]; [reflexivity|]. cbn [filter].
  destruct (f x) eqn:Hx; [|exact IH]. cbn [filter]. rewrite Hx. now f_equal.
Qed.

(** X19.  [preprocess_lines] returns at most [max_lines] lines and no
    more than it was given; each of them is not empty and is its own
    [strip()]; preprocessing them again changes nothing; and blank
    lines only give the empty list. *)
Theorem preprocessed_lines_are_stripped :
  forall (lines : list string) (max_lines : nat),
    let processed := Detectors.preprocess_lines lines max_lines in
    List.length processed <= max_lines
    /\ List.length processed <= List.length lines
    /\ Forall (fun line => line <> "" /\ PyStr.strip line = line) processed
    /\ Detectors.preprocess_lines processed max_lines = processed
    /\ (Forall (fun line => PyStr.strip line = "") lines -> processed = []).
Proof.
  intros lines max_lines. cbv zeta. unfold Detectors.preprocess_lines.
  set (taken := firstn max_lines lines).
  assert (Hlen : List.length (filter PyStr.truthy (map PyStr.strip taken))
                 <= List.length taken).
  { eapply Nat.le_trans; [apply filter_length_le | now rewrite length_map]. }
  assert (Htaken : List.length taken <= max_lines /\ List.length taken <= List.length lines).
  { unfold taken. rewrite length_firstn. lia. }
  assert (Hall : Forall (fun line => line <> "" /\ PyStr.strip line = line)
                        (filter PyStr.truthy (map PyStr.strip taken))).
  { apply Forall_forall. intros l Hl. apply filter_In in Hl. destruct Hl as [Hin Ht].
    apply in_map_iff in Hin. destruct Hin as (l0 & <- & _). split.
    - intros H. rewrite H in Ht. discriminate Ht.
    - apply strip_by_idempotent. }
  split; [lia|]. split; [lia|]. split; [exact Hall|]. split.
  - rewrite firstn_all2 by lia.
    assert (Hmap : map PyStr.strip (filter PyStr.truthy (map PyStr.strip taken))
                   = filter PyStr.truthy (map PyStr.strip taken)).
    { clear - Hall. induction Hall as [|l ls [_ Hl] _ IH]; [reflexivity|].
      cbn [map]. now rewrite Hl, IH. }
    rewrite Hmap. apply filter_idempotent.
  - intros Hblank.
    assert (Ht : Forall (fun line => PyStr.strip line = "") taken).
    { unfold taken. rewrite <- (firstn_skipn max_lines lines) in Hblank.
      apply Forall_app in Hblank. apply Hblank. }
    clear - Ht. induction Ht as [|l ls Hl _ IH]; [reflexivity|].
    cbn [map filter]. rewrite Hl. exact IH.
Qed.
(* ================================================================== *)
(** ** The parsing engine and the parsers: validation and extraction *)

Lemma supported_formats_agree :
  forall s, In s InferenceEngine.get_supported_formats
            <-> In s ParsingEngine.get_supported_formats.
Proof.
  intros s.
  let a := eval vm_compute in InferenceEngine.get_supported_formats in
  change InferenceEngine.get_supported_formats with a.
  let b := eval vm_compute in ParsingEngine.get_supported_formats in
  change ParsingEngine.get_supported_formats with b.
  cbn [In]. tauto.
Qed.

Lemma supported_iff_known f :
  In (LogFormat_value f) InferenceEngine.get_supported_formats <-> f <> UNKNOWN.
Proof.
  let a := eval vm_compute in InferenceEngine.get_supported_formats in
  change InferenceEngine.get_supported_formats with a.
  destruct f; cbn [In LogFormat_value]; split; intros H;
    try discriminate; try tauto;
    try (exfalso; now apply H);
    repeat destruct H as [H|H]; try discriminate H; try contradiction.
Qed.

(** X16.  [validate_parsing_capability] says [can_parse] exactly when
    [create_parser] returns a parser, which is exactly when the format
    is one [get_supported_formats] of the inference engine lists, and
    the two engines list the same formats.  The estimated quality is at
    most 1; it is 0 with one warning when the result cannot be parsed;
    otherwise the two warnings are given exactly for a quality below
    0.7 and for fewer than 3 sample lines, and the quality is at least
    the detection confidence less 0.1. *)
Theorem validation_agrees_with_create_parser :
  forall (r : FormatDetectionResult.t) (tbl : ParsingEngine.PatternTable),
    let v := ParsingEngine.validate_parsing_capability r in
    (ParsingEngine.can_parse v = true
     <-> exists tbl' p, ParsingEngine.create_parser tbl r = Ok (tbl', p))
    /\ (ParsingEngine.can_parse v = true
        <-> In (ParsingEngine.v_format_type v) InferenceEngine.get_supported_formats)
    /\ (forall s, In s InferenceEngine.get_supported_formats
                  <-> In s ParsingEngine.get_supported_formats)
    /\ (ParsingEngine.estimated_parse_quality v <= 1)%Q
    /\ (ParsingEngine.can_parse v = false ->
        ParsingEngine.estimated_parse_quality v = 0%Q
        /\ List.length (ParsingEngine.warnings v) = 1)
    /\ (ParsingEngine.can_parse v = true ->
        (In "Low estimated parsing quality - expect parsing errors"
            (ParsingEngine.warnings v)
         <-> (ParsingEngine.estimated_parse_quality v < 7 # 10)%Q)
        /\ (In "Limited sample size may affect parsing accuracy"
               (ParsingEngine.warnings v)
            <-> List.length (FormatDetectionResult.sample_lines r) < 3)
        /\ ((FormatDetectionResult.confidence r <= 11 # 10)%Q ->
            (FormatDetectionResult.confidence r - (1 # 10)
             <= ParsingEngine.estimated_parse_quality v)%Q)).
Proof.
  intros r tbl. cbv zeta.
  unfold ParsingEngine.validate_parsing_capability. cbv zeta.
  set (f := FormatDetectionResult.format_type r).
  destruct (LogFormat_eqb f UNKNOWN) eqn:Hu.
  { apply LogFormat_eqb_eq in Hu.
    cbn [ParsingEngine.can_parse ParsingEngine.v_format_type
         ParsingEngine.estimated_parse_quality ParsingEngine.warnings].
    split; [|split; [|split; [|split; [|split]]]].
    - split; [discriminate|]. intros (tbl' & p & Hp).
      unfold ParsingEngine.create_parser in Hp. fold f in Hp. rewrite Hu in Hp.
      discriminate Hp.
    - split; [discriminate|]. intros H. apply supported_iff_known in H. contradiction.
    - apply supported_formats_agree.
    - discriminate.
    - intros _. now split.
    - discriminate. }
  assert (Hf : f <> UNKNOWN).
  { intros H. apply LogFormat_eqb_eq in H. congruence. }
  destruct (ParsingEngine.lookup ParsingEngine.parser_classes f) as [c|] eqn:Hl.
  2:{ apply lookup_registered in Hl. contradiction. }
  cbn [ParsingEngine.can_parse ParsingEngine.v_format_type
       ParsingEngine.estimated_parse_quality ParsingEngine.warnings].
  set (tb := fmin _ (2 # 10)).
  set (fb := fmin _ (3 # 10)).
  set (limited := List.length (FormatDetectionResult.sample_lines r) <? 3).
  set (pen := if limited then (1 # 10)%Q else 0%Q).
  set (q := fmin _ 1%Q).
  assert (Htb : (0 <= tb)%Q).
  { apply fmin_nonneg; [|discriminate].
    apply Qmult_le_0_compat; [apply inject_nat_nonneg | discriminate]. }
  assert (Hfb : (0 <= fb)%Q).
  { apply fmin_nonneg; [|discriminate].
    apply Qmult_le_0_compat; [apply inject_nat_nonneg | discriminate]. }
  assert (Hpen : (pen <= 1 # 10)%Q).
  { unfold pen. destruct limited; discriminate. }
  split; [|split; [|split; [|split; [|split]]]].
  - split; [intros _|reflexivity].
    destruct (create_parser_ok tbl r Hf) as (tbl' & p & Hp & _).
    exists tbl', p. exact Hp.
  - split; [intros _|reflexivity]. now apply supported_iff_known.
  - apply supported_formats_agree.
  - unfold q, fmin. destruct (Qle_bool _ 1) eqn:Hq;
      [apply Qle_bool_iff, Hq | apply Qle_refl].
  - discriminate.
  - intros _. split; [|split].
    + destruct (Qlt_bool q (7 # 10)) eqn:Hq.
      * split; [intros _; now apply Qlt_bool_iff|].
        intros _. apply in_or_app. right. now left.
      * split; [|intros H; apply Qlt_bool_iff in H; congruence].
        intros H. destruct limited; cbn in H;
          repeat destruct H as [H|H]; try discriminate H; contradiction.
    + assert (Hlim : In "Limited sample size may affect parsing accuracy"
                        (if limited
                         then ["Limited sample size may affect parsing accuracy"]
                         else [])
                     <-> List.length (FormatDetectionResult.sample_lines r) < 3).
      { unfold limited.
        destruct (Nat.ltb_spec (List.length (FormatDetectionResult.sample_lines r)) 3).
        - split; [intros _; assumption | intros _; now left].
        - split; [intros [] | lia]. }
      destruct (Qlt_bool q (7 # 10)); [|exact Hlim].
      rewrite <- Hlim. split.
      * intros H. apply in_app_or in H. destruct H as [H|[H|[]]];
          [exact H | discriminate H].
      * intros H. apply in_or_app. now left.
    + intros Hc. unfold q, fmin.
      destruct (Qle_bool _ 1) eqn:Hq.
      * apply Qplus_le_compat; [|apply Qopp_le_compat, Hpen].
        rewrite <- (Qplus_0_r (FormatDetectionResult.confidence r)) at 1.
        rewrite <- Qplus_assoc. apply Qplus_le_compat; [apply Qle_refl|].
        apply (Qle_trans _ (0 + 0)); [discriminate|].
        now apply Qplus_le_compat.
      * apply (Qplus_le_l _ _ (1 # 10)). ring_simplify.
        eapply Qle_trans; [exact Hc | discriminate].
Qed.

Section Triples.
Context {S : Type}.

Lemma triple_sret {A} (P : S -> Prop) (a : A) (Q : A -> S -> Prop) :
  (forall s, P s -> Q a s) -> Props.triple P (sret a) Q.
Proof. intros H s Hs. apply H, Hs. Qed.

Lemma triple_sraise {A} (P : S -> Prop) e (Q : A -> S -> Prop) :
  Props.triple P (sraise e) Q.
Proof. intros s Hs. exact I. Qed.

Lemma triple_slift {A} (P : S -> Prop) (r : result A) (Q : A -> S -> Prop) :
  (forall a, r = Ok a -> forall s, P s -> Q a s) -> Props.triple P (slift r) Q.
Proof. intros H s Hs. unfold slift. destruct r; [now apply H | exact I]. Qed.

Lemma triple_sget (P : S -> Prop) (Q : S -> S -> Prop) :
  (forall s, P s -> Q s s) -> Props.triple P sget Q.
Proof. intros H s Hs. apply H, Hs. Qed.

Lemma triple_smodify (P : S -> Prop) (f : S -> S) (Q : unit -> S -> Prop) :
  (forall s, P s -> Q tt (f s)) -> Props.triple P (smodify f) Q.
Proof. intros H s Hs. apply H, Hs. Qed.

Lemma triple_sbind {A B} (P : S -> Prop) (R : A -> S -> Prop) (Q : B -> S -> Prop)
      (c : stateful S A) (f : A -> stateful S B) :
  Props.triple P c R -> (forall a, Props.triple (R a) (f a) Q) ->
  Props.triple P (sbind c f) Q.
Proof.
  intros Hc Hf s Hs. unfold sbind. specialize (Hc s Hs).
  destruct (c s) as [s' [a|e]]; [apply (Hf a s' Hc) | exact I].
Qed.

Lemma triple_keeps {A} (P : S -> Prop) (c : stateful S A) :
  Spec.keeps P c -> Props.triple P c (fun _ => P).
Proof.
  intros Hc s Hs. specialize (Hc s Hs). destruct (c s) as [s' [a|e]]; [exact Hc | exact I].
Qed.

Lemma triple_post {A} (P : S -> Prop) (c : stateful S A) (Q Q' : A -> S -> Prop) :
  Props.triple P c Q -> (forall a s, Q a s -> Q' a s) -> Props.triple P c Q'.
Proof.
  intros Hc H s Hs. specialize (Hc s Hs).
  destruct (c s) as [s' [a|e]]; [apply H, Hc | exact I].
Qed.

Lemma triple_pre {A} (P P' : S -> Prop) (c : stateful S A) (Q : A -> S -> Prop) :
  (forall s, P s -> P' s) -> Props.triple P' c Q -> Props.triple P c Q.
Proof. intros H Hc s Hs. apply Hc, H, Hs. Qed.

Lemma triple_sfor {X} (Inv : nat -> S -> Prop) (xs : list X)
      (body : X -> stateful S unit) :
  (forall i x, nth_error xs i = Some x ->
               Props.triple (Inv i) (body x) (fun _ => Inv (Datatypes.S i))) ->
  Props.triple (Inv 0) (sfor xs body) (fun _ => Inv (List.length xs)).
Proof.
  intros Hb.
  assert (H : forall done rest, xs = done ++ rest ->
              Props.triple (Inv (List.length done)) (sfor rest body)
                (fun _ => Inv (List.length xs))).
  { intros done rest. revert done. induction rest as [|x rest IH]; intros done Heq.
    - cbn. apply triple_sret. intros s Hs. rewrite Heq, app_nil_r. exact Hs.
    - cbn [sfor]. eapply triple_sbind.
      + apply (Hb (List.length done) x). rewrite Heq.
        rewrite nth_error_app2 by lia. now rewrite Nat.sub_diag.
      + intros u. specialize (IH (done ++ [x])).
        rewrite length_app, Nat.add_1_r in IH. apply IH.
        rewrite Heq, <- app_assoc. reflexivity. }
  apply (H [] xs eq_refl).
Qed.

End Triples.

Lemma firstn_S_nth {A} (xs : list A) i x :
  nth_error xs i = Some x -> firstn (S i) xs = firstn i xs ++ [x].
Proof.
  revert i. induction xs as [|y xs IH]; intros [|i] H; try discriminate H.
  - injection H as ->. reflexivity.
  - change (y :: firstn (S i) xs = y :: (firstn i xs ++ [x])).
    f_equal. apply IH, H.
Qed.

Lemma nth_error_combine_seq {A} (xs : list A) a i p :
  nth_error (combine (seq a (List.length xs)) xs) i = Some p ->
  fst p = a + i /\ nth_error xs i = Some (snd p).
Proof.
  revert a i. induction xs as [|y xs IH]; intros a [|i] H; try discriminate H.
  - injection H as <-. cbn. split; [lia | reflexivity].
  - cbn in H. destruct (IH (S a) i H) as [H1 H2]. split; [lia | exact H2].
Qed.

Lemma dict_mem_keys {V} (d : Dict.t V) k : Dict.mem d k = true -> In k (Dict.keys d).
Proof.
  unfold Dict.mem, Dict.keys. induction d as [|[k' v] d IH]; cbn; [discriminate|].
  destruct (String.eqb k k') eqn:Hk.
  - apply String.eqb_eq in Hk. subst. now left.
  - intros H. right. apply IH, H.
Qed.

Lemma dict_keys_get {V} (d : Dict.t V) k : In k (Dict.keys d) -> Dict.get d k <> None.
Proof.
  intros H. apply dict_keys_mem in H. unfold Dict.mem in H.
  destruct (Dict.get d k); [discriminate | discriminate H].
Qed.

Section Extraction.
Context {E : PyEnv}.
Variable self : Parser.t.

Lemma ext_error names' e err :
  Props.extracted_or_malformed self names' (ParsedLogEntry.add_parse_error e err).
Proof. left. reflexivity. Qed.

Lemma ext_field names e k v :
  Props.extracted_or_malformed self names e ->
  Props.extracted_or_malformed self names (ParsedLogEntry.set_field e k v).
Proof.
  intros [H|H]; [left; exact H | right].
  intros k' Hk' Hs. cbn [ParsedLogEntry.set_field ParsedLogEntry.fields].
  rewrite dict_mem_set. rewrite (H k' Hk' Hs). apply orb_true_r.
Qed.

Lemma ext_timestamp names e dt :
  Props.extracted_or_malformed self names e ->
  Props.extracted_or_malformed self names (ParsedLogEntry.set_timestamp e dt).
Proof. intros [H|H]; [left; exact H | right; exact H]. Qed.

Lemma ext_set names e k v :
  Props.extracted_or_malformed self names e ->
  Props.extracted_or_malformed self (names ++ [k]) (ParsedLogEntry.set_field e k v).
Proof.
  intros [H|H]; [left; exact H | right].
  intros k' Hk' Hs. cbn [ParsedLogEntry.set_field ParsedLogEntry.fields].
  rewrite dict_mem_set. apply in_app_or in Hk'. destruct Hk' as [Hk'|[<-|[]]].
  - rewrite (H k' Hk' Hs). apply orb_true_r.
  - now rewrite String.eqb_refl.
Qed.

Lemma ext_skip names e k :
  Dict.mem (Parser.schema self) k = false ->
  Props.extracted_or_malformed self names e ->
  Props.extracted_or_malformed self (names ++ [k]) e.
Proof.
  intros Hk [H|H]; [left; exact H | right].
  intros k' Hk' Hs. apply in_app_or in Hk'. destruct Hk' as [Hk'|[<-|[]]].
  - now apply H.
  - congruence.
Qed.

Lemma guarded_clean prefix (body : Parser.PM unit) e0 (Q : ParsedLogEntry.t -> Prop) :
  Props.triple (fun e => e = e0) body
    (fun _ e => ParsedLogEntry.is_malformed e = true \/ Q e) ->
  ParsedLogEntry.is_malformed (Parser.guarded prefix body e0) = false ->
  Q (Parser.guarded prefix body e0).
Proof.
  intros Hb. unfold Parser.guarded. specialize (Hb e0 eq_refl).
  destruct (body e0) as [e' [u|x]].
  - intros Hm. destruct Hb as [Hb|Hb]; [congruence | exact Hb].
  - intros Hm. discriminate Hm.
Qed.

(* ---------------- JSON ---------------- *)

Lemma json_body_extracts line :
  Props.triple (fun _ => True) (Parser.json_body self line)
    (fun _ e => Props.extracted_or_malformed self (Dict.keys (Parser.schema self)) e).
Proof.
  unfold Parser.json_body.
  apply (triple_sbind _
           (fun _ e => Props.extracted_or_malformed self
                         (firstn 0 (Dict.keys (Parser.schema self))) e));
    [apply triple_slift; intros data _ s _; right; intros k [] | intros data].
  eapply triple_sbind.
  - eapply triple_post.
    + apply (triple_sfor
               (fun i e => Props.extracted_or_malformed self
                             (firstn i (Dict.keys (Parser.schema self))) e)).
      intros i k Hk. rewrite (firstn_S_nth _ _ _ Hk).
      eapply triple_sbind;
        [apply triple_slift; intros present _ s Hs; exact Hs | intros present].
      cbv beta. destruct present.
      * eapply triple_sbind;
          [apply triple_slift; intros raw _ s Hs; exact Hs | intros raw].
        apply triple_smodify. intros s Hs. apply ext_set, Hs.
      * apply triple_smodify. intros s Hs. now apply ext_error.
    + intros u e He. cbv beta in He. rewrite firstn_all in He. exact He.
  - intros u. cbv beta. eapply triple_post.
    + apply triple_keeps. apply keeps_assign_extracted_timestamp.
      intros e dt. apply ext_timestamp.
    + intros a s Hs. exact Hs.
Qed.

(* ---------------- delimited ---------------- *)

Lemma within_parts_keeps parts i :
  (forall e err, Props.within_parts self parts i e ->
                 Props.within_parts self parts i (ParsedLogEntry.add_parse_error e err))
  /\ (forall e k v, Props.within_parts self parts i e ->
                    Props.within_parts self parts i (ParsedLogEntry.set_field e k v))
  /\ (forall e dt, Props.within_parts self parts i e ->
                   Props.within_parts self parts i (ParsedLogEntry.set_timestamp e dt)).
Proof.
  split; [|split].
  - intros e err _. left. reflexivity.
  - intros e k v [H|[H1 H2]]; [left; exact H | right]. split; [exact H1|].
    intros k' Hk' Hs. cbn [ParsedLogEntry.set_field ParsedLogEntry.fields].
    rewrite dict_mem_set, (H2 k' Hk' Hs). apply orb_true_r.
  - intros e dt [H|H]; [left; exact H | right; exact H].
Qed.

Lemma within_parts_set parts i k e v :
  nth_error (Parser.field_names self) i = Some k -> i < List.length parts ->
  Props.within_parts self parts i e ->
  Props.within_parts self parts (S i) (ParsedLogEntry.set_field e k v).
Proof.
  intros Hk Hi [H|[H1 H2]]; [left; exact H | right]. split; [lia|].
  rewrite (firstn_S_nth _ _ _ Hk).
  intros k' Hk' Hs. cbn [ParsedLogEntry.set_field ParsedLogEntry.fields].
  rewrite dict_mem_set. apply in_app_or in Hk'. destruct Hk' as [Hk'|[<-|[]]].
  - rewrite (H2 k' Hk' Hs). apply orb_true_r.
  - now rewrite String.eqb_refl.
Qed.

Lemma within_parts_skip parts i k e :
  nth_error (Parser.field_names self) i = Some k -> i < List.length parts ->
  Dict.mem (Parser.schema self) k = false ->
  Props.within_parts self parts i e -> Props.within_parts self parts (S i) e.
Proof.
  intros Hk Hi Hm [H|[H1 H2]]; [left; exact H | right]. split; [lia|].
  rewrite (firstn_S_nth _ _ _ Hk).
  intros k' Hk' Hs. apply in_app_or in Hk'. destruct Hk' as [Hk'|[<-|[]]].
  - now apply H2.
  - congruence.
Qed.

Lemma delimited_body_extracts line parts :
  Parser.split_parts self line = Ok parts ->
  Props.triple (Props.within_parts self parts 0) (Parser.delimited_body self line)
    (fun _ e => ParsedLogEntry.is_malformed e = true
                \/ (List.length parts = List.length (Parser.field_names self)
                    /\ forall k, In k (Parser.field_names self) ->
                                 Dict.mem (Parser.schema self) k = true ->
                                 Dict.mem (ParsedLogEntry.fields e) k = true)).
Proof.
  intros Hsp. unfold Parser.delimited_body. rewrite Hsp.
  match goal with
  | |- Props.triple _ (sbind (slift (Ok parts)) ?f) _ =>
      change (sbind (slift (Ok parts)) f) with (f parts)
  end.
  cbv beta.
  apply (triple_sbind _ (fun _ => Props.within_parts self parts
                                    (List.length (Parser.field_names self)))).
  { eapply triple_post.
    - apply (triple_sfor (Props.within_parts self parts)).
      intros i [j field_name] Hnth.
      destruct (nth_error_combine_seq _ _ _ _ Hnth) as [Hj Hk]. cbn [fst snd] in Hj, Hk.
      subst j. cbn [Nat.add].
      destruct (within_parts_keeps parts (S i)) as (Ke & Kf & Kt).
      destruct (Nat.ltb_spec i (List.length parts)) as [Hlt|Hge].
      + cbv zeta. destruct (Dict.get (Parser.schema self) field_name) as [fi|] eqn:Hg.
        * destruct (FieldInfo.is_timestamp fi).
          -- apply (triple_sbind _ (fun _ => Props.within_parts self parts (S i))).
             ++ apply triple_smodify. intros s Hs. now apply within_parts_set.
             ++ intros u. apply triple_keeps.
                apply keeps_detect_into_timestamp; assumption.
          -- apply triple_smodify. intros s Hs. now apply within_parts_set.
        * apply triple_sret. intros s Hs. apply (within_parts_skip parts i field_name);
            try assumption. unfold Dict.mem. now rewrite Hg.
      + apply triple_smodify. intros s Hs. left. reflexivity.
    - intros u e He. rewrite length_combine, length_seq, Nat.min_id in He. exact He. }
  intros u.
  set (Q := fun e : ParsedLogEntry.t =>
              ParsedLogEntry.is_malformed e = true
              \/ (List.length parts = List.length (Parser.field_names self)
                  /\ forall k, In k (Parser.field_names self) ->
                               Dict.mem (Parser.schema self) k = true ->
                               Dict.mem (ParsedLogEntry.fields e) k = true)).
  apply (triple_sbind _ (fun _ => Q)).
  { intros s Hs. unfold Q.
    destruct (Nat.ltb_spec (List.length (Parser.field_names self)) (List.length parts))
      as [Hlt|Hge].
    - cbn. left. reflexivity.
    - cbn. destruct Hs as [Hs|[H1 H2]]; [left; exact Hs | right].
      split; [lia|]. rewrite firstn_all in H2. exact H2. }
  intros u'. apply (triple_keeps Q).
  apply keeps_sbind; [apply keeps_sget | intros entry].
  destruct (ParsedLogEntry.timestamp entry); [apply keeps_sret|].
  apply keeps_first_detected. intros e dt H. exact H.
Qed.

End Extraction.

Section Extraction2.
Context {E : PyEnv}.
Variable self : Parser.t.

(* ---------------- key-value ---------------- *)

Lemma kv_body_extracts line :
  Props.triple (fun _ => True) (Parser.kv_body self line)
    (fun _ e => ParsedLogEntry.is_malformed e = true
                \/ (Parser.found_fields self line <> []
                    /\ forall k, In k (Dict.keys (Parser.schema self)) ->
                                 Dict.mem (Parser.schema self) k = true ->
                                 Dict.mem (ParsedLogEntry.fields e) k = true)).
Proof.
  unfold Parser.kv_body. cbv zeta.
  destruct (Parser.found_fields self line) as [|kv found'] eqn:Hfound.
  { apply triple_smodify. intros s _. left. reflexivity. }
  set (found := kv :: found') in *.
  set (Q := Props.extracted_or_malformed self (Dict.keys (Parser.schema self))).
  apply (triple_post _ _ (fun _ => Q)).
  2:{ intros u e [He|He]; [left; exact He | right].
      split; [discriminate | exact He]. }
  apply (triple_pre _ (Props.extracted_or_malformed self
                         (firstn 0 (Dict.keys (Parser.schema self)))));
    [intros s _; right; intros k [] |].
  apply (triple_sbind _ (fun _ => Q)).
  - eapply triple_post.
    + apply (triple_sfor
               (fun i e => Props.extracted_or_malformed self
                             (firstn i (Dict.keys (Parser.schema self))) e)).
      intros i k Hk. rewrite (firstn_S_nth _ _ _ Hk).
      destruct (Dict.get found k) as [v|].
      * apply triple_smodify. intros s Hs. apply ext_set, Hs.
      * cbv zeta.
        destruct (find _ (Dict.keys found)) as [k'|] eqn:Hfind.
        -- destruct (PyStr.truthy k').
           ++ apply find_some in Hfind. destruct Hfind as [Hin _].
              apply dict_keys_get in Hin.
              destruct (Dict.get found k') as [v|]; [|now contradiction Hin].
              apply triple_smodify. intros s Hs. apply ext_set, Hs.
           ++ apply triple_smodify. intros s Hs. now apply ext_error.
        -- apply triple_smodify. intros s Hs. now apply ext_error.
    + intros u e He. cbv beta in He. rewrite firstn_all in He. exact He.
  - intros u. apply (triple_keeps Q). apply keeps_assign_extracted_timestamp.
    intros e dt. apply ext_timestamp.
Qed.

(* ---------------- the parsers that try patterns ---------------- *)

Lemma try_pattern_hit line pattern :
  Props.triple (fun _ => True) (Parser._try_pattern self line pattern)
    (fun hit _ => hit = true -> Re.match_ (LinePatterns.pattern pattern) line <> None).
Proof.
  unfold Parser._try_pattern.
  assert (Hbase : Props.triple (fun _ => True)
                    (Parser.base_try_pattern self line pattern)
                    (fun hit _ => hit = true ->
                                  Re.match_ (LinePatterns.pattern pattern) line <> None)).
  { unfold Parser.base_try_pattern.
    destruct (Re.match_ _ _) as [m|].
    - apply (triple_sbind _ (fun _ _ => True)).
      + intros s _. destruct (Parser.map_groups _ _ _ s) as [s' [u|e]]; exact I.
      + intros u. apply triple_sret. intros s _ _. discriminate.
    - apply triple_sret. intros s _ H. discriminate H. }
  destruct (Parser.cls self); try exact Hbase.
  - unfold Parser.web_try_pattern.
    apply (triple_sbind _ _ _ _ _ Hbase). intros hit.
    destruct hit; cbn [negb].
    + intros s Hs. cbv beta in Hs.
      match goal with
      | |- match ?c s with _ => _ end => destruct (c s) as [s' [[|]|e]]
      end; try exact I; intros _; now apply Hs.
    + apply triple_sret. intros s _ H. discriminate H.
  - unfold Parser.syslog_try_pattern.
    destruct (Re.match_ _ _) as [m|].
    + intros s _.
      match goal with
      | |- match ?c s with _ => _ end => destruct (c s) as [s' [[|]|e]]
      end; try exact I; intros _; discriminate.
    + apply triple_sret. intros s _ H. discriminate H.
Qed.

Lemma malformed_keeps :
  (forall e err, ParsedLogEntry.is_malformed e = true ->
                 ParsedLogEntry.is_malformed (ParsedLogEntry.add_parse_error e err) = true)
  /\ (forall e k v, ParsedLogEntry.is_malformed e = true ->
                    ParsedLogEntry.is_malformed (ParsedLogEntry.set_field e k v) = true)
  /\ (forall e dt, ParsedLogEntry.is_malformed e = true ->
                   ParsedLogEntry.is_malformed (ParsedLogEntry.set_timestamp e dt) = true).
Proof. repeat split; intros; cbn; auto. Qed.

Lemma base_fallback_malformed line :
  Props.triple (fun _ => True) (Parser.base_fallback_parsing self line)
    (fun _ e => ParsedLogEntry.is_malformed e = true).
Proof.
  unfold Parser.base_fallback_parsing.
  destruct malformed_keeps as (Ke & Kf & Kt).
  apply (triple_sbind _ (fun _ e => ParsedLogEntry.is_malformed e = true)).
  - apply triple_smodify. intros s _. reflexivity.
  - intros u. apply (triple_keeps (fun e => ParsedLogEntry.is_malformed e = true)).
    repeat keeps_step;
      first [ apply keeps_set_field; exact Kf
            | apply keeps_set_timestamp; exact Kt ].
Qed.

Lemma try_patterns_matched line patterns :
  Props.triple (fun _ => True) (Parser.try_patterns self line patterns)
    (fun _ e =>
       ParsedLogEntry.is_malformed e = true
       \/ (exists pattern, In pattern patterns
                           /\ Re.match_ (LinePatterns.pattern pattern) line <> None)
       \/ (Parser.cls self = Parser.SyslogParser
           /\ Re.match_ Parser.simple_pattern line <> None)).
Proof.
  induction patterns as [|pattern rest IH]; cbn [Parser.try_patterns].
  - unfold Parser._fallback_parsing.
    assert (Hbase : Props.triple (fun _ => True)
                      (Parser.base_fallback_parsing self line)
                      (fun _ e =>
                         ParsedLogEntry.is_malformed e = true
                         \/ (exists pattern, In pattern []
                               /\ Re.match_ (LinePatterns.pattern pattern) line <> None)
                         \/ (Parser.cls self = Parser.SyslogParser
                             /\ Re.match_ Parser.simple_pattern line <> None))).
    { eapply triple_post; [apply base_fallback_malformed|].
      intros u e He. left. exact He. }
    destruct (Parser.cls self) eqn:Hcls; try exact Hbase.
    unfold Parser.syslog_fallback_parsing.
    destruct (Re.match_ Parser.simple_pattern line) as [m|]; [|exact Hbase].
    intros s _.
    match goal with
    | |- match ?c s with _ => _ end => destruct (c s) as [s' [u|e]]
    end; [|exact I].
    right. right. split; [reflexivity | discriminate].
  - apply (triple_sbind _ _ _ _ _ (try_pattern_hit line pattern)). intros hit.
    destruct hit.
    + apply triple_sret. intros s Hs. right. left. exists pattern.
      split; [now left | now apply Hs].
    + intros s _. specialize (IH s I).
      destruct (Parser.try_patterns self line rest s) as [s' [u|e]]; [|exact I].
      destruct IH as [H|[(p & Hp & Hm)|H]]; [now left | | now right; right].
      right. left. exists p. split; [now right | exact Hm].
Qed.

End Extraction2.

(** X17.  An entry that is not malformed is complete.  From
    [JSONParser] and [KeyValueParser] it has every field of the schema;
    from [DelimitedParser] the line has as many parts as the parser has
    field names and the entry has each of them that the schema has;
    from [PatternBasedParser] and [WebLogParser] one of the patterns of
    the parser matches the line; from [SyslogParser] one of its
    patterns or the simple pattern of the fallback does. *)
Theorem clean_entries_are_complete :
  forall (E : PyEnv) (self : Parser.t) (line : string) (line_number : option nat),
    ParsedLogEntry.is_malformed (Parser.parse_line self line line_number) = false ->
    Props.complete self line (Parser.parse_line self line line_number).
Proof.
  intros E self line line_number. unfold Parser.parse_line, Props.complete. cbv zeta.
  destruct (Parser.cls self) eqn:Hcls.
  - (* JSONParser *)
    unfold Parser.json_parse_line.
    pose proof (json_body_extracts self line (ParsedLogEntry.new line line_number) I)
      as Hb.
    destruct (Parser.json_body self line _) as [e' [u|x]].
    + intros Hm k Hk. destruct Hb as [Hb|Hb]; [congruence|].
      apply Hb; [apply dict_mem_keys, Hk | exact Hk].
    + destruct (isinstance x JSONDecodeError); intros Hm; discriminate Hm.
  - (* DelimitedParser *)
    unfold Parser.delimited_parse_line. intros Hm.
    destruct (Parser.split_parts self line) as [parts|x] eqn:Hsp.
    + exists parts. split; [reflexivity|].
      revert Hm.
      apply (guarded_clean _ _ _
               (fun e => List.length parts = List.length (Parser.field_names self)
                         /\ forall k, In k (Parser.field_names self) ->
                                      Dict.mem (Parser.schema self) k = true ->
                                      Dict.mem (ParsedLogEntry.fields e) k = true)).
      intros s _. apply (delimited_body_extracts self line parts Hsp).
      right. split; [lia | intros k []].
    + exfalso. revert Hm. unfold Parser.guarded, Parser.delimited_body.
      rewrite Hsp. cbn. discriminate.
  - (* KeyValueParser *)
    unfold Parser.kv_parse_line. intros Hm.
    assert (H : Parser.found_fields self line <> []
                /\ forall k, In k (Dict.keys (Parser.schema self)) ->
                             Dict.mem (Parser.schema self) k = true ->
                             Dict.mem (ParsedLogEntry.fields
                                         (Parser.guarded "Key-value parsing error: "
                                            (Parser.kv_body self line)
                                            (ParsedLogEntry.new line line_number))) k
                             = true).
    { revert Hm.
      apply (guarded_clean _ _ _
               (fun e => Parser.found_fields self line <> []
                         /\ forall k, In k (Dict.keys (Parser.schema self)) ->
                                      Dict.mem (Parser.schema self) k = true ->
                                      Dict.mem (ParsedLogEntry.fields e) k = true)).
      intros s _. now apply kv_body_extracts. }
    destruct H as [H1 H2]. split; [exact H1|].
    intros k Hk. apply H2; [apply dict_mem_keys, Hk | exact Hk].
  - (* WebLogParser *)
    unfold Parser.pattern_parse_line. intros Hm.
    assert (H : (exists pattern, In pattern (Parser.patterns self)
                   /\ Re.match_ (LinePatterns.pattern pattern) line <> None)
                \/ (Parser.cls self = Parser.SyslogParser
                    /\ Re.match_ Parser.simple_pattern line <> None)).
    { revert Hm.
      apply (guarded_clean _ _ _
               (fun _ => (exists pattern, In pattern (Parser.patterns self)
                            /\ Re.match_ (LinePatterns.pattern pattern) line <> None)
                         \/ (Parser.cls self = Parser.SyslogParser
                             /\ Re.match_ Parser.simple_pattern line <> None))).
      intros s _. now apply try_patterns_matched. }
    destruct H as [H|[H _]]; [exact H | congruence].
  - (* SyslogParser *)
    unfold Parser.pattern_parse_line. intros Hm.
    assert (H : (exists pattern, In pattern (Parser.patterns self)
                   /\ Re.match_ (LinePatterns.pattern pattern) line <> None)
                \/ (Parser.cls self = Parser.SyslogParser
                    /\ Re.match_ Parser.simple_pattern line <> None)).
    { revert Hm.
      apply (guarded_clean _ _ _
               (fun _ => (exists pattern, In pattern (Parser.patterns self)
                            /\ Re.match_ (LinePatterns.pattern pattern) line <> None)
                         \/ (Parser.cls self = Parser.SyslogParser
                             /\ Re.match_ Parser.simple_pattern line <> None))).
      intros s _. now apply try_patterns_matched. }
    destruct H as [H|[_ H]]; [now left | now right].
  - (* SystemdJournalParser *)
    intros _. exact I.
  - (* PatternBasedParser *)
    unfold Parser.pattern_parse_line. intros Hm.
    assert (H : (exists pattern, In pattern (Parser.patterns self)
                   /\ Re.match_ (LinePatterns.pattern pattern) line <> None)
                \/ (Parser.cls self = Parser.SyslogParser
                    /\ Re.match_ Parser.simple_pattern line <> None)).
    { revert Hm.
      apply (guarded_clean _ _ _
               (fun _ => (exists pattern, In pattern (Parser.patterns self)
                            /\ Re.match_ (LinePatterns.pattern pattern) line <> None)
                         \/ (Parser.cls self = Parser.SyslogParser
                             /\ Re.match_ Parser.simple_pattern line <> None))).
      intros s _. now apply try_patterns_matched. }
    destruct H as [H|[H _]]; [exact H | congruence].
Qed.

(** X18.  The two methods that change a [FormatDetectionResult]
    keep it well formed: [add_sample_line] appends the line while there
    are fewer than 5 and changes nothing afterwards;
    [update_field_schema] returns the field info now stored under the
    name, counted at least once and holding the value unless its ten
    samples are full, and leaves the other fields as they are. *)
Theorem result_mutators_keep_well_formedness :
  forall (r : FormatDetectionResult.t),
    Props.result_wf r ->
    (forall line,
        Props.result_wf (FormatDetectionResult.add_sample_line r line)
        /\ (List.length (FormatDetectionResult.sample_lines r) < 5 ->
            FormatDetectionResult.sample_lines
              (FormatDetectionResult.add_sample_line r line)
            = FormatDetectionResult.sample_lines r ++ [line])
        /\ (5 <= List.length (FormatDetectionResult.sample_lines r) ->
            FormatDetectionResult.add_sample_line r line = r))
    /\ (forall field_name value data_type is_timestamp,
           In data_type Props.data_types ->
           let r' := fst (FormatDetectionResult.update_field_schema
                            r field_name value data_type is_timestamp) in
           let fi := snd (FormatDetectionResult.update_field_schema
                            r field_name value data_type is_timestamp) in
           Props.result_wf r'
           /\ Dict.get (FormatDetectionResult.schema r') field_name = Some fi
           /\ 1 <= FieldInfo.frequency fi
           /\ (List.length (FieldInfo.sample_values fi) < 10 ->
               In value (FieldInfo.sample_values fi))
           /\ (forall k, k <> field_name ->
                         Dict.get (FormatDetectionResult.schema r') k
                         = Dict.get (FormatDetectionResult.schema r) k)).
Proof.
  intros r (Hc & Hs & Hw). split.
  - intros line. unfold FormatDetectionResult.add_sample_line.
    destruct (Nat.ltb_spec (List.length (FormatDetectionResult.sample_lines r)) 5)
      as [Hlt|Hge].
    + split; [|split].
      * split; [|split]; cbn; [exact Hc | rewrite length_app; cbn; lia | exact Hw].
      * intros _. reflexivity.
      * lia.
    + split; [|split]; [now split | lia | reflexivity].
  - intros field_name value data_type is_timestamp Hdt. cbv zeta.
    unfold FormatDetectionResult.update_field_schema. cbv zeta. cbn [fst snd].
    set (fi0 := match Dict.get (FormatDetectionResult.schema r) field_name with
                | Some field_info => field_info
                | None => FieldInfo.new field_name data_type is_timestamp
                end).
    assert (Hfi0 : Props.field_wf field_name fi0).
    { unfold fi0.
      destruct (Dict.get (FormatDetectionResult.schema r) field_name) as [fi|] eqn:Hg.
      - apply Hw, dict_get_in, Hg.
      - apply field_wf_new, Hdt. }
    cbn [FormatDetectionResult.set_schema FormatDetectionResult.schema
         FormatDetectionResult.confidence FormatDetectionResult.sample_lines].
    split; [|split; [|split; [|split]]].
    + split; [|split]; cbn; [exact Hc | exact Hs |].
      apply schema_wf_set; [exact Hw | apply field_wf_sample, Hfi0].
    + apply dict_get_set_same.
    + unfold FieldInfo.add_sample_value.
      destruct (_ && _); cbn; lia.
    + unfold FieldInfo.add_sample_value.
      cbn [FieldInfo.update_frequency FieldInfo.sample_values].
      destruct (Nat.ltb_spec (List.length (FieldInfo.sample_values fi0)) 10)
        as [Hlt|Hge]; cbn [andb].
      * destruct (PyStr.mem value (FieldInfo.sample_values fi0)) eqn:Hm; cbn [negb].
        -- intros _. cbn. now apply pystr_mem_in.
        -- intros _. cbn. apply in_or_app. right. now left.
      * cbn. lia.
    + intros k Hk. now apply dict_get_set_other.
Qed.

(** X18 at the empty result of the JSON detector. *)
Lemma result_mutators_keep_well_formedness_witness :
  Props.result_wf (FormatDetectionResult.empty JSON)
  /\ Props.result_wf
       (FormatDetectionResult.add_sample_line (FormatDetectionResult.empty JSON) "line").
Proof.
  assert (H : Props.result_wf (FormatDetectionResult.empty JSON)).
  { split; [|split]; cbn; [split; discriminate | lia | intros k fi []]. }
  split; [exact H|].
  exact (proj1 (proj1 (result_mutators_keep_well_formedness _ H) "line")).
Defined.

(** X17 at a line of two parts and the parser [Props.two_fields] in
    [Spec.plain_env]. *)
Lemma clean_entries_are_complete_witness :
  ParsedLogEntry.is_malformed
    (@Parser.parse_line Spec.plain_env Props.two_fields "a|7" None) = false
  /\ @Props.complete Spec.plain_env Props.two_fields "a|7"
       (@Parser.parse_line Spec.plain_env Props.two_fields "a|7" None).
Proof.
  assert (H : ParsedLogEntry.is_malformed
                (@Parser.parse_line Spec.plain_env Props.two_fields "a|7" None)
              = false)
    by (vm_compute; reflexivity).
  split; [exact H|].
  exact (clean_entries_are_complete Spec.plain_env Props.two_fields "a|7" None H).
Defined.

Create HintDb typed.

Section TypedFields.
Context {E : PyEnv}.
Variable self : Parser.t.

Abbreviation Typ := (Props.fields_typed self).

Lemma typed_add_parse_error err : Spec.keeps Typ (Parser.add_parse_error err).
Proof. apply keeps_smodify. intros e H. exact H. Qed.

Lemma typed_set_timestamp dt : Spec.keeps Typ (Parser.set_timestamp dt).
Proof. apply keeps_smodify. intros e H. exact H. Qed.

Lemma typed_convert field_name value :
  Props.typed self field_name (Parser._convert_field_value self field_name value).
Proof.
  unfold Parser._convert_field_value, Props.typed, Props.declared_type.
  destruct (Dict.get (Parser.schema self) field_name) as [fi|]; [|exact I].
  cbv zeta.
  destruct (String.eqb _ "integer") eqn:Hi.
  { apply String.eqb_eq in Hi. destruct (PyStr.to_int value); [now f_equal | exact I]. }
  destruct (String.eqb _ "float") eqn:Hf.
  { apply String.eqb_eq in Hf.
    destruct (PyFloat.of_string value); [now f_equal | exact I]. }
  destruct (String.eqb _ "boolean") eqn:Hb; [|exact I].
  apply String.eqb_eq in Hb. cbn. now f_equal.
Qed.

Lemma typed_set_field k v :
  Props.typed self k v -> Spec.keeps Typ (Parser.set_field k v).
Proof.
  intros Hv. apply keeps_smodify. intros e H k' v'.
  cbn [ParsedLogEntry.set_field ParsedLogEntry.fields].
  destruct (String.eqb k' k) eqn:Hq.
  - apply String.eqb_eq in Hq. subst. rewrite dict_get_set_same.
    intros Heq. injection Heq as <-. exact Hv.
  - apply String.eqb_neq in Hq. rewrite dict_get_set_other by exact Hq. apply H.
Qed.

Hint Resolve typed_add_parse_error typed_set_timestamp : typed.

Ltac typed_auto :=
  repeat fields_step;
  try (apply typed_set_field; first [exact I | apply typed_convert]);
  auto with typed.

Lemma typed_assign_extracted_timestamp :
  Spec.keeps Typ Parser.assign_extracted_timestamp.
Proof.
  unfold Parser.assign_extracted_timestamp, Parser._extract_timestamp_from_entry.
  typed_auto. apply keeps_smodify. intros e H. exact H.
Qed.

Lemma typed_detect_into_timestamp value err :
  Spec.keeps Typ (Parser.detect_into_timestamp value err).
Proof. unfold Parser.detect_into_timestamp. typed_auto. Qed.

Hint Resolve typed_assign_extracted_timestamp typed_detect_into_timestamp : typed.

Lemma typed_map_field_value field_name value :
  Spec.keeps Typ (Parser._map_field_value self field_name value).
Proof. unfold Parser._map_field_value. typed_auto. Qed.

Hint Resolve typed_map_field_value : typed.

Lemma typed_map_groups pattern m : Spec.keeps Typ (Parser.map_groups self pattern m).
Proof. unfold Parser.map_groups. typed_auto. Qed.

Hint Resolve typed_map_groups : typed.

Lemma typed_base_try_pattern line pattern :
  Spec.keeps Typ (Parser.base_try_pattern self line pattern).
Proof. unfold Parser.base_try_pattern. typed_auto. Qed.

Lemma typed_base_fallback_parsing line :
  Spec.keeps Typ (Parser.base_fallback_parsing self line).
Proof. unfold Parser.base_fallback_parsing. typed_auto. Qed.

Hint Resolve typed_base_try_pattern typed_base_fallback_parsing : typed.

Lemma typed_parse_web_timestamp : Spec.keeps Typ (Parser._parse_web_timestamp self).
Proof. unfold Parser._parse_web_timestamp. typed_auto. Qed.

Lemma typed_parse_request_field : Spec.keeps Typ (Parser._parse_request_field self).
Proof. unfold Parser._parse_request_field. typed_auto. Qed.

Hint Resolve typed_parse_web_timestamp typed_parse_request_field : typed.

Lemma typed_web_try_pattern line pattern :
  Spec.keeps Typ (Parser.web_try_pattern self line pattern).
Proof. unfold Parser.web_try_pattern. typed_auto. Qed.

Lemma typed_extract_facility_severity priority :
  Spec.keeps Typ (Parser._extract_facility_severity self priority).
Proof. unfold Parser._extract_facility_severity. typed_auto. Qed.

Lemma typed_year_timestamp field_name value :
  Spec.keeps Typ (Parser.year_timestamp self field_name value).
Proof. unfold Parser.year_timestamp. typed_auto. Qed.

Hint Resolve typed_web_try_pattern typed_extract_facility_severity
  typed_year_timestamp : typed.

Lemma typed_parse_rfc_pattern p m rfc_type :
  Spec.keeps Typ (Parser._parse_rfc_pattern self p m rfc_type).
Proof. unfold Parser._parse_rfc_pattern. typed_auto. Qed.

Hint Resolve typed_parse_rfc_pattern : typed.

Lemma typed_syslog_try_pattern line pattern :
  Spec.keeps Typ (Parser.syslog_try_pattern self line pattern).
Proof. unfold Parser.syslog_try_pattern. typed_auto. Qed.

Lemma typed_map_with_year mapping : Spec.keeps Typ (Parser.map_with_year self mapping).
Proof. unfold Parser.map_with_year. typed_auto. Qed.

Hint Resolve typed_syslog_try_pattern typed_map_with_year : typed.

Lemma typed_syslog_fallback_parsing line :
  Spec.keeps Typ (Parser.syslog_fallback_parsing self line).
Proof. unfold Parser.syslog_fallback_parsing. typed_auto. Qed.

Hint Resolve typed_syslog_fallback_parsing : typed.

Lemma typed_try_pattern line pattern :
  Spec.keeps Typ (Parser._try_pattern self line pattern).
Proof. unfold Parser._try_pattern. destruct (Parser.cls self); auto with typed. Qed.

Lemma typed_fallback_parsing line :
  Spec.keeps Typ (Parser._fallback_parsing self line).
Proof. unfold Parser._fallback_parsing. destruct (Parser.cls self); auto with typed. Qed.

Hint Resolve typed_try_pattern typed_fallback_parsing : typed.

Lemma typed_try_patterns line patterns :
  Spec.keeps Typ (Parser.try_patterns self line patterns).
Proof.
  induction patterns as [|pattern rest IH]; simpl.
  - auto with typed.
  - typed_auto.
Qed.

Lemma typed_json_body line : Spec.keeps Typ (Parser.json_body self line).
Proof. unfold Parser.json_body. typed_auto. Qed.

Lemma typed_first_detected parts : Spec.keeps Typ (Parser.first_detected parts).
Proof. induction parts as [|value rest IH]; simpl; typed_auto. Qed.

Hint Resolve typed_first_detected : typed.

Lemma typed_delimited_body line : Spec.keeps Typ (Parser.delimited_body self line).
Proof. unfold Parser.delimited_body. typed_auto. Qed.

Lemma typed_kv_body line : Spec.keeps Typ (Parser.kv_body self line).
Proof. unfold Parser.kv_body. typed_auto. Qed.

Lemma typed_parse_journalctl_output line :
  Spec.keeps Typ (Parser._parse_journalctl_output self line).
Proof. unfold Parser._parse_journalctl_output. typed_auto. Qed.

Lemma typed_realtime_timestamp field_name value :
  Spec.keeps Typ (Parser.realtime_timestamp field_name value).
Proof. unfold Parser.realtime_timestamp. typed_auto. Qed.

Hint Resolve typed_parse_journalctl_output : typed.

Lemma typed_store_journal_field field_name value :
  Spec.keeps Typ (Parser.store_journal_field self field_name value).
Proof.
  unfold Parser.store_journal_field. typed_auto.
  apply typed_realtime_timestamp.
Qed.

Hint Resolve typed_store_journal_field : typed.

Lemma typed_journal_entry_body entry_lines :
  Spec.keeps Typ (Parser.journal_entry_body self entry_lines).
Proof. unfold Parser.journal_entry_body. typed_auto. Qed.

Lemma typed_journal_line_body line :
  Spec.keeps Typ (Parser.journal_line_body self line).
Proof. unfold Parser.journal_line_body. typed_auto. Qed.

Lemma typed_guarded prefix body e :
  Spec.keeps Typ body -> Typ e -> Typ (Parser.guarded prefix body e).
Proof.
  intros Hb He. unfold Parser.guarded. specialize (Hb e He).
  destruct (body e) as [e' [u|x]]; simpl in Hb; exact Hb.
Qed.

Lemma typed_new line line_number : Typ (ParsedLogEntry.new line line_number).
Proof. intros k v H. discriminate H. Qed.

End TypedFields.

Lemma parse_line_fields_typed (E : PyEnv) (self : Parser.t) line line_number :
  Props.fields_typed self (Parser.parse_line self line line_number).
Proof.
  unfold Parser.parse_line.
  pose proof (typed_new self line line_number) as H0.
  destruct (Parser.cls self).
  - unfold Parser.json_parse_line.
    pose proof (typed_json_body self line _ H0) as Hb.
    destruct (Parser.json_body self line _) as [e' [u|x]]; simpl in Hb;
      [exact Hb | destruct (isinstance x JSONDecodeError); exact Hb].
  - apply typed_guarded; [apply typed_delimited_body | exact H0].
  - apply typed_guarded; [apply typed_kv_body | exact H0].
  - apply typed_guarded; [apply typed_try_patterns | exact H0].
  - apply typed_guarded; [apply typed_try_patterns | exact H0].
  - apply typed_guarded; [apply typed_journal_line_body | exact H0].
  - apply typed_guarded; [apply typed_try_patterns | exact H0].
Qed.

(** X20.  Every value of an entry returned by [parse_line], and of
    every entry of [parse_lines], fits the schema: it is a string, or
    an [int], a [float] or a [bool] under a field whose declared type
    is integer, float or boolean. *)
Theorem parsed_values_fit_the_schema :
  forall (E : PyEnv) (self : Parser.t),
    (forall line line_number,
        Props.fields_typed self (Parser.parse_line self line line_number))
    /\ (forall lines,
           Forall (Props.fields_typed self)
                  (ParseResult.entries (Parser.parse_lines self lines))).
Proof.
  intros E self.
  split; [apply parse_line_fields_typed|].
  intros lines. unfold Parser.parse_lines.
  destruct (Parser.cls self);
    try (rewrite base_parse_lines_entries; cbn [ParseResult.entries];
         apply Forall_map, Forall_forall; intros il _;
         apply parse_line_fields_typed).
  rewrite journal_parse_lines_entries. cbn [ParseResult.entries].
  apply Forall_map, Forall_forall. intros g _.
  apply typed_guarded; [apply typed_journal_entry_body | apply typed_new].
Qed.
